(** * The server-side connection core of the QUIC transport

    A shallow embedding of the state functions (RTT estimation and ACK
    scheduling), the stream manager, the transport-knob parser and the server
    state machine, together with the properties their specification states.

    Conventions of the embedding.
    - C++ integers are [Z].  Unsigned 64-bit arithmetic that can wrap is
      written with [wrap64]; [std::chrono] durations are signed and are kept
      as unbounded [Z] (signed overflow is undefined behaviour and outside the
      model), with [Z.quot] for the truncating division of C++.
    - A function that mutates the connection is a function from the connection
      to an [Outcome]: it returns, it throws a [QuicTransportException] (the
      connection keeps every write made before the throw), or a [CHECK]
      fails and the process aborts.
    - Calls with no effect on the state ([VLOG], [LOG]) are left out; records
      made to the qlog sink and the stats callback are kept as event lists.
    - Constants, types and helpers that are declared outside the translated
      sources are fields of the classes [QuicConstants], [KnobCollaborators]
      and [ServerCollaborators], or are defined from the specification where
      it fixes them; each such definition says so. *)

From stdpp Require Import base numbers option list gmap sets strings sorting.
From Stdlib Require Import ZArith Lia Ascii.

Open Scope Z_scope.

Set Warnings "-clear-no-such-hyp".

(** ** Errors and outcomes *)

Module QuicError.

(** [TransportErrorCode]: the wire error codes the core raises. *)
Inductive TransportErrorCode : Type :=
  | NO_ERROR
  | INTERNAL_ERROR
  | STREAM_LIMIT_ERROR
  | STREAM_STATE_ERROR
  | TRANSPORT_PARAMETER_ERROR
  | PROTOCOL_VIOLATION
  | INVALID_MIGRATION
  | CRYPTO_ERROR.

(** [LocalErrorCode]: errors returned to the caller, never sent on the wire. *)
Inductive LocalErrorCode : Type :=
  | LOCAL_NO_ERROR
  | CREATING_EXISTING_STREAM
  | STREAM_LIMIT_EXCEEDED.

#[global] Instance TransportErrorCode_eq_dec : EqDecision TransportErrorCode.
Proof. solve_decision. Defined.

#[global] Instance LocalErrorCode_eq_dec : EqDecision LocalErrorCode.
Proof. solve_decision. Defined.

(** [QuicTransportException(msg, code)]. *)
Record QuicTransportException : Type := mkException {
  what : string;
  errorCode : TransportErrorCode
}.

(** The three ways a call can end.  [Thrown] carries the state as the
    exception leaves it: C++ does not roll writes back. *)
Inductive Outcome (S A : Type) : Type :=
  | Returned (a : A) (s : S)
  | Thrown (e : QuicTransportException) (s : S)
  | Aborted (failedCheck : string).

Arguments Returned {S A} a s.
Arguments Thrown {S A} e s.
Arguments Aborted {S A} failedCheck.

(** Computations over a state [S]. *)
Definition M (S A : Type) : Type := S -> Outcome S A.

Definition ret {S A} (a : A) : M S A := fun s => Returned a s.

Definition bind {S A B} (m : M S A) (k : A -> M S B) : M S B :=
  fun s =>
    match m s with
    | Returned a s' => k a s'
    | Thrown e s' => Thrown e s'
    | Aborted msg => Aborted msg
    end.

Definition throw {S A} (msg : string) (code : TransportErrorCode) : M S A :=
  fun s => Thrown (mkException msg code) s.

(** A failed [CHECK]: the process aborts. *)
Definition abort {S A} (msg : string) : M S A := fun _ => Aborted msg.

(** [CHECK(cond) << msg]. *)
Definition CHECK {S} (cond : bool) (msg : string) : M S unit :=
  fun s => if cond then Returned tt s else Aborted msg.

Definition get {S} : M S S := fun s => Returned s s.
Definition gets {S A} (f : S -> A) : M S A := fun s => Returned (f s) s.
Definition modify {S} (f : S -> S) : M S unit := fun s => Returned tt (f s).

(** [when_ c m]: [if (c) { m }]. *)
Definition when_ {S} (c : bool) (m : M S unit) : M S unit :=
  if c then m else ret tt.

(** [try { m } catch (...) { h; throw; }]: when [m] throws, [h] runs on the
    state the exception left and the exception goes on. *)
Definition onException {S A} (m : M S A) (h : M S unit) : M S A :=
  fun s =>
    match m s with
    | Thrown e s' =>
        match h s' with
        | Returned _ s'' => Thrown e s''
        | Thrown e' s'' => Thrown e' s''
        | Aborted msg => Aborted msg
        end
    | o => o
    end.

(** The state an outcome leaves behind, when the process is still alive. *)
Definition finalState {S A} (o : Outcome S A) : option S :=
  match o with
  | Returned _ s => Some s
  | Thrown _ s => Some s
  | Aborted _ => None
  end.

(** The error code of a thrown exception. *)
Definition thrownCode {S A} (o : Outcome S A) : option TransportErrorCode :=
  match o with
  | Thrown e _ => Some (errorCode e)
  | _ => None
  end.

End QuicError.

Export QuicError.

Declare Scope quic_scope.
Delimit Scope quic_scope with quic.
Notation "'let*' x ':=' m 'in' k" := (bind m (fun x => k))
  (at level 10, x name, m at level 100, k at level 200) : quic_scope.
Notation "'run' m 'in' k" := (bind m (fun _ => k))
  (at level 10, m at level 100, k at level 200) : quic_scope.

(** Unsigned 64-bit wrap-around. *)
Definition wrap64 (z : Z) : Z := z mod 2 ^ 64.

(** Conversion of a C++ [int] to [uint64_t]. *)
Definition uint64_of_int (z : Z) : Z := wrap64 z.

(** ** The data model *)

Module StateData.

(** Stream IDs and packet numbers are [Z]; a connection ID is the list of
    its octets. *)

Inductive QuicVersion : Type :=
  | VERSION_NEGOTIATION
  | MVFST
  | QUIC_DRAFT
  | QUIC_V1
  | MVFST_EXPERIMENTAL
  | MVFST_INVALID.

#[global] Instance QuicVersion_eq_dec : EqDecision QuicVersion.
Proof. solve_decision. Defined.

Inductive QuicNodeType : Type := Client | Server.

#[global] Instance QuicNodeType_eq_dec : EqDecision QuicNodeType.
Proof. solve_decision. Defined.

Inductive ServerState : Type := Open | Closed.

Inductive PacketNumberSpace : Type :=
  | PNS_Initial
  | PNS_Handshake
  | PNS_AppData.

Inductive ProtectionType : Type :=
  | PT_Initial
  | PT_Handshake
  | PT_ZeroRtt
  | PT_KeyPhaseZero
  | PT_KeyPhaseOne.

#[global] Instance ProtectionType_eq_dec : EqDecision ProtectionType.
Proof. solve_decision. Defined.

Inductive EncryptionLevel : Type :=
  | EL_Initial
  | EL_Handshake
  | EL_EarlyData
  | EL_AppData.

#[global] Instance EncryptionLevel_eq_dec : EqDecision EncryptionLevel.
Proof. solve_decision. Defined.

Inductive CongestionControlType : Type :=
  | Cubic | NewReno | Copa | Copa2 | BBR | CCP | NoneCC.

Inductive D6DMachineState : Type :=
  | D6D_DISABLED | D6D_BASE | D6D_SEARCHING | D6D_SEARCH_COMPLETE | D6D_ERROR.

(** [folly::IPAddress] and [folly::SocketAddress], as far as the core looks
    into them: the family, the address bits and the port. *)
Inductive IPAddress : Type :=
  | IPv4 (bits : Z)
  | IPv6 (bits : Z).

#[global] Instance IPAddress_eq_dec : EqDecision IPAddress.
Proof. solve_decision. Defined.

Definition isV4 (a : IPAddress) : bool :=
  match a with IPv4 _ => true | IPv6 _ => false end.

(** [a.inSubnet(b, cidr)] for two IPv4 addresses: the leading [cidr] bits
    agree. *)
Definition inSubnet (a b : IPAddress) (cidr : Z) : bool :=
  match a, b with
  | IPv4 x, IPv4 y => bool_decide (Z.shiftr x (32 - cidr) = Z.shiftr y (32 - cidr))
  | IPv6 x, IPv6 y => bool_decide (Z.shiftr x (128 - cidr) = Z.shiftr y (128 - cidr))
  | _, _ => false
  end.

Record SocketAddress : Type := mkSocketAddress {
  getIPAddress : IPAddress;
  getPort : Z
}.

#[global] Instance SocketAddress_eq_dec : EqDecision SocketAddress.
Proof. solve_decision. Defined.

(** Ciphers and congestion controllers are owned objects; the model keeps
    their identity only. *)
Record Cipher : Type := mkCipher { cipherId : Z }.

Record CongestionController : Type := mkController { controllerId : Z }.

#[global] Instance Cipher_eq_dec : EqDecision Cipher.
Proof. solve_decision. Defined.

#[global] Instance CongestionController_eq_dec : EqDecision CongestionController.
Proof. solve_decision. Defined.

(** Simple frames the server queues ([sendSimpleFrame]). *)
Inductive QuicSimpleFrame : Type :=
  | HandshakeDoneFrame
  | PathChallengeFrame (pathData : Z)
  | PathResponseFrame (pathData : Z)
  | OtherSimpleFrame (tag : Z).

(** Transport parameter identifiers the server reads. *)
Inductive TransportParameterId : Type :=
  | original_destination_connection_id
  | idle_timeout
  | stateless_reset_token
  | max_packet_size
  | initial_max_data
  | initial_max_stream_data_bidi_local
  | initial_max_stream_data_bidi_remote
  | initial_max_stream_data_uni
  | initial_max_streams_bidi
  | initial_max_streams_uni
  | ack_delay_exponent
  | max_ack_delay
  | preferred_address
  | active_connection_id_limit
  | initial_source_connection_id
  | retry_source_connection_id
  | max_datagram_frame_size
  | min_ack_delay
  | d6d_base_pmtu
  | d6d_raise_timeout
  | d6d_probe_timeout.

#[global] Instance TransportParameterId_eq_dec : EqDecision TransportParameterId.
Proof. solve_decision. Defined.

(** A transport parameter, already decoded: an integer or a connection ID. *)
Inductive TransportParameterValue : Type :=
  | IntegerParameter (v : Z)
  | ConnIdParameter (cid : list Z).

Record ClientTransportParameters : Type := mkClientParams {
  parameters : list (TransportParameterId * TransportParameterValue)
}.

(** Modelled from the spec: [getIntegerParameter(id, parameters)] is defined
    outside the translated sources; the server reads each client parameter by
    its identifier, so the lookup gives the first parameter with this
    identifier, read as an integer. *)
Fixpoint getIntegerParameter (id : TransportParameterId)
    (ps : list (TransportParameterId * TransportParameterValue)) : option Z :=
  match ps with
  | [] => None
  | (i, v) :: rest =>
      if bool_decide (i = id)
      then match v with IntegerParameter n => Some n | ConnIdParameter _ => None end
      else getIntegerParameter id rest
  end.

(** Modelled from the spec: [getConnIdParameter(id, parameters)], the same
    lookup for a parameter that holds a connection ID. *)
Fixpoint getConnIdParameter (id : TransportParameterId)
    (ps : list (TransportParameterId * TransportParameterValue)) : option (list Z) :=
  match ps with
  | [] => None
  | (i, v) :: rest =>
      if bool_decide (i = id)
      then match v with ConnIdParameter c => Some c | IntegerParameter _ => None end
      else getConnIdParameter id rest
  end.

(** The extension the server hands to the handshake driver in [accept]. *)
Record ServerTransportParametersExtension : Type := mkServerExtension {
  ext_version : QuicVersion;
  ext_initialMaxData : Z;
  ext_initialMaxStreamDataBidiLocal : Z;
  ext_initialMaxStreamDataBidiRemote : Z;
  ext_initialMaxStreamDataUni : Z;
  ext_initialMaxStreamsBidi : Z;
  ext_initialMaxStreamsUni : Z;
  ext_idleTimeout : Z;
  ext_ackDelayExponent : Z;
  ext_maxRecvPacketSize : Z;
  ext_statelessResetToken : Z;
  ext_initialSourceConnectionId : list Z;
  ext_originalDestinationConnectionId : list Z;
  ext_customTransportParameters : list (TransportParameterId * Z)
}.

(** Events recorded at the qlog sink and the stats callback. *)
Inductive PacketDropReason : Type :=
  | PARSE_ERROR
  | INVALID_PACKET
  | INITIAL_CONNID_SMALL
  | PEER_ADDRESS_CHANGE
  | DROP_PROTOCOL_VIOLATION
  | DROP_TRANSPORT_PARAMETER_ERROR
  | SERVER_STATE_CLOSED.

Inductive QLogEvent : Type :=
  | QLogMetricUpdate (latestRtt mrtt srtt ackDelay : Z)
  | QLogTransportStateUpdate (update : string)
  | QLogPacketDrop (packetSize : Z) (reason : string)
  | QLogPacketDropReason (packetSize : Z) (reason : PacketDropReason)
  | QLogPacketBuffered (protection : ProtectionType) (packetSize : Z)
  | QLogPacket (packetNum : Z) (packetSize : Z)
  | QLogConnectionMigrationUpdate (intentional : bool)
  | QLogSetScid (cid : option (list Z))
  | QLogSetDcid (cid : list Z).

Inductive StatEvent : Type :=
  | onPacketDropped (reason : PacketDropReason)
  | onPacketProcessed
  | onOutOfOrderPacketReceived
  | onStatelessReset
  | onNewQuicStream
  | onQuicStreamClosed.

(** Record update.  [eta_R] rebuilds a record from its projections;
    [make_setter eta_R f] abstracts the projection [f] out of it, which gives
    the function that replaces field [f] and keeps every other field. *)
Ltac make_setter eta proj :=
  let e := eval cbv beta delta [eta] in eta in
  let e' := eval pattern proj in e in
  lazymatch e' with
  | ?s _ => let t := eval cbv beta in (fun v r => s (fun _ => v) r) in exact t
  end.

(** [LossState]: the RTT estimator's part of the loss state (microseconds). *)
Record LossState : Type := Build_LossState {
  srtt : Z;  (* smoothed RTT *)
  lrtt : Z;  (* latest RTT sample, ack delay removed *)
  rttvar : Z;  (* RTT variance *)
  mrtt : Z;  (* minimum RTT *)
  maxAckDelay : Z  (* largest ack delay the peer reported *)
}.

Definition eta_LossState (r : LossState) : LossState :=
  Build_LossState (srtt r) (lrtt r) (rttvar r) (mrtt r) (maxAckDelay r).

Definition set_srtt : Z -> LossState -> LossState := ltac:(make_setter eta_LossState srtt).
Definition set_lrtt : Z -> LossState -> LossState := ltac:(make_setter eta_LossState lrtt).
Definition set_rttvar : Z -> LossState -> LossState := ltac:(make_setter eta_LossState rttvar).
Definition set_mrtt : Z -> LossState -> LossState := ltac:(make_setter eta_LossState mrtt).
Definition set_maxAckDelay : Z -> LossState -> LossState :=
  ltac:(make_setter eta_LossState maxAckDelay).

(** [AckState]: receive tracking and ACK scheduling of one packet-number
    space. *)
Record AckState : Type := Build_AckState {
  acks : list Z;  (* received packet numbers (the range set) *)
  largestAckScheduled : option Z;
  largestReceivedAtLastCloseSent : option Z;
  largestReceivedPacketNum : option Z;
  largestRecvdPacketTime : option Z;
  nextPacketNum : Z;
  tolerance : option Z;  (* explicit packet tolerance *)
  ignoreReorder : bool;
  needsToSendAckImmediately : bool;
  numRxPacketsRecvd : Z;  (* retransmittable packets since the last ACK *)
  numNonRxPacketsRecvd : Z  (* other packets since the last ACK *)
}.

Definition eta_AckState (r : AckState) : AckState :=
  Build_AckState (acks r) (largestAckScheduled r) (largestReceivedAtLastCloseSent r)
  (largestReceivedPacketNum r) (largestRecvdPacketTime r) (nextPacketNum r) (tolerance r)
  (ignoreReorder r) (needsToSendAckImmediately r) (numRxPacketsRecvd r)
  (numNonRxPacketsRecvd r).

Definition set_acks : (list Z) -> AckState -> AckState := ltac:(make_setter eta_AckState acks).
Definition set_largestAckScheduled : (option Z) -> AckState -> AckState :=
  ltac:(make_setter eta_AckState largestAckScheduled).
Definition set_largestReceivedAtLastCloseSent : (option Z) -> AckState -> AckState :=
  ltac:(make_setter eta_AckState largestReceivedAtLastCloseSent).
Definition set_largestReceivedPacketNum : (option Z) -> AckState -> AckState :=
  ltac:(make_setter eta_AckState largestReceivedPacketNum).
Definition set_largestRecvdPacketTime : (option Z) -> AckState -> AckState :=
  ltac:(make_setter eta_AckState largestRecvdPacketTime).
Definition set_nextPacketNum : Z -> AckState -> AckState :=
  ltac:(make_setter eta_AckState nextPacketNum).
Definition set_tolerance : (option Z) -> AckState -> AckState :=
  ltac:(make_setter eta_AckState tolerance).
Definition set_ignoreReorder : bool -> AckState -> AckState :=
  ltac:(make_setter eta_AckState ignoreReorder).
Definition set_needsToSendAckImmediately : bool -> AckState -> AckState :=
  ltac:(make_setter eta_AckState needsToSendAckImmediately).
Definition set_numRxPacketsRecvd : Z -> AckState -> AckState :=
  ltac:(make_setter eta_AckState numRxPacketsRecvd).
Definition set_numNonRxPacketsRecvd : Z -> AckState -> AckState :=
  ltac:(make_setter eta_AckState numNonRxPacketsRecvd).

(** [AckStates]: one [AckState] per packet-number space. *)
Record AckStates : Type := Build_AckStates {
  initialAckState : AckState;
  handshakeAckState : AckState;
  appDataAckState : AckState
}.

Definition eta_AckStates (r : AckStates) : AckStates :=
  Build_AckStates (initialAckState r) (handshakeAckState r) (appDataAckState r).

Definition set_initialAckState : AckState -> AckStates -> AckStates :=
  ltac:(make_setter eta_AckStates initialAckState).
Definition set_handshakeAckState : AckState -> AckStates -> AckStates :=
  ltac:(make_setter eta_AckStates handshakeAckState).
Definition set_appDataAckState : AckState -> AckStates -> AckStates :=
  ltac:(make_setter eta_AckStates appDataAckState).

(** [PendingEvents]: the flags the driver reads between events. *)
Record PendingEvents : Type := Build_PendingEvents {
  scheduleAckTimeout : bool;
  schedulePathValidationTimeout : bool;
  cancelPingTimeout : bool;
  closeTransport : bool;
  pathChallenge : option Z;  (* queued PATH_CHALLENGE datum *)
  frames : list QuicSimpleFrame  (* simple frames queued for sending *)
}.

Definition eta_PendingEvents (r : PendingEvents) : PendingEvents :=
  Build_PendingEvents (scheduleAckTimeout r) (schedulePathValidationTimeout r)
  (cancelPingTimeout r) (closeTransport r) (pathChallenge r) (frames r).

Definition set_scheduleAckTimeout : bool -> PendingEvents -> PendingEvents :=
  ltac:(make_setter eta_PendingEvents scheduleAckTimeout).
Definition set_schedulePathValidationTimeout : bool -> PendingEvents -> PendingEvents :=
  ltac:(make_setter eta_PendingEvents schedulePathValidationTimeout).
Definition set_cancelPingTimeout : bool -> PendingEvents -> PendingEvents :=
  ltac:(make_setter eta_PendingEvents cancelPingTimeout).
Definition set_closeTransport : bool -> PendingEvents -> PendingEvents :=
  ltac:(make_setter eta_PendingEvents closeTransport).
Definition set_pathChallenge : (option Z) -> PendingEvents -> PendingEvents :=
  ltac:(make_setter eta_PendingEvents pathChallenge).
Definition set_frames : (list QuicSimpleFrame) -> PendingEvents -> PendingEvents :=
  ltac:(make_setter eta_PendingEvents frames).

(** [TransportSettings]: the settings the translated functions read. *)
Record TransportSettings : Type := Build_TransportSettings {
  rxPacketsBeforeAckInitThreshold : Z;
  rxPacketsBeforeAckBeforeInit : Z;
  rxPacketsBeforeAckAfterInit : Z;
  disableMigration : bool;
  canIgnorePathMTU : bool;
  d6dConfigEnabled : bool;  (* d6dConfig.enabled *)
  datagramConfigEnabled : bool;  (* datagramConfig.enabled *)
  pacingEnabled : bool;
  defaultCongestionController : CongestionControlType;
  maxPacketsToBuffer : Z;
  limitedCwndInMss : Z;
  statelessResetTokenSecret : option Z;
  advertisedInitialConnectionWindowSize : Z;
  advertisedInitialBidiLocalStreamWindowSize : Z;
  advertisedInitialBidiRemoteStreamWindowSize : Z;
  advertisedInitialUniStreamWindowSize : Z;
  advertisedInitialMaxStreamsBidi : Z;
  advertisedInitialMaxStreamsUni : Z;
  idleTimeout : Z;
  ackDelayExponent : Z;
  maxRecvPacketSize : Z
}.

Definition eta_TransportSettings (r : TransportSettings) : TransportSettings :=
  Build_TransportSettings (rxPacketsBeforeAckInitThreshold r) (rxPacketsBeforeAckBeforeInit
  r) (rxPacketsBeforeAckAfterInit r) (disableMigration r) (canIgnorePathMTU r)
  (d6dConfigEnabled r) (datagramConfigEnabled r) (pacingEnabled r)
  (defaultCongestionController r) (maxPacketsToBuffer r) (limitedCwndInMss r)
  (statelessResetTokenSecret r) (advertisedInitialConnectionWindowSize r)
  (advertisedInitialBidiLocalStreamWindowSize r)
  (advertisedInitialBidiRemoteStreamWindowSize r) (advertisedInitialUniStreamWindowSize r)
  (advertisedInitialMaxStreamsBidi r) (advertisedInitialMaxStreamsUni r) (idleTimeout r)
  (ackDelayExponent r) (maxRecvPacketSize r).

Definition set_disableMigration : bool -> TransportSettings -> TransportSettings :=
  ltac:(make_setter eta_TransportSettings disableMigration).
Definition set_advertisedInitialMaxStreamsBidi : Z -> TransportSettings -> TransportSettings :=
  ltac:(make_setter eta_TransportSettings advertisedInitialMaxStreamsBidi).
Definition set_advertisedInitialMaxStreamsUni : Z -> TransportSettings -> TransportSettings :=
  ltac:(make_setter eta_TransportSettings advertisedInitialMaxStreamsUni).

(** [CongestionAndRttState]: the congestion and RTT state saved for a previous
    path. *)
Record CongestionAndRttState : Type := Build_CongestionAndRttState {
  saved_peerAddress : SocketAddress;  (* peerAddress *)
  saved_recordTime : Z;  (* recordTime *)
  saved_congestionController : option CongestionController;  (* congestionController *)
  saved_srtt : Z;  (* srtt *)
  saved_lrtt : Z;  (* lrtt *)
  saved_rttvar : Z;  (* rttvar *)
  saved_mrtt : Z  (* mrtt *)
}.


(** [MigrationState]: previous peer addresses and the migration counter. *)
Record MigrationState : Type := Build_MigrationState {
  previousPeerAddresses : list SocketAddress;
  lastCongestionAndRtt : option CongestionAndRttState;
  numMigrations : Z
}.

Definition eta_MigrationState (r : MigrationState) : MigrationState :=
  Build_MigrationState (previousPeerAddresses r) (lastCongestionAndRtt r) (numMigrations r).

Definition set_previousPeerAddresses : (list SocketAddress) -> MigrationState -> MigrationState :=
  ltac:(make_setter eta_MigrationState previousPeerAddresses).
Definition set_lastCongestionAndRtt : (option CongestionAndRttState) -> MigrationState -> MigrationState :=
  ltac:(make_setter eta_MigrationState lastCongestionAndRtt).
Definition set_numMigrations : Z -> MigrationState -> MigrationState :=
  ltac:(make_setter eta_MigrationState numMigrations).

(** [FlowControlState]: the peer-advertised windows. *)
Record FlowControlState : Type := Build_FlowControlState {
  peerAdvertisedMaxOffset : Z;
  peerAdvertisedInitialMaxStreamOffsetBidiLocal : Z;
  peerAdvertisedInitialMaxStreamOffsetBidiRemote : Z;
  peerAdvertisedInitialMaxStreamOffsetUni : Z
}.

Definition eta_FlowControlState (r : FlowControlState) : FlowControlState :=
  Build_FlowControlState (peerAdvertisedMaxOffset r)
  (peerAdvertisedInitialMaxStreamOffsetBidiLocal r)
  (peerAdvertisedInitialMaxStreamOffsetBidiRemote r)
  (peerAdvertisedInitialMaxStreamOffsetUni r).

Definition set_peerAdvertisedMaxOffset : Z -> FlowControlState -> FlowControlState :=
  ltac:(make_setter eta_FlowControlState peerAdvertisedMaxOffset).
Definition set_peerAdvertisedInitialMaxStreamOffsetBidiLocal : Z -> FlowControlState -> FlowControlState :=
  ltac:(make_setter eta_FlowControlState peerAdvertisedInitialMaxStreamOffsetBidiLocal).
Definition set_peerAdvertisedInitialMaxStreamOffsetBidiRemote : Z -> FlowControlState -> FlowControlState :=
  ltac:(make_setter eta_FlowControlState peerAdvertisedInitialMaxStreamOffsetBidiRemote).
Definition set_peerAdvertisedInitialMaxStreamOffsetUni : Z -> FlowControlState -> FlowControlState :=
  ltac:(make_setter eta_FlowControlState peerAdvertisedInitialMaxStreamOffsetUni).

(** [D6DState]: packetization-layer path MTU discovery. *)
Record D6DState : Type := Build_D6DState {
  basePMTU : Z;
  maxPMTU : Z;
  d6d_state : D6DMachineState;  (* state *)
  lastNonSearchState : D6DMachineState;  (* meta.lastNonSearchState *)
  timeLastNonSearchState : Z;  (* meta.timeLastNonSearchState *)
  noBlackholeDetection : bool;
  raiseTimeout : Z;  (* seconds *)
  probeTimeout : Z  (* seconds *)
}.

Definition eta_D6DState (r : D6DState) : D6DState :=
  Build_D6DState (basePMTU r) (maxPMTU r) (d6d_state r) (lastNonSearchState r)
  (timeLastNonSearchState r) (noBlackholeDetection r) (raiseTimeout r) (probeTimeout r).

Definition set_basePMTU : Z -> D6DState -> D6DState := ltac:(make_setter eta_D6DState basePMTU).
Definition set_maxPMTU : Z -> D6DState -> D6DState := ltac:(make_setter eta_D6DState maxPMTU).
Definition set_d6d_state : D6DMachineState -> D6DState -> D6DState :=
  ltac:(make_setter eta_D6DState d6d_state).
Definition set_lastNonSearchState : D6DMachineState -> D6DState -> D6DState :=
  ltac:(make_setter eta_D6DState lastNonSearchState).
Definition set_timeLastNonSearchState : Z -> D6DState -> D6DState :=
  ltac:(make_setter eta_D6DState timeLastNonSearchState).
Definition set_noBlackholeDetection : bool -> D6DState -> D6DState :=
  ltac:(make_setter eta_D6DState noBlackholeDetection).
Definition set_raiseTimeout : Z -> D6DState -> D6DState :=
  ltac:(make_setter eta_D6DState raiseTimeout).
Definition set_probeTimeout : Z -> D6DState -> D6DState :=
  ltac:(make_setter eta_D6DState probeTimeout).

(** [DatagramState]. *)
Record DatagramState : Type := Build_DatagramState {
  maxReadFrameSize : Z;
  maxWriteFrameSize : Z
}.

Definition eta_DatagramState (r : DatagramState) : DatagramState :=
  Build_DatagramState (maxReadFrameSize r) (maxWriteFrameSize r).

Definition set_maxWriteFrameSize : Z -> DatagramState -> DatagramState :=
  ltac:(make_setter eta_DatagramState maxWriteFrameSize).

(** [ServerHandshake]: what the handshake driver holds ready to hand out. *)
Record ServerHandshake : Type := Build_ServerHandshake {
  zeroRttReadCipher_ : option Cipher;
  zeroRttReadHeaderCipher_ : option Cipher;
  oneRttWriteCipher_ : option Cipher;
  oneRttReadCipher_ : option Cipher;
  oneRttWriteHeaderCipher_ : option Cipher;
  oneRttReadHeaderCipher_ : option Cipher;
  handshakeReadCipher_ : option Cipher;
  handshakeReadHeaderCipher_ : option Cipher;
  clientTransportParams_ : option ClientTransportParameters;
  handshakeDone_ : bool;
  acceptedParams_ : option ServerTransportParametersExtension  (* the extension handed to accept *)
}.

Definition eta_ServerHandshake (r : ServerHandshake) : ServerHandshake :=
  Build_ServerHandshake (zeroRttReadCipher_ r) (zeroRttReadHeaderCipher_ r)
  (oneRttWriteCipher_ r) (oneRttReadCipher_ r) (oneRttWriteHeaderCipher_ r)
  (oneRttReadHeaderCipher_ r) (handshakeReadCipher_ r) (handshakeReadHeaderCipher_ r)
  (clientTransportParams_ r) (handshakeDone_ r) (acceptedParams_ r).

Definition set_zeroRttReadCipher_ : (option Cipher) -> ServerHandshake -> ServerHandshake :=
  ltac:(make_setter eta_ServerHandshake zeroRttReadCipher_).
Definition set_zeroRttReadHeaderCipher_ : (option Cipher) -> ServerHandshake -> ServerHandshake :=
  ltac:(make_setter eta_ServerHandshake zeroRttReadHeaderCipher_).
Definition set_oneRttWriteCipher_ : (option Cipher) -> ServerHandshake -> ServerHandshake :=
  ltac:(make_setter eta_ServerHandshake oneRttWriteCipher_).
Definition set_oneRttReadCipher_ : (option Cipher) -> ServerHandshake -> ServerHandshake :=
  ltac:(make_setter eta_ServerHandshake oneRttReadCipher_).
Definition set_oneRttWriteHeaderCipher_ : (option Cipher) -> ServerHandshake -> ServerHandshake :=
  ltac:(make_setter eta_ServerHandshake oneRttWriteHeaderCipher_).
Definition set_oneRttReadHeaderCipher_ : (option Cipher) -> ServerHandshake -> ServerHandshake :=
  ltac:(make_setter eta_ServerHandshake oneRttReadHeaderCipher_).
Definition set_handshakeReadCipher_ : (option Cipher) -> ServerHandshake -> ServerHandshake :=
  ltac:(make_setter eta_ServerHandshake handshakeReadCipher_).
Definition set_handshakeReadHeaderCipher_ : (option Cipher) -> ServerHandshake -> ServerHandshake :=
  ltac:(make_setter eta_ServerHandshake handshakeReadHeaderCipher_).
Definition set_clientTransportParams_ : (option ClientTransportParameters) -> ServerHandshake -> ServerHandshake :=
  ltac:(make_setter eta_ServerHandshake clientTransportParams_).
Definition set_handshakeDone_ : bool -> ServerHandshake -> ServerHandshake :=
  ltac:(make_setter eta_ServerHandshake handshakeDone_).
Definition set_acceptedParams_ : (option ServerTransportParametersExtension) -> ServerHandshake -> ServerHandshake :=
  ltac:(make_setter eta_ServerHandshake acceptedParams_).

(** [QuicReadCodec]: the ciphers and identifiers installed in the read codec. *)
Record QuicReadCodec : Type := Build_QuicReadCodec {
  initialReadCipher : option Cipher;
  initialHeaderCipher_codec : option Cipher;  (* initialHeaderCipher *)
  zeroRttReadCipher : option Cipher;
  zeroRttHeaderCipher : option Cipher;
  handshakeReadCipher : option Cipher;
  handshakeHeaderCipher : option Cipher;
  oneRttReadCipher : option Cipher;
  oneRttHeaderCipher : option Cipher;
  codec_clientConnectionId : option (list Z);  (* clientConnectionId *)
  codec_serverConnectionId : option (list Z);  (* serverConnectionId *)
  codecParameters : option (Z * option QuicVersion)  (* (peerAckDelayExponent, version) *)
}.

Definition eta_QuicReadCodec (r : QuicReadCodec) : QuicReadCodec :=
  Build_QuicReadCodec (initialReadCipher r) (initialHeaderCipher_codec r) (zeroRttReadCipher
  r) (zeroRttHeaderCipher r) (handshakeReadCipher r) (handshakeHeaderCipher r)
  (oneRttReadCipher r) (oneRttHeaderCipher r) (codec_clientConnectionId r)
  (codec_serverConnectionId r) (codecParameters r).

Definition set_initialReadCipher : (option Cipher) -> QuicReadCodec -> QuicReadCodec :=
  ltac:(make_setter eta_QuicReadCodec initialReadCipher).
Definition set_initialHeaderCipher_codec : (option Cipher) -> QuicReadCodec -> QuicReadCodec :=
  ltac:(make_setter eta_QuicReadCodec initialHeaderCipher_codec).
Definition set_zeroRttReadCipher : (option Cipher) -> QuicReadCodec -> QuicReadCodec :=
  ltac:(make_setter eta_QuicReadCodec zeroRttReadCipher).
Definition set_zeroRttHeaderCipher : (option Cipher) -> QuicReadCodec -> QuicReadCodec :=
  ltac:(make_setter eta_QuicReadCodec zeroRttHeaderCipher).
Definition set_handshakeReadCipher : (option Cipher) -> QuicReadCodec -> QuicReadCodec :=
  ltac:(make_setter eta_QuicReadCodec handshakeReadCipher).
Definition set_handshakeHeaderCipher : (option Cipher) -> QuicReadCodec -> QuicReadCodec :=
  ltac:(make_setter eta_QuicReadCodec handshakeHeaderCipher).
Definition set_oneRttReadCipher : (option Cipher) -> QuicReadCodec -> QuicReadCodec :=
  ltac:(make_setter eta_QuicReadCodec oneRttReadCipher).
Definition set_oneRttHeaderCipher : (option Cipher) -> QuicReadCodec -> QuicReadCodec :=
  ltac:(make_setter eta_QuicReadCodec oneRttHeaderCipher).
Definition set_codec_clientConnectionId : (option (list Z)) -> QuicReadCodec -> QuicReadCodec :=
  ltac:(make_setter eta_QuicReadCodec codec_clientConnectionId).
Definition set_codec_serverConnectionId : (option (list Z)) -> QuicReadCodec -> QuicReadCodec :=
  ltac:(make_setter eta_QuicReadCodec codec_serverConnectionId).
Definition set_codecParameters : (option (Z * option QuicVersion)) -> QuicReadCodec -> QuicReadCodec :=
  ltac:(make_setter eta_QuicReadCodec codecParameters).

(** [folly::Expected<A, E>]. *)
Inductive Expected (A E : Type) : Type :=
  | Value (a : A)
  | Unexpected (e : E).

Arguments Value {A E} a.
Arguments Unexpected {A E} e.

Definition hasError {A E} (x : Expected A E) : bool :=
  match x with Value _ => false | Unexpected _ => true end.

(** Stream priority: [(level, incremental)]. *)
Record Priority : Type := mkPriority {
  level : Z;
  incremental : bool
}.

#[global] Instance Priority_eq_dec : EqDecision Priority.
Proof. solve_decision. Defined.

(** Pacing: the flag and the pacer the pacing functions own. *)
Record PacingState : Type := mkPacing {
  canBePaced : bool;
  pacer : option Z
}.

Record ServerConnectionIdParams : Type := mkConnIdParams {
  cidVersion : Z;
  hostId : Z;
  processId : Z;
  workerId : Z
}.

(** [ConnectionIdAlgo]: the interface that encodes server connection IDs.
    The default algorithm draws random bits, so an algorithm object is kept as
    the results its successive [encodeConnectionId] calls give, with the
    number of calls made so far. *)
Record ConnectionIdAlgo : Type := mkConnIdAlgo {
  encodeOutputs : ServerConnectionIdParams -> nat -> Expected (list Z) string;
  encodeCalls : nat
}.

(** [connIdAlgo->encodeConnectionId(params)]: the next result, and the
    algorithm after the call. *)
Definition encodeConnectionId (algo : ConnectionIdAlgo) (params : ServerConnectionIdParams)
    : Expected (list Z) string * ConnectionIdAlgo :=
  (encodeOutputs algo params (encodeCalls algo),
   mkConnIdAlgo (encodeOutputs algo) (S (encodeCalls algo))).

Record ConnectionIdData : Type := mkConnectionIdData {
  connId : list Z;
  sequenceNumber : Z;
  token : option Z
}.

(** [NetworkDataSingle] and [ServerEvents::ReadData]. *)
Record NetworkDataSingle : Type := mkNetworkData {
  data : option (list Z);
  receiveTimePoint : Z
}.

Record ReadData : Type := mkReadData {
  peer : SocketAddress;
  networkData : NetworkDataSingle
}.

(** A crypto stream: buffered frames by offset, and the read offset. *)
Record QuicCryptoStream : Type := mkCryptoStream {
  cryptoReadBuffer : list (Z * list Z);
  cryptoCurrentReadOffset : Z;
  cryptoImplicitlyAcked : bool
}.

Record QuicCryptoState : Type := mkCryptoState {
  initialStream : QuicCryptoStream;
  handshakeStream : QuicCryptoStream;
  oneRttStream : QuicCryptoStream
}.

(** [QuicStreamState]: the fields of a stream record the stream manager reads. *)
Record QuicStreamState : Type := Build_QuicStreamState {
  stream_id : Z;  (* id *)
  isControl : bool;
  priority : Priority
}.

Definition eta_QuicStreamState (r : QuicStreamState) : QuicStreamState :=
  Build_QuicStreamState (stream_id r) (isControl r) (priority r).

Definition set_isControl : bool -> QuicStreamState -> QuicStreamState :=
  ltac:(make_setter eta_QuicStreamState isControl).
Definition set_priority : Priority -> QuicStreamState -> QuicStreamState :=
  ltac:(make_setter eta_QuicStreamState priority).

(** [QuicStreamManager]: the members of the stream manager.  Containers keyed
    by stream ID whose values the translated functions never read are kept as
    key sets. *)
Record QuicStreamManager : Type := Build_QuicStreamManager {
  nodeType_ : QuicNodeType;
  streams_ : gmap Z QuicStreamState;
  openBidirectionalPeerStreams_ : gset Z;
  openUnidirectionalPeerStreams_ : gset Z;
  openBidirectionalLocalStreams_ : gset Z;
  openUnidirectionalLocalStreams_ : gset Z;
  nextAcceptablePeerBidirectionalStreamId_ : Z;
  nextAcceptablePeerUnidirectionalStreamId_ : Z;
  nextAcceptableLocalBidirectionalStreamId_ : Z;
  nextAcceptableLocalUnidirectionalStreamId_ : Z;
  nextBidirectionalStreamId_ : Z;
  nextUnidirectionalStreamId_ : Z;
  maxLocalBidirectionalStreamId_ : Z;
  maxLocalUnidirectionalStreamId_ : Z;
  maxRemoteBidirectionalStreamId_ : Z;
  maxRemoteUnidirectionalStreamId_ : Z;
  initialLocalBidirectionalStreamId_ : Z;
  initialLocalUnidirectionalStreamId_ : Z;
  initialRemoteBidirectionalStreamId_ : Z;
  initialRemoteUnidirectionalStreamId_ : Z;
  maxLocalBidirectionalStreamIdIncreased_ : bool;
  maxLocalUnidirectionalStreamIdIncreased_ : bool;
  streamLimitWindowingFraction_ : Z;
  remoteBidirectionalStreamLimitUpdate_ : option Z;
  remoteUnidirectionalStreamLimitUpdate_ : option Z;
  newPeerStreams_ : list Z;
  streamPriorityLevels_ : gmap Z Z;
  numControlStreams_ : Z;
  isAppIdle_ : bool;
  priorityChangesObserver_ : option (list unit);  (* the observer, with the notifications it received *)
  readableStreams_ : gset Z;
  peekableStreams_ : gset Z;
  writableStreams_ : gset Z;
  writableDSRStreams_ : gset Z;
  writableControlStreams_ : gset Z;
  lossStreams_ : gset Z;
  blockedStreams_ : gset Z;
  deliverableStreams_ : gset Z;
  txStreams_ : gset Z;
  windowUpdates_ : gset Z;
  stopSendingStreams_ : gset Z;
  flowControlUpdated_ : gset Z
}.

Definition eta_QuicStreamManager (r : QuicStreamManager) : QuicStreamManager :=
  Build_QuicStreamManager (nodeType_ r) (streams_ r) (openBidirectionalPeerStreams_ r)
  (openUnidirectionalPeerStreams_ r) (openBidirectionalLocalStreams_ r)
  (openUnidirectionalLocalStreams_ r) (nextAcceptablePeerBidirectionalStreamId_ r)
  (nextAcceptablePeerUnidirectionalStreamId_ r) (nextAcceptableLocalBidirectionalStreamId_
  r) (nextAcceptableLocalUnidirectionalStreamId_ r) (nextBidirectionalStreamId_ r)
  (nextUnidirectionalStreamId_ r) (maxLocalBidirectionalStreamId_ r)
  (maxLocalUnidirectionalStreamId_ r) (maxRemoteBidirectionalStreamId_ r)
  (maxRemoteUnidirectionalStreamId_ r) (initialLocalBidirectionalStreamId_ r)
  (initialLocalUnidirectionalStreamId_ r) (initialRemoteBidirectionalStreamId_ r)
  (initialRemoteUnidirectionalStreamId_ r) (maxLocalBidirectionalStreamIdIncreased_ r)
  (maxLocalUnidirectionalStreamIdIncreased_ r) (streamLimitWindowingFraction_ r)
  (remoteBidirectionalStreamLimitUpdate_ r) (remoteUnidirectionalStreamLimitUpdate_ r)
  (newPeerStreams_ r) (streamPriorityLevels_ r) (numControlStreams_ r) (isAppIdle_ r)
  (priorityChangesObserver_ r) (readableStreams_ r) (peekableStreams_ r) (writableStreams_
  r) (writableDSRStreams_ r) (writableControlStreams_ r) (lossStreams_ r) (blockedStreams_
  r) (deliverableStreams_ r) (txStreams_ r) (windowUpdates_ r) (stopSendingStreams_ r)
  (flowControlUpdated_ r).

Definition set_nodeType_ : QuicNodeType -> QuicStreamManager -> QuicStreamManager :=
  ltac:(make_setter eta_QuicStreamManager nodeType_).
Definition set_streams_ : (gmap Z QuicStreamState) -> QuicStreamManager -> QuicStreamManager :=
  ltac:(make_setter eta_QuicStreamManager streams_).
Definition set_openBidirectionalPeerStreams_ : (gset Z) -> QuicStreamManager -> QuicStreamManager :=
  ltac:(make_setter eta_QuicStreamManager openBidirectionalPeerStreams_).
Definition set_openUnidirectionalPeerStreams_ : (gset Z) -> QuicStreamManager -> QuicStreamManager :=
  ltac:(make_setter eta_QuicStreamManager openUnidirectionalPeerStreams_).
Definition set_openBidirectionalLocalStreams_ : (gset Z) -> QuicStreamManager -> QuicStreamManager :=
  ltac:(make_setter eta_QuicStreamManager openBidirectionalLocalStreams_).
Definition set_openUnidirectionalLocalStreams_ : (gset Z) -> QuicStreamManager -> QuicStreamManager :=
  ltac:(make_setter eta_QuicStreamManager openUnidirectionalLocalStreams_).
Definition set_nextAcceptablePeerBidirectionalStreamId_ : Z -> QuicStreamManager -> QuicStreamManager :=
  ltac:(make_setter eta_QuicStreamManager nextAcceptablePeerBidirectionalStreamId_).
Definition set_nextAcceptablePeerUnidirectionalStreamId_ : Z -> QuicStreamManager -> QuicStreamManager :=
  ltac:(make_setter eta_QuicStreamManager nextAcceptablePeerUnidirectionalStreamId_).
Definition set_nextAcceptableLocalBidirectionalStreamId_ : Z -> QuicStreamManager -> QuicStreamManager :=
  ltac:(make_setter eta_QuicStreamManager nextAcceptableLocalBidirectionalStreamId_).
Definition set_nextAcceptableLocalUnidirectionalStreamId_ : Z -> QuicStreamManager -> QuicStreamManager :=
  ltac:(make_setter eta_QuicStreamManager nextAcceptableLocalUnidirectionalStreamId_).
Definition set_nextBidirectionalStreamId_ : Z -> QuicStreamManager -> QuicStreamManager :=
  ltac:(make_setter eta_QuicStreamManager nextBidirectionalStreamId_).
Definition set_nextUnidirectionalStreamId_ : Z -> QuicStreamManager -> QuicStreamManager :=
  ltac:(make_setter eta_QuicStreamManager nextUnidirectionalStreamId_).
Definition set_maxLocalBidirectionalStreamId_ : Z -> QuicStreamManager -> QuicStreamManager :=
  ltac:(make_setter eta_QuicStreamManager maxLocalBidirectionalStreamId_).
Definition set_maxLocalUnidirectionalStreamId_ : Z -> QuicStreamManager -> QuicStreamManager :=
  ltac:(make_setter eta_QuicStreamManager maxLocalUnidirectionalStreamId_).
Definition set_maxRemoteBidirectionalStreamId_ : Z -> QuicStreamManager -> QuicStreamManager :=
  ltac:(make_setter eta_QuicStreamManager maxRemoteBidirectionalStreamId_).
Definition set_maxRemoteUnidirectionalStreamId_ : Z -> QuicStreamManager -> QuicStreamManager :=
  ltac:(make_setter eta_QuicStreamManager maxRemoteUnidirectionalStreamId_).
Definition set_initialLocalBidirectionalStreamId_ : Z -> QuicStreamManager -> QuicStreamManager :=
  ltac:(make_setter eta_QuicStreamManager initialLocalBidirectionalStreamId_).
Definition set_initialLocalUnidirectionalStreamId_ : Z -> QuicStreamManager -> QuicStreamManager :=
  ltac:(make_setter eta_QuicStreamManager initialLocalUnidirectionalStreamId_).
Definition set_initialRemoteBidirectionalStreamId_ : Z -> QuicStreamManager -> QuicStreamManager :=
  ltac:(make_setter eta_QuicStreamManager initialRemoteBidirectionalStreamId_).
Definition set_initialRemoteUnidirectionalStreamId_ : Z -> QuicStreamManager -> QuicStreamManager :=
  ltac:(make_setter eta_QuicStreamManager initialRemoteUnidirectionalStreamId_).
Definition set_maxLocalBidirectionalStreamIdIncreased_ : bool -> QuicStreamManager -> QuicStreamManager :=
  ltac:(make_setter eta_QuicStreamManager maxLocalBidirectionalStreamIdIncreased_).
Definition set_maxLocalUnidirectionalStreamIdIncreased_ : bool -> QuicStreamManager -> QuicStreamManager :=
  ltac:(make_setter eta_QuicStreamManager maxLocalUnidirectionalStreamIdIncreased_).
Definition set_streamLimitWindowingFraction_ : Z -> QuicStreamManager -> QuicStreamManager :=
  ltac:(make_setter eta_QuicStreamManager streamLimitWindowingFraction_).
Definition set_remoteBidirectionalStreamLimitUpdate_ : (option Z) -> QuicStreamManager -> QuicStreamManager :=
  ltac:(make_setter eta_QuicStreamManager remoteBidirectionalStreamLimitUpdate_).
Definition set_remoteUnidirectionalStreamLimitUpdate_ : (option Z) -> QuicStreamManager -> QuicStreamManager :=
  ltac:(make_setter eta_QuicStreamManager remoteUnidirectionalStreamLimitUpdate_).
Definition set_newPeerStreams_ : (list Z) -> QuicStreamManager -> QuicStreamManager :=
  ltac:(make_setter eta_QuicStreamManager newPeerStreams_).
Definition set_streamPriorityLevels_ : (gmap Z Z) -> QuicStreamManager -> QuicStreamManager :=
  ltac:(make_setter eta_QuicStreamManager streamPriorityLevels_).
Definition set_numControlStreams_ : Z -> QuicStreamManager -> QuicStreamManager :=
  ltac:(make_setter eta_QuicStreamManager numControlStreams_).
Definition set_isAppIdle_ : bool -> QuicStreamManager -> QuicStreamManager :=
  ltac:(make_setter eta_QuicStreamManager isAppIdle_).
Definition set_priorityChangesObserver_ : (option (list unit)) -> QuicStreamManager -> QuicStreamManager :=
  ltac:(make_setter eta_QuicStreamManager priorityChangesObserver_).
Definition set_readableStreams_ : (gset Z) -> QuicStreamManager -> QuicStreamManager :=
  ltac:(make_setter eta_QuicStreamManager readableStreams_).
Definition set_peekableStreams_ : (gset Z) -> QuicStreamManager -> QuicStreamManager :=
  ltac:(make_setter eta_QuicStreamManager peekableStreams_).
Definition set_writableStreams_ : (gset Z) -> QuicStreamManager -> QuicStreamManager :=
  ltac:(make_setter eta_QuicStreamManager writableStreams_).
Definition set_writableDSRStreams_ : (gset Z) -> QuicStreamManager -> QuicStreamManager :=
  ltac:(make_setter eta_QuicStreamManager writableDSRStreams_).
Definition set_writableControlStreams_ : (gset Z) -> QuicStreamManager -> QuicStreamManager :=
  ltac:(make_setter eta_QuicStreamManager writableControlStreams_).
Definition set_lossStreams_ : (gset Z) -> QuicStreamManager -> QuicStreamManager :=
  ltac:(make_setter eta_QuicStreamManager lossStreams_).
Definition set_blockedStreams_ : (gset Z) -> QuicStreamManager -> QuicStreamManager :=
  ltac:(make_setter eta_QuicStreamManager blockedStreams_).
Definition set_deliverableStreams_ : (gset Z) -> QuicStreamManager -> QuicStreamManager :=
  ltac:(make_setter eta_QuicStreamManager deliverableStreams_).
Definition set_txStreams_ : (gset Z) -> QuicStreamManager -> QuicStreamManager :=
  ltac:(make_setter eta_QuicStreamManager txStreams_).
Definition set_windowUpdates_ : (gset Z) -> QuicStreamManager -> QuicStreamManager :=
  ltac:(make_setter eta_QuicStreamManager windowUpdates_).
Definition set_stopSendingStreams_ : (gset Z) -> QuicStreamManager -> QuicStreamManager :=
  ltac:(make_setter eta_QuicStreamManager stopSendingStreams_).
Definition set_flowControlUpdated_ : (gset Z) -> QuicStreamManager -> QuicStreamManager :=
  ltac:(make_setter eta_QuicStreamManager flowControlUpdated_).

(** [QuicServerConnectionState]: the connection. *)
Record QuicServerConnectionState : Type := Build_QuicServerConnectionState {
  state : ServerState;
  version : option QuicVersion;
  peerAddress : SocketAddress;
  originalPeerAddress : SocketAddress;
  serverAddr : SocketAddress;
  clientConnectionId : option (list Z);
  serverConnectionId : option (list Z);
  connIdAlgo : option ConnectionIdAlgo;
  connIdRejector : option (list Z -> bool);  (* rejectConnectionId *)
  serverConnIdParams : option ServerConnectionIdParams;
  selfConnectionIds : list ConnectionIdData;
  nextSelfConnectionIdSequence : Z;
  serverHandshakeLayer : ServerHandshake;
  readCodec : option QuicReadCodec;
  initialWriteCipher : option Cipher;
  initialHeaderCipher : option Cipher;
  oneRttWriteCipher : option Cipher;
  oneRttWriteHeaderCipher : option Cipher;
  usedZeroRtt : bool;
  sentHandshakeDone : bool;
  transportParametersEncoded : bool;
  writableBytesLimit : option Z;
  udpSendPacketLen : Z;
  peerIdleTimeout : Z;  (* milliseconds *)
  peerAckDelayExponent : Z;
  peerMinAckDelay : option Z;  (* microseconds *)
  peerMaxUdpPayloadSize : Z;
  peerActiveConnectionIdLimit : Z;
  pacing : PacingState;  (* canBePaced and the pacer *)
  congestionController : option CongestionController;
  congestionControllerFactory : option (CongestionControlType -> CongestionController);
  appIdleCalls : list bool;  (* the setAppIdle calls the congestion controller received *)
  outstandingPathValidation : option Z;
  pathValidationLimiter : option Z;  (* PendingPathRateLimiter(udpSendPacketLen) *)
  pendingZeroRttData : option (list ReadData);
  pendingOneRttData : option (list ReadData);
  peerConnectionError : option (Z * string);
  qLogger : option (list QLogEvent);
  statsCallback : option (list StatEvent);
  lossState : LossState;
  ackStates : AckStates;
  pendingEvents : PendingEvents;
  transportSettings : TransportSettings;
  migrationState : MigrationState;
  flowControlState : FlowControlState;
  datagramState : DatagramState;
  d6d : D6DState;
  cryptoState : QuicCryptoState;
  streamManager : QuicStreamManager
}.

Definition eta_QuicServerConnectionState (r : QuicServerConnectionState) : QuicServerConnectionState :=
  Build_QuicServerConnectionState (state r) (version r) (peerAddress r) (originalPeerAddress
  r) (serverAddr r) (clientConnectionId r) (serverConnectionId r) (connIdAlgo r)
  (connIdRejector r) (serverConnIdParams r) (selfConnectionIds r)
  (nextSelfConnectionIdSequence r) (serverHandshakeLayer r) (readCodec r)
  (initialWriteCipher r) (initialHeaderCipher r) (oneRttWriteCipher r)
  (oneRttWriteHeaderCipher r) (usedZeroRtt r) (sentHandshakeDone r)
  (transportParametersEncoded r) (writableBytesLimit r) (udpSendPacketLen r)
  (peerIdleTimeout r) (peerAckDelayExponent r) (peerMinAckDelay r) (peerMaxUdpPayloadSize r)
  (peerActiveConnectionIdLimit r) (pacing r) (congestionController r)
  (congestionControllerFactory r) (appIdleCalls r) (outstandingPathValidation r)
  (pathValidationLimiter r) (pendingZeroRttData r) (pendingOneRttData r)
  (peerConnectionError r) (qLogger r) (statsCallback r) (lossState r) (ackStates r)
  (pendingEvents r) (transportSettings r) (migrationState r) (flowControlState r)
  (datagramState r) (d6d r) (cryptoState r) (streamManager r).

Definition set_state : ServerState -> QuicServerConnectionState -> QuicServerConnectionState :=
  ltac:(make_setter eta_QuicServerConnectionState state).
Definition set_version : (option QuicVersion) -> QuicServerConnectionState -> QuicServerConnectionState :=
  ltac:(make_setter eta_QuicServerConnectionState version).
Definition set_peerAddress : SocketAddress -> QuicServerConnectionState -> QuicServerConnectionState :=
  ltac:(make_setter eta_QuicServerConnectionState peerAddress).
Definition set_originalPeerAddress : SocketAddress -> QuicServerConnectionState -> QuicServerConnectionState :=
  ltac:(make_setter eta_QuicServerConnectionState originalPeerAddress).
Definition set_serverAddr : SocketAddress -> QuicServerConnectionState -> QuicServerConnectionState :=
  ltac:(make_setter eta_QuicServerConnectionState serverAddr).
Definition set_clientConnectionId : (option (list Z)) -> QuicServerConnectionState -> QuicServerConnectionState :=
  ltac:(make_setter eta_QuicServerConnectionState clientConnectionId).
Definition set_serverConnectionId : (option (list Z)) -> QuicServerConnectionState -> QuicServerConnectionState :=
  ltac:(make_setter eta_QuicServerConnectionState serverConnectionId).
Definition set_connIdAlgo : (option ConnectionIdAlgo) -> QuicServerConnectionState -> QuicServerConnectionState :=
  ltac:(make_setter eta_QuicServerConnectionState connIdAlgo).
Definition set_connIdRejector : (option (list Z -> bool)) -> QuicServerConnectionState -> QuicServerConnectionState :=
  ltac:(make_setter eta_QuicServerConnectionState connIdRejector).
Definition set_serverConnIdParams : (option ServerConnectionIdParams) -> QuicServerConnectionState -> QuicServerConnectionState :=
  ltac:(make_setter eta_QuicServerConnectionState serverConnIdParams).
Definition set_selfConnectionIds : (list ConnectionIdData) -> QuicServerConnectionState -> QuicServerConnectionState :=
  ltac:(make_setter eta_QuicServerConnectionState selfConnectionIds).
Definition set_nextSelfConnectionIdSequence : Z -> QuicServerConnectionState -> QuicServerConnectionState :=
  ltac:(make_setter eta_QuicServerConnectionState nextSelfConnectionIdSequence).
Definition set_serverHandshakeLayer : ServerHandshake -> QuicServerConnectionState -> QuicServerConnectionState :=
  ltac:(make_setter eta_QuicServerConnectionState serverHandshakeLayer).
Definition set_readCodec : (option QuicReadCodec) -> QuicServerConnectionState -> QuicServerConnectionState :=
  ltac:(make_setter eta_QuicServerConnectionState readCodec).
Definition set_initialWriteCipher : (option Cipher) -> QuicServerConnectionState -> QuicServerConnectionState :=
  ltac:(make_setter eta_QuicServerConnectionState initialWriteCipher).
Definition set_initialHeaderCipher : (option Cipher) -> QuicServerConnectionState -> QuicServerConnectionState :=
  ltac:(make_setter eta_QuicServerConnectionState initialHeaderCipher).
Definition set_oneRttWriteCipher : (option Cipher) -> QuicServerConnectionState -> QuicServerConnectionState :=
  ltac:(make_setter eta_QuicServerConnectionState oneRttWriteCipher).
Definition set_oneRttWriteHeaderCipher : (option Cipher) -> QuicServerConnectionState -> QuicServerConnectionState :=
  ltac:(make_setter eta_QuicServerConnectionState oneRttWriteHeaderCipher).
Definition set_usedZeroRtt : bool -> QuicServerConnectionState -> QuicServerConnectionState :=
  ltac:(make_setter eta_QuicServerConnectionState usedZeroRtt).
Definition set_sentHandshakeDone : bool -> QuicServerConnectionState -> QuicServerConnectionState :=
  ltac:(make_setter eta_QuicServerConnectionState sentHandshakeDone).
Definition set_transportParametersEncoded : bool -> QuicServerConnectionState -> QuicServerConnectionState :=
  ltac:(make_setter eta_QuicServerConnectionState transportParametersEncoded).
Definition set_writableBytesLimit : (option Z) -> QuicServerConnectionState -> QuicServerConnectionState :=
  ltac:(make_setter eta_QuicServerConnectionState writableBytesLimit).
Definition set_udpSendPacketLen : Z -> QuicServerConnectionState -> QuicServerConnectionState :=
  ltac:(make_setter eta_QuicServerConnectionState udpSendPacketLen).
Definition set_peerIdleTimeout : Z -> QuicServerConnectionState -> QuicServerConnectionState :=
  ltac:(make_setter eta_QuicServerConnectionState peerIdleTimeout).
Definition set_peerAckDelayExponent : Z -> QuicServerConnectionState -> QuicServerConnectionState :=
  ltac:(make_setter eta_QuicServerConnectionState peerAckDelayExponent).
Definition set_peerMinAckDelay : (option Z) -> QuicServerConnectionState -> QuicServerConnectionState :=
  ltac:(make_setter eta_QuicServerConnectionState peerMinAckDelay).
Definition set_peerMaxUdpPayloadSize : Z -> QuicServerConnectionState -> QuicServerConnectionState :=
  ltac:(make_setter eta_QuicServerConnectionState peerMaxUdpPayloadSize).
Definition set_peerActiveConnectionIdLimit : Z -> QuicServerConnectionState -> QuicServerConnectionState :=
  ltac:(make_setter eta_QuicServerConnectionState peerActiveConnectionIdLimit).
Definition set_pacing : PacingState -> QuicServerConnectionState -> QuicServerConnectionState :=
  ltac:(make_setter eta_QuicServerConnectionState pacing).
Definition set_congestionController : (option CongestionController) -> QuicServerConnectionState -> QuicServerConnectionState :=
  ltac:(make_setter eta_QuicServerConnectionState congestionController).
Definition set_congestionControllerFactory : (option (CongestionControlType -> CongestionController)) -> QuicServerConnectionState -> QuicServerConnectionState :=
  ltac:(make_setter eta_QuicServerConnectionState congestionControllerFactory).
Definition set_appIdleCalls : (list bool) -> QuicServerConnectionState -> QuicServerConnectionState :=
  ltac:(make_setter eta_QuicServerConnectionState appIdleCalls).
Definition set_outstandingPathValidation : (option Z) -> QuicServerConnectionState -> QuicServerConnectionState :=
  ltac:(make_setter eta_QuicServerConnectionState outstandingPathValidation).
Definition set_pathValidationLimiter : (option Z) -> QuicServerConnectionState -> QuicServerConnectionState :=
  ltac:(make_setter eta_QuicServerConnectionState pathValidationLimiter).
Definition set_pendingZeroRttData : (option (list ReadData)) -> QuicServerConnectionState -> QuicServerConnectionState :=
  ltac:(make_setter eta_QuicServerConnectionState pendingZeroRttData).
Definition set_pendingOneRttData : (option (list ReadData)) -> QuicServerConnectionState -> QuicServerConnectionState :=
  ltac:(make_setter eta_QuicServerConnectionState pendingOneRttData).
Definition set_peerConnectionError : (option (Z * string)) -> QuicServerConnectionState -> QuicServerConnectionState :=
  ltac:(make_setter eta_QuicServerConnectionState peerConnectionError).
Definition set_qLogger : (option (list QLogEvent)) -> QuicServerConnectionState -> QuicServerConnectionState :=
  ltac:(make_setter eta_QuicServerConnectionState qLogger).
Definition set_statsCallback : (option (list StatEvent)) -> QuicServerConnectionState -> QuicServerConnectionState :=
  ltac:(make_setter eta_QuicServerConnectionState statsCallback).
Definition set_lossState : LossState -> QuicServerConnectionState -> QuicServerConnectionState :=
  ltac:(make_setter eta_QuicServerConnectionState lossState).
Definition set_ackStates : AckStates -> QuicServerConnectionState -> QuicServerConnectionState :=
  ltac:(make_setter eta_QuicServerConnectionState ackStates).
Definition set_pendingEvents : PendingEvents -> QuicServerConnectionState -> QuicServerConnectionState :=
  ltac:(make_setter eta_QuicServerConnectionState pendingEvents).
Definition set_transportSettings : TransportSettings -> QuicServerConnectionState -> QuicServerConnectionState :=
  ltac:(make_setter eta_QuicServerConnectionState transportSettings).
Definition set_migrationState : MigrationState -> QuicServerConnectionState -> QuicServerConnectionState :=
  ltac:(make_setter eta_QuicServerConnectionState migrationState).
Definition set_flowControlState : FlowControlState -> QuicServerConnectionState -> QuicServerConnectionState :=
  ltac:(make_setter eta_QuicServerConnectionState flowControlState).
Definition set_datagramState : DatagramState -> QuicServerConnectionState -> QuicServerConnectionState :=
  ltac:(make_setter eta_QuicServerConnectionState datagramState).
Definition set_d6d : D6DState -> QuicServerConnectionState -> QuicServerConnectionState :=
  ltac:(make_setter eta_QuicServerConnectionState d6d).
Definition set_cryptoState : QuicCryptoState -> QuicServerConnectionState -> QuicServerConnectionState :=
  ltac:(make_setter eta_QuicServerConnectionState cryptoState).
Definition set_streamManager : QuicStreamManager -> QuicServerConnectionState -> QuicServerConnectionState :=
  ltac:(make_setter eta_QuicServerConnectionState streamManager).

(** ** Constants *)

(** Modelled from the spec: [detail::kStreamIncrement] is
    declared outside the translated sources; stream IDs of one quartet are
    "spaced by a fixed increment of 4". *)
Definition kStreamIncrement : Z := 4.

(** Modelled from the spec: [kRttAlpha] and [kRttBeta] are
    declared outside the translated sources; the estimator is "the standard
    alpha = 1/8, beta = 1/4 IIR". *)
Definition kRttAlpha : Z := 8.
Definition kRttBeta : Z := 4.

(** Modelled from the spec: [kMaxAckDelay]; "max_ack_delay >= 2^14" is
    rejected. *)
Definition kMaxAckDelay : Z := 2 ^ 14.

(** Modelled from the spec: [kDefaultConnectionIdSize]; destination
    connection IDs "shorter than the minimum (8 octets)" are rejected. *)
Definition kDefaultConnectionIdSize : Z := 8.

(** Modelled from the spec: [kDefaultMaxPriority]; priority levels range
    over [0, 7]. *)
Definition kDefaultMaxPriority : Z := 7.

(** [kConnIdEncodingRetryLimit] (ServerStateMachine.cpp). *)
Definition kConnIdEncodingRetryLimit : Z := 16.

(** [kKnobFractionMax] (TransportKnobs.cpp). *)
Definition kKnobFractionMax : Z := 100.

(** The constants and integer widths that are declared in headers outside
    the translated sources and whose values the specification leaves open. *)
Class QuicConstants : Type := {
  kDefaultMinRtt : Z;
  kNonRtxRxPacketsPendingBeforeAck : Z;
  (* the modulus of the integer type of the two receive counters of AckState *)
  ackCounterModulus : Z;
  kMaxNumMigrationsAllowed : Z;
  kTimeToRetainLastCongestionAndRttState : Z;
  kMaxNumCoalescedPackets : nat;
  kMinMaxUDPPayload : Z;
  kDefaultMaxUDPPayload : Z;
  kDefaultUDPSendPacketLen : Z;
  kMaxAckDelayExponent : Z;
  kDefaultAckDelayExponent : Z;
  kMaxDatagramPacketOverhead : Z;
  kDefaultActiveConnectionIdLimit : Z;
  kMaxIdleTimeout : Z;
  kMaxMaxStreams : Z;
  kMinD6DRaiseTimeout : Z;
  kMinD6DProbeTimeout : Z;
  kDefaultPriority : Priority;
  kMaxPacketNumber : Z;
  kPriorityThresholdKnobMultiplier : Z;
  (* TransportKnobParamId *)
  CC_ALGORITHM_KNOB : Z;
  STARTUP_RTT_FACTOR_KNOB : Z;
  DEFAULT_RTT_FACTOR_KNOB : Z;
  AUTO_BACKGROUND_MODE : Z
}.

(** One choice of the open constants, used to run the model on concrete
    inputs. *)
Definition referenceConstants : QuicConstants := {|
  kDefaultMinRtt := 2 ^ 63 - 1;
  kNonRtxRxPacketsPendingBeforeAck := 20;
  ackCounterModulus := 2 ^ 8;
  kMaxNumMigrationsAllowed := 6;
  kTimeToRetainLastCongestionAndRttState := 60000000;
  kMaxNumCoalescedPackets := 5;
  kMinMaxUDPPayload := 1200;
  kDefaultMaxUDPPayload := 1452;
  kDefaultUDPSendPacketLen := 1252;
  kMaxAckDelayExponent := 20;
  kDefaultAckDelayExponent := 3;
  kMaxDatagramPacketOverhead := 25;
  kDefaultActiveConnectionIdLimit := 2;
  kMaxIdleTimeout := 600000;
  kMaxMaxStreams := 2 ^ 60;
  kMinD6DRaiseTimeout := 30;
  kMinD6DProbeTimeout := 1;
  kDefaultPriority := mkPriority 3 true;
  kMaxPacketNumber := 2 ^ 62 - 1;
  kPriorityThresholdKnobMultiplier := 1000;
  CC_ALGORITHM_KNOB := 0xccaa;
  STARTUP_RTT_FACTOR_KNOB := 0x1111;
  DEFAULT_RTT_FACTOR_KNOB := 0x2222;
  AUTO_BACKGROUND_MODE := 0x5555
|}.

End StateData.

Export StateData.

(** ** Access to the parts of the connection *)

Module ConnAccess.

Definition upd_lossState (f : LossState -> LossState) (conn : QuicServerConnectionState) :=
  set_lossState (f (lossState conn)) conn.

Definition upd_pendingEvents (f : PendingEvents -> PendingEvents)
    (conn : QuicServerConnectionState) :=
  set_pendingEvents (f (pendingEvents conn)) conn.

Definition upd_migrationState (f : MigrationState -> MigrationState)
    (conn : QuicServerConnectionState) :=
  set_migrationState (f (migrationState conn)) conn.

Definition upd_flowControlState (f : FlowControlState -> FlowControlState)
    (conn : QuicServerConnectionState) :=
  set_flowControlState (f (flowControlState conn)) conn.

Definition upd_d6d (f : D6DState -> D6DState) (conn : QuicServerConnectionState) :=
  set_d6d (f (d6d conn)) conn.

Definition upd_streamManager (f : QuicStreamManager -> QuicStreamManager)
    (conn : QuicServerConnectionState) :=
  set_streamManager (f (streamManager conn)) conn.

(** [conn.readCodec->setX(...)]: a call through the codec pointer.  The
    translated code makes these calls only after the codec was created; on a
    null codec the model leaves the connection as it is. *)
Definition upd_readCodec (f : QuicReadCodec -> QuicReadCodec)
    (conn : QuicServerConnectionState) :=
  match readCodec conn with
  | Some codec => set_readCodec (Some (f codec)) conn
  | None => conn
  end.

(** [if (conn.qLogger) conn.qLogger->add...(ev)]. *)
Definition qlog (ev : QLogEvent) (conn : QuicServerConnectionState) :=
  match qLogger conn with
  | Some events => set_qLogger (Some (events ++ [ev])) conn
  | None => conn
  end.

(** [QUIC_STATS(conn.statsCallback, ev)]. *)
Definition QUIC_STATS (ev : StatEvent) (conn : QuicServerConnectionState) :=
  match statsCallback conn with
  | Some events => set_statsCallback (Some (events ++ [ev])) conn
  | None => conn
  end.

End ConnAccess.

Export ConnAccess.

(** ** quic/state/QuicStateFunctions.cpp *)

Module QuicStateFunctions.

Section Functions.
Context `{K : QuicConstants}.

(** Modelled from the spec: [timeMin] and [timeMax] are defined in a header;
    "set mrtt = min(mrtt, rttSample)" and "maxAckDelay = max(maxAckDelay,
    ackDelay)". *)
Definition timeMin (a b : Z) : Z := Z.min a b.
Definition timeMax (a b : Z) : Z := Z.max a b.

(** Whether [updateRtt] removes the ack delay from the sample; [mrtt0] is the
    minimum RTT before the call. *)
Definition shouldUseAckDelay (mrtt0 rttSample ackDelay : Z) : bool :=
  let minRtt := timeMin mrtt0 rttSample in
  bool_decide (rttSample > ackDelay) &&
  (bool_decide (rttSample > minRtt + ackDelay) || bool_decide (mrtt0 = kDefaultMinRtt)).

(** [updateRtt(conn, rttSample, ackDelay)]. *)
Definition updateRtt (conn : QuicServerConnectionState) (rttSample ackDelay : Z)
    : QuicServerConnectionState :=
  let minRtt := timeMin (mrtt (lossState conn)) rttSample in
  let conn1 :=
    upd_lossState (set_maxAckDelay (timeMax (maxAckDelay (lossState conn)) ackDelay)) conn in
  let rttSample' :=
    if shouldUseAckDelay (mrtt (lossState conn1)) rttSample ackDelay
    then rttSample - ackDelay
    else rttSample in
  let conn2 := upd_lossState (set_mrtt minRtt) conn1 in
  let conn3 := upd_lossState (set_lrtt rttSample') conn2 in
  let conn4 :=
    if bool_decide (srtt (lossState conn3) = 0) then
      upd_lossState (set_rttvar (rttSample' ÷ 2))
        (upd_lossState (set_srtt rttSample') conn3)
    else
      let ls := lossState conn3 in
      let rttvar' :=
        (rttvar ls * (kRttBeta - 1)) ÷ kRttBeta +
        (if bool_decide (srtt ls > rttSample')
         then srtt ls - rttSample'
         else rttSample' - srtt ls) ÷ kRttBeta in
      let conn3' := upd_lossState (set_rttvar rttvar') conn3 in
      let srtt' :=
        (srtt (lossState conn3') * (kRttAlpha - 1)) ÷ kRttAlpha + rttSample' ÷ kRttAlpha in
      upd_lossState (set_srtt srtt') conn3' in
  qlog (QLogMetricUpdate rttSample' (mrtt (lossState conn4)) (srtt (lossState conn4)) ackDelay)
    conn4.

(** [getAckState(conn, pnSpace)], and the write through the reference it
    returns. *)
Definition getAckState (conn : QuicServerConnectionState) (pnSpace : PacketNumberSpace)
    : AckState :=
  match pnSpace with
  | PNS_Initial => initialAckState (ackStates conn)
  | PNS_Handshake => handshakeAckState (ackStates conn)
  | PNS_AppData => appDataAckState (ackStates conn)
  end.

Definition setAckState (pnSpace : PacketNumberSpace) (ackState : AckState)
    (conn : QuicServerConnectionState) : QuicServerConnectionState :=
  match pnSpace with
  | PNS_Initial => set_ackStates (set_initialAckState ackState (ackStates conn)) conn
  | PNS_Handshake => set_ackStates (set_handshakeAckState ackState (ackStates conn)) conn
  | PNS_AppData => set_ackStates (set_appDataAckState ackState (ackStates conn)) conn
  end.

(** [++counter] on one of the two receive counters of an [AckState]. *)
Definition incrementCounter (n : Z) : Z := (n + 1) mod ackCounterModulus.

(** The threshold [updateAckSendStateOnRecvPacket] selects once a
    retransmittable packet was received: the explicit tolerance, or the
    setting chosen by the largest received packet number. *)
Definition rxThreshold (conn : QuicServerConnectionState) (ackState : AckState) : Z :=
  match tolerance ackState with
  | Some t => t
  | None =>
      if bool_decide (default 0 (largestReceivedPacketNum ackState) >
                      rxPacketsBeforeAckInitThreshold (transportSettings conn))
      then rxPacketsBeforeAckAfterInit (transportSettings conn)
      else rxPacketsBeforeAckBeforeInit (transportSettings conn)
  end.

(** [updateAckSendStateOnRecvPacket(conn, ackState, pktOutOfOrder,
    pktHasRetransmittableData, pktHasCryptoData)].  [ackState] is the ack
    state of [conn] for the space [pnSpace].  The sum of the two counters is
    compared after the usual arithmetic conversions and is taken in [Z];
    thresholds are taken to fit the type of [thresh]. *)
Definition updateAckSendStateOnRecvPacket (conn : QuicServerConnectionState)
    (pnSpace : PacketNumberSpace)
    (pktOutOfOrder pktHasRetransmittableData pktHasCryptoData : bool)
    : QuicServerConnectionState :=
  let ackState := getAckState conn pnSpace in
  let thresh :=
    if pktHasRetransmittableData || bool_decide (numRxPacketsRecvd ackState ≠ 0)
    then rxThreshold conn ackState
    else kNonRtxRxPacketsPendingBeforeAck in
  let pktOutOfOrder := if ignoreReorder ackState then false else pktOutOfOrder in
  let ackImmediately (a : AckState) (c : QuicServerConnectionState) :=
    (set_needsToSendAckImmediately true a,
     upd_pendingEvents (set_scheduleAckTimeout false) c) in
  let '(ackState1, conn1) :=
    if pktHasRetransmittableData then
      if pktHasCryptoData || pktOutOfOrder then ackImmediately ackState conn
      else
        let a := set_numRxPacketsRecvd (incrementCounter (numRxPacketsRecvd ackState))
                   ackState in
        if bool_decide (numRxPacketsRecvd a + numNonRxPacketsRecvd a >= thresh)
        then ackImmediately a conn
        else if negb (needsToSendAckImmediately a)
        then (a, upd_pendingEvents (set_scheduleAckTimeout true) conn)
        else (a, conn)
    else
      let a := set_numNonRxPacketsRecvd (incrementCounter (numNonRxPacketsRecvd ackState))
                 ackState in
      if bool_decide (numNonRxPacketsRecvd a + numRxPacketsRecvd a >= thresh)
      then ackImmediately a conn
      else (a, conn) in
  let ackState2 :=
    if needsToSendAckImmediately ackState1
    then set_numNonRxPacketsRecvd 0 (set_numRxPacketsRecvd 0 ackState1)
    else ackState1 in
  setAckState pnSpace ackState2 conn1.

(** A received packet as [updateAckSendStateOnRecvPacket] sees it. *)
Record ReceivedPacket : Type := mkReceived {
  pktOutOfOrder : bool;
  pktHasRetransmittableData : bool;
  pktHasCryptoData : bool
}.

(** A sequence of calls of [updateAckSendStateOnRecvPacket] on the ack state
    of one space, one call per received packet. *)
Definition receivePackets (conn : QuicServerConnectionState) (pnSpace : PacketNumberSpace)
    (pkts : list ReceivedPacket) : QuicServerConnectionState :=
  fold_left
    (fun c p =>
       updateAckSendStateOnRecvPacket c pnSpace (pktOutOfOrder p)
         (pktHasRetransmittableData p) (pktHasCryptoData p))
    pkts conn.

(** The number of retransmittable packets of a sequence. *)
Definition countRetransmittable (pkts : list ReceivedPacket) : nat :=
  length (filter (fun p => pktHasRetransmittableData p = true) pkts).

(** [updateAckStateOnAckTimeout(conn)]. *)
Definition updateAckStateOnAckTimeout (conn : QuicServerConnectionState)
    : QuicServerConnectionState :=
  let conn1 :=
    setAckState PNS_AppData
      (set_needsToSendAckImmediately true (getAckState conn PNS_AppData)) conn in
  let conn2 :=
    setAckState PNS_AppData (set_numRxPacketsRecvd 0 (getAckState conn1 PNS_AppData)) conn1 in
  let conn3 :=
    setAckState PNS_AppData (set_numNonRxPacketsRecvd 0 (getAckState conn2 PNS_AppData))
      conn2 in
  upd_pendingEvents (set_scheduleAckTimeout false) conn3.

(** [updateAckSendStateOnSentPacketWithAcks(conn, ackState,
    largestAckScheduled)]. *)
Definition updateAckSendStateOnSentPacketWithAcks (conn : QuicServerConnectionState)
    (pnSpace : PacketNumberSpace) (largestAckScheduled' : Z) : QuicServerConnectionState :=
  let conn1 := upd_pendingEvents (set_scheduleAckTimeout false) conn in
  let a := getAckState conn1 pnSpace in
  let a := set_needsToSendAckImmediately false a in
  let a := set_numRxPacketsRecvd 0 a in
  let a := set_numNonRxPacketsRecvd 0 a in
  let a := set_largestAckScheduled (Some largestAckScheduled') a in
  setAckState pnSpace a conn1.

(** [isConnectionPaced(conn)]. *)
Definition isConnectionPaced (conn : QuicServerConnectionState) : bool :=
  pacingEnabled (transportSettings conn) && canBePaced (pacing conn) &&
  bool_decide (is_Some (pacer (pacing conn))).

(** [getNextPacketNum(conn, pnSpace)]. *)
Definition getNextPacketNum (conn : QuicServerConnectionState) (pnSpace : PacketNumberSpace)
    : Z :=
  nextPacketNum (getAckState conn pnSpace).

(** [increaseNextPacketNum(conn, pnSpace)]. *)
Definition increaseNextPacketNum (conn : QuicServerConnectionState)
    (pnSpace : PacketNumberSpace) : QuicServerConnectionState :=
  let a := getAckState conn pnSpace in
  let conn1 := setAckState pnSpace (set_nextPacketNum (wrap64 (nextPacketNum a + 1)) a) conn in
  if bool_decide (nextPacketNum (getAckState conn1 pnSpace) = kMaxPacketNumber - 1)
  then upd_pendingEvents (set_closeTransport true) conn1
  else conn1.

(** [hasReceivedPackets(conn)]. *)
Definition hasReceivedPackets (conn : QuicServerConnectionState) : bool :=
  bool_decide (is_Some (largestReceivedPacketNum (initialAckState (ackStates conn)))) ||
  bool_decide (is_Some (largestReceivedPacketNum (handshakeAckState (ackStates conn)))) ||
  bool_decide (is_Some (largestReceivedPacketNum (appDataAckState (ackStates conn)))).

(** [canSetLossTimerForAppData(conn)]. *)
Definition canSetLossTimerForAppData (conn : QuicServerConnectionState) : bool :=
  bool_decide (is_Some (oneRttWriteCipher conn)).

(** [hasReceivedPacketsAtLastCloseSent(conn)]. *)
Definition hasReceivedPacketsAtLastCloseSent (conn : QuicServerConnectionState) : bool :=
  bool_decide (is_Some (largestReceivedAtLastCloseSent (initialAckState (ackStates conn)))) ||
  bool_decide (is_Some (largestReceivedAtLastCloseSent (handshakeAckState (ackStates conn)))) ||
  bool_decide (is_Some (largestReceivedAtLastCloseSent (appDataAckState (ackStates conn)))).

(** [hasNotReceivedNewPacketsSinceLastCloseSent(conn)].  The three [DCHECK]s
    of the source are debug assertions and are left out; two optionals are
    equal when both are empty or both hold the same number. *)
Definition hasNotReceivedNewPacketsSinceLastCloseSent (conn : QuicServerConnectionState)
    : bool :=
  bool_decide (largestReceivedAtLastCloseSent (initialAckState (ackStates conn)) =
               largestReceivedPacketNum (initialAckState (ackStates conn))) &&
  bool_decide (largestReceivedAtLastCloseSent (handshakeAckState (ackStates conn)) =
               largestReceivedPacketNum (handshakeAckState (ackStates conn))) &&
  bool_decide (largestReceivedAtLastCloseSent (appDataAckState (ackStates conn)) =
               largestReceivedPacketNum (appDataAckState (ackStates conn))).

(** [updateLargestReceivedPacketsAtLastCloseSent(conn)]. *)
Definition updateLargestReceivedPacketsAtLastCloseSent (conn : QuicServerConnectionState)
    : QuicServerConnectionState :=
  let record (pnSpace : PacketNumberSpace) (c : QuicServerConnectionState) :=
    let a := getAckState c pnSpace in
    setAckState pnSpace (set_largestReceivedAtLastCloseSent (largestReceivedPacketNum a) a) c in
  record PNS_AppData (record PNS_Handshake (record PNS_Initial conn)).

(** [times.keys()] of an [EnumArray] indexed by [PacketNumberSpace]: the
    enumerators in the order of their declaration. *)
Definition packetNumberSpaces : list PacketNumberSpace :=
  [PNS_Initial; PNS_Handshake; PNS_AppData].

(** [earliestTimeAndSpace(times, considerAppData)].  The [EnumArray] is the
    function that gives the slot of each space. *)
Definition earliestTimeAndSpace (times : PacketNumberSpace -> option Z)
    (considerAppData : bool) : option Z * PacketNumberSpace :=
  fold_left
    (fun (res : option Z * PacketNumberSpace) pns =>
       match times pns with
       | None => res
       | Some t =>
           if match pns with PNS_AppData => negb considerAppData | _ => false end
           then res
           else
             match res.1 with
             | None => (Some t, pns)
             | Some earliest => if bool_decide (earliest > t) then (Some t, pns) else res
             end
       end)
    packetNumberSpaces (None, PNS_Initial).

(** Calls of [increaseNextPacketNum] in sequence, one per packet sent in the
    space [pnSpace]. *)
Definition sendPackets (n : nat) (pnSpace : PacketNumberSpace)
    (conn : QuicServerConnectionState) : QuicServerConnectionState :=
  Nat.iter n (fun c => increaseNextPacketNum c pnSpace) conn.

End Functions.

End QuicStateFunctions.

(** ** quic/common/TransportKnobs.cpp *)

Module TransportKnobs.

(** [folly::dynamic]: a parsed JSON value.  An object is kept as the list of
    its (key, value) pairs in the order [keys()] yields them; a double is
    kept as its bit pattern. *)
#[warnings="-register-all"]
Inductive dynamic : Type :=
  | D_NULLT
  | D_BOOL (b : bool)
  | D_INT64 (n : Z)
  | D_DOUBLE (bits : Z)
  | D_STRING (s : string)
  | D_ARRAY (elements : list dynamic)
  | D_OBJECT (items : list (dynamic * dynamic)).

(** The functions of folly and of [QuicConstants.h] the parser calls.  A
    result of [None] stands for a thrown exception or an empty optional. *)
Class KnobCollaborators : Type := {
  (* folly::parseJson *)
  parseJson : string -> option dynamic;
  (* folly::to<int64_t>(string), behind dynamic::asInt *)
  stringAsInt : string -> option Z;
  (* folly::to<int64_t>(double), behind dynamic::asInt *)
  doubleAsInt : Z -> option Z;
  (* folly::tryTo<int>(string) *)
  tryToInt : string -> option Z;
  (* congestionControlStrToType *)
  congestionControlStrToType : string -> option CongestionControlType;
  (* the value of the enumerator *)
  congestionControlTypeValue : CongestionControlType -> Z;
  (* the result of tryTo<int> is an int *)
  tryToInt_range : forall s n, tryToInt s = Some n -> - 2 ^ 31 <= n < 2 ^ 31
}.

(** [TransportKnobParam]: [{id, val}]. *)
Record TransportKnobParam : Type := mkKnob {
  knobId : Z;
  knobVal : Z
}.

#[global] Instance TransportKnobParam_eq_dec : EqDecision TransportKnobParam.
Proof. solve_decision. Defined.

(** [compareTransportKnobParam(lhs, rhs)]: by id, then by value. *)
Definition compareTransportKnobParam (lhs rhs : TransportKnobParam) : bool :=
  if bool_decide (knobId lhs ≠ knobId rhs)
  then bool_decide (knobId lhs < knobId rhs)
  else bool_decide (knobVal lhs < knobVal rhs).

(** The order [std::sort] establishes with that comparison: no element
    compares less than one before it. *)
Definition knobOrder (lhs rhs : TransportKnobParam) : Prop :=
  compareTransportKnobParam rhs lhs = false.

#[global] Instance knobOrder_dec lhs rhs : Decision (knobOrder lhs rhs).
Proof. unfold knobOrder. apply _. Defined.

(** [s.find(c)]: the position of the first [c], if any. *)
Fixpoint find (c : ascii) (s : string) : option nat :=
  match s with
  | EmptyString => None
  | String c' rest =>
      if bool_decide (c' = c) then Some O else S <$> find c rest
  end.

(** [folly::split(c, s, out1, out2)]: exactly two fields. *)
Definition split2 (c : ascii) (s : string) : option (string * string) :=
  match find c s with
  | None => None
  | Some pos =>
      let rest := String.substring (S pos) (String.length s) s in
      match find c rest with
      | None => Some (String.substring 0 pos s, rest)
      | Some _ => None
      end
  end.

Section Parser.
Context `{K : QuicConstants} `{F : KnobCollaborators}.

(** [dynamic::asInt()]. *)
Definition asInt (d : dynamic) : option Z :=
  match d with
  | D_BOOL b => Some (if b then 1 else 0)
  | D_INT64 n => Some n
  | D_DOUBLE bits => doubleAsInt bits
  | D_STRING s => stringAsInt s
  | _ => None
  end.

(** [folly::to<uint64_t>(int64_t)]: throws on a negative value. *)
Definition toUint64 (n : Z) : option Z :=
  if bool_decide (0 <= n) then Some n else None.

(** The RTT-factor branch: the knob value for the string [s]. *)
Definition parseRttFactor (s : string) : option Z :=
  match find "/"%char s with
  | None => None
  | Some pos =>
      let numerator :=
        uint64_of_int (default kKnobFractionMax (tryToInt (String.substring 0 pos s))) in
      let denominator :=
        uint64_of_int
          (default kKnobFractionMax
             (tryToInt (String.substring (S pos) (String.length s) s))) in
      if bool_decide (numerator <= 0) || bool_decide (denominator <= 0) ||
         bool_decide (numerator >= kKnobFractionMax) ||
         bool_decide (denominator >= kKnobFractionMax)
      then None
      else Some (wrap64 (numerator * kKnobFractionMax + denominator))
  end.

(** The auto-background-mode branch. *)
Definition parseAutoBackgroundMode (s : string) : option Z :=
  match split2 ","%char s with
  | None => None
  | Some (priorityThresholdStr, utilizationPercentStr) =>
      let priorityThreshold := uint64_of_int (default (-1) (tryToInt priorityThresholdStr)) in
      let utilizationPercent :=
        uint64_of_int (default (-1) (tryToInt utilizationPercentStr)) in
      if bool_decide (priorityThreshold < 0) ||
         bool_decide (priorityThreshold > kDefaultMaxPriority) ||
         bool_decide (utilizationPercent < 25) || bool_decide (utilizationPercent > 100)
      then None
      else Some (wrap64 (wrap64 (priorityThreshold * kPriorityThresholdKnobMultiplier) +
                         utilizationPercent))
  end.

(** One iteration of the loop over the keys: the parameter pushed, or [None]
    when the iteration returns [folly::none] or throws. *)
Definition parseKnobParam (id val : dynamic) : option TransportKnobParam :=
  n ← asInt id;
  paramId ← toUint64 n;
  match val with
  | D_BOOL _ | D_INT64 _ =>
      v ← asInt val;
      u ← toUint64 v;
      Some (mkKnob paramId u)
  | D_STRING s =>
      if bool_decide (paramId = CC_ALGORITHM_KNOB) then
        cctype ← congestionControlStrToType s;
        u ← toUint64 (congestionControlTypeValue cctype);
        Some (mkKnob paramId u)
      else if bool_decide (paramId = STARTUP_RTT_FACTOR_KNOB) ||
              bool_decide (paramId = DEFAULT_RTT_FACTOR_KNOB) then
        factor ← parseRttFactor s;
        Some (mkKnob paramId factor)
      else if bool_decide (paramId = AUTO_BACKGROUND_MODE) then
        combinedKnobVal ← parseAutoBackgroundMode s;
        Some (mkKnob paramId combinedKnobVal)
      else None
  | _ => None
  end.

(** The loop: every key in turn; the first failure ends the parse. *)
Fixpoint parseKnobItems (items : list (dynamic * dynamic)) : option (list TransportKnobParam) :=
  match items with
  | [] => Some []
  | (id, val) :: rest =>
      p ← parseKnobParam id val;
      ps ← parseKnobItems rest;
      Some (p :: ps)
  end.

(** The body of [parseTransportKnobs] once the JSON text is parsed. *)
Definition parseKnobParams (params : dynamic) : option (list TransportKnobParam) :=
  match params with
  | D_OBJECT items =>
      knobParams ← parseKnobItems items;
      Some (merge_sort knobOrder knobParams)
  | _ => None
  end.

(** [parseTransportKnobs(serializedParams)]. *)
Definition parseTransportKnobs (serializedParams : string) : option (list TransportKnobParam) :=
  params ← parseJson serializedParams;
  parseKnobParams params.

End Parser.

(** Decimal integers, for running the parser: an optional minus sign and
    digits, within the range of [int]. *)
Definition digitValue (c : ascii) : option Z :=
  let n := Z.of_nat (nat_of_ascii c) in
  if bool_decide (48 <= n <= 57) then Some (n - 48) else None.

Fixpoint digitsValue (acc : Z) (s : string) : option Z :=
  match s with
  | EmptyString => Some acc
  | String c rest => d ← digitValue c; digitsValue (10 * acc + d) rest
  end.

Definition decimalInt (s : string) : option Z :=
  v ← match s with
      | EmptyString => None
      | String "-"%char EmptyString => None
      | String "-"%char rest => Z.opp <$> digitsValue 0 rest
      | _ => digitsValue 0 s
      end;
  if bool_decide (- 2 ^ 31 <= v < 2 ^ 31) then Some v else None.

(** Collaborators to run the parser with: decimal conversions, and the
    congestion controller names of the scenario. *)
Definition exampleStrToType (s : string) : option CongestionControlType :=
  if bool_decide (s = "cubic") then Some Cubic
  else if bool_decide (s = "newreno") then Some NewReno
  else if bool_decide (s = "bbr") then Some BBR
  else None.

Definition exampleTypeValue (t : CongestionControlType) : Z :=
  match t with
  | Cubic => 0 | NewReno => 1 | Copa => 2 | Copa2 => 3 | BBR => 4 | CCP => 5
  | NoneCC => 6
  end.

Lemma decimalInt_range (s : string) (n : Z) :
  decimalInt s = Some n -> - 2 ^ 31 <= n < 2 ^ 31.
Proof.
  unfold decimalInt. intros H.
  destruct (match s with
            | EmptyString => None
            | String c rest => _
            end) as [v|]; [|discriminate].
  cbn in H. case_bool_decide; [|discriminate]. congruence.
Qed.

Definition exampleKnobCollaborators (json : string -> option dynamic) : KnobCollaborators := {|
  parseJson := json;
  stringAsInt := digitsValue 0;
  doubleAsInt := fun _ => None;
  tryToInt := decimalInt;
  congestionControlStrToType := exampleStrToType;
  congestionControlTypeValue := exampleTypeValue;
  tryToInt_range := decimalInt_range
|}.

(** The constants of the scenario: knob 1 is the congestion-control
    algorithm, knob 2 the startup RTT factor, knob 3 the auto-background
    mode. *)
Definition scenarioConstants : QuicConstants :=
  let K := referenceConstants in {|
  kDefaultMinRtt := kDefaultMinRtt;
  kNonRtxRxPacketsPendingBeforeAck := kNonRtxRxPacketsPendingBeforeAck;
  ackCounterModulus := ackCounterModulus;
  kMaxNumMigrationsAllowed := kMaxNumMigrationsAllowed;
  kTimeToRetainLastCongestionAndRttState := kTimeToRetainLastCongestionAndRttState;
  kMaxNumCoalescedPackets := kMaxNumCoalescedPackets;
  kMinMaxUDPPayload := kMinMaxUDPPayload;
  kDefaultMaxUDPPayload := kDefaultMaxUDPPayload;
  kDefaultUDPSendPacketLen := kDefaultUDPSendPacketLen;
  kMaxAckDelayExponent := kMaxAckDelayExponent;
  kDefaultAckDelayExponent := kDefaultAckDelayExponent;
  kMaxDatagramPacketOverhead := kMaxDatagramPacketOverhead;
  kDefaultActiveConnectionIdLimit := kDefaultActiveConnectionIdLimit;
  kMaxIdleTimeout := kMaxIdleTimeout;
  kMaxMaxStreams := kMaxMaxStreams;
  kMinD6DRaiseTimeout := kMinD6DRaiseTimeout;
  kMinD6DProbeTimeout := kMinD6DProbeTimeout;
  kDefaultPriority := kDefaultPriority;
  kMaxPacketNumber := kMaxPacketNumber;
  kPriorityThresholdKnobMultiplier := kPriorityThresholdKnobMultiplier;
  CC_ALGORITHM_KNOB := 1;
  STARTUP_RTT_FACTOR_KNOB := 2;
  DEFAULT_RTT_FACTOR_KNOB := 4;
  AUTO_BACKGROUND_MODE := 3
|}.

(** The object of the scenario, [{"3":"4,50","1":"cubic","2":"1/2"}], keys in
    an order that is not sorted. *)
Definition scenarioKnobs : dynamic :=
  D_OBJECT [(D_STRING "3", D_STRING "4,50");
            (D_STRING "1", D_STRING "cubic");
            (D_STRING "2", D_STRING "1/2")].

End TransportKnobs.

(** ** quic/state/QuicStreamManager.cpp *)

Module QuicStreamManagerModel.

Local Open Scope quic_scope.

(** Modelled from the spec: the stream ID parity helpers
    ([QuicStreamUtilities]) are defined outside the translated sources; "low
    two bits encode (client/server, bi/uni)", bit 0 set for server-initiated
    and bit 1 set for unidirectional streams, as the stream IDs of the tests
    show (0 and 2 are peer streams of a server). *)
Definition isClientStream (stream : Z) : bool := bool_decide (Z.land stream 1 = 0).
Definition isServerStream (stream : Z) : bool := bool_decide (Z.land stream 1 ≠ 0).
Definition isUnidirectionalStream (stream : Z) : bool := bool_decide (Z.land stream 2 ≠ 0).

Definition isLocalStream (nodeType : QuicNodeType) (stream : Z) : bool :=
  match nodeType with
  | Client => isClientStream stream
  | Server => isServerStream stream
  end.

Definition isRemoteStream (nodeType : QuicNodeType) (stream : Z) : bool :=
  match nodeType with
  | Client => isServerStream stream
  | Server => isClientStream stream
  end.

(** [isStreamUnopened(streamId, nextAcceptableStreamId)]. *)
Definition isStreamUnopened (streamId nextAcceptableStreamId : Z) : bool :=
  bool_decide (streamId >= nextAcceptableStreamId).

(** The loop of [openPeerStreamIfNotClosed]:
    [while (start <= streamId) { emplace(start); push_back(start); start += 4; }].
    It returns the open set, the new streams and [start] as the loop leaves
    them; [fuel] bounds the number of iterations. *)
Fixpoint openStreamsLoop (fuel : nat) (start streamId : Z) (openStreams : gset Z)
    (newStreams : list Z) : gset Z * list Z * Z :=
  match fuel with
  | O => (openStreams, newStreams, start)
  | S fuel' =>
      if bool_decide (start <= streamId)
      then openStreamsLoop fuel' (wrap64 (start + kStreamIncrement)) streamId
             ({[start]} ∪ openStreams) (newStreams ++ [start])
      else (openStreams, newStreams, start)
  end.

(** Iterations that suffice for the loop to end when [start] does not wrap. *)
Definition openStreamsFuel (start streamId : Z) : nat :=
  Z.to_nat ((streamId - start) `div` kStreamIncrement + 1).

(** [openPeerStreamIfNotClosed(streamId, openStreams, nextAcceptableStreamId,
    maxStreamId, newStreams)]: the error code, and the three containers passed
    by reference as the call leaves them. *)
Definition openPeerStreamIfNotClosed (streamId : Z) (openStreams : gset Z)
    (nextAcceptableStreamId maxStreamId : Z) (newStreams : list Z)
    : LocalErrorCode * gset Z * Z * list Z :=
  if bool_decide (streamId < nextAcceptableStreamId) then
    (CREATING_EXISTING_STREAM, openStreams, nextAcceptableStreamId, newStreams)
  else if bool_decide (streamId >= maxStreamId) then
    (STREAM_LIMIT_EXCEEDED, openStreams, nextAcceptableStreamId, newStreams)
  else
    let start := nextAcceptableStreamId in
    let '(openStreams', newStreams', _) :=
      openStreamsLoop (openStreamsFuel start streamId) start streamId openStreams
        newStreams in
    let nextAcceptableStreamId' :=
      if bool_decide (streamId >= nextAcceptableStreamId)
      then wrap64 (streamId + kStreamIncrement)
      else nextAcceptableStreamId in
    (LOCAL_NO_ERROR, openStreams', nextAcceptableStreamId', newStreams').

(** [openLocalStreamIfNotClosed]: the same without the list of new streams. *)
Definition openLocalStreamIfNotClosed (streamId : Z) (openStreams : gset Z)
    (nextAcceptableStreamId maxStreamId : Z) : LocalErrorCode * gset Z * Z :=
  let '(code, openStreams', next', _) :=
    openPeerStreamIfNotClosed streamId openStreams nextAcceptableStreamId maxStreamId [] in
  (code, openStreams', next').

Section Manager.
Context `{K : QuicConstants}.

Local Abbreviation Conn := QuicServerConnectionState.

Definition manager : M Conn QuicStreamManager := gets streamManager.

Definition modifyManager (f : QuicStreamManager -> QuicStreamManager) : M Conn unit :=
  modify (upd_streamManager f).

(** [streamExists(streamId)]. *)
Definition streamExists (m : QuicStreamManager) (streamId : Z) : bool :=
  if isLocalStream (nodeType_ m) streamId then
    if isUnidirectionalStream streamId
    then bool_decide (streamId ∈ openUnidirectionalLocalStreams_ m)
    else bool_decide (streamId ∈ openBidirectionalLocalStreams_ m)
  else
    if isUnidirectionalStream streamId
    then bool_decide (streamId ∈ openUnidirectionalPeerStreams_ m)
    else bool_decide (streamId ∈ openBidirectionalPeerStreams_ m).

(** [findStream(streamId)]. *)
Definition findStream (m : QuicStreamManager) (streamId : Z) : option QuicStreamState :=
  streams_ m !! streamId.

(** Modelled from the spec: [hasNonCtrlStreams()] is defined in the header;
    "the connection is app-idle iff there are no non-control streams". *)
Definition hasNonCtrlStreams (m : QuicStreamManager) : bool :=
  bool_decide (Z.of_nat (size (streams_ m)) ≠ numControlStreams_ m).

(** Modelled from the spec: [openableRemoteBidirectionalStreams()] and
    [openableRemoteUnidirectionalStreams()] are defined in the header; the
    remote streams that can still be opened are the IDs from the next
    acceptable one up to the remote maximum, one every [kStreamIncrement]. *)
Definition openableRemoteBidirectionalStreams (m : QuicStreamManager) : Z :=
  wrap64 (maxRemoteBidirectionalStreamId_ m - nextAcceptablePeerBidirectionalStreamId_ m)
    `div` kStreamIncrement.

Definition openableRemoteUnidirectionalStreams (m : QuicStreamManager) : Z :=
  wrap64 (maxRemoteUnidirectionalStreamId_ m - nextAcceptablePeerUnidirectionalStreamId_ m)
    `div` kStreamIncrement.

(** Modelled from the spec: [remoteBidirectionalStreamLimitUpdate()] and
    [remoteUnidirectionalStreamLimitUpdate()] are defined in the header; the
    MAX_STREAMS update is a side channel that is read once ("second read
    returns none"). *)
Definition remoteBidirectionalStreamLimitUpdate : M Conn (option Z) :=
  let* m := manager in
  run modifyManager (set_remoteBidirectionalStreamLimitUpdate_ None) in
  ret (remoteBidirectionalStreamLimitUpdate_ m).

Definition remoteUnidirectionalStreamLimitUpdate : M Conn (option Z) :=
  let* m := manager in
  run modifyManager (set_remoteUnidirectionalStreamLimitUpdate_ None) in
  ret (remoteUnidirectionalStreamLimitUpdate_ m).

(** Modelled from the spec: [setStreamLimitWindowingFraction(fraction)] is
    defined in the header; the tests set the "windowing fraction" with it, and
    a positive fraction replaces the stored one. *)
Definition setStreamLimitWindowingFraction (fraction : Z) : M Conn unit :=
  when_ (bool_decide (fraction > 0))
    (modifyManager (set_streamLimitWindowingFraction_ fraction)).

(** [setMaxLocalBidirectionalStreams(maxStreams, force)]. *)
Definition setMaxLocalBidirectionalStreams (maxStreams : Z) (force : bool) : M Conn unit :=
  if bool_decide (maxStreams > kMaxMaxStreams) then
    throw "Attempt to set maxStreams beyond the max allowed." STREAM_LIMIT_ERROR
  else
    let* m := manager in
    let maxStreamId :=
      wrap64 (maxStreams * kStreamIncrement + initialLocalBidirectionalStreamId_ m) in
    when_ (force || bool_decide (maxStreamId > maxLocalBidirectionalStreamId_ m))
      (modifyManager (fun m =>
         set_maxLocalBidirectionalStreamIdIncreased_ true
           (set_maxLocalBidirectionalStreamId_ maxStreamId m))).

(** [setMaxLocalUnidirectionalStreams(maxStreams, force)]. *)
Definition setMaxLocalUnidirectionalStreams (maxStreams : Z) (force : bool) : M Conn unit :=
  if bool_decide (maxStreams > kMaxMaxStreams) then
    throw "Attempt to set maxStreams beyond the max allowed." STREAM_LIMIT_ERROR
  else
    let* m := manager in
    let maxStreamId :=
      wrap64 (maxStreams * kStreamIncrement + initialLocalUnidirectionalStreamId_ m) in
    when_ (force || bool_decide (maxStreamId > maxLocalUnidirectionalStreamId_ m))
      (modifyManager (fun m =>
         set_maxLocalUnidirectionalStreamIdIncreased_ true
           (set_maxLocalUnidirectionalStreamId_ maxStreamId m))).

(** [setMaxRemoteBidirectionalStreamsInternal(maxStreams, force)]. *)
Definition setMaxRemoteBidirectionalStreamsInternal (maxStreams : Z) (force : bool)
    : M Conn unit :=
  if bool_decide (maxStreams > kMaxMaxStreams) then
    throw "Attempt to set maxStreams beyond the max allowed." STREAM_LIMIT_ERROR
  else
    let* m := manager in
    let maxStreamId :=
      wrap64 (maxStreams * kStreamIncrement + initialRemoteBidirectionalStreamId_ m) in
    when_ (force || bool_decide (maxStreamId > maxRemoteBidirectionalStreamId_ m))
      (modifyManager (set_maxRemoteBidirectionalStreamId_ maxStreamId)).

(** [setMaxRemoteUnidirectionalStreamsInternal(maxStreams, force)]. *)
Definition setMaxRemoteUnidirectionalStreamsInternal (maxStreams : Z) (force : bool)
    : M Conn unit :=
  if bool_decide (maxStreams > kMaxMaxStreams) then
    throw "Attempt to set maxStreams beyond the max allowed." STREAM_LIMIT_ERROR
  else
    let* m := manager in
    let maxStreamId :=
      wrap64 (maxStreams * kStreamIncrement + initialRemoteUnidirectionalStreamId_ m) in
    when_ (force || bool_decide (maxStreamId > maxRemoteUnidirectionalStreamId_ m))
      (modifyManager (set_maxRemoteUnidirectionalStreamId_ maxStreamId)).

Definition setMaxRemoteBidirectionalStreams (maxStreams : Z) : M Conn unit :=
  setMaxRemoteBidirectionalStreamsInternal maxStreams false.

Definition setMaxRemoteUnidirectionalStreams (maxStreams : Z) : M Conn unit :=
  setMaxRemoteUnidirectionalStreamsInternal maxStreams false.

(** [refreshTransportSettings(settings)].  [transportSettings_] points to
    the settings of the connection; the settings passed are those settings. *)
Definition refreshTransportSettings : M Conn unit :=
  let* settings := gets transportSettings in
  run setMaxRemoteBidirectionalStreamsInternal (advertisedInitialMaxStreamsBidi settings) true in
  setMaxRemoteUnidirectionalStreamsInternal (advertisedInitialMaxStreamsUni settings) true.

(** [notifyStreamPriorityChanges()]. *)
Definition notifyStreamPriorityChanges : M Conn unit :=
  modifyManager (fun m =>
    match priorityChangesObserver_ m with
    | Some calls => set_priorityChangesObserver_ (Some (calls ++ [tt])) m
    | None => m
    end).

(** [addToStreamPriorityMap(streamState)]. *)
Definition addToStreamPriorityMap (streamState : QuicStreamState) : M Conn unit :=
  let* m := manager in
  match streamPriorityLevels_ m !! stream_id streamState with
  | Some _ =>
      throw "Attempted to add stream already in priority map" STREAM_STATE_ERROR
  | None =>
      run modifyManager (fun m =>
        set_streamPriorityLevels_
          (<[stream_id streamState := level (priority streamState)]>
             (streamPriorityLevels_ m)) m) in
      notifyStreamPriorityChanges
  end.

(** [updateAppIdleState()]. *)
Definition updateAppIdleState : M Conn unit :=
  let* m := manager in
  let currentNonCtrlStreams := hasNonCtrlStreams m in
  if isAppIdle_ m && negb currentNonCtrlStreams then ret tt
  else if negb (isAppIdle_ m) && currentNonCtrlStreams then ret tt
  else
    run modifyManager (set_isAppIdle_ (negb currentNonCtrlStreams)) in
    modify (fun conn =>
      match congestionController conn with
      | Some _ => set_appIdleCalls (appIdleCalls conn ++ [negb currentNonCtrlStreams]) conn
      | None => conn
      end).

(** Modelled from the spec: the constructor [QuicStreamState(streamId, conn)]
    is defined outside the translated sources; a new stream is not a control
    stream and has the default priority. *)
Definition newStreamState (streamId : Z) : QuicStreamState :=
  {| stream_id := streamId; isControl := false; priority := kDefaultPriority |}.

(** [streams_.emplace(streamId, QuicStreamState(streamId, conn))]: the record
    under [streamId] after the call, and whether it was inserted. *)
Definition emplaceStream (streamId : Z) : M Conn (QuicStreamState * bool) :=
  let* m := manager in
  match streams_ m !! streamId with
  | Some existing => ret (existing, false)
  | None =>
      run modifyManager (set_streams_ (<[streamId := newStreamState streamId]> (streams_ m))) in
      ret (newStreamState streamId, true)
  end.

(** [getOrCreateOpenedLocalStream(streamId)]. *)
Definition getOrCreateOpenedLocalStream (streamId : Z) : M Conn (option QuicStreamState) :=
  let* m := manager in
  let openLocalStreams :=
    if isUnidirectionalStream streamId
    then openUnidirectionalLocalStreams_ m
    else openBidirectionalLocalStreams_ m in
  if bool_decide (streamId ∈ openLocalStreams) then
    let* it := emplaceStream streamId in
    run modify (QUIC_STATS onNewQuicStream) in
    if negb it.2 then throw "Creating an active stream" STREAM_STATE_ERROR
    else
      run addToStreamPriorityMap it.1 in
      ret (Some it.1)
  else ret None.

(** [getOrCreatePeerStream(streamId)]. *)
Definition getOrCreatePeerStream (streamId : Z) : M Conn (option QuicStreamState) :=
  let* m := manager in
  if bool_decide (nodeType_ m = Client) && isClientStream streamId then
    throw "Attempted getting client peer stream on client" STREAM_STATE_ERROR
  else if bool_decide (nodeType_ m = Server) && isServerStream streamId then
    throw "Attempted getting server peer stream on server" STREAM_STATE_ERROR
  else if negb (isClientStream streamId) && negb (isServerStream streamId) then
    throw "Invalid stream" STREAM_STATE_ERROR
  else
    match streams_ m !! streamId with
    | Some peerStream => ret (Some peerStream)
    | None =>
        let uni := isUnidirectionalStream streamId in
        let openPeerStreams :=
          if uni then openUnidirectionalPeerStreams_ m
          else openBidirectionalPeerStreams_ m in
        if bool_decide (streamId ∈ openPeerStreams) then
          let* it := emplaceStream streamId in
          run addToStreamPriorityMap it.1 in
          run modify (QUIC_STATS onNewQuicStream) in
          ret (Some it.1)
        else
          let nextAcceptableStreamId :=
            if uni then nextAcceptablePeerUnidirectionalStreamId_ m
            else nextAcceptablePeerBidirectionalStreamId_ m in
          let maxStreamId :=
            if uni then maxRemoteUnidirectionalStreamId_ m
            else maxRemoteBidirectionalStreamId_ m in
          let '(openedResult, openPeerStreams', nextAcceptableStreamId', newPeerStreams') :=
            openPeerStreamIfNotClosed streamId openPeerStreams nextAcceptableStreamId
              maxStreamId (newPeerStreams_ m) in
          run modifyManager (fun m =>
            let m1 :=
              if uni then
                set_nextAcceptablePeerUnidirectionalStreamId_ nextAcceptableStreamId'
                  (set_openUnidirectionalPeerStreams_ openPeerStreams' m)
              else
                set_nextAcceptablePeerBidirectionalStreamId_ nextAcceptableStreamId'
                  (set_openBidirectionalPeerStreams_ openPeerStreams' m) in
            set_newPeerStreams_ newPeerStreams' m1) in
          match openedResult with
          | CREATING_EXISTING_STREAM => ret None
          | STREAM_LIMIT_EXCEEDED => throw "Exceeded stream limit." STREAM_LIMIT_ERROR
          | LOCAL_NO_ERROR =>
              let* it := emplaceStream streamId in
              run addToStreamPriorityMap it.1 in
              run modify (QUIC_STATS onNewQuicStream) in
              ret (Some it.1)
          end
    end.

(** [getStream(streamId)]. *)
Definition getStream (streamId : Z) : M Conn (option QuicStreamState) :=
  let* m := manager in
  if isRemoteStream (nodeType_ m) streamId then
    let* stream := getOrCreatePeerStream streamId in
    run updateAppIdleState in
    ret stream
  else
    match streams_ m !! streamId with
    | Some st => ret (Some st)
    | None =>
        let* stream := getOrCreateOpenedLocalStream streamId in
        let* m' := manager in
        let nextAcceptableStreamId :=
          if isUnidirectionalStream streamId
          then nextAcceptableLocalUnidirectionalStreamId_ m'
          else nextAcceptableLocalBidirectionalStreamId_ m' in
        if bool_decide (stream = None) && isStreamUnopened streamId nextAcceptableStreamId
        then throw "Trying to get unopened local stream" STREAM_STATE_ERROR
        else
          run updateAppIdleState in
          ret stream
    end.

(** [createStream(streamId)]. *)
Definition createStream (streamId : Z)
    : M Conn (Expected QuicStreamState LocalErrorCode) :=
  let* m := manager in
  if bool_decide (nodeType_ m = Client) && negb (isClientStream streamId) then
    throw "Attempted creating non-client stream on client" STREAM_STATE_ERROR
  else if bool_decide (nodeType_ m = Server) && negb (isServerStream streamId) then
    throw "Attempted creating non-server stream on server" STREAM_STATE_ERROR
  else
    let* existingStream := getOrCreateOpenedLocalStream streamId in
    match existingStream with
    | Some st => ret (Value st)
    | None =>
        let* m := manager in
        let isUni := isUnidirectionalStream streamId in
        let nextAcceptableStreamId :=
          if isUni then nextAcceptableLocalUnidirectionalStreamId_ m
          else nextAcceptableLocalBidirectionalStreamId_ m in
        let maxStreamId :=
          if isUni then maxLocalUnidirectionalStreamId_ m
          else maxLocalBidirectionalStreamId_ m in
        let openLocalStreams :=
          if isUni then openUnidirectionalLocalStreams_ m
          else openBidirectionalLocalStreams_ m in
        let '(openedResult, openLocalStreams', nextAcceptableStreamId') :=
          openLocalStreamIfNotClosed streamId openLocalStreams nextAcceptableStreamId
            maxStreamId in
        run modifyManager (fun m =>
          if isUni then
            set_nextAcceptableLocalUnidirectionalStreamId_ nextAcceptableStreamId'
              (set_openUnidirectionalLocalStreams_ openLocalStreams' m)
          else
            set_nextAcceptableLocalBidirectionalStreamId_ nextAcceptableStreamId'
              (set_openBidirectionalLocalStreams_ openLocalStreams' m)) in
        match openedResult with
        | LOCAL_NO_ERROR =>
            let* it := emplaceStream streamId in
            run addToStreamPriorityMap it.1 in
            run modify (QUIC_STATS onNewQuicStream) in
            run updateAppIdleState in
            ret (Value it.1)
        | code => ret (Unexpected code)
        end
    end.

(** [createNextBidirectionalStream()]. *)
Definition createNextBidirectionalStream
    : M Conn (Expected QuicStreamState LocalErrorCode) :=
  let* m := manager in
  let* stream := createStream (nextBidirectionalStreamId_ m) in
  run when_ (negb (hasError stream))
    (modifyManager (fun m =>
       set_nextBidirectionalStreamId_
         (wrap64 (nextBidirectionalStreamId_ m + kStreamIncrement)) m)) in
  ret stream.

(** [createNextUnidirectionalStream()]. *)
Definition createNextUnidirectionalStream
    : M Conn (Expected QuicStreamState LocalErrorCode) :=
  let* m := manager in
  let* stream := createStream (nextUnidirectionalStreamId_ m) in
  run when_ (negb (hasError stream))
    (modifyManager (fun m =>
       set_nextUnidirectionalStreamId_
         (wrap64 (nextUnidirectionalStreamId_ m + kStreamIncrement)) m)) in
  ret stream.

(** The erasures [removeClosedStream] makes in the indices keyed by stream. *)
Definition eraseFromIndices (streamId : Z) (m : QuicStreamManager) : QuicStreamManager :=
  let m := set_readableStreams_ (readableStreams_ m ∖ {[streamId]}) m in
  let m := set_peekableStreams_ (peekableStreams_ m ∖ {[streamId]}) m in
  let m := set_writableStreams_ (writableStreams_ m ∖ {[streamId]}) m in
  let m := set_writableDSRStreams_ (writableDSRStreams_ m ∖ {[streamId]}) m in
  let m := set_writableControlStreams_ (writableControlStreams_ m ∖ {[streamId]}) m in
  let m := set_lossStreams_ (lossStreams_ m ∖ {[streamId]}) m in
  let m := set_blockedStreams_ (blockedStreams_ m ∖ {[streamId]}) m in
  let m := set_deliverableStreams_ (deliverableStreams_ m ∖ {[streamId]}) m in
  let m := set_txStreams_ (txStreams_ m ∖ {[streamId]}) m in
  let m := set_windowUpdates_ (windowUpdates_ m ∖ {[streamId]}) m in
  let m := set_stopSendingStreams_ (stopSendingStreams_ m ∖ {[streamId]}) m in
  set_flowControlUpdated_ (flowControlUpdated_ m ∖ {[streamId]}) m.

(** The stream credit [removeClosedStream] computes for a peer stream, from
    the manager after the stream was erased from the open set. *)
Definition streamCredit (initialStreamLimit openableRemoteStreams : Z)
    (openPeerStreams : gset Z) : Z :=
  wrap64 (wrap64 (initialStreamLimit - openableRemoteStreams) -
          Z.of_nat (size openPeerStreams)).

(** [removeClosedStream(streamId)].  The two [DCHECK]s are debug assertions
    and are left out.  For a peer stream the source divides the initial stream
    limit by [streamLimitWindowingFraction_], an unsigned division whose
    behaviour is undefined at 0: there the process is taken to stop. *)
Definition removeClosedStream (streamId : Z) : M Conn unit :=
  let* m := manager in
  match streams_ m !! streamId with
  | None => ret tt
  | Some it =>
      run modifyManager (eraseFromIndices streamId) in
      let* m := manager in
      match streamPriorityLevels_ m !! streamId with
      | None => throw "Removed stream is not in the priority map" STREAM_STATE_ERROR
      | Some _ =>
          run modifyManager (fun m =>
            set_streamPriorityLevels_ (delete streamId (streamPriorityLevels_ m)) m) in
          run when_ (isControl it)
            (modifyManager (fun m =>
               set_numControlStreams_ (wrap64 (numControlStreams_ m - 1)) m)) in
          run modifyManager (fun m => set_streams_ (delete streamId (streams_ m)) m) in
          run modify (QUIC_STATS onQuicStreamClosed) in
          let* m := manager in
          run (if isRemoteStream (nodeType_ m) streamId then
             let uni := isUnidirectionalStream streamId in
             run modifyManager (fun m =>
               if uni then
                 set_openUnidirectionalPeerStreams_
                   (openUnidirectionalPeerStreams_ m ∖ {[streamId]}) m
               else
                 set_openBidirectionalPeerStreams_
                   (openBidirectionalPeerStreams_ m ∖ {[streamId]}) m) in
             let* m := manager in
             let* settings := gets transportSettings in
             let openPeerStreams :=
               if uni then openUnidirectionalPeerStreams_ m
               else openBidirectionalPeerStreams_ m in
             let initialStreamLimit :=
               if uni then advertisedInitialMaxStreamsUni settings
               else advertisedInitialMaxStreamsBidi settings in
             if bool_decide (streamLimitWindowingFraction_ m = 0) then
               abort "initialStreamLimit / streamLimitWindowingFraction_: division by zero"
             else
             let streamWindow := initialStreamLimit `div` streamLimitWindowingFraction_ m in
             let openableRemoteStreams :=
               if uni then openableRemoteUnidirectionalStreams m
               else openableRemoteBidirectionalStreams m in
             let credit :=
               streamCredit initialStreamLimit openableRemoteStreams openPeerStreams in
             when_ (bool_decide (credit >= streamWindow))
               (if uni then
                  let maxStreams :=
                    wrap64 (maxRemoteUnidirectionalStreamId_ m -
                            initialRemoteUnidirectionalStreamId_ m) `div` kStreamIncrement in
                  run setMaxRemoteUnidirectionalStreams (wrap64 (maxStreams + credit)) in
                  modifyManager
                    (set_remoteUnidirectionalStreamLimitUpdate_
                       (Some (wrap64 (maxStreams + credit))))
                else
                  let maxStreams :=
                    wrap64 (maxRemoteBidirectionalStreamId_ m -
                            initialRemoteBidirectionalStreamId_ m) `div` kStreamIncrement in
                  run setMaxRemoteBidirectionalStreams (wrap64 (maxStreams + credit)) in
                  modifyManager
                    (set_remoteBidirectionalStreamLimitUpdate_
                       (Some (wrap64 (maxStreams + credit)))))
           else
             modifyManager (fun m =>
               if isUnidirectionalStream streamId then
                 set_openUnidirectionalLocalStreams_
                   (openUnidirectionalLocalStreams_ m ∖ {[streamId]}) m
               else
                 set_openBidirectionalLocalStreams_
                   (openBidirectionalLocalStreams_ m ∖ {[streamId]}) m)) in
          run updateAppIdleState in
          notifyStreamPriorityChanges
      end
  end.

(** [setStreamAsControl(stream)], on the record stored under [streamId]. *)
Definition setStreamAsControl (streamId : Z) : M Conn unit :=
  let* m := manager in
  match streams_ m !! streamId with
  | Some stream =>
      run when_ (negb (isControl stream))
        (modifyManager (fun m =>
           set_numControlStreams_ (wrap64 (numControlStreams_ m + 1))
             (set_streams_ (<[streamId := set_isControl true stream]> (streams_ m)) m))) in
      updateAppIdleState
  | None => updateAppIdleState
  end.

(** [isAppIdle()]. *)
Definition isAppIdle (m : QuicStreamManager) : bool := isAppIdle_ m.

(** The loop of [getHighestPriorityLevel] over the entries of the priority
    map: the running minimum, and the [break] once it is 0. *)
Fixpoint highestPriorityLoop (entries : list (Z * Z)) (min : Z) : Z :=
  match entries with
  | [] => min
  | entry :: rest =>
      let min := if bool_decide (entry.2 < min) then entry.2 else min in
      if bool_decide (min = 0) then min else highestPriorityLoop rest min
  end.

(** [getHighestPriorityLevel()].  The entries are visited in the order the
    map yields them. *)
Definition getHighestPriorityLevel (m : QuicStreamManager) : Z :=
  highestPriorityLoop (map_to_list (streamPriorityLevels_ m)) kDefaultMaxPriority.

(** [setStreamPriority(id, level, incremental)]. *)
Definition setStreamPriority (id : Z) (lvl : Z) (incr : bool) : M Conn bool :=
  let* m := manager in
  match findStream m id with
  | Some stream =>
      let newPriority := mkPriority lvl incr in
      if bool_decide (priority stream = newPriority) then ret false
      else
        run modifyManager (fun m =>
          set_streams_ (<[id := set_priority newPriority stream]> (streams_ m)) m) in
        match streamPriorityLevels_ m !! id with
        | None => throw "Active stream not in stream priority map" STREAM_STATE_ERROR
        | Some _ =>
            run modifyManager (fun m =>
              set_streamPriorityLevels_ (<[id := lvl]> (streamPriorityLevels_ m)) m) in
            run notifyStreamPriorityChanges in
            ret true
        end
  | None => ret false
  end.

(** [consumeMaxLocalBidirectionalStreamIdIncreased()]. *)
Definition consumeMaxLocalBidirectionalStreamIdIncreased : M Conn bool :=
  let* m := manager in
  run modifyManager (set_maxLocalBidirectionalStreamIdIncreased_ false) in
  ret (maxLocalBidirectionalStreamIdIncreased_ m).

(** [consumeMaxLocalUnidirectionalStreamIdIncreased()]. *)
Definition consumeMaxLocalUnidirectionalStreamIdIncreased : M Conn bool :=
  let* m := manager in
  run modifyManager (set_maxLocalUnidirectionalStreamIdIncreased_ false) in
  ret (maxLocalUnidirectionalStreamIdIncreased_ m).

(** The members that belong to one direction of peer streams. *)
Definition peerOpenStreams (m : QuicStreamManager) (uni : bool) : gset Z :=
  if uni then openUnidirectionalPeerStreams_ m else openBidirectionalPeerStreams_ m.

Definition peerNextAcceptable (m : QuicStreamManager) (uni : bool) : Z :=
  if uni then nextAcceptablePeerUnidirectionalStreamId_ m
  else nextAcceptablePeerBidirectionalStreamId_ m.

Definition peerMaxStreamId (m : QuicStreamManager) (uni : bool) : Z :=
  if uni then maxRemoteUnidirectionalStreamId_ m else maxRemoteBidirectionalStreamId_ m.

Definition peerInitialStreamId (m : QuicStreamManager) (uni : bool) : Z :=
  if uni then initialRemoteUnidirectionalStreamId_ m
  else initialRemoteBidirectionalStreamId_ m.

Definition peerLimitUpdate (m : QuicStreamManager) (uni : bool) : option Z :=
  if uni then remoteUnidirectionalStreamLimitUpdate_ m
  else remoteBidirectionalStreamLimitUpdate_ m.

Definition advertisedInitialMaxStreams (settings : TransportSettings) (uni : bool) : Z :=
  if uni then advertisedInitialMaxStreamsUni settings
  else advertisedInitialMaxStreamsBidi settings.

(** The stream IDs [start], [start + 4], ... up to [streamId]. *)
Definition streamIdsUpTo (start streamId : Z) : list Z :=
  map (fun i => start + kStreamIncrement * Z.of_nat i)
    (seq 0 (openStreamsFuel start streamId)).

(** Calls in sequence, each on the state the previous one left. *)
Fixpoint forEach {A} (f : A -> M Conn unit) (xs : list A) : M Conn unit :=
  match xs with
  | [] => ret tt
  | x :: rest => run f x in forEach f rest
  end.

End Manager.

End QuicStreamManagerModel.

(** ** quic/server/state/ServerStateMachine.cpp *)

Module ServerStateMachine.

Import QuicStateFunctions QuicStreamManagerModel.

Local Open Scope quic_scope.

(** *** Packets and frames, as far as the state machine looks into them *)

(** The result of [parseLongHeaderInvariant]. *)
Record ParsedLongHeaderInvariant : Type := mkInvariant {
  invariantVersion : QuicVersion;
  srcConnId : list Z;
  dstConnId : list Z
}.

(** A packet header: long (with its version) or short (with its destination
    connection ID). *)
Inductive PacketHeader : Type :=
  | LongHeader (version : QuicVersion) (protectionType : ProtectionType)
      (packetNumberSpace : PacketNumberSpace) (packetSequenceNum : Z)
  | ShortHeader (connectionId : list Z) (protectionType : ProtectionType)
      (packetNumberSpace : PacketNumberSpace) (packetSequenceNum : Z).

Definition getProtectionType (h : PacketHeader) : ProtectionType :=
  match h with LongHeader _ p _ _ => p | ShortHeader _ p _ _ => p end.

Definition getPacketNumberSpace (h : PacketHeader) : PacketNumberSpace :=
  match h with LongHeader _ _ s _ => s | ShortHeader _ _ s _ => s end.

Definition getPacketSequenceNum (h : PacketHeader) : Z :=
  match h with LongHeader _ _ _ n => n | ShortHeader _ _ _ n => n end.

(** Frames of a received packet.  Payloads the state machine only passes on
    are kept as opaque numbers. *)
Inductive QuicFrame : Type :=
  | PaddingFrame
  | ReadAckFrame (ackFrame : Z)
  | RstStreamFrame (streamId : Z) (payload : Z)
  | ReadCryptoFrame (offset : Z) (frameData : list Z)
  | ReadStreamFrame (streamId : Z) (offset : Z) (frameData : list Z) (fin : bool)
  | MaxDataFrame (maximumData : Z)
  | MaxStreamDataFrame (streamId : Z) (maximumData : Z)
  | DataBlockedFrame
  | StreamDataBlockedFrame (streamId : Z)
  | StreamsBlockedFrame (streamLimit : Z)
  | ConnectionCloseFrame (closeErrorCode : Z) (reasonPhrase : string)
  | PingFrame
  | SimpleFrame (frame : QuicSimpleFrame)
  | DatagramFrame (len : Z) (frameData : list Z)
  | OtherFrame (frameType : Z).

(** Frames of a sent packet, as the ack visitor sees them. *)
Inductive QuicWriteFrame : Type :=
  | WriteStreamFrame (streamId offset len : Z) (fin : bool)
  | WriteCryptoFrame (offset len : Z)
  | WriteRstStreamFrame (streamId : Z)
  | WriteAckFrame (ackBlocks : Z)
  | WritePingFrame
  | WriteSimpleFrame (frame : QuicSimpleFrame)
  | OtherWriteFrame (frameType : Z).

Record RegularQuicPacket : Type := mkRegularPacket {
  header : PacketHeader;
  frames_of : list QuicFrame
}.

(** [CodecResult]. *)
Inductive CodecResult : Type :=
  | CIPHER_UNAVAILABLE (packet : option (list Z)) (protectionType : ProtectionType)
  | RETRY
  | STATELESS_RESET
  | NOTHING
  | REGULAR_PACKET (packet : RegularQuicPacket).

(** [parsedPacket.regularPacket()]. *)
Definition regularPacket (r : CodecResult) : option RegularQuicPacket :=
  match r with REGULAR_PACKET p => Some p | _ => None end.

(** The four flags the frame loop of one packet keeps. *)
Record PacketFlags : Type := mkFlags {
  pktHasRetransmittableData : bool;
  pktHasCryptoData : bool;
  isNonProbingPacket : bool;
  handshakeConfirmedThisLoop : bool
}.

(** *** Collaborators

    Everything the state machine calls that is defined outside the translated
    sources: the clock and the random source (one reading per event), the
    qlog strings, the codec, the crypto factory, the handshake driver and the
    frame handlers.  A handler that can raise is a computation on the
    connection. *)
Class ServerCollaborators : Type := {
  clockNow : Z;
  secureRandom : Z;
  kNoData : string;
  kUnexpectedProtectionLevel : string;
  kMaxBuffered : string;
  kBufferUnavailable : string;
  kRetry : string;
  kReset : string;
  kCipherUnavailable : string;
  kDerivedZeroRttReadCipher : string;
  kDerivedOneRttWriteCipher : string;
  kDerivedOneRttReadCipher : string;
  getPeerClose : string -> string;
  parseLongHeaderInvariant : list Z -> option ParsedLongHeaderInvariant;
  parsePacket : QuicReadCodec -> AckStates -> list Z -> CodecResult * list Z;
  protectionTypeToEncryptionLevel : ProtectionType -> EncryptionLevel;
  getClientInitialCipher : list Z -> QuicVersion -> Cipher;
  getServerInitialCipher : list Z -> QuicVersion -> Cipher;
  makeClientInitialHeaderCipher : list Z -> QuicVersion -> Cipher;
  makeServerInitialHeaderCipher : list Z -> QuicVersion -> Cipher;
  generateToken : Z -> SocketAddress -> list Z -> Z;
  doHandshake : list Z -> EncryptionLevel -> M QuicServerConnectionState unit;
  updatePacingOnKeyEstablished : PacingState -> PacingState;
  updateLargestReceivedPacketNum : AckState -> Z -> Z -> bool * AckState;
  processAckFrame :
    forall A : Type, PacketNumberSpace -> Z ->
      (bool -> QuicWriteFrame -> A -> M QuicServerConnectionState A) ->
      Z -> A -> M QuicServerConnectionState A;
  sendAckSMHandler : QuicStreamState -> QuicWriteFrame -> M QuicServerConnectionState unit;
  sendRstAckSMHandler : QuicStreamState -> M QuicServerConnectionState unit;
  processCryptoStreamAck : EncryptionLevel -> Z -> Z -> M QuicServerConnectionState unit;
  commonAckVisitorForAckFrame : PacketNumberSpace -> Z -> M QuicServerConnectionState unit;
  receiveRstStreamSMHandler : QuicStreamState -> QuicFrame -> M QuicServerConnectionState unit;
  appendDataToReadBuffer : EncryptionLevel -> Z -> list Z -> M QuicServerConnectionState unit;
  receiveReadStreamFrameSMHandler :
    QuicStreamState -> QuicFrame -> M QuicServerConnectionState unit;
  handleConnWindowUpdate : Z -> Z -> M QuicServerConnectionState unit;
  handleStreamWindowUpdate : QuicStreamState -> Z -> Z -> M QuicServerConnectionState unit;
  handleConnBlocked : M QuicServerConnectionState unit;
  handleStreamBlocked : QuicStreamState -> M QuicServerConnectionState unit;
  updateSimpleFrameOnPacketReceived :
    QuicSimpleFrame -> Z -> bool -> M QuicServerConnectionState bool;
  handleDatagram : Z -> list Z -> M QuicServerConnectionState unit;
  handshakeConfirmed : M QuicServerConnectionState unit;
  readDataFromCryptoStream : EncryptionLevel -> M QuicServerConnectionState (option (list Z));
  implicitAckCryptoStream : EncryptionLevel -> M QuicServerConnectionState unit
}.

Section Server.
Context `{K : QuicConstants} `{C : ServerCollaborators}.

Local Abbreviation Conn := QuicServerConnectionState.

(** Modelled from the spec: [isReceivingStream(nodeType, stream)] is defined
    outside the translated sources; a receiving stream is "a receive-only
    stream (per ID parity)", a unidirectional stream the peer opened. *)
Definition isReceivingStream (nodeType : QuicNodeType) (stream : Z) : bool :=
  isUnidirectionalStream stream && isRemoteStream nodeType stream.

(** Modelled from the spec: [sendSimpleFrame(conn, frame)] is defined outside
    the translated sources; the server is to "send a HANDSHAKE_DONE frame",
    which queues the frame for the next write. *)
Definition sendSimpleFrame (frame : QuicSimpleFrame) : M Conn unit :=
  modify (upd_pendingEvents (fun pe => set_frames (frames pe ++ [frame]) pe)).

(** Modelled from the spec: the getters of the handshake driver are defined
    outside the translated sources; the state machine is to "pull each cipher
    that has become available from the handshake driver", so a getter hands
    the value out and leaves the slot empty. *)
Definition takeFromHandshake {A} (slot : ServerHandshake -> option A)
    (clear : ServerHandshake -> ServerHandshake) : M Conn (option A) :=
  let* hs := gets serverHandshakeLayer in
  run modify (set_serverHandshakeLayer (clear hs)) in
  ret (slot hs).

Definition getZeroRttReadCipher : M Conn (option Cipher) :=
  takeFromHandshake zeroRttReadCipher_ (set_zeroRttReadCipher_ None).
Definition getZeroRttReadHeaderCipher : M Conn (option Cipher) :=
  takeFromHandshake zeroRttReadHeaderCipher_ (set_zeroRttReadHeaderCipher_ None).
Definition getOneRttWriteCipher : M Conn (option Cipher) :=
  takeFromHandshake oneRttWriteCipher_ (set_oneRttWriteCipher_ None).
Definition getOneRttReadCipher : M Conn (option Cipher) :=
  takeFromHandshake oneRttReadCipher_ (set_oneRttReadCipher_ None).
Definition getOneRttWriteHeaderCipher : M Conn (option Cipher) :=
  takeFromHandshake oneRttWriteHeaderCipher_ (set_oneRttWriteHeaderCipher_ None).
Definition getOneRttReadHeaderCipher : M Conn (option Cipher) :=
  takeFromHandshake oneRttReadHeaderCipher_ (set_oneRttReadHeaderCipher_ None).
Definition getHandshakeReadCipher : M Conn (option Cipher) :=
  takeFromHandshake handshakeReadCipher_ (set_handshakeReadCipher_ None).
Definition getHandshakeReadHeaderCipher : M Conn (option Cipher) :=
  takeFromHandshake handshakeReadHeaderCipher_ (set_handshakeReadHeaderCipher_ None).
Definition getClientTransportParams : M Conn (option ClientTransportParameters) :=
  takeFromHandshake clientTransportParams_ (set_clientTransportParams_ None).
Definition isHandshakeDone : M Conn bool :=
  let* hs := gets serverHandshakeLayer in ret (handshakeDone_ hs).

(** Modelled from the spec: [serverHandshakeLayer->accept(extension)] is
    defined outside the translated sources; first packet handling is to "hand
    the client-advertised extension set to the handshake driver", which keeps
    it. *)
Definition accept (extension : ServerTransportParametersExtension) : M Conn unit :=
  let* hs := gets serverHandshakeLayer in
  modify (set_serverHandshakeLayer (set_acceptedParams_ (Some extension) hs)).

(** [maybeNATRebinding(newPeerAddress, oldPeerAddress)]. *)
Definition maybeNATRebinding (newPeerAddress oldPeerAddress : SocketAddress) : bool :=
  let newIPAddr := getIPAddress newPeerAddress in
  let oldIPAddr := getIPAddress oldPeerAddress in
  if bool_decide (newIPAddr = oldIPAddr) then true
  else isV4 newIPAddr && isV4 oldIPAddr && inSubnet newIPAddr oldIPAddr 24.

(** [moveCurrentCongestionAndRttState(conn)]: the controller is moved out of
    the connection. *)
Definition moveCurrentCongestionAndRttState : M Conn CongestionAndRttState :=
  let* conn := get in
  let state := {|
    saved_peerAddress := peerAddress conn;
    saved_recordTime := clockNow;
    saved_congestionController := congestionController conn;
    saved_srtt := srtt (lossState conn);
    saved_lrtt := lrtt (lossState conn);
    saved_rttvar := rttvar (lossState conn);
    saved_mrtt := mrtt (lossState conn)
  |} in
  run modify (set_congestionController None) in
  ret state.

(** [resetCongestionAndRttState(conn)]. *)
Definition resetCongestionAndRttState : M Conn unit :=
  let* factory := gets congestionControllerFactory in
  match factory with
  | None => abort "CongestionControllerFactory is not set."
  | Some makeCongestionController =>
      let* settings := gets transportSettings in
      run modify (set_congestionController
                    (Some (makeCongestionController (defaultCongestionController settings)))) in
      modify (upd_lossState (fun ls =>
        set_mrtt kDefaultMinRtt (set_rttvar 0 (set_lrtt 0 (set_srtt 0 ls)))))
  end.

(** [recoverOrResetCongestionAndRttState(conn, peerAddress)]. *)
Definition recoverOrResetCongestionAndRttState (peerAddr : SocketAddress) : M Conn unit :=
  let* ms := gets migrationState in
  match lastCongestionAndRtt ms with
  | Some lastState =>
      if bool_decide (saved_peerAddress lastState = peerAddr) &&
         bool_decide (clockNow - saved_recordTime lastState <=
                      kTimeToRetainLastCongestionAndRttState)
      then
        run modify (set_congestionController (saved_congestionController lastState)) in
        run modify (upd_lossState (fun ls =>
              set_mrtt (saved_mrtt lastState)
                (set_rttvar (saved_rttvar lastState)
                   (set_lrtt (saved_lrtt lastState)
                      (set_srtt (saved_srtt lastState) ls))))) in
        modify (upd_migrationState (set_lastCongestionAndRtt None))
      else resetCongestionAndRttState
  | None => resetCongestionAndRttState
  end.

(** [setExperimentalSettings(conn)]: empty in the source. *)
Definition setExperimentalSettings : M Conn unit := ret tt.

(** [processClientInitialParams(conn, clientParams)].  The source reads the
    client connection id through [conn.readCodec] without a null check; the
    codec exists whenever the handshake reaches this call, and a missing codec
    is read here as a missing client connection id. *)
Definition processClientInitialParams (clientParams : ClientTransportParameters)
    : M Conn unit :=
  let ps := parameters clientParams in
  let preferredAddress := getIntegerParameter preferred_address ps in
  let origConnId := getIntegerParameter original_destination_connection_id ps in
  let statelessResetToken := getIntegerParameter stateless_reset_token ps in
  let retrySourceConnId := getIntegerParameter retry_source_connection_id ps in
  let maxData := getIntegerParameter initial_max_data ps in
  let maxStreamDataBidiLocal := getIntegerParameter initial_max_stream_data_bidi_local ps in
  let maxStreamDataBidiRemote := getIntegerParameter initial_max_stream_data_bidi_remote ps in
  let maxStreamDataUni := getIntegerParameter initial_max_stream_data_uni ps in
  let maxStreamsBidi := getIntegerParameter initial_max_streams_bidi ps in
  let maxStreamsUni := getIntegerParameter initial_max_streams_uni ps in
  let idleTimeout := getIntegerParameter idle_timeout ps in
  let ackDelayExponent := getIntegerParameter ack_delay_exponent ps in
  let packetSize := getIntegerParameter max_packet_size ps in
  let activeConnectionIdLimit := getIntegerParameter active_connection_id_limit ps in
  let d6dBasePMTU := getIntegerParameter d6d_base_pmtu ps in
  let d6dRaiseTimeout := getIntegerParameter d6d_raise_timeout ps in
  let d6dProbeTimeout := getIntegerParameter d6d_probe_timeout ps in
  let minAckDelay := getIntegerParameter min_ack_delay ps in
  let maxAckDelay := getIntegerParameter max_ack_delay ps in
  let maxDatagramFrameSize := getIntegerParameter max_datagram_frame_size ps in
  let* v := gets version in
  let* codec := gets readCodec in
  let tooSmall (x : option Z) (bound : Z) : bool :=
    match x with Some n => bool_decide (n < bound) | None => false end in
  let nonZero (x : option Z) : bool :=
    match x with Some n => bool_decide (n ≠ 0) | None => false end in
  if (bool_decide (v = Some QUIC_DRAFT) || bool_decide (v = Some QUIC_V1)) &&
     match getConnIdParameter initial_source_connection_id ps with
     | None => true
     | Some initialSourceConnId =>
         bool_decide (Some initialSourceConnId ≠
                      (codec ≫= codec_clientConnectionId))
     end
  then throw "Initial CID does not match." TRANSPORT_PARAMETER_ERROR
  else if nonZero preferredAddress then
    throw "Preferred Address is received by server" TRANSPORT_PARAMETER_ERROR
  else if nonZero origConnId then
    throw "OriginalDestinationConnectionId is received by server" TRANSPORT_PARAMETER_ERROR
  else if nonZero statelessResetToken then
    throw "Stateless Reset Token is received by server" TRANSPORT_PARAMETER_ERROR
  else if nonZero retrySourceConnId then
    throw "Retry Source Connection ID is received by server" TRANSPORT_PARAMETER_ERROR
  else if match maxAckDelay with Some d => bool_decide (d >= kMaxAckDelay) | None => false end
  then throw "Max Ack Delay is greater than 2^14 " TRANSPORT_PARAMETER_ERROR
  else if tooSmall packetSize kMinMaxUDPPayload then
    throw "Max packet size too small. received max_packetSize = " TRANSPORT_PARAMETER_ERROR
  else
    run modify (upd_flowControlState (fun fc =>
          set_peerAdvertisedInitialMaxStreamOffsetUni (default 0 maxStreamDataUni)
            (set_peerAdvertisedInitialMaxStreamOffsetBidiRemote
               (default 0 maxStreamDataBidiRemote)
               (set_peerAdvertisedInitialMaxStreamOffsetBidiLocal
                  (default 0 maxStreamDataBidiLocal)
                  (set_peerAdvertisedMaxOffset (default 0 maxData) fc))))) in
    run setMaxLocalBidirectionalStreams (default 0 maxStreamsBidi) false in
    run setMaxLocalUnidirectionalStreams (default 0 maxStreamsUni) false in
    run modify (set_peerIdleTimeout (timeMin (default 0 idleTimeout) kMaxIdleTimeout)) in
    if match ackDelayExponent with
       | Some e => bool_decide (e > kMaxAckDelayExponent)
       | None => false
       end
    then throw "ack_delay_exponent too large" TRANSPORT_PARAMETER_ERROR
    else
      run modify (set_peerAckDelayExponent
                    (default kDefaultAckDelayExponent ackDelayExponent)) in
      run match minAckDelay with
          | Some d => modify (set_peerMinAckDelay (Some d))
          | None => ret tt
          end in
      let datagramTooSmall :=
        match maxDatagramFrameSize with
        | Some n => bool_decide (n > 0) && bool_decide (n <= kMaxDatagramPacketOverhead)
        | None => false
        end in
      if datagramTooSmall
      then throw "max_datagram_frame_size too small" TRANSPORT_PARAMETER_ERROR
      else
        run match maxDatagramFrameSize with
            | Some n =>
                modify (fun conn =>
                  set_datagramState (set_maxWriteFrameSize n (datagramState conn)) conn)
            | None => ret tt
            end in
        let maxUdpPayloadSize :=
          match packetSize with
          | Some n => Z.min n kDefaultMaxUDPPayload
          | None => kDefaultMaxUDPPayload
          end in
        run match packetSize with
            | Some n =>
                run modify (set_peerMaxUdpPayloadSize maxUdpPayloadSize) in
                let* settings := gets transportSettings in
                when_ (canIgnorePathMTU settings)
                  (if bool_decide (n > kDefaultMaxUDPPayload)
                   then modify (set_udpSendPacketLen kDefaultUDPSendPacketLen)
                   else modify (set_udpSendPacketLen maxUdpPayloadSize))
            | None => ret tt
            end in
        run modify (set_peerActiveConnectionIdLimit
                      (default kDefaultActiveConnectionIdLimit activeConnectionIdLimit)) in
        let* settings := gets transportSettings in
        when_ (d6dConfigEnabled settings)
          (let* configureTimeouts :=
             match d6dBasePMTU with
             | Some base =>
                 if bool_decide (base >= kMinMaxUDPPayload) &&
                    bool_decide (base <= kDefaultMaxUDPPayload)
                 then
                   let* sendLen := gets udpSendPacketLen in
                   run modify (upd_d6d (fun d =>
                         set_noBlackholeDetection true
                           (set_timeLastNonSearchState clockNow
                              (set_lastNonSearchState D6D_DISABLED
                                 (set_d6d_state D6D_BASE
                                    (set_maxPMTU maxUdpPayloadSize
                                       (set_basePMTU (Z.max base sendLen) d))))))) in
                   ret true
                 else ret false
             | None => ret true
             end in
           when_ configureTimeouts
             (run match d6dRaiseTimeout with
                  | Some t =>
                      when_ (bool_decide (t >= kMinD6DRaiseTimeout))
                        (modify (upd_d6d (set_raiseTimeout t)))
                  | None => ret tt
                  end in
              match d6dProbeTimeout with
              | Some t =>
                  when_ (bool_decide (t >= kMinD6DProbeTimeout))
                    (modify (upd_d6d (set_probeTimeout t)))
              | None => ret tt
              end)).

(** [updateHandshakeState(conn)]. *)
Definition updateHandshakeState : M Conn unit :=
  let* zeroRttReadCipher := getZeroRttReadCipher in
  let* zeroRttHeaderCipher := getZeroRttReadHeaderCipher in
  let* oneRttWriteCipher := getOneRttWriteCipher in
  let* oneRttReadCipher := getOneRttReadCipher in
  let* oneRttWriteHeaderCipher := getOneRttWriteHeaderCipher in
  let* oneRttReadHeaderCipher := getOneRttReadHeaderCipher in
  run match zeroRttReadCipher with
      | Some cipher =>
          run modify (set_usedZeroRtt true) in
          run modify (qlog (QLogTransportStateUpdate kDerivedZeroRttReadCipher)) in
          modify (upd_readCodec (set_zeroRttReadCipher (Some cipher)))
      | None => ret tt
      end in
  run match zeroRttHeaderCipher with
      | Some cipher => modify (upd_readCodec (set_zeroRttHeaderCipher (Some cipher)))
      | None => ret tt
      end in
  run match oneRttWriteHeaderCipher with
      | Some cipher => modify (set_oneRttWriteHeaderCipher (Some cipher))
      | None => ret tt
      end in
  run match oneRttReadHeaderCipher with
      | Some cipher => modify (upd_readCodec (set_oneRttHeaderCipher (Some cipher)))
      | None => ret tt
      end in
  run match oneRttWriteCipher with
      | Some cipher =>
          run modify (qlog (QLogTransportStateUpdate kDerivedOneRttWriteCipher)) in
          let* installed := gets StateData.oneRttWriteCipher in
          match installed with
          | Some _ => throw "Duplicate 1-rtt write cipher" CRYPTO_ERROR
          | None =>
              run modify (set_oneRttWriteCipher (Some cipher)) in
              run modify (fun conn =>
                    set_pacing (updatePacingOnKeyEstablished (pacing conn)) conn) in
              let* clientParams := getClientTransportParams in
              match clientParams with
              | None => throw "No client transport params" TRANSPORT_PARAMETER_ERROR
              | Some params => processClientInitialParams params
              end
          end
      | None => ret tt
      end in
  run match oneRttReadCipher with
      | Some cipher =>
          run modify (qlog (QLogTransportStateUpdate kDerivedOneRttReadCipher)) in
          run modify (set_writableBytesLimit None) in
          modify (upd_readCodec (set_oneRttReadCipher (Some cipher)))
      | None => ret tt
      end in
  let* handshakeReadCipher := getHandshakeReadCipher in
  let* handshakeReadHeaderCipher := getHandshakeReadHeaderCipher in
  run match handshakeReadCipher with
      | Some cipher =>
          run CHECK (bool_decide (is_Some handshakeReadHeaderCipher))
                "handshakeReadHeaderCipher" in
          run modify (upd_readCodec (set_handshakeReadCipher (Some cipher))) in
          modify (upd_readCodec (set_handshakeHeaderCipher handshakeReadHeaderCipher))
      | None => ret tt
      end in
  let* done := isHandshakeDone in
  when_ done
    (let* installed := gets StateData.oneRttWriteCipher in
     run CHECK (bool_decide (is_Some installed)) "conn.oneRttWriteCipher" in
     let* sent := gets sentHandshakeDone in
     when_ (negb sent)
       (run sendSimpleFrame HandshakeDoneFrame in
        modify (set_sentHandshakeDone true))).

(** [updateWritableByteLimitOnRecvPacket(conn)]. *)
Definition updateWritableByteLimitOnRecvPacket : M Conn unit :=
  modify (fun conn =>
    match writableBytesLimit conn with
    | Some limit =>
        set_writableBytesLimit
          (Some (wrap64 (limit + wrap64 (limitedCwndInMss (transportSettings conn) *
                                         udpSendPacketLen conn)))) conn
    | None => conn
    end).

(** [previousPeerAddresses.erase(it)] for the first occurrence [std::find]
    gives. *)
Fixpoint eraseFirst (a : SocketAddress) (l : list SocketAddress) : list SocketAddress :=
  match l with
  | [] => []
  | x :: rest => if bool_decide (x = a) then rest else x :: eraseFirst a rest
  end.

(** [onConnectionMigration(conn, newPeerAddress, isIntentional)].  The
    migration counter is incremented in [Z]: it is compared with
    [kMaxNumMigrationsAllowed] before every increment. *)
Definition onConnectionMigration (newPeerAddress : SocketAddress) (isIntentional : bool)
    : M Conn unit :=
  let* ms := gets migrationState in
  if bool_decide (numMigrations ms >= kMaxNumMigrationsAllowed) then
    run modify (qlog (QLogPacketDropReason 0 PEER_ADDRESS_CHANGE)) in
    run modify (QUIC_STATS (onPacketDropped PEER_ADDRESS_CHANGE)) in
    throw "Too many migrations" INVALID_MIGRATION
  else
    run modify (upd_migrationState (fun ms => set_numMigrations (numMigrations ms + 1) ms)) in
    let* pe := gets pendingEvents in
    let hasPendingPathChallenge := bool_decide (is_Some (pathChallenge pe)) in
    run modify (upd_pendingEvents (set_pathChallenge None)) in
    let* ms := gets migrationState in
    run (if bool_decide (newPeerAddress ∈ previousPeerAddresses ms)
         then
           modify (upd_migrationState
                     (set_previousPeerAddresses
                        (eraseFirst newPeerAddress (previousPeerAddresses ms))))
         else
           run modify (upd_pendingEvents (set_pathChallenge (Some secureRandom))) in
           let* sendLen := gets udpSendPacketLen in
           modify (set_pathValidationLimiter (Some sendLen))) in
    let* oldPeerAddress := gets peerAddress in
    let isNATRebinding := maybeNATRebinding newPeerAddress oldPeerAddress in
    let* outstanding := gets outstandingPathValidation in
    run (if hasPendingPathChallenge || bool_decide (is_Some outstanding)
         then
           run modify (upd_pendingEvents (set_schedulePathValidationTimeout false)) in
           run modify (set_outstandingPathValidation None) in
           when_ (negb isNATRebinding) (recoverOrResetCongestionAndRttState newPeerAddress)
         else
           run modify (upd_migrationState (fun ms =>
                 set_previousPeerAddresses (previousPeerAddresses ms ++ [oldPeerAddress]) ms)) in
           when_ (negb isNATRebinding)
             (let* state := moveCurrentCongestionAndRttState in
              run recoverOrResetCongestionAndRttState newPeerAddress in
              modify (upd_migrationState (set_lastCongestionAndRtt (Some state))))) in
    run modify (qlog (QLogConnectionMigrationUpdate isIntentional)) in
    modify (set_peerAddress newPeerAddress).

(** [handleCipherUnavailable(originalData, conn, packetSize, readData)]. *)
Definition handleCipherUnavailable (packet : option (list Z)) (protectionType : ProtectionType)
    (packetSize : Z) (readData : ReadData) : M Conn unit :=
  if match packet with None => true | Some p => bool_decide (p = []) end then
    modify (qlog (QLogPacketDrop packetSize kNoData))
  else if bool_decide (protectionType ≠ PT_ZeroRtt) &&
          bool_decide (protectionType ≠ PT_KeyPhaseZero) then
    modify (qlog (QLogPacketDrop packetSize kUnexpectedProtectionLevel))
  else
    let* conn := get in
    let bufferSize (q : option (list ReadData)) : Z :=
      match q with Some l => Z.of_nat (length l) | None => 0 end in
    let combinedSize :=
      bufferSize (pendingZeroRttData conn) + bufferSize (pendingOneRttData conn) in
    if bool_decide (combinedSize >= maxPacketsToBuffer (transportSettings conn)) then
      modify (qlog (QLogPacketDrop packetSize kMaxBuffered))
    else
      let zeroRtt := bool_decide (protectionType = PT_ZeroRtt) in
      let pendingData :=
        if zeroRtt then pendingZeroRttData conn else pendingOneRttData conn in
      match pendingData with
      | Some queue =>
          run modify (qlog (QLogPacketBuffered protectionType packetSize)) in
          let pendingReadData :=
            mkReadData (peer readData)
              (mkNetworkData packet (receiveTimePoint (networkData readData))) in
          modify (if zeroRtt
                  then set_pendingZeroRttData (Some (queue ++ [pendingReadData]))
                  else set_pendingOneRttData (Some (queue ++ [pendingReadData])))
      | None => modify (qlog (QLogPacketDrop packetSize kBufferUnavailable))
      end.

(** [setSupportedExtensionTransportParameters(conn)]. *)
Definition setSupportedExtensionTransportParameters (conn : Conn)
    : list (TransportParameterId * Z) :=
  if datagramConfigEnabled (transportSettings conn)
  then [(max_datagram_frame_size, maxReadFrameSize (datagramState conn))]
  else [].

(** The loop of [createAndAddNewSelfConnId]: while the last result is an ID,
    a rejector is installed, the rejector rejects the ID and the incremented
    counter [encodedTimes] is below [kConnIdEncodingRetryLimit], encode again.
    The counter is incremented only when the first three conditions hold.
    [rejectedByRejector] is the first three conditions.  The loop gives the
    last result, the counter and the algorithm after the calls, or nothing
    when [fuel] iterations were not enough. *)
Definition rejectedByRejector (rejector : option (list Z -> bool))
    (encodedCid : Expected (list Z) string) : bool :=
  match encodedCid, rejector with
  | Value cid, Some rejectConnectionId => rejectConnectionId cid
  | _, _ => false
  end.

Fixpoint encodeRetryLoop (fuel : nat) (rejector : option (list Z -> bool))
    (params : ServerConnectionIdParams) (algo : ConnectionIdAlgo)
    (encodedCid : Expected (list Z) string) (encodedTimes : Z)
    : option (Expected (list Z) string * Z * ConnectionIdAlgo) :=
  if rejectedByRejector rejector encodedCid then
    let encodedTimes := encodedTimes + 1 in
    if bool_decide (encodedTimes < kConnIdEncodingRetryLimit) then
      match fuel with
      | O => None
      | S fuel =>
          let '(encodedCid, algo) := encodeConnectionId algo params in
          encodeRetryLoop fuel rejector params algo encodedCid encodedTimes
      end
    else Some (encodedCid, encodedTimes, algo)
  else Some (encodedCid, encodedTimes, algo).

(** [QuicServerConnectionState::createAndAddNewSelfConnId()]. *)
Definition createAndAddNewSelfConnId : M Conn (option ConnectionIdData) :=
  let* algo := gets connIdAlgo in
  let* params := gets serverConnIdParams in
  let* settings := gets transportSettings in
  let* addr := gets serverAddr in
  match algo, params, statelessResetTokenSecret settings with
  | None, _, _ => abort "connIdAlgo"
  | _, None, _ => abort "serverConnIdParams"
  | _, _, None => abort "transportSettings.statelessResetTokenSecret"
  | Some algo, Some params, Some secret =>
      let* rejector := gets connIdRejector in
      let '(encodedCid, algo) := encodeConnectionId algo params in
      match encodeRetryLoop (Z.to_nat kConnIdEncodingRetryLimit) rejector params algo
              encodedCid 0 with
      | None => abort "encodeRetryLoop: out of fuel"
      | Some (encodedCid, encodedTimes, algo) =>
          run modify (set_connIdAlgo (Some algo)) in
          match encodedCid with
          | Unexpected _ => ret None
          | Value cid =>
              let* sequence := gets nextSelfConnectionIdSequence in
              run modify (set_nextSelfConnectionIdSequence (wrap64 (sequence + 1))) in
              let newConnIdData :=
                mkConnectionIdData cid sequence (Some (generateToken secret addr cid)) in
              run modify (fun conn =>
                    set_selfConnectionIds (selfConnectionIds conn ++ [newConnIdData]) conn) in
              ret (Some newConnIdData)
          end
      end
  end.

(** The check of the frames of an unprotected packet (the first frame loop of
    [onServerReadDataFromOpen]). *)
Definition permittedUnprotected (quicFrame : QuicFrame) : bool :=
  match quicFrame with
  | PaddingFrame | ReadAckFrame _ | ConnectionCloseFrame _ _ | ReadCryptoFrame _ _
  | PingFrame => true
  | _ => false
  end.

Fixpoint checkUnprotectedFrames (packetSize : Z) (quicFrames : list QuicFrame) : M Conn unit :=
  match quicFrames with
  | [] => ret tt
  | quicFrame :: rest =>
      if permittedUnprotected quicFrame then checkUnprotectedFrames packetSize rest
      else
        run modify (QUIC_STATS (onPacketDropped DROP_PROTOCOL_VIOLATION)) in
        run modify (qlog (QLogPacketDropReason packetSize DROP_PROTOCOL_VIOLATION)) in
        throw "Invalid frame" PROTOCOL_VIOLATION
  end.

(** The visitor [onServerReadDataFromOpen] passes to [processAckFrame]. *)
Definition ackVisitor (encryptionLevel : EncryptionLevel) (packetNumberSpace : PacketNumberSpace)
    (isD6DProbe : bool) (packetFrame : QuicWriteFrame) (flags : PacketFlags)
    : M Conn PacketFlags :=
  match packetFrame with
  | WriteStreamFrame streamId _ _ _ =>
      let* ackedStream := getStream streamId in
      run match ackedStream with
          | Some stream => sendAckSMHandler stream packetFrame
          | None => ret tt
          end in
      ret flags
  | WriteCryptoFrame offset len =>
      run processCryptoStreamAck encryptionLevel offset len in
      ret flags
  | WriteRstStreamFrame streamId =>
      let* stream := getStream streamId in
      run match stream with
          | Some stream => sendRstAckSMHandler stream
          | None => ret tt
          end in
      ret flags
  | WriteAckFrame ackBlocks =>
      run commonAckVisitorForAckFrame packetNumberSpace ackBlocks in
      ret flags
  | WritePingFrame =>
      run when_ (negb isD6DProbe) (modify (upd_pendingEvents (set_cancelPingTimeout true))) in
      ret flags
  | WriteSimpleFrame frame =>
      match frame with
      | HandshakeDoneFrame =>
          ret (mkFlags (pktHasRetransmittableData flags) (pktHasCryptoData flags)
                 (isNonProbingPacket flags) true)
      | _ => ret flags
      end
  | OtherWriteFrame _ => ret flags
  end.

(** One turn of the second frame loop of [onServerReadDataFromOpen]. *)
Definition processFrame (readData : ReadData) (packetNum : Z)
    (packetNumberSpace : PacketNumberSpace) (encryptionLevel : EncryptionLevel)
    (quicFrame : QuicFrame) (flags : PacketFlags) : M Conn PacketFlags :=
  let retransmittable (nonProbing : bool) (f : PacketFlags) :=
    mkFlags true (pktHasCryptoData f) (nonProbing || isNonProbingPacket f)
      (handshakeConfirmedThisLoop f) in
  let nonProbing (f : PacketFlags) :=
    mkFlags (pktHasRetransmittableData f) (pktHasCryptoData f) true
      (handshakeConfirmedThisLoop f) in
  match quicFrame with
  | ReadAckFrame ackFrame =>
      processAckFrame PacketFlags packetNumberSpace ackFrame
        (ackVisitor encryptionLevel packetNumberSpace)
        (receiveTimePoint (networkData readData)) (nonProbing flags)
  | RstStreamFrame streamId _ =>
      let* stream := getStream streamId in
      run match stream with
          | Some stream => receiveRstStreamSMHandler stream quicFrame
          | None => ret tt
          end in
      ret (retransmittable true flags)
  | ReadCryptoFrame offset frameData =>
      run appendDataToReadBuffer encryptionLevel offset frameData in
      ret (mkFlags true true true (handshakeConfirmedThisLoop flags))
  | ReadStreamFrame streamId _ _ _ =>
      let* stream := getStream streamId in
      run match stream with
          | Some stream => receiveReadStreamFrameSMHandler stream quicFrame
          | None => ret tt
          end in
      ret (retransmittable true flags)
  | MaxDataFrame maximumData =>
      run handleConnWindowUpdate maximumData packetNum in
      ret (retransmittable true flags)
  | MaxStreamDataFrame streamId maximumData =>
      if isReceivingStream Server streamId then
        throw "Received MaxStreamDataFrame for receiving stream." STREAM_STATE_ERROR
      else
        let* stream := getStream streamId in
        run match stream with
            | Some stream => handleStreamWindowUpdate stream maximumData packetNum
            | None => ret tt
            end in
        ret (retransmittable true flags)
  | DataBlockedFrame =>
      run handleConnBlocked in
      ret (retransmittable true flags)
  | StreamDataBlockedFrame streamId =>
      let* stream := getStream streamId in
      run match stream with
          | Some stream => handleStreamBlocked stream
          | None => ret tt
          end in
      ret (retransmittable true flags)
  | StreamsBlockedFrame _ => ret (nonProbing flags)
  | ConnectionCloseFrame closeErrorCode reasonPhrase =>
      let errMsg := String.append "Server closed by peer reason=" reasonPhrase in
      run modify (qlog (QLogTransportStateUpdate (getPeerClose errMsg))) in
      run modify (set_peerConnectionError (Some (closeErrorCode, errMsg))) in
      throw "Peer closed" NO_ERROR
  | PingFrame => ret (retransmittable true flags)
  | PaddingFrame => ret flags
  | SimpleFrame simpleFrame =>
      let* peerAddr := gets peerAddress in
      let* nonProbingFrame :=
        updateSimpleFrameOnPacketReceived simpleFrame packetNum
          (bool_decide (peer readData ≠ peerAddr)) in
      ret (retransmittable nonProbingFrame flags)
  | DatagramFrame len frameData =>
      run handleDatagram len frameData in
      ret (retransmittable false flags)
  | OtherFrame _ => ret flags
  end.

Fixpoint processFrames (readData : ReadData) (packetNum : Z)
    (packetNumberSpace : PacketNumberSpace) (encryptionLevel : EncryptionLevel)
    (quicFrames : list QuicFrame) (flags : PacketFlags) : M Conn PacketFlags :=
  match quicFrames with
  | [] => ret flags
  | quicFrame :: rest =>
      let* flags :=
        processFrame readData packetNum packetNumberSpace encryptionLevel quicFrame flags in
      processFrames readData packetNum packetNumberSpace encryptionLevel rest flags
  end.

(** The record of a dropped packet both migration checks make before they
    raise. *)
Definition dropPeerAddressChange (packetSize : Z) : M Conn unit :=
  run modify (qlog (QLogPacketDropReason packetSize PEER_ADDRESS_CHANGE)) in
  modify (QUIC_STATS (onPacketDropped PEER_ADDRESS_CHANGE)).

(** The body of the packet loop of [onServerReadDataFromOpen], from the
    parsed packet on: [parsedPacket] with its [packetSize].  A return stands
    for the end of the turn ([continue] included). *)
Definition processParsedPacket (readData : ReadData) (parsedPacket : CodecResult)
    (packetSize : Z) : M Conn unit :=
  run match parsedPacket with
      | CIPHER_UNAVAILABLE packet protectionType =>
          handleCipherUnavailable packet protectionType packetSize readData
      | RETRY => modify (qlog (QLogPacketDrop packetSize kRetry))
      | STATELESS_RESET => modify (qlog (QLogPacketDrop packetSize kReset))
      | NOTHING => modify (qlog (QLogPacketDrop packetSize kCipherUnavailable))
      | REGULAR_PACKET _ => ret tt
      end in
  match regularPacket parsedPacket with
  | None => modify (QUIC_STATS (onPacketDropped PARSE_ERROR))
  | Some regular =>
      match frames_of regular with
      | [] =>
          run modify (qlog (QLogPacketDropReason packetSize DROP_PROTOCOL_VIOLATION)) in
          run modify (QUIC_STATS (onPacketDropped DROP_PROTOCOL_VIOLATION)) in
          throw "Packet has no frames" PROTOCOL_VIOLATION
      | _ :: _ =>
          let protectionLevel := getProtectionType (header regular) in
          let encryptionLevel := protectionTypeToEncryptionLevel protectionLevel in
          let packetNum := getPacketSequenceNum (header regular) in
          let packetNumberSpace := getPacketNumberSpace (header regular) in
          let isProtectedPacket :=
            bool_decide (protectionLevel = PT_ZeroRtt) ||
            bool_decide (protectionLevel = PT_KeyPhaseZero) ||
            bool_decide (protectionLevel = PT_KeyPhaseOne) in
          run when_ (negb isProtectedPacket)
                (checkUnprotectedFrames packetSize (frames_of regular)) in
          let* clientCid := gets clientConnectionId in
          run CHECK (bool_decide (is_Some clientCid)) "conn.clientConnectionId" in
          run modify (qlog (QLogPacket packetNum packetSize)) in
          let* negotiated := gets version in
          run match negotiated with
              | Some _ => ret tt
              | None =>
                  match header regular with
                  | ShortHeader _ _ _ _ => throw "Invalid packet type" PROTOCOL_VIOLATION
                  | LongHeader longVersion _ _ _ =>
                      run modify (set_version (Some longVersion)) in
                      when_ (bool_decide (longVersion = MVFST_EXPERIMENTAL))
                        setExperimentalSettings
                  end
              end in
          let* peerAddr := gets peerAddress in
          run when_ (bool_decide (peerAddr ≠ peer readData))
                (if bool_decide (encryptionLevel ≠ EL_AppData) then
                   run dropPeerAddressChange packetSize in
                   throw "Migration not allowed during handshake" INVALID_MIGRATION
                 else
                   let* settings := gets transportSettings in
                   when_ (disableMigration settings)
                     (run dropPeerAddressChange packetSize in
                      throw "Migration disabled" INVALID_MIGRATION)) in
          let* conn := get in
          let '(outOfOrder, ackState) :=
            updateLargestReceivedPacketNum (getAckState conn packetNumberSpace) packetNum
              (receiveTimePoint (networkData readData)) in
          run modify (setAckState packetNumberSpace ackState) in
          run when_ outOfOrder (modify (QUIC_STATS onOutOfOrderPacketReceived)) in
          let* flags :=
            processFrames readData packetNum packetNumberSpace encryptionLevel
              (frames_of regular) (mkFlags false false false false) in
          run when_ (handshakeConfirmedThisLoop flags) handshakeConfirmed in
          run updateWritableByteLimitOnRecvPacket in
          let* conn := get in
          run when_ (bool_decide (peerAddress conn ≠ peer readData))
                (if isNonProbingPacket flags then
                   when_ (bool_decide
                            (Some packetNum =
                             largestReceivedPacketNum (getAckState conn packetNumberSpace)))
                     (let intentionalMigration :=
                        match header regular with
                        | ShortHeader connectionId _ _ _ =>
                            bool_decide (Some connectionId ≠ serverConnectionId conn)
                        | LongHeader _ _ _ _ => false
                        end in
                      onConnectionMigration (peer readData) intentionalMigration)
                 else
                   run dropPeerAddressChange packetSize in
                   throw "Probing not supported yet" INVALID_MIGRATION) in
          let* cryptoData := readDataFromCryptoStream encryptionLevel in
          run match cryptoData with
              | Some handshakeData =>
                  run doHandshake handshakeData encryptionLevel in
                  onException updateHandshakeState
                    (run modify
                           (qlog (QLogPacketDropReason packetSize
                                    DROP_TRANSPORT_PARAMETER_ERROR)) in
                     modify (QUIC_STATS (onPacketDropped DROP_TRANSPORT_PARAMETER_ERROR)))
              | None => ret tt
              end in
          run modify (fun conn =>
                updateAckSendStateOnRecvPacket conn packetNumberSpace outOfOrder
                  (pktHasRetransmittableData flags) (pktHasCryptoData flags)) in
          let* initialCipher := gets initialWriteCipher in
          run when_ (bool_decide (encryptionLevel = EL_Handshake) &&
                     bool_decide (is_Some initialCipher))
                (run modify (set_initialWriteCipher None) in
                 run modify (set_initialHeaderCipher None) in
                 run modify (upd_readCodec (set_initialReadCipher None)) in
                 run modify (upd_readCodec (set_initialHeaderCipher_codec None)) in
                 implicitAckCryptoStream EL_Initial) in
          modify (QUIC_STATS onPacketProcessed)
      end
  end.

(** The packet loop of [onServerReadDataFromOpen]: at most [remaining] turns,
    while [udpData] is not empty.  The codec exists in the loop: the first
    packet handling created it or returned. *)
Fixpoint processPackets (remaining : nat) (readData : ReadData) (udpData : list Z)
    : M Conn unit :=
  match remaining, udpData with
  | O, _ => ret tt
  | _, [] => ret tt
  | S remaining, _ :: _ =>
      let* codec := gets readCodec in
      match codec with
      | None => ret tt
      | Some codec =>
          let* acks := gets ackStates in
          let '(parsedPacket, rest) := parsePacket codec acks udpData in
          let packetSize := Z.of_nat (length udpData) - Z.of_nat (length rest) in
          run processParsedPacket readData parsedPacket packetSize in
          processPackets remaining readData rest
      end
  end.

(** A fresh [QuicReadCodec(QuicNodeType::Server)]. *)
Definition newReadCodec : QuicReadCodec := {|
  initialReadCipher := None;
  initialHeaderCipher_codec := None;
  zeroRttReadCipher := None;
  zeroRttHeaderCipher := None;
  handshakeReadCipher := None;
  handshakeHeaderCipher := None;
  oneRttReadCipher := None;
  oneRttHeaderCipher := None;
  codec_clientConnectionId := None;
  codec_serverConnectionId := None;
  codecParameters := None
|}.

(** The first packet handling of [onServerReadDataFromOpen] (the branch
    [if (!conn.readCodec)]); it gives [false] where the source returns from
    the function. *)
Definition firstPacketHandling (readData : ReadData) (udpData : list Z) : M Conn bool :=
  let dropped (reason : PacketDropReason) : M Conn bool :=
    run modify (qlog (QLogPacketDropReason 0 reason)) in
    run modify (QUIC_STATS (onPacketDropped reason)) in
    ret false in
  match parseLongHeaderInvariant udpData with
  | None => dropped PARSE_ERROR
  | Some parsedLongHeader =>
      let longVersion := invariantVersion parsedLongHeader in
      if bool_decide (longVersion = VERSION_NEGOTIATION) then dropped INVALID_PACKET
      else
        let clientCid := srcConnId parsedLongHeader in
        let initialDestinationConnectionId := dstConnId parsedLongHeader in
        if bool_decide (Z.of_nat (length initialDestinationConnectionId) <
                        kDefaultConnectionIdSize)
        then dropped INITIAL_CONNID_SMALL
        else
          let* conn := get in
          run CHECK (bool_decide (is_Some (connIdAlgo conn))) "ConnectionIdAlgo is not set." in
          run CHECK (negb (bool_decide (is_Some (serverConnectionId conn))))
                "!conn.serverConnectionId.has_value()" in
          run CHECK (bool_decide (is_Some (serverConnIdParams conn)))
                "conn.serverConnIdParams" in
          let* newServerConnIdData := createAndAddNewSelfConnId in
          match newServerConnIdData with
          | None => abort "newServerConnIdData.has_value()"
          | Some newData =>
              run modify (set_serverConnectionId (Some (connId newData))) in
              let* conn := get in
              let customTransportParams := setSupportedExtensionTransportParameters conn in
              run modify (QUIC_STATS onStatelessReset) in
              let settings := transportSettings conn in
              run accept {|
                    ext_version := longVersion;
                    ext_initialMaxData := advertisedInitialConnectionWindowSize settings;
                    ext_initialMaxStreamDataBidiLocal :=
                      advertisedInitialBidiLocalStreamWindowSize settings;
                    ext_initialMaxStreamDataBidiRemote :=
                      advertisedInitialBidiRemoteStreamWindowSize settings;
                    ext_initialMaxStreamDataUni :=
                      advertisedInitialUniStreamWindowSize settings;
                    ext_initialMaxStreamsBidi := advertisedInitialMaxStreamsBidi settings;
                    ext_initialMaxStreamsUni := advertisedInitialMaxStreamsUni settings;
                    ext_idleTimeout := idleTimeout settings;
                    ext_ackDelayExponent := ackDelayExponent settings;
                    ext_maxRecvPacketSize := maxRecvPacketSize settings;
                    ext_statelessResetToken := default 0 (token newData);
                    ext_initialSourceConnectionId := connId newData;
                    ext_originalDestinationConnectionId := initialDestinationConnectionId;
                    ext_customTransportParameters := customTransportParams
                  |} in
              run modify (set_transportParametersEncoded true) in
              run modify (set_readCodec (Some newReadCodec)) in
              run modify (upd_readCodec
                            (set_initialReadCipher
                               (Some (getClientInitialCipher initialDestinationConnectionId
                                        longVersion)))) in
              run modify (upd_readCodec (set_codec_clientConnectionId (Some clientCid))) in
              run modify (upd_readCodec
                            (set_codec_serverConnectionId (Some (connId newData)))) in
              run modify (qlog (QLogSetScid (Some (connId newData)))) in
              run modify (qlog (QLogSetDcid initialDestinationConnectionId)) in
              let* exponent := gets peerAckDelayExponent in
              run modify (upd_readCodec
                            (set_codecParameters (Some (exponent, Some longVersion)))) in
              run modify (set_initialWriteCipher
                            (Some (getServerInitialCipher initialDestinationConnectionId
                                     longVersion))) in
              run modify (upd_readCodec
                            (set_initialHeaderCipher_codec
                               (Some (makeClientInitialHeaderCipher
                                        initialDestinationConnectionId longVersion)))) in
              run modify (set_initialHeaderCipher
                            (Some (makeServerInitialHeaderCipher
                                     initialDestinationConnectionId longVersion))) in
              let* original := gets originalPeerAddress in
              run modify (set_peerAddress original) in
              ret true
          end
  end.

(** [onServerReadDataFromOpen(conn, readData)]. *)
Definition onServerReadDataFromOpen (readData : ReadData) : M Conn unit :=
  let* st := gets state in
  run CHECK (match st with Open => true | Closed => false end)
        "conn.state == ServerState::Open" in
  match data (networkData readData) with
  | None => ret tt
  | Some [] => ret tt
  | Some udpData =>
      let* codec := gets readCodec in
      let* proceed :=
        match codec with
        | None => firstPacketHandling readData udpData
        | Some _ => ret true
        end in
      when_ proceed (processPackets kMaxNumCoalescedPackets readData udpData)
  end.

(** One turn of the frame loop of [onServerReadDataFromClosed]: only a close
    frame is looked at. *)
Definition processCloseFrame (quicFrame : QuicFrame) : M Conn unit :=
  match quicFrame with
  | ConnectionCloseFrame closeErrorCode reasonPhrase =>
      let errMsg := String.append "Server closed by peer reason=" reasonPhrase in
      run modify (qlog (QLogTransportStateUpdate (getPeerClose errMsg))) in
      modify (set_peerConnectionError (Some (closeErrorCode, errMsg)))
  | _ => ret tt
  end.

(** [onServerReadDataFromClosed(conn, readData)]. *)
Definition onServerReadDataFromClosed (readData : ReadData) : M Conn unit :=
  let* st := gets state in
  run CHECK (match st with Closed => true | Open => false end)
        "conn.state == ServerState::Closed" in
  let udpData := default [] (data (networkData readData)) in
  let packetSize := Z.of_nat (length udpData) in
  let droppedClosed : M Conn unit :=
    run modify (qlog (QLogPacketDropReason packetSize SERVER_STATE_CLOSED)) in
    modify (QUIC_STATS (onPacketDropped SERVER_STATE_CLOSED)) in
  let* codec := gets readCodec in
  match codec with
  | None => droppedClosed
  | Some codec =>
      let* peerError := gets peerConnectionError in
      match peerError with
      | Some _ => droppedClosed
      | None =>
          let* acks := gets ackStates in
          let parsedPacket := (parsePacket codec acks udpData).1 in
          run match parsedPacket with
              | CIPHER_UNAVAILABLE _ _ =>
                  modify (qlog (QLogPacketDrop packetSize kCipherUnavailable))
              | RETRY => modify (qlog (QLogPacketDrop packetSize kRetry))
              | STATELESS_RESET => modify (qlog (QLogPacketDrop packetSize kReset))
              | NOTHING => modify (qlog (QLogPacketDrop packetSize kCipherUnavailable))
              | REGULAR_PACKET _ => ret tt
              end in
          match regularPacket parsedPacket with
          | None =>
              run modify (qlog (QLogPacketDropReason packetSize PARSE_ERROR)) in
              modify (QUIC_STATS (onPacketDropped PARSE_ERROR))
          | Some regular =>
              match frames_of regular with
              | [] =>
                  run modify (qlog (QLogPacketDropReason packetSize
                                      DROP_PROTOCOL_VIOLATION)) in
                  run modify (QUIC_STATS (onPacketDropped DROP_PROTOCOL_VIOLATION)) in
                  throw "Packet has no frames" PROTOCOL_VIOLATION
              | _ :: _ =>
                  let packetNum := getPacketSequenceNum (header regular) in
                  let pnSpace := getPacketNumberSpace (header regular) in
                  run modify (qlog (QLogPacket packetNum packetSize)) in
                  run forEach processCloseFrame (frames_of regular) in
                  modify (fun conn =>
                    let a := getAckState conn pnSpace in
                    setAckState pnSpace
                      (set_largestReceivedPacketNum
                         (Some (Z.max (default packetNum (largestReceivedPacketNum a))
                                  packetNum)) a) conn)
              end
          end
      end
  end.

(** [onServerReadData(conn, readData)]. *)
Definition onServerReadData (readData : ReadData) : M Conn unit :=
  let* st := gets state in
  match st with
  | Open => onServerReadDataFromOpen readData
  | Closed => onServerReadDataFromClosed readData
  end.

(** [onServerCloseOpenState(conn)]. *)
Definition onServerCloseOpenState : M Conn unit :=
  modify (set_state Closed).

(** [onServerClose(conn)]. *)
Definition onServerClose : M Conn unit :=
  let* st := gets state in
  match st with
  | Open => onServerCloseOpenState
  | Closed => ret tt
  end.

(** The algorithm object after [n] more encodings, and the result of the
    [i]-th encoding from now, counted from 0. *)
Definition afterEncodings (algo : ConnectionIdAlgo) (n : nat) : ConnectionIdAlgo :=
  mkConnIdAlgo (encodeOutputs algo) (encodeCalls algo + n).

Definition encoding (algo : ConnectionIdAlgo) (params : ServerConnectionIdParams) (i : nat)
    : Expected (list Z) string :=
  encodeOutputs algo params (encodeCalls algo + i).

(** Whether the frames of a packet pass the check of unprotected packets. *)
Definition admissibleFrames (regular : RegularQuicPacket) : bool :=
  let protectionLevel := getProtectionType (header regular) in
  bool_decide (protectionLevel = PT_ZeroRtt) ||
  bool_decide (protectionLevel = PT_KeyPhaseZero) ||
  bool_decide (protectionLevel = PT_KeyPhaseOne) ||
  forallb permittedUnprotected (frames_of regular).

(** Whether the version is negotiated, or the packet gives it. *)
Definition versionKnown (conn : Conn) (regular : RegularQuicPacket) : bool :=
  match version conn, header regular with
  | Some _, _ => true
  | None, LongHeader _ _ _ _ => true
  | None, ShortHeader _ _ _ _ => false
  end.

(** One migration of a sequence: the new address and the intentional flag. *)
Definition migrate (call : SocketAddress * bool) : M Conn unit :=
  onConnectionMigration (fst call) (snd call).

End Server.

(** *** The source address token of zero-RTT *)

(** [ZeroRttSourceTokenMatchingPolicy]. *)
Inductive ZeroRttSourceTokenMatchingPolicy : Type :=
  | REJECT_IF_NO_EXACT_MATCH
  | LIMIT_IF_NO_EXACT_MATCH
  | ALWAYS_REJECT.

(** [kMaxNumTokenSourceAddresses] is declared outside the translated sources
    and its value is left open. *)
Class SourceTokenConstants : Type := {
  kMaxNumTokenSourceAddresses : Z
}.

(** The connection with the three members that only
    [validateAndUpdateSourceToken] touches: the policy of the transport
    settings, the flag [sourceTokenMatching] and the list
    [tokenSourceAddresses]. *)
Record TokenConnectionState : Type := mkTokenConnectionState {
  connection : QuicServerConnectionState;
  zeroRttSourceTokenMatchingPolicy : ZeroRttSourceTokenMatchingPolicy;
  sourceTokenMatching : bool;
  tokenSourceAddresses : list IPAddress
}.

(** The loop of [validateAndUpdateSourceToken] over the indices of
    [sourceAddresses], from the last one down to 0; [ii] indices are still to
    be visited.  A match is erased and pushed to the back, which leaves the
    size of the vector as it was. *)
Fixpoint matchSourceAddresses (ii : nat) (peerIP : IPAddress)
    (sourceAddresses : list IPAddress) (foundMatch : bool) : list IPAddress * bool :=
  match ii with
  | O => (sourceAddresses, foundMatch)
  | S ii =>
      if bool_decide (sourceAddresses !! ii = Some peerIP)
      then matchSourceAddresses ii peerIP (delete ii sourceAddresses ++ [peerIP]) true
      else matchSourceAddresses ii peerIP sourceAddresses foundMatch
  end.

(** [validateAndUpdateSourceToken(conn, sourceAddresses)].  The [DCHECK] on
    the peer address is a debug assertion and is left out. *)
Definition validateAndUpdateSourceToken `{T : SourceTokenConstants}
    (sourceAddresses : list IPAddress) : M TokenConnectionState bool :=
  let* s := get in
  let peerIP := getIPAddress (peerAddress (connection s)) in
  let policy := zeroRttSourceTokenMatchingPolicy s in
  let '(sourceAddresses, foundMatch) :=
    matchSourceAddresses (length sourceAddresses) peerIP sourceAddresses false in
  run modify (fun s =>
        mkTokenConnectionState (connection s) (zeroRttSourceTokenMatchingPolicy s)
          foundMatch (tokenSourceAddresses s)) in
  let acceptZeroRtt :=
    match policy with ALWAYS_REJECT => false | _ => true end && foundMatch in
  let* result :=
    if foundMatch then ret (sourceAddresses, acceptZeroRtt)
    else
      let sourceAddresses :=
        if bool_decide (Z.of_nat (length sourceAddresses) >= kMaxNumTokenSourceAddresses)
        then drop 1 sourceAddresses
        else sourceAddresses in
      let sourceAddresses := sourceAddresses ++ [peerIP] in
      match policy with
      | ALWAYS_REJECT | REJECT_IF_NO_EXACT_MATCH => ret (sourceAddresses, false)
      | LIMIT_IF_NO_EXACT_MATCH =>
          run modify (fun s =>
                let conn := connection s in
                mkTokenConnectionState
                  (set_writableBytesLimit
                     (Some (wrap64 (limitedCwndInMss (transportSettings conn) *
                                    udpSendPacketLen conn))) conn)
                  (zeroRttSourceTokenMatchingPolicy s) (sourceTokenMatching s)
                  (tokenSourceAddresses s)) in
          ret (sourceAddresses, true)
      end in
  run modify (fun s =>
        mkTokenConnectionState (connection s) (zeroRttSourceTokenMatchingPolicy s)
          (sourceTokenMatching s) result.1) in
  ret result.2.

End ServerStateMachine.

(** ** Concrete states *)

Module Examples.

Definition zeroAckState : AckState := {|
  acks := [];
  largestAckScheduled := None;
  largestReceivedAtLastCloseSent := None;
  largestReceivedPacketNum := None;
  largestRecvdPacketTime := None;
  nextPacketNum := 0;
  tolerance := None;
  ignoreReorder := false;
  needsToSendAckImmediately := false;
  numRxPacketsRecvd := 0;
  numNonRxPacketsRecvd := 0
|}.

Definition exampleSettings : TransportSettings := {|
  rxPacketsBeforeAckInitThreshold := 100;
  rxPacketsBeforeAckBeforeInit := 10;
  rxPacketsBeforeAckAfterInit := 10;
  disableMigration := false;
  canIgnorePathMTU := false;
  d6dConfigEnabled := false;
  datagramConfigEnabled := false;
  pacingEnabled := true;
  defaultCongestionController := Cubic;
  maxPacketsToBuffer := 20;
  limitedCwndInMss := 3;
  statelessResetTokenSecret := Some 7;
  advertisedInitialConnectionWindowSize := 1048576;
  advertisedInitialBidiLocalStreamWindowSize := 65536;
  advertisedInitialBidiRemoteStreamWindowSize := 65536;
  advertisedInitialUniStreamWindowSize := 65536;
  advertisedInitialMaxStreamsBidi := 100;
  advertisedInitialMaxStreamsUni := 100;
  idleTimeout := 60000;
  ackDelayExponent := 3;
  maxRecvPacketSize := 1452
|}.

(** A server-side stream manager with nothing open: the peer's (client's)
    streams start at 0 (bidirectional) and 2 (unidirectional), the local ones
    at 1 and 3, and the remote limits are the advertised ones. *)
Definition exampleStreamManager (settings : TransportSettings) : QuicStreamManager := {|
  nodeType_ := Server;
  streams_ := ∅;
  openBidirectionalPeerStreams_ := ∅;
  openUnidirectionalPeerStreams_ := ∅;
  openBidirectionalLocalStreams_ := ∅;
  openUnidirectionalLocalStreams_ := ∅;
  nextAcceptablePeerBidirectionalStreamId_ := 0;
  nextAcceptablePeerUnidirectionalStreamId_ := 2;
  nextAcceptableLocalBidirectionalStreamId_ := 1;
  nextAcceptableLocalUnidirectionalStreamId_ := 3;
  nextBidirectionalStreamId_ := 1;
  nextUnidirectionalStreamId_ := 3;
  maxLocalBidirectionalStreamId_ := 1;
  maxLocalUnidirectionalStreamId_ := 3;
  maxRemoteBidirectionalStreamId_ :=
    advertisedInitialMaxStreamsBidi settings * kStreamIncrement + 0;
  maxRemoteUnidirectionalStreamId_ :=
    advertisedInitialMaxStreamsUni settings * kStreamIncrement + 2;
  initialLocalBidirectionalStreamId_ := 1;
  initialLocalUnidirectionalStreamId_ := 3;
  initialRemoteBidirectionalStreamId_ := 0;
  initialRemoteUnidirectionalStreamId_ := 2;
  maxLocalBidirectionalStreamIdIncreased_ := false;
  maxLocalUnidirectionalStreamIdIncreased_ := false;
  streamLimitWindowingFraction_ := 2;
  remoteBidirectionalStreamLimitUpdate_ := None;
  remoteUnidirectionalStreamLimitUpdate_ := None;
  newPeerStreams_ := [];
  streamPriorityLevels_ := ∅;
  numControlStreams_ := 0;
  isAppIdle_ := false;
  priorityChangesObserver_ := None;
  readableStreams_ := ∅;
  peekableStreams_ := ∅;
  writableStreams_ := ∅;
  writableDSRStreams_ := ∅;
  writableControlStreams_ := ∅;
  lossStreams_ := ∅;
  blockedStreams_ := ∅;
  deliverableStreams_ := ∅;
  txStreams_ := ∅;
  windowUpdates_ := ∅;
  stopSendingStreams_ := ∅;
  flowControlUpdated_ := ∅
|}.

Definition emptyCryptoStream : QuicCryptoStream := mkCryptoStream [] 0 false.

Definition emptyHandshake : ServerHandshake := {|
  zeroRttReadCipher_ := None;
  zeroRttReadHeaderCipher_ := None;
  oneRttWriteCipher_ := None;
  oneRttReadCipher_ := None;
  oneRttWriteHeaderCipher_ := None;
  oneRttReadHeaderCipher_ := None;
  handshakeReadCipher_ := None;
  handshakeReadHeaderCipher_ := None;
  clientTransportParams_ := None;
  handshakeDone_ := false;
  acceptedParams_ := None
|}.

Definition exampleAddress : SocketAddress := mkSocketAddress (IPv4 0x0a000001) 4433.

(** A server connection before its first packet. *)
Definition exampleConnection (K : QuicConstants) : QuicServerConnectionState := {|
  state := Open;
  version := None;
  peerAddress := exampleAddress;
  originalPeerAddress := exampleAddress;
  serverAddr := mkSocketAddress (IPv4 0x0a000002) 443;
  clientConnectionId := None;
  serverConnectionId := None;
  connIdAlgo := None;
  connIdRejector := None;
  serverConnIdParams := None;
  selfConnectionIds := [];
  nextSelfConnectionIdSequence := 0;
  serverHandshakeLayer := emptyHandshake;
  readCodec := None;
  initialWriteCipher := None;
  initialHeaderCipher := None;
  oneRttWriteCipher := None;
  oneRttWriteHeaderCipher := None;
  usedZeroRtt := false;
  sentHandshakeDone := false;
  transportParametersEncoded := false;
  writableBytesLimit := None;
  udpSendPacketLen := kDefaultUDPSendPacketLen;
  peerIdleTimeout := 0;
  peerAckDelayExponent := kDefaultAckDelayExponent;
  peerMinAckDelay := None;
  peerMaxUdpPayloadSize := kDefaultMaxUDPPayload;
  peerActiveConnectionIdLimit := kDefaultActiveConnectionIdLimit;
  pacing := mkPacing false None;
  congestionController := Some (mkController 0);
  congestionControllerFactory := Some (fun _ => mkController 1);
  appIdleCalls := [];
  outstandingPathValidation := None;
  pathValidationLimiter := None;
  pendingZeroRttData := Some [];
  pendingOneRttData := Some [];
  peerConnectionError := None;
  qLogger := None;
  statsCallback := None;
  lossState := {| srtt := 0; lrtt := 0; rttvar := 0; mrtt := kDefaultMinRtt;
                  maxAckDelay := 0 |};
  ackStates := {| initialAckState := zeroAckState; handshakeAckState := zeroAckState;
                  appDataAckState := zeroAckState |};
  pendingEvents := {| scheduleAckTimeout := false; schedulePathValidationTimeout := false;
                      cancelPingTimeout := false; closeTransport := false;
                      pathChallenge := None; frames := [] |};
  transportSettings := exampleSettings;
  migrationState := {| previousPeerAddresses := []; lastCongestionAndRtt := None;
                       numMigrations := 0 |};
  flowControlState := {| peerAdvertisedMaxOffset := 0;
                         peerAdvertisedInitialMaxStreamOffsetBidiLocal := 0;
                         peerAdvertisedInitialMaxStreamOffsetBidiRemote := 0;
                         peerAdvertisedInitialMaxStreamOffsetUni := 0 |};
  datagramState := {| maxReadFrameSize := 0; maxWriteFrameSize := 0 |};
  d6d := {| basePMTU := 0; maxPMTU := 0; d6d_state := D6D_DISABLED;
            lastNonSearchState := D6D_DISABLED; timeLastNonSearchState := 0;
            noBlackholeDetection := false; raiseTimeout := 0; probeTimeout := 0 |};
  cryptoState := mkCryptoState emptyCryptoStream emptyCryptoStream emptyCryptoStream;
  streamManager := exampleStreamManager exampleSettings
|}.

(** The example connection with a given RTT state. *)
Definition connectionWithRtt (K : QuicConstants) (srtt0 rttvar0 mrtt0 : Z)
    : QuicServerConnectionState :=
  set_lossState {| srtt := srtt0; lrtt := srtt0; rttvar := rttvar0; mrtt := mrtt0;
                   maxAckDelay := 0 |} (exampleConnection K).

(** The example connection with an explicit tolerance on the AppData space. *)
Definition connectionWithTolerance (K : QuicConstants) (t : Z) : QuicServerConnectionState :=
  set_ackStates
    {| initialAckState := zeroAckState;
       handshakeAckState := zeroAckState;
       appDataAckState := set_tolerance (Some t) zeroAckState |}
    (exampleConnection K).

(** The windowed stream limit update, as the test of the stream manager runs
    it: with an advertised limit of 100 bidirectional streams and a windowing
    fraction of 4, the peer opens streams 0, 4, ..., 396; streams 0, 4, ..., 96
    are then closed and removed; the limit update is read twice. *)
Section Scenario.
Context `{K : QuicConstants}.
Import QuicStreamManagerModel.
Local Open Scope quic_scope.

Definition openPeerStream (streamId : Z) : M QuicServerConnectionState unit :=
  let* stream := getStream streamId in ret tt.

Definition closePeerStream (streamId : Z) : M QuicServerConnectionState unit :=
  let* stream := getStream streamId in removeClosedStream streamId.

Definition firstStreamIds (n : nat) : list Z :=
  map (fun i => Z.of_nat i * kStreamIncrement) (seq 0 n).

Definition streamLimitWindowedUpdate (opened closed : nat)
    : M QuicServerConnectionState (option Z * option Z) :=
  run refreshTransportSettings in
  run setStreamLimitWindowingFraction 4 in
  run forEach openPeerStream (firstStreamIds opened) in
  run forEach closePeerStream (firstStreamIds closed) in
  let* update := remoteBidirectionalStreamLimitUpdate in
  let* again := remoteBidirectionalStreamLimitUpdate in
  ret (update, again).

End Scenario.

(** The state a computation leaves, or the given state if the process
    aborted. *)
Definition stateAfter {A} (call : M QuicServerConnectionState A)
    (conn : QuicServerConnectionState) : QuicServerConnectionState :=
  default conn (finalState (call conn)).

(** The value a computation returns from a state, if it returns. *)
Definition returnedValue {S A} (o : Outcome S A) : option A :=
  match o with
  | Returned a _ => Some a
  | _ => None
  end.

End Examples.

(** ** Example collaborators and connections of the server *)

Module ServerExamples.

Import ServerStateMachine.

Local Open Scope quic_scope.

(** The mapping of protection types to encryption levels of QUIC. *)
Definition exampleEncryptionLevel (p : ProtectionType) : EncryptionLevel :=
  match p with
  | PT_Initial => EL_Initial
  | PT_Handshake => EL_Handshake
  | PT_ZeroRtt => EL_EarlyData
  | PT_KeyPhaseZero | PT_KeyPhaseOne => EL_AppData
  end.

(** A codec that reads every datagram as one Initial packet with a PING. *)
Definition examplePacket : RegularQuicPacket :=
  mkRegularPacket (LongHeader QUIC_V1 PT_Initial PNS_Initial 0) [PingFrame].

(** Collaborators that do nothing beyond what the state machine asks of
    them. *)
Definition exampleCollaborators : ServerCollaborators := {|
  clockNow := 0;
  secureRandom := 42;
  kNoData := "no data";
  kUnexpectedProtectionLevel := "unexpected protection level";
  kMaxBuffered := "max buffered";
  kBufferUnavailable := "buffer unavailable";
  kRetry := "retry";
  kReset := "reset";
  kCipherUnavailable := "cipher unavailable";
  kDerivedZeroRttReadCipher := "derived 0-rtt read cipher";
  kDerivedOneRttWriteCipher := "derived 1-rtt write cipher";
  kDerivedOneRttReadCipher := "derived 1-rtt read cipher";
  getPeerClose := fun msg => msg;
  parseLongHeaderInvariant := fun udpData =>
    Some (mkInvariant QUIC_V1 [1; 2; 3; 4; 5; 6; 7; 8] (take 8 udpData));
  parsePacket := fun _ _ _ => (REGULAR_PACKET examplePacket, []);
  protectionTypeToEncryptionLevel := exampleEncryptionLevel;
  getClientInitialCipher := fun _ _ => mkCipher 1;
  getServerInitialCipher := fun _ _ => mkCipher 2;
  makeClientInitialHeaderCipher := fun _ _ => mkCipher 3;
  makeServerInitialHeaderCipher := fun _ _ => mkCipher 4;
  generateToken := fun secret _ _ => secret;
  doHandshake := fun _ _ => ret tt;
  updatePacingOnKeyEstablished := fun p => mkPacing true (pacer p);
  updateLargestReceivedPacketNum := fun ackState packetNum _ =>
    (false, set_largestReceivedPacketNum (Some packetNum) ackState);
  processAckFrame := fun _ _ _ _ _ flags => ret flags;
  sendAckSMHandler := fun _ _ => ret tt;
  sendRstAckSMHandler := fun _ => ret tt;
  processCryptoStreamAck := fun _ _ _ => ret tt;
  commonAckVisitorForAckFrame := fun _ _ => ret tt;
  receiveRstStreamSMHandler := fun _ _ => ret tt;
  appendDataToReadBuffer := fun _ _ _ => ret tt;
  receiveReadStreamFrameSMHandler := fun _ _ => ret tt;
  handleConnWindowUpdate := fun _ _ => ret tt;
  handleStreamWindowUpdate := fun _ _ _ => ret tt;
  handleConnBlocked := ret tt;
  handleStreamBlocked := fun _ => ret tt;
  updateSimpleFrameOnPacketReceived := fun _ _ _ => ret true;
  handleDatagram := fun _ _ => ret tt;
  handshakeConfirmed := ret tt;
  readDataFromCryptoStream := fun _ => ret None;
  implicitAckCryptoStream := fun _ => ret tt
|}.

(** An algorithm whose [i]-th encoding is the one-octet ID [i], and a
    rejector that rejects every ID. *)
Definition countingAlgo : ConnectionIdAlgo :=
  mkConnIdAlgo (fun _ i => Value [Z.of_nat i]) 0.

Definition rejectAll (cid : list Z) : bool := true.

(** The example connection set up by the transport: algorithm, parameters and
    the secret of the stateless reset token are in place, and every ID the
    algorithm gives is rejected. *)
Definition rejectingConnection : QuicServerConnectionState :=
  set_connIdAlgo (Some countingAlgo)
    (set_connIdRejector (Some rejectAll)
       (set_serverConnIdParams (Some (mkConnIdParams 1 0 0 0))
          (Examples.exampleConnection referenceConstants))).

(** The example connection in the handshake: the codec exists, the client
    connection ID is known and the version is negotiated. *)
Definition handshakingConnection : QuicServerConnectionState :=
  set_readCodec (Some newReadCodec)
    (set_clientConnectionId (Some [1; 2; 3; 4; 5; 6; 7; 8])
       (set_version (Some QUIC_V1) (Examples.exampleConnection referenceConstants))).

(** A datagram from another address than the peer address of the example
    connection. *)
Definition otherAddress : SocketAddress := mkSocketAddress (IPv4 0x0a000063) 5000.

Definition datagramFromOtherAddress : ReadData :=
  mkReadData otherAddress (mkNetworkData (Some [192; 0; 0; 0; 1]) 0).

(** The example connection with a 1-RTT write cipher installed and a driver
    that holds the next one ready. *)
Definition connectionWithWriteCipher : QuicServerConnectionState :=
  set_oneRttWriteCipher (Some (mkCipher 10))
    (set_serverHandshakeLayer
       (set_oneRttWriteCipher_ (Some (mkCipher 11)) Examples.emptyHandshake)
       (Examples.exampleConnection referenceConstants)).

(** The driver after the handshake produced the 1-RTT write cipher [n] and
    the client transport parameters (none of them set). *)
Definition driverWithWriteCipher (n : Z) : ServerHandshake :=
  set_oneRttWriteCipher_ (Some (mkCipher n))
    (set_clientTransportParams_ (Some (mkClientParams [])) Examples.emptyHandshake).

(** Two invocations of [updateHandshakeState] with a 1-RTT write cipher ready
    each time: the outcome of the second one, and the cipher installed after
    the first. *)
Definition twoInvocations : Outcome QuicServerConnectionState unit * option Cipher :=
  let first :=
    updateHandshakeState (K := referenceConstants) (C := exampleCollaborators)
      (set_serverHandshakeLayer (driverWithWriteCipher 11)
         (set_version (Some MVFST) handshakingConnection)) in
  match first with
  | Returned _ conn1 =>
      (updateHandshakeState (K := referenceConstants) (C := exampleCollaborators)
         (set_serverHandshakeLayer (driverWithWriteCipher 12) conn1),
       oneRttWriteCipher conn1)
  | other => (other, None)
  end.

(** Six migrations to six new addresses, as many as [referenceConstants]
    allows, and the connection after them. *)
Definition sixAddresses : list (SocketAddress * bool) :=
  map (fun i => (mkSocketAddress (IPv4 (0x0b000000 + 256 * Z.of_nat i)) 4433, false))
    (seq 1 6).

Definition afterSixMigrations : QuicServerConnectionState :=
  Examples.stateAfter
    (QuicStreamManagerModel.forEach
       (migrate (K := referenceConstants) (C := exampleCollaborators)) sixAddresses)
    handshakingConnection.

(** The example collaborators with the clock at [now]. *)
Definition collaboratorsAt (now : Z) : ServerCollaborators :=
  let c := exampleCollaborators in {|
  clockNow := now;
  secureRandom := @secureRandom c;
  kNoData := @kNoData c;
  kUnexpectedProtectionLevel := @kUnexpectedProtectionLevel c;
  kMaxBuffered := @kMaxBuffered c;
  kBufferUnavailable := @kBufferUnavailable c;
  kRetry := @kRetry c;
  kReset := @kReset c;
  kCipherUnavailable := @kCipherUnavailable c;
  kDerivedZeroRttReadCipher := @kDerivedZeroRttReadCipher c;
  kDerivedOneRttWriteCipher := @kDerivedOneRttWriteCipher c;
  kDerivedOneRttReadCipher := @kDerivedOneRttReadCipher c;
  getPeerClose := @getPeerClose c;
  parseLongHeaderInvariant := @parseLongHeaderInvariant c;
  parsePacket := @parsePacket c;
  protectionTypeToEncryptionLevel := @protectionTypeToEncryptionLevel c;
  getClientInitialCipher := @getClientInitialCipher c;
  getServerInitialCipher := @getServerInitialCipher c;
  makeClientInitialHeaderCipher := @makeClientInitialHeaderCipher c;
  makeServerInitialHeaderCipher := @makeServerInitialHeaderCipher c;
  generateToken := @generateToken c;
  doHandshake := @doHandshake c;
  updatePacingOnKeyEstablished := @updatePacingOnKeyEstablished c;
  updateLargestReceivedPacketNum := @updateLargestReceivedPacketNum c;
  processAckFrame := @processAckFrame c;
  sendAckSMHandler := @sendAckSMHandler c;
  sendRstAckSMHandler := @sendRstAckSMHandler c;
  processCryptoStreamAck := @processCryptoStreamAck c;
  commonAckVisitorForAckFrame := @commonAckVisitorForAckFrame c;
  receiveRstStreamSMHandler := @receiveRstStreamSMHandler c;
  appendDataToReadBuffer := @appendDataToReadBuffer c;
  receiveReadStreamFrameSMHandler := @receiveReadStreamFrameSMHandler c;
  handleConnWindowUpdate := @handleConnWindowUpdate c;
  handleStreamWindowUpdate := @handleStreamWindowUpdate c;
  handleConnBlocked := @handleConnBlocked c;
  handleStreamBlocked := @handleStreamBlocked c;
  updateSimpleFrameOnPacketReceived := @updateSimpleFrameOnPacketReceived c;
  handleDatagram := @handleDatagram c;
  handshakeConfirmed := @handshakeConfirmed c;
  readDataFromCryptoStream := @readDataFromCryptoStream c;
  implicitAckCryptoStream := @implicitAckCryptoStream c
|}.

(** An address outside the subnet of the peer address of the example
    connection. *)
Definition farAddress : SocketAddress := mkSocketAddress (IPv4 0x0b000001) 4433.

(** The example connection after it was closed. *)
Definition closedConnection : QuicServerConnectionState :=
  set_state Closed handshakingConnection.

(** An Initial packet that carries a stream frame. *)
Definition streamInInitialPacket : RegularQuicPacket :=
  mkRegularPacket (LongHeader QUIC_V1 PT_Initial PNS_Initial 0)
    [PingFrame; ReadStreamFrame 0 0 [] false].

End ServerExamples.

(** ** Symbolic execution of the state monad

    A goal about a call is kept in the form [outcome (m s) Q], with the state
    [s] a record given field by field.  [exec] runs the call one primitive at
    a time and rebuilds the state after every write, so that no term ever
    holds an update of an update; it stops at a branch of the code whose
    condition is open, for the proof to decide it. *)

Module Exec.

Import ConnAccess QuicStreamManagerModel ServerStateMachine.

Definition outcome {S A : Type} (o : Outcome S A) (Q : Outcome S A -> Prop) : Prop := Q o.

Lemma outcome_bind_assoc {S A B C : Type} (m : M S C) (k1 : C -> M S A) (k : A -> M S B)
    (s : S) (Q : Outcome S B -> Prop) :
  outcome (bind m (fun c => bind (k1 c) k) s) Q -> outcome (bind (bind m k1) k s) Q.
Proof. unfold outcome, bind. destruct (m s); trivial. Qed.

Lemma outcome_bind_returned {S A B : Type} (m : M S A) (k : A -> M S B) (s : S)
    (a : A) (s' : S) (Q : Outcome S B -> Prop) :
  m s = Returned a s' -> outcome (k a s') Q -> outcome (bind m k s) Q.
Proof. unfold outcome, bind. intros ->. trivial. Qed.

Lemma outcome_bind_thrown {S A B : Type} (m : M S A) (k : A -> M S B) (s : S)
    (e : QuicTransportException) (s' : S) (Q : Outcome S B -> Prop) :
  m s = Thrown e s' -> outcome (Thrown e s') Q -> outcome (bind m k s) Q.
Proof. unfold outcome, bind. intros H. rewrite H. trivial. Qed.

(** Normal form of a state or of a value read from it: projections, field
    updates and the accessors built from them are unfolded, nothing else. *)
Ltac state_nf t :=
  eval lazy beta iota zeta delta [
    srtt lrtt rttvar mrtt maxAckDelay acks largestAckScheduled
    largestReceivedAtLastCloseSent largestReceivedPacketNum largestRecvdPacketTime
    nextPacketNum tolerance ignoreReorder needsToSendAckImmediately numRxPacketsRecvd
    numNonRxPacketsRecvd initialAckState handshakeAckState appDataAckState
    scheduleAckTimeout schedulePathValidationTimeout cancelPingTimeout closeTransport
    pathChallenge frames rxPacketsBeforeAckInitThreshold rxPacketsBeforeAckBeforeInit
    rxPacketsBeforeAckAfterInit disableMigration canIgnorePathMTU d6dConfigEnabled
    datagramConfigEnabled pacingEnabled defaultCongestionController maxPacketsToBuffer
    limitedCwndInMss statelessResetTokenSecret advertisedInitialConnectionWindowSize
    advertisedInitialBidiLocalStreamWindowSize
    advertisedInitialBidiRemoteStreamWindowSize advertisedInitialUniStreamWindowSize
    advertisedInitialMaxStreamsBidi advertisedInitialMaxStreamsUni idleTimeout
    ackDelayExponent maxRecvPacketSize saved_peerAddress saved_recordTime
    saved_congestionController saved_srtt saved_lrtt saved_rttvar saved_mrtt
    previousPeerAddresses lastCongestionAndRtt numMigrations peerAdvertisedMaxOffset
    peerAdvertisedInitialMaxStreamOffsetBidiLocal
    peerAdvertisedInitialMaxStreamOffsetBidiRemote
    peerAdvertisedInitialMaxStreamOffsetUni basePMTU maxPMTU d6d_state lastNonSearchState
    timeLastNonSearchState noBlackholeDetection raiseTimeout probeTimeout
    maxReadFrameSize maxWriteFrameSize zeroRttReadCipher_ zeroRttReadHeaderCipher_
    oneRttWriteCipher_ oneRttReadCipher_ oneRttWriteHeaderCipher_ oneRttReadHeaderCipher_
    handshakeReadCipher_ handshakeReadHeaderCipher_ clientTransportParams_ handshakeDone_
    acceptedParams_ initialReadCipher initialHeaderCipher_codec zeroRttReadCipher
    zeroRttHeaderCipher handshakeReadCipher handshakeHeaderCipher oneRttReadCipher
    oneRttHeaderCipher codec_clientConnectionId codec_serverConnectionId codecParameters
    stream_id isControl priority nodeType_ streams_ openBidirectionalPeerStreams_
    openUnidirectionalPeerStreams_ openBidirectionalLocalStreams_
    openUnidirectionalLocalStreams_ nextAcceptablePeerBidirectionalStreamId_
    nextAcceptablePeerUnidirectionalStreamId_ nextAcceptableLocalBidirectionalStreamId_
    nextAcceptableLocalUnidirectionalStreamId_ nextBidirectionalStreamId_
    nextUnidirectionalStreamId_ maxLocalBidirectionalStreamId_
    maxLocalUnidirectionalStreamId_ maxRemoteBidirectionalStreamId_
    maxRemoteUnidirectionalStreamId_ initialLocalBidirectionalStreamId_
    initialLocalUnidirectionalStreamId_ initialRemoteBidirectionalStreamId_
    initialRemoteUnidirectionalStreamId_ maxLocalBidirectionalStreamIdIncreased_
    maxLocalUnidirectionalStreamIdIncreased_ streamLimitWindowingFraction_
    remoteBidirectionalStreamLimitUpdate_ remoteUnidirectionalStreamLimitUpdate_
    newPeerStreams_ streamPriorityLevels_ numControlStreams_ isAppIdle_
    priorityChangesObserver_ readableStreams_ peekableStreams_ writableStreams_
    writableDSRStreams_ writableControlStreams_ lossStreams_ blockedStreams_
    deliverableStreams_ txStreams_ windowUpdates_ stopSendingStreams_ flowControlUpdated_
    state version peerAddress originalPeerAddress serverAddr clientConnectionId
    serverConnectionId connIdAlgo connIdRejector serverConnIdParams selfConnectionIds
    nextSelfConnectionIdSequence serverHandshakeLayer readCodec initialWriteCipher
    initialHeaderCipher oneRttWriteCipher oneRttWriteHeaderCipher usedZeroRtt
    sentHandshakeDone transportParametersEncoded writableBytesLimit udpSendPacketLen
    peerIdleTimeout peerAckDelayExponent peerMinAckDelay peerMaxUdpPayloadSize
    peerActiveConnectionIdLimit pacing congestionController congestionControllerFactory
    appIdleCalls outstandingPathValidation pathValidationLimiter pendingZeroRttData
    pendingOneRttData peerConnectionError qLogger statsCallback lossState ackStates
    pendingEvents transportSettings migrationState flowControlState datagramState d6d
    cryptoState streamManager
    set_srtt set_lrtt set_rttvar set_mrtt set_maxAckDelay set_acks
    set_largestAckScheduled set_largestReceivedAtLastCloseSent
    set_largestReceivedPacketNum set_largestRecvdPacketTime set_nextPacketNum
    set_tolerance set_ignoreReorder set_needsToSendAckImmediately set_numRxPacketsRecvd
    set_numNonRxPacketsRecvd set_initialAckState set_handshakeAckState
    set_appDataAckState set_scheduleAckTimeout set_schedulePathValidationTimeout
    set_cancelPingTimeout set_closeTransport set_pathChallenge set_frames
    set_disableMigration set_advertisedInitialMaxStreamsBidi
    set_advertisedInitialMaxStreamsUni set_previousPeerAddresses set_lastCongestionAndRtt
    set_numMigrations set_peerAdvertisedMaxOffset
    set_peerAdvertisedInitialMaxStreamOffsetBidiLocal
    set_peerAdvertisedInitialMaxStreamOffsetBidiRemote
    set_peerAdvertisedInitialMaxStreamOffsetUni set_basePMTU set_maxPMTU set_d6d_state
    set_lastNonSearchState set_timeLastNonSearchState set_noBlackholeDetection
    set_raiseTimeout set_probeTimeout set_maxWriteFrameSize set_zeroRttReadCipher_
    set_zeroRttReadHeaderCipher_ set_oneRttWriteCipher_ set_oneRttReadCipher_
    set_oneRttWriteHeaderCipher_ set_oneRttReadHeaderCipher_ set_handshakeReadCipher_
    set_handshakeReadHeaderCipher_ set_clientTransportParams_ set_handshakeDone_
    set_acceptedParams_ set_initialReadCipher set_initialHeaderCipher_codec
    set_zeroRttReadCipher set_zeroRttHeaderCipher set_handshakeReadCipher
    set_handshakeHeaderCipher set_oneRttReadCipher set_oneRttHeaderCipher
    set_codec_clientConnectionId set_codec_serverConnectionId set_codecParameters
    set_isControl set_priority set_nodeType_ set_streams_
    set_openBidirectionalPeerStreams_ set_openUnidirectionalPeerStreams_
    set_openBidirectionalLocalStreams_ set_openUnidirectionalLocalStreams_
    set_nextAcceptablePeerBidirectionalStreamId_
    set_nextAcceptablePeerUnidirectionalStreamId_
    set_nextAcceptableLocalBidirectionalStreamId_
    set_nextAcceptableLocalUnidirectionalStreamId_ set_nextBidirectionalStreamId_
    set_nextUnidirectionalStreamId_ set_maxLocalBidirectionalStreamId_
    set_maxLocalUnidirectionalStreamId_ set_maxRemoteBidirectionalStreamId_
    set_maxRemoteUnidirectionalStreamId_ set_initialLocalBidirectionalStreamId_
    set_initialLocalUnidirectionalStreamId_ set_initialRemoteBidirectionalStreamId_
    set_initialRemoteUnidirectionalStreamId_ set_maxLocalBidirectionalStreamIdIncreased_
    set_maxLocalUnidirectionalStreamIdIncreased_ set_streamLimitWindowingFraction_
    set_remoteBidirectionalStreamLimitUpdate_ set_remoteUnidirectionalStreamLimitUpdate_
    set_newPeerStreams_ set_streamPriorityLevels_ set_numControlStreams_ set_isAppIdle_
    set_priorityChangesObserver_ set_readableStreams_ set_peekableStreams_
    set_writableStreams_ set_writableDSRStreams_ set_writableControlStreams_
    set_lossStreams_ set_blockedStreams_ set_deliverableStreams_ set_txStreams_
    set_windowUpdates_ set_stopSendingStreams_ set_flowControlUpdated_ set_state
    set_version set_peerAddress set_originalPeerAddress set_serverAddr
    set_clientConnectionId set_serverConnectionId set_connIdAlgo set_connIdRejector
    set_serverConnIdParams set_selfConnectionIds set_nextSelfConnectionIdSequence
    set_serverHandshakeLayer set_readCodec set_initialWriteCipher set_initialHeaderCipher
    set_oneRttWriteCipher set_oneRttWriteHeaderCipher set_usedZeroRtt
    set_sentHandshakeDone set_transportParametersEncoded set_writableBytesLimit
    set_udpSendPacketLen set_peerIdleTimeout set_peerAckDelayExponent set_peerMinAckDelay
    set_peerMaxUdpPayloadSize set_peerActiveConnectionIdLimit set_pacing
    set_congestionController set_congestionControllerFactory set_appIdleCalls
    set_outstandingPathValidation set_pathValidationLimiter set_pendingZeroRttData
    set_pendingOneRttData set_peerConnectionError set_qLogger set_statsCallback
    set_lossState set_ackStates set_pendingEvents set_transportSettings
    set_migrationState set_flowControlState set_datagramState set_d6d set_cryptoState
    set_streamManager
    upd_lossState upd_pendingEvents upd_migrationState upd_flowControlState upd_d6d
    upd_streamManager upd_readCodec qlog QUIC_STATS eraseFromIndices] in t.

(** Projections of explicit records, the boolean connectives and the
    accessors of packets, wherever they stand. *)
Ltac proj_nf t :=
  eval cbn [
    andb orb negb fst snd regularPacket header frames_of getProtectionType
    getPacketNumberSpace getPacketSequenceNum
    srtt lrtt rttvar mrtt maxAckDelay acks largestAckScheduled
    largestReceivedAtLastCloseSent largestReceivedPacketNum largestRecvdPacketTime
    nextPacketNum tolerance ignoreReorder needsToSendAckImmediately numRxPacketsRecvd
    numNonRxPacketsRecvd initialAckState handshakeAckState appDataAckState
    scheduleAckTimeout schedulePathValidationTimeout cancelPingTimeout closeTransport
    pathChallenge frames rxPacketsBeforeAckInitThreshold rxPacketsBeforeAckBeforeInit
    rxPacketsBeforeAckAfterInit disableMigration canIgnorePathMTU d6dConfigEnabled
    datagramConfigEnabled pacingEnabled defaultCongestionController maxPacketsToBuffer
    limitedCwndInMss statelessResetTokenSecret advertisedInitialConnectionWindowSize
    advertisedInitialBidiLocalStreamWindowSize
    advertisedInitialBidiRemoteStreamWindowSize advertisedInitialUniStreamWindowSize
    advertisedInitialMaxStreamsBidi advertisedInitialMaxStreamsUni idleTimeout
    ackDelayExponent maxRecvPacketSize saved_peerAddress saved_recordTime
    saved_congestionController saved_srtt saved_lrtt saved_rttvar saved_mrtt
    previousPeerAddresses lastCongestionAndRtt numMigrations peerAdvertisedMaxOffset
    peerAdvertisedInitialMaxStreamOffsetBidiLocal
    peerAdvertisedInitialMaxStreamOffsetBidiRemote
    peerAdvertisedInitialMaxStreamOffsetUni basePMTU maxPMTU d6d_state lastNonSearchState
    timeLastNonSearchState noBlackholeDetection raiseTimeout probeTimeout
    maxReadFrameSize maxWriteFrameSize zeroRttReadCipher_ zeroRttReadHeaderCipher_
    oneRttWriteCipher_ oneRttReadCipher_ oneRttWriteHeaderCipher_ oneRttReadHeaderCipher_
    handshakeReadCipher_ handshakeReadHeaderCipher_ clientTransportParams_ handshakeDone_
    acceptedParams_ initialReadCipher initialHeaderCipher_codec zeroRttReadCipher
    zeroRttHeaderCipher handshakeReadCipher handshakeHeaderCipher oneRttReadCipher
    oneRttHeaderCipher codec_clientConnectionId codec_serverConnectionId codecParameters
    stream_id isControl priority nodeType_ streams_ openBidirectionalPeerStreams_
    openUnidirectionalPeerStreams_ openBidirectionalLocalStreams_
    openUnidirectionalLocalStreams_ nextAcceptablePeerBidirectionalStreamId_
    nextAcceptablePeerUnidirectionalStreamId_ nextAcceptableLocalBidirectionalStreamId_
    nextAcceptableLocalUnidirectionalStreamId_ nextBidirectionalStreamId_
    nextUnidirectionalStreamId_ maxLocalBidirectionalStreamId_
    maxLocalUnidirectionalStreamId_ maxRemoteBidirectionalStreamId_
    maxRemoteUnidirectionalStreamId_ initialLocalBidirectionalStreamId_
    initialLocalUnidirectionalStreamId_ initialRemoteBidirectionalStreamId_
    initialRemoteUnidirectionalStreamId_ maxLocalBidirectionalStreamIdIncreased_
    maxLocalUnidirectionalStreamIdIncreased_ streamLimitWindowingFraction_
    remoteBidirectionalStreamLimitUpdate_ remoteUnidirectionalStreamLimitUpdate_
    newPeerStreams_ streamPriorityLevels_ numControlStreams_ isAppIdle_
    priorityChangesObserver_ readableStreams_ peekableStreams_ writableStreams_
    writableDSRStreams_ writableControlStreams_ lossStreams_ blockedStreams_
    deliverableStreams_ txStreams_ windowUpdates_ stopSendingStreams_ flowControlUpdated_
    state version peerAddress originalPeerAddress serverAddr clientConnectionId
    serverConnectionId connIdAlgo connIdRejector serverConnIdParams selfConnectionIds
    nextSelfConnectionIdSequence serverHandshakeLayer readCodec initialWriteCipher
    initialHeaderCipher oneRttWriteCipher oneRttWriteHeaderCipher usedZeroRtt
    sentHandshakeDone transportParametersEncoded writableBytesLimit udpSendPacketLen
    peerIdleTimeout peerAckDelayExponent peerMinAckDelay peerMaxUdpPayloadSize
    peerActiveConnectionIdLimit pacing congestionController congestionControllerFactory
    appIdleCalls outstandingPathValidation pathValidationLimiter pendingZeroRttData
    pendingOneRttData peerConnectionError qLogger statsCallback lossState ackStates
    pendingEvents transportSettings migrationState flowControlState datagramState d6d
    cryptoState streamManager] in t.

Ltac proj_nf_all :=
  cbn [
    andb orb negb fst snd regularPacket header frames_of getProtectionType
    getPacketNumberSpace getPacketSequenceNum
    srtt lrtt rttvar mrtt maxAckDelay acks largestAckScheduled
    largestReceivedAtLastCloseSent largestReceivedPacketNum largestRecvdPacketTime
    nextPacketNum tolerance ignoreReorder needsToSendAckImmediately numRxPacketsRecvd
    numNonRxPacketsRecvd initialAckState handshakeAckState appDataAckState
    scheduleAckTimeout schedulePathValidationTimeout cancelPingTimeout closeTransport
    pathChallenge frames rxPacketsBeforeAckInitThreshold rxPacketsBeforeAckBeforeInit
    rxPacketsBeforeAckAfterInit disableMigration canIgnorePathMTU d6dConfigEnabled
    datagramConfigEnabled pacingEnabled defaultCongestionController maxPacketsToBuffer
    limitedCwndInMss statelessResetTokenSecret advertisedInitialConnectionWindowSize
    advertisedInitialBidiLocalStreamWindowSize
    advertisedInitialBidiRemoteStreamWindowSize advertisedInitialUniStreamWindowSize
    advertisedInitialMaxStreamsBidi advertisedInitialMaxStreamsUni idleTimeout
    ackDelayExponent maxRecvPacketSize saved_peerAddress saved_recordTime
    saved_congestionController saved_srtt saved_lrtt saved_rttvar saved_mrtt
    previousPeerAddresses lastCongestionAndRtt numMigrations peerAdvertisedMaxOffset
    peerAdvertisedInitialMaxStreamOffsetBidiLocal
    peerAdvertisedInitialMaxStreamOffsetBidiRemote
    peerAdvertisedInitialMaxStreamOffsetUni basePMTU maxPMTU d6d_state lastNonSearchState
    timeLastNonSearchState noBlackholeDetection raiseTimeout probeTimeout
    maxReadFrameSize maxWriteFrameSize zeroRttReadCipher_ zeroRttReadHeaderCipher_
    oneRttWriteCipher_ oneRttReadCipher_ oneRttWriteHeaderCipher_ oneRttReadHeaderCipher_
    handshakeReadCipher_ handshakeReadHeaderCipher_ clientTransportParams_ handshakeDone_
    acceptedParams_ initialReadCipher initialHeaderCipher_codec zeroRttReadCipher
    zeroRttHeaderCipher handshakeReadCipher handshakeHeaderCipher oneRttReadCipher
    oneRttHeaderCipher codec_clientConnectionId codec_serverConnectionId codecParameters
    stream_id isControl priority nodeType_ streams_ openBidirectionalPeerStreams_
    openUnidirectionalPeerStreams_ openBidirectionalLocalStreams_
    openUnidirectionalLocalStreams_ nextAcceptablePeerBidirectionalStreamId_
    nextAcceptablePeerUnidirectionalStreamId_ nextAcceptableLocalBidirectionalStreamId_
    nextAcceptableLocalUnidirectionalStreamId_ nextBidirectionalStreamId_
    nextUnidirectionalStreamId_ maxLocalBidirectionalStreamId_
    maxLocalUnidirectionalStreamId_ maxRemoteBidirectionalStreamId_
    maxRemoteUnidirectionalStreamId_ initialLocalBidirectionalStreamId_
    initialLocalUnidirectionalStreamId_ initialRemoteBidirectionalStreamId_
    initialRemoteUnidirectionalStreamId_ maxLocalBidirectionalStreamIdIncreased_
    maxLocalUnidirectionalStreamIdIncreased_ streamLimitWindowingFraction_
    remoteBidirectionalStreamLimitUpdate_ remoteUnidirectionalStreamLimitUpdate_
    newPeerStreams_ streamPriorityLevels_ numControlStreams_ isAppIdle_
    priorityChangesObserver_ readableStreams_ peekableStreams_ writableStreams_
    writableDSRStreams_ writableControlStreams_ lossStreams_ blockedStreams_
    deliverableStreams_ txStreams_ windowUpdates_ stopSendingStreams_ flowControlUpdated_
    state version peerAddress originalPeerAddress serverAddr clientConnectionId
    serverConnectionId connIdAlgo connIdRejector serverConnIdParams selfConnectionIds
    nextSelfConnectionIdSequence serverHandshakeLayer readCodec initialWriteCipher
    initialHeaderCipher oneRttWriteCipher oneRttWriteHeaderCipher usedZeroRtt
    sentHandshakeDone transportParametersEncoded writableBytesLimit udpSendPacketLen
    peerIdleTimeout peerAckDelayExponent peerMinAckDelay peerMaxUdpPayloadSize
    peerActiveConnectionIdLimit pacing congestionController congestionControllerFactory
    appIdleCalls outstandingPathValidation pathValidationLimiter pendingZeroRttData
    pendingOneRttData peerConnectionError qLogger statsCallback lossState ackStates
    pendingEvents transportSettings migrationState flowControlState datagramState d6d
    cryptoState streamManager] in *.

Ltac head_of t := lazymatch t with ?f _ => head_of f | _ => t end.

Ltac unfold_head t :=
  let h := head_of t in
  let _ := match goal with _ => is_const h end in
  eval cbv beta delta [h] in t.

(** When nothing else applies: contract the redexes a substitution or a
    decided condition left, then the projections; fail when both leave the
    term as it is. *)
Ltac exec_stuck X :=
  let X1 := eval cbv beta iota zeta in X in
  let X2 := proj_nf X1 in
  lazymatch X2 with
  | X => fail "exec: open condition"
  | _ => X2
  end.

Ltac exec_callee t :=
  match constr:(Set) with
  | _ => unfold_head t
  | _ => exec_stuck t
  end.

Ltac exec_next X :=
  lazymatch X with
  | bind (ret ?a) ?k ?s => eval cbv beta in (k a s)
  | bind (gets ?f) ?k ?s => let v := state_nf (f s) in eval cbv beta in (k v s)
  | bind get ?k ?s => eval cbv beta in (k s s)
  | bind (modify ?f) ?k ?s => let s' := state_nf (f s) in eval cbv beta in (k tt s')
  | @bind ?S ?A ?B (throw ?msg ?code) ?k ?s => constr:(@Thrown S B (mkException msg code) s)
  | @bind ?S ?A ?B (abort ?msg) ?k ?s => constr:(@Aborted S B msg)
  | bind (when_ ?c ?m) ?k ?s => constr:(bind (if c then m else ret tt) k s)
  | @bind ?S ?A ?B (CHECK ?c ?msg) ?k ?s =>
      let r := eval cbv beta in (k tt s) in constr:(if c then r else @Aborted S B msg)
  | bind ?m ?k ?s => let m' := exec_callee m in constr:(bind m' k s)
  | ret ?a ?s => constr:(Returned a s)
  | gets ?f ?s => let v := state_nf (f s) in constr:(Returned v s)
  | get ?s => constr:(Returned s s)
  | modify ?f ?s => let s' := state_nf (f s) in constr:(Returned tt s')
  | @throw ?S ?A ?msg ?code ?s => constr:(@Thrown S A (mkException msg code) s)
  | @abort ?S ?A ?msg ?s => constr:(@Aborted S A msg)
  | when_ ?c ?m ?s => constr:((if c then m else ret tt) s)
  | @CHECK ?S ?c ?msg ?s => constr:(if c then Returned tt s else @Aborted S unit msg)
  | Returned _ _ => fail "exec: returned"
  | Thrown _ _ => fail "exec: thrown"
  | Aborted _ => fail "exec: aborted"
  | _ => exec_callee X
  end.

Ltac exec_step :=
  lazymatch goal with
  | |- outcome (bind (bind ?m ?k1) ?k ?s) ?Q =>
      apply (outcome_bind_assoc m k1 k s Q); cbv beta
  | |- outcome ?X ?Q => let X' := exec_next X in change (outcome X' Q)
  end.

Ltac exec := repeat exec_step.

(** Put the goal in the form [outcome X Q] for the call [X] it mentions. *)
Ltac exec_of X :=
  pattern X;
  lazymatch goal with
  | |- ?Q X => change (outcome X Q)
  end.

Ltac exec_done := lazy beta delta [outcome].

(** The condition at which [exec] stopped, and the case split on it. *)
Ltac exec_scrutinee X :=
  lazymatch X with
  | bind ?m _ _ => exec_scrutinee m
  | match ?c with _ => _ end => c
  | ?f _ => exec_scrutinee f
  end.

Ltac exec_destruct :=
  lazymatch goal with
  | |- outcome ?X _ => let c := exec_scrutinee X in destruct c eqn:?
  end.

(** A call whose result is known: [lem] proves [m s = Returned a s']. *)
Ltac exec_call lem :=
  lazymatch goal with
  | |- outcome (bind ?m ?k ?s) ?Q =>
      eapply (outcome_bind_returned m k s); [apply lem | cbv beta]
  end.

End Exec.

(** ** Invariants of the state monad

    [preserves I m]: the state predicate [I] holds after [m] when it held
    before, whether [m] returns or throws.  [hoare P m Q]: when [m] returns
    from a state of [P], the result and the state satisfy [Q]. *)

Module Hoare.

Import ConnAccess QuicStreamManagerModel ServerStateMachine Exec.

Definition preserves {S A : Type} (I : S -> Prop) (m : M S A) : Prop :=
  forall s, I s ->
    match m s with
    | Returned _ s' => I s'
    | Thrown _ s' => I s'
    | Aborted _ => True
    end.

Definition hoare {S A : Type} (P : S -> Prop) (m : M S A) (Q : A -> S -> Prop) : Prop :=
  forall s, P s ->
    match m s with
    | Returned a s' => Q a s'
    | _ => True
    end.

Section Rules.
Context {S A B : Type}.
Implicit Types (I P : S -> Prop) (s : S).

Lemma preserves_ret I (a : A) : preserves I (ret a).
Proof. intros s Hs. exact Hs. Qed.

Lemma preserves_gets I (f : S -> A) : preserves I (gets f).
Proof. intros s Hs. exact Hs. Qed.

Lemma preserves_get I : preserves I (@get S).
Proof. intros s Hs. exact Hs. Qed.

Lemma preserves_throw I msg code : preserves I (@throw S A msg code).
Proof. intros s Hs. exact Hs. Qed.

Lemma preserves_abort I msg : preserves I (@abort S A msg).
Proof. intros s Hs. exact Logic.I. Qed.

Lemma preserves_modify I (g : S -> S) : (forall s, I s -> I (g s)) -> preserves I (modify g).
Proof. intros Hg s Hs. apply Hg, Hs. Qed.

Lemma preserves_CHECK I c msg : preserves I (@CHECK S c msg).
Proof. intros s Hs. unfold CHECK. destruct c; [exact Hs | exact Logic.I]. Qed.

Lemma preserves_when I (c : bool) (m : M S unit) : preserves I m -> preserves I (when_ c m).
Proof. intros Hm. destruct c; [exact Hm | intros s Hs; exact Hs]. Qed.

Lemma preserves_bind I (m : M S A) (k : A -> M S B) :
  preserves I m -> (forall a, preserves I (k a)) -> preserves I (bind m k).
Proof.
  intros Hm Hk s Hs. unfold bind. specialize (Hm s Hs).
  destruct (m s) as [a s'|e s'|msg]; [exact (Hk a s' Hm) | exact Hm | exact Logic.I].
Qed.

Lemma preserves_onException I (m : M S A) (h : M S unit) :
  preserves I m -> preserves I h -> preserves I (onException m h).
Proof.
  intros Hm Hh s Hs. unfold onException. specialize (Hm s Hs).
  destruct (m s) as [a s'|e s'|msg]; [exact Hm | | exact Logic.I].
  specialize (Hh s' Hm). destruct (h s'); [exact Hh | exact Hh | exact Logic.I].
Qed.

Lemma hoare_preserves I (m : M S A) : preserves I m -> hoare I m (fun _ => I).
Proof. intros Hm s Hs. specialize (Hm s Hs). destruct (m s); [exact Hm | exact Logic.I ..]. Qed.

Lemma hoare_conseq P P' (m : M S A) (Q Q' : A -> S -> Prop) :
  hoare P' m Q' -> (forall s, P s -> P' s) -> (forall a s, Q' a s -> Q a s) -> hoare P m Q.
Proof.
  intros Hm HP HQ s Hs. specialize (Hm s (HP s Hs)).
  destruct (m s); [apply HQ, Hm | exact Logic.I ..].
Qed.

Lemma hoare_any P (m : M S A) : hoare P m (fun _ _ => True).
Proof. intros s _. destruct (m s); exact Logic.I. Qed.

Lemma hoare_ret P (a : A) (Q : A -> S -> Prop) : (forall s, P s -> Q a s) -> hoare P (ret a) Q.
Proof. intros H s Hs. apply H, Hs. Qed.

Lemma hoare_throw P msg code (Q : A -> S -> Prop) : hoare P (@throw S A msg code) Q.
Proof. intros s _. exact Logic.I. Qed.

Lemma hoare_abort P msg (Q : A -> S -> Prop) : hoare P (@abort S A msg) Q.
Proof. intros s _. exact Logic.I. Qed.

Lemma hoare_gets P (f : S -> A) (Q : A -> S -> Prop) :
  (forall s, P s -> Q (f s) s) -> hoare P (gets f) Q.
Proof. intros H s Hs. apply H, Hs. Qed.

Lemma hoare_modify P (g : S -> S) (Q : unit -> S -> Prop) :
  (forall s, P s -> Q tt (g s)) -> hoare P (modify g) Q.
Proof. intros H s Hs. apply H, Hs. Qed.

Lemma hoare_bind P (m : M S A) (k : A -> M S B) (R : A -> S -> Prop) (Q : B -> S -> Prop) :
  hoare P m R -> (forall a, hoare (R a) (k a) Q) -> hoare P (bind m k) Q.
Proof.
  intros Hm Hk s Hs. unfold bind. specialize (Hm s Hs).
  destruct (m s) as [a s'|e s'|msg]; [exact (Hk a s' Hm) | exact Logic.I ..].
Qed.

Lemma hoare_bind_gets P (f : S -> A) (k : A -> M S B) (Q : B -> S -> Prop) :
  (forall a, hoare (fun s => P s /\ a = f s) (k a) Q) -> hoare P (bind (gets f) k) Q.
Proof. intros Hk s Hs. exact (Hk (f s) s (conj Hs eq_refl)). Qed.

Lemma hoare_pure (phi : Prop) P (m : M S A) (Q : A -> S -> Prop) :
  (phi -> hoare P m Q) -> hoare (fun s => phi /\ P s) m Q.
Proof. intros H s [Hphi Hs]. exact (H Hphi s Hs). Qed.

End Rules.

(** [triple P m Q E]: from a state of [P], [m] returns its result in a state
    of [Q], or throws in a state of [E]. *)
Definition triple {S A : Type} (P : S -> Prop) (m : M S A) (Q : A -> S -> Prop)
    (E : S -> Prop) : Prop :=
  forall s, P s ->
    match m s with
    | Returned a s' => Q a s'
    | Thrown _ s' => E s'
    | Aborted _ => True
    end.

Section Triples.
Context {S A B : Type}.
Implicit Types (P E : S -> Prop) (s : S).

Lemma triple_preserves P (m : M S A) : preserves P m <-> triple P m (fun _ => P) P.
Proof. reflexivity. Qed.

Lemma triple_conseq P P' E E' (m : M S A) (Q Q' : A -> S -> Prop) :
  triple P' m Q' E' ->
  (forall s, P s -> P' s) -> (forall a s, Q' a s -> Q a s) -> (forall s, E' s -> E s) ->
  triple P m Q E.
Proof.
  intros Hm HP HQ HE s Hs. specialize (Hm s (HP s Hs)).
  destruct (m s); [apply HQ, Hm | apply HE, Hm | exact Logic.I].
Qed.

Lemma triple_ret P E (a : A) (Q : A -> S -> Prop) :
  (forall s, P s -> Q a s) -> triple P (ret a) Q E.
Proof. intros H s Hs. apply H, Hs. Qed.

Lemma triple_gets P E (f : S -> A) (Q : A -> S -> Prop) :
  (forall s, P s -> Q (f s) s) -> triple P (gets f) Q E.
Proof. intros H s Hs. apply H, Hs. Qed.

Lemma triple_modify P E (g : S -> S) (Q : unit -> S -> Prop) :
  (forall s, P s -> Q tt (g s)) -> triple P (modify g) Q E.
Proof. intros H s Hs. apply H, Hs. Qed.

Lemma triple_throw P E msg code (Q : A -> S -> Prop) :
  (forall s, P s -> E s) -> triple P (@throw S A msg code) Q E.
Proof. intros H s Hs. apply H, Hs. Qed.

Lemma triple_abort P E msg (Q : A -> S -> Prop) : triple P (@abort S A msg) Q E.
Proof. intros s _. exact Logic.I. Qed.

Lemma triple_bind P E (m : M S A) (k : A -> M S B) (R : A -> S -> Prop)
    (Q : B -> S -> Prop) :
  triple P m R E -> (forall a, triple (R a) (k a) Q E) -> triple P (bind m k) Q E.
Proof.
  intros Hm Hk s Hs. unfold bind. specialize (Hm s Hs).
  destruct (m s) as [a s'|e s'|msg]; [exact (Hk a s' Hm) | exact Hm | exact Logic.I].
Qed.

Lemma triple_bind_gets P E (f : S -> A) (k : A -> M S B) (Q : B -> S -> Prop) :
  (forall a, triple (fun s => P s /\ a = f s) (k a) Q E) -> triple P (bind (gets f) k) Q E.
Proof. intros Hk s Hs. exact (Hk (f s) s (conj Hs eq_refl)). Qed.

Lemma triple_pure (phi : Prop) P E (m : M S A) (Q : A -> S -> Prop) :
  (phi -> triple P m Q E) -> triple (fun s => phi /\ P s) m Q E.
Proof. intros H s [Hphi Hs]. exact (H Hphi s Hs). Qed.

End Triples.

Lemma triple_when {S : Type} (P E : S -> Prop) (c : bool) (m : M S unit)
    (Q : unit -> S -> Prop) :
  (c = true -> triple P m Q E) -> (c = false -> forall s, P s -> Q tt s) ->
  triple P (when_ c m) Q E.
Proof.
  intros Hm Hr. destruct c; [exact (Hm eq_refl) | intros s Hs; exact (Hr eq_refl s Hs)].
Qed.


Section ThrowsOnly.
Context {S A B : Type}.
Implicit Types codes : list TransportErrorCode.








End ThrowsOnly.



Section Guarded.
Context {S A B : Type}.
Implicit Types (P I : S -> Prop) (codes : list TransportErrorCode).








End Guarded.


(** A field that an update does not write keeps its value: after the
    accessors are unfolded the two sides are convertible. *)
Ltac frame_solve :=
  let s := fresh "s" in
  let Hs := fresh "Hs" in
  intros s Hs; cbv beta in *;
  unfold upd_lossState, upd_pendingEvents, upd_migrationState, upd_flowControlState,
    upd_d6d, upd_streamManager, upd_readCodec, qlog, QUIC_STATS;
  repeat case_match; exact Hs.

Ltac preserves_step :=
  lazymatch goal with
  | |- preserves _ (bind _ _) => apply preserves_bind; [| intros ?]
  | |- preserves _ (ret _) => apply preserves_ret
  | |- preserves _ (gets _) => apply preserves_gets
  | |- preserves _ get => apply preserves_get
  | |- preserves _ (throw _ _) => apply preserves_throw
  | |- preserves _ (abort _) => apply preserves_abort
  | |- preserves _ (CHECK _ _) => apply preserves_CHECK
  | |- preserves _ (when_ _ _) => apply preserves_when
  | |- preserves _ (onException _ _) => apply preserves_onException
  | |- preserves _ (modify _) => apply preserves_modify; frame_solve
  | |- preserves _ (match ?c with _ => _ end) => destruct c
  | |- preserves _ (let _ := _ in _) => cbv zeta
  | |- preserves ?I ?m => let m' := unfold_head m in change (preserves I m')
  end.

Ltac preserves_auto := repeat preserves_step.

End Hoare.

(** * Properties *)

(** ** RTT estimation and ACK scheduling *)

Module QuicStateFunctionsProofs.

Import QuicStateFunctions.

Section Rtt.
Context `{K : QuicConstants}.

Lemma lossState_updateRtt (conn : QuicServerConnectionState) (rttSample ackDelay : Z) :
  let ls := lossState conn in
  let sample :=
    if shouldUseAckDelay (mrtt ls) rttSample ackDelay
    then rttSample - ackDelay else rttSample in
  lossState (updateRtt conn rttSample ackDelay) =
  {| mrtt := Z.min (mrtt ls) rttSample;
     maxAckDelay := Z.max (maxAckDelay ls) ackDelay;
     lrtt := sample;
     srtt := if bool_decide (srtt ls = 0) then sample
             else (srtt ls * 7) ÷ 8 + sample ÷ 8;
     rttvar := if bool_decide (srtt ls = 0) then sample ÷ 2
               else (rttvar ls * 3) ÷ 4 +
                    (if bool_decide (srtt ls > sample)
                     then srtt ls - sample else sample - srtt ls) ÷ 4 |}.
Proof.
  intros ls sample. unfold updateRtt, qlog, upd_lossState. cbn.
  fold ls. fold sample.
  destruct (bool_decide (srtt ls = 0)) eqn:E0; cbn;
    destruct (qLogger conn); reflexivity.
Qed.

(** With a non-negative ack delay, comparing against the minimum RTT before
    the call or against the updated minimum selects the same samples. *)
Lemma shouldUseAckDelay_prior (mrtt0 rttSample ackDelay : Z) :
  0 <= ackDelay ->
  shouldUseAckDelay mrtt0 rttSample ackDelay =
  bool_decide (rttSample > ackDelay) &&
  (bool_decide (rttSample > mrtt0 + ackDelay) || bool_decide (mrtt0 = kDefaultMinRtt)).
Proof.
  intros Hd. unfold shouldUseAckDelay, timeMin.
  repeat case_bool_decide; cbn; try reflexivity; lia.
Qed.

(** C3.  For every prior loss state and every sample with a non-negative ack
    delay, [updateRtt] sets [mrtt] to the minimum of the prior [mrtt] and the
    sample and [maxAckDelay] to the maximum of the prior value and the ack
    delay; it subtracts the ack delay from the sample exactly when
    [rttSample > ackDelay] and ([rttSample > mrtt + ackDelay] or
    [mrtt = kDefaultMinRtt]), [mrtt] being the prior minimum; the first
    sample ([srtt = 0]) seeds [srtt] with the adjusted sample and [rttvar]
    with half of it; any later sample applies
    [rttvar <- rttvar * (beta - 1) / beta + |srtt - sample| / beta] and
    [srtt <- srtt * (alpha - 1) / alpha + sample / alpha], in truncating
    integer arithmetic, with [alpha = 8] and [beta = 4]. *)
Theorem updateRtt_estimator (conn : QuicServerConnectionState) (rttSample ackDelay : Z) :
  0 <= ackDelay ->
  let before := lossState conn in
  let after := lossState (updateRtt conn rttSample ackDelay) in
  let subtracts :=
    rttSample > ackDelay /\
    (rttSample > mrtt before + ackDelay \/ mrtt before = kDefaultMinRtt) in
  mrtt after = Z.min (mrtt before) rttSample /\
  maxAckDelay after = Z.max (maxAckDelay before) ackDelay /\
  (subtracts -> lrtt after = rttSample - ackDelay) /\
  (~ subtracts -> lrtt after = rttSample) /\
  (srtt before = 0 ->
     srtt after = lrtt after /\ rttvar after = lrtt after ÷ 2) /\
  (srtt before <> 0 ->
     rttvar after =
       (rttvar before * (kRttBeta - 1)) ÷ kRttBeta +
       Z.abs (srtt before - lrtt after) ÷ kRttBeta /\
     srtt after =
       (srtt before * (kRttAlpha - 1)) ÷ kRttAlpha + lrtt after ÷ kRttAlpha) /\
  kRttAlpha = 8 /\ kRttBeta = 4.
Proof.
  intros Hd before after subtracts.
  pose proof (lossState_updateRtt conn rttSample ackDelay) as E.
  cbv zeta in E. fold before after in E.
  rewrite (shouldUseAckDelay_prior _ _ _ Hd) in E.
  assert (Hsub : subtracts <->
    bool_decide (rttSample > ackDelay) &&
    (bool_decide (rttSample > mrtt before + ackDelay) ||
     bool_decide (mrtt before = kDefaultMinRtt)) = true).
  { unfold subtracts. rewrite andb_true_iff, orb_true_iff, !bool_decide_eq_true.
    reflexivity. }
  rewrite E; cbn [mrtt maxAckDelay lrtt srtt rttvar].
  split; [reflexivity|]. split; [reflexivity|].
  split. { intros Hs. apply Hsub in Hs. rewrite Hs. reflexivity. }
  split. { intros Hs. rewrite Hsub in Hs. apply not_true_is_false in Hs.
           rewrite Hs. reflexivity. }
  split.
  { intros H0. rewrite (bool_decide_eq_true_2 _ H0). split; reflexivity. }
  split; [|split; reflexivity].
  intros H0. rewrite (bool_decide_eq_false_2 _ H0).
  unfold kRttAlpha, kRttBeta. split; [|reflexivity].
  f_equal. f_equal.
  match goal with |- context [Z.abs (_ - ?x)] => generalize x; intros s end.
  destruct (bool_decide (srtt before > s)) eqn:Hc;
    [apply bool_decide_eq_true in Hc | apply bool_decide_eq_false in Hc]; lia.
Qed.

(** C7, as amended.  Integer division truncates, so the smoothed RTT can end
    one microsecond farther from the adjusted sample than it was; it is never
    farther once the distance is at least 7 microseconds.  The minimum RTT
    never grows. *)
Theorem updateRtt_srtt_approaches_sample
    (conn : QuicServerConnectionState) (rttSample ackDelay : Z) :
  let conn' := updateRtt conn rttSample ackDelay in
  let sample := lrtt (lossState conn') in
  let before := Z.abs (srtt (lossState conn) - sample) in
  let after := Z.abs (srtt (lossState conn') - sample) in
  after <= before + 1 /\
  (7 <= before -> after <= before) /\
  mrtt (lossState conn') <= mrtt (lossState conn).
Proof.
  intros conn' sample before after.
  pose proof (lossState_updateRtt conn rttSample ackDelay) as E.
  cbv zeta in E. fold conn' in E.
  unfold after, before, sample. rewrite E. cbn [mrtt maxAckDelay lrtt srtt rttvar].
  clear E.
  generalize (if shouldUseAckDelay (mrtt (lossState conn)) rttSample ackDelay
              then rttSample - ackDelay else rttSample).
  generalize (srtt (lossState conn)). intros a s.
  split; [|split].
  - case_bool_decide; Z.to_euclidean_division_equations; lia.
  - case_bool_decide; Z.to_euclidean_division_equations; lia.
  - lia.
Qed.

End Rtt.

(** At [ackDelay = 10] and a first sample of 100 microseconds on the example
    connection, the estimator is seeded with 90. *)
Lemma updateRtt_estimator_witness :
  0 <= 10 /\
  srtt (lossState (updateRtt (K := referenceConstants)
                     (Examples.exampleConnection referenceConstants) 100 10)) = 90.
Proof.
  split; [lia|].
  destruct (updateRtt_estimator (K := referenceConstants)
              (Examples.exampleConnection referenceConstants) 100 10 ltac:(lia))
    as (_ & _ & Hsub & _ & Hseed & _).
  destruct (Hseed eq_refl) as [-> _]. apply Hsub. vm_compute. split;
    [reflexivity | right; reflexivity].
Defined.

(** C7 as stated fails: with a smoothed RTT of 1 microsecond and a sample of 1
    microsecond, the update yields [7 / 8 + 1 / 8 = 0], one microsecond away
    from a sample the estimate was equal to. *)
Lemma updateRtt_srtt_moves_away :
  let conn := Examples.connectionWithRtt referenceConstants 1 0 1 in
  let conn' := updateRtt (K := referenceConstants) conn 1 0 in
  lrtt (lossState conn') = 1 /\
  srtt (lossState conn) = 1 /\
  srtt (lossState conn') = 0 /\
  ~ (Z.abs (srtt (lossState conn') - lrtt (lossState conn')) <=
     Z.abs (srtt (lossState conn) - lrtt (lossState conn'))).
Proof.
  vm_compute. repeat split; try reflexivity. intros H. apply H. reflexivity.
Qed.

(** The distance of 7 microseconds is the least from which the smoothed RTT
    never moves away: at a distance of 6, a smoothed RTT of 1 microsecond and a
    sample of 7 microseconds give [7 / 8 + 7 / 8 = 0], at a distance of 7. *)
Lemma updateRtt_srtt_distance_six :
  let conn := Examples.connectionWithRtt referenceConstants 1 0 1 in
  let conn' := updateRtt (K := referenceConstants) conn 7 0 in
  lrtt (lossState conn') = 7 /\
  srtt (lossState conn) = 1 /\
  srtt (lossState conn') = 0.
Proof. vm_compute. repeat split; reflexivity. Qed.

Section Acks.
Context `{K : QuicConstants}.

Lemma getAckState_setAckState pnSpace a conn :
  getAckState (setAckState pnSpace a conn) pnSpace = a.
Proof. destruct pnSpace; reflexivity. Qed.

Lemma pendingEvents_setAckState pnSpace a conn :
  pendingEvents (setAckState pnSpace a conn) = pendingEvents conn.
Proof. destruct pnSpace; reflexivity. Qed.

Lemma transportSettings_setAckState pnSpace a conn :
  transportSettings (setAckState pnSpace a conn) = transportSettings conn.
Proof. destruct pnSpace; reflexivity. Qed.

(** What one call does to the ack state it is given, as a function of that
    ack state and of the threshold the call selects. *)
Definition recvStep (conn : QuicServerConnectionState) (a : AckState)
    (ooo rx crypto : bool) : AckState * option bool :=
  let thresh :=
    if rx || bool_decide (numRxPacketsRecvd a ≠ 0)
    then rxThreshold conn a else kNonRtxRxPacketsPendingBeforeAck in
  let ooo := if ignoreReorder a then false else ooo in
  let zero (x : AckState) := set_numNonRxPacketsRecvd 0 (set_numRxPacketsRecvd 0 x) in
  if rx then
    if crypto || ooo then (zero (set_needsToSendAckImmediately true a), Some false)
    else
      let a1 := set_numRxPacketsRecvd (incrementCounter (numRxPacketsRecvd a)) a in
      if bool_decide (numRxPacketsRecvd a1 + numNonRxPacketsRecvd a1 >= thresh)
      then (zero (set_needsToSendAckImmediately true a1), Some false)
      else if needsToSendAckImmediately a then (zero a1, None) else (a1, Some true)
  else
    let a1 := set_numNonRxPacketsRecvd (incrementCounter (numNonRxPacketsRecvd a)) a in
    if bool_decide (numNonRxPacketsRecvd a1 + numRxPacketsRecvd a1 >= thresh)
    then (zero (set_needsToSendAckImmediately true a1), Some false)
    else if needsToSendAckImmediately a then (zero a1, None) else (a1, None).

Lemma updateAckSendStateOnRecvPacket_recvStep conn pnSpace ooo rx crypto :
  let r := recvStep conn (getAckState conn pnSpace) ooo rx crypto in
  updateAckSendStateOnRecvPacket conn pnSpace ooo rx crypto =
  setAckState pnSpace r.1
    (match r.2 with
     | Some b => upd_pendingEvents (set_scheduleAckTimeout b) conn
     | None => conn
     end).
Proof.
  unfold updateAckSendStateOnRecvPacket, recvStep.
  generalize (getAckState conn pnSpace) as a. intros a.
  destruct rx; cbn [orb negb].
  - destruct (crypto || (if ignoreReorder a then false else ooo)); [reflexivity|].
    cbn. case_bool_decide; cbn; [reflexivity|].
    destruct (needsToSendAckImmediately a) eqn:E; cbn; rewrite ?E; reflexivity.
  - cbn. destruct (bool_decide (numRxPacketsRecvd a ≠ 0)); cbn;
      case_bool_decide; cbn; try reflexivity;
      destruct (needsToSendAckImmediately a) eqn:E; cbn; rewrite ?E; reflexivity.
Qed.

Lemma rxThreshold_recvStep conn conn' a ooo rx crypto :
  transportSettings conn' = transportSettings conn ->
  rxThreshold conn' (recvStep conn a ooo rx crypto).1 = rxThreshold conn a.
Proof.
  intros Hts. unfold rxThreshold. rewrite Hts.
  assert (tolerance (recvStep conn a ooo rx crypto).1 = tolerance a /\
          largestReceivedPacketNum (recvStep conn a ooo rx crypto).1 =
          largestReceivedPacketNum a) as [-> ->]; [|reflexivity].
  unfold recvStep.
  repeat match goal with
         | |- context [if ?b then _ else _] => destruct b
         end; cbn; split; reflexivity.
Qed.

(** The latch is never cleared by a receive. *)
Lemma recvStep_latch_stays conn a ooo rx crypto :
  needsToSendAckImmediately a = true ->
  needsToSendAckImmediately (recvStep conn a ooo rx crypto).1 = true.
Proof.
  intros Hl. unfold recvStep. rewrite Hl.
  repeat match goal with
         | |- context [if ?b then _ else _] => destruct b
         end; cbn; auto.
Qed.

(** When the latch is set after a receive, both counters are zero. *)
Lemma recvStep_latch_zero conn a ooo rx crypto :
  needsToSendAckImmediately (recvStep conn a ooo rx crypto).1 = true ->
  numRxPacketsRecvd (recvStep conn a ooo rx crypto).1 = 0 /\
  numNonRxPacketsRecvd (recvStep conn a ooo rx crypto).1 = 0.
Proof.
  unfold recvStep.
  destruct (needsToSendAckImmediately a) eqn:Hl;
  repeat match goal with
         | |- context [if ?b then _ else _] => destruct b
         end; cbn; rewrite ?Hl; auto; discriminate.
Qed.

(** A receive that leaves the latch clear has counted the packet. *)
Lemma recvStep_unlatched conn a ooo rx crypto :
  needsToSendAckImmediately (recvStep conn a ooo rx crypto).1 = false ->
  if rx then
    numRxPacketsRecvd (recvStep conn a ooo rx crypto).1 =
      incrementCounter (numRxPacketsRecvd a) /\
    numNonRxPacketsRecvd (recvStep conn a ooo rx crypto).1 = numNonRxPacketsRecvd a /\
    incrementCounter (numRxPacketsRecvd a) + numNonRxPacketsRecvd a < rxThreshold conn a
  else
    numRxPacketsRecvd (recvStep conn a ooo rx crypto).1 = numRxPacketsRecvd a /\
    numNonRxPacketsRecvd (recvStep conn a ooo rx crypto).1 =
      incrementCounter (numNonRxPacketsRecvd a).
Proof.
  unfold recvStep.
  destruct (needsToSendAckImmediately a) eqn:Hl; destruct rx; cbn [orb];
  repeat match goal with
         | |- context [if bool_decide ?P then _ else _] => destruct (decide P);
             [rewrite (bool_decide_eq_true_2 P) by assumption
             |rewrite (bool_decide_eq_false_2 P) by assumption]
         | |- context [if ?b then _ else _] => destruct b
         end; cbn in *; rewrite ?Hl; intros Hx; try discriminate Hx;
    repeat split; lia.
Qed.

Lemma receivePackets_cons conn pnSpace p pkts :
  receivePackets conn pnSpace (p :: pkts) =
  receivePackets
    (updateAckSendStateOnRecvPacket conn pnSpace (pktOutOfOrder p)
       (pktHasRetransmittableData p) (pktHasCryptoData p)) pnSpace pkts.
Proof. reflexivity. Qed.

Lemma transportSettings_updateAckSendStateOnRecvPacket conn pnSpace ooo rx crypto :
  transportSettings (updateAckSendStateOnRecvPacket conn pnSpace ooo rx crypto) =
  transportSettings conn.
Proof.
  rewrite updateAckSendStateOnRecvPacket_recvStep. cbv zeta.
  rewrite transportSettings_setAckState.
  destruct (recvStep _ _ _ _ _).2; reflexivity.
Qed.

Lemma getAckState_updateAckSendStateOnRecvPacket conn pnSpace ooo rx crypto :
  getAckState (updateAckSendStateOnRecvPacket conn pnSpace ooo rx crypto) pnSpace =
  (recvStep conn (getAckState conn pnSpace) ooo rx crypto).1.
Proof.
  rewrite updateAckSendStateOnRecvPacket_recvStep. cbv zeta.
  apply getAckState_setAckState.
Qed.

Lemma receivePackets_latch_stays conn pnSpace pkts :
  needsToSendAckImmediately (getAckState conn pnSpace) = true ->
  needsToSendAckImmediately (getAckState (receivePackets conn pnSpace pkts) pnSpace) = true.
Proof.
  revert conn. induction pkts as [|p pkts IH]; intros conn Hl; [exact Hl|].
  rewrite receivePackets_cons. apply IH.
  rewrite getAckState_updateAckSendStateOnRecvPacket.
  apply recvStep_latch_stays, Hl.
Qed.

Lemma countRetransmittable_cons p pkts :
  countRetransmittable (p :: pkts) =
  ((if pktHasRetransmittableData p then 1 else 0) + countRetransmittable pkts)%nat.
Proof.
  unfold countRetransmittable. rewrite filter_cons.
  destruct (pktHasRetransmittableData p); cbn.
  - destruct (decide (true = true)); [reflexivity | congruence].
  - destruct (decide (false = true)); [discriminate | reflexivity].
Qed.

(** Receives that have not latched yet: the retransmittable counter holds
    every retransmittable packet seen, so it reaches the threshold in time. *)
Lemma receivePackets_latches conn pnSpace pkts :
  let a := getAckState conn pnSpace in
  0 <= numRxPacketsRecvd a < ackCounterModulus - 1 ->
  0 <= numNonRxPacketsRecvd a ->
  rxThreshold conn a < ackCounterModulus ->
  (1 <= countRetransmittable pkts)%nat ->
  rxThreshold conn a <= numRxPacketsRecvd a + Z.of_nat (countRetransmittable pkts) ->
  needsToSendAckImmediately (getAckState (receivePackets conn pnSpace pkts) pnSpace) = true.
Proof.
  cbv zeta. revert conn.
  induction pkts as [|p pkts IH]; intros conn Hrx Hnon Ht Hn Hsum.
  { cbn in Hn. lia. }
  rewrite receivePackets_cons.
  set (conn1 := updateAckSendStateOnRecvPacket conn pnSpace _ _ _).
  destruct (needsToSendAckImmediately (getAckState conn1 pnSpace)) eqn:Hl.
  { apply receivePackets_latch_stays, Hl. }
  assert (Hm : 0 < ackCounterModulus) by lia.
  pose proof (getAckState_updateAckSendStateOnRecvPacket conn pnSpace (pktOutOfOrder p)
                (pktHasRetransmittableData p) (pktHasCryptoData p)) as Ha.
  fold conn1 in Ha.
  assert (Hth : rxThreshold conn1 (getAckState conn1 pnSpace) =
                rxThreshold conn (getAckState conn pnSpace)).
  { rewrite Ha. apply rxThreshold_recvStep.
    apply transportSettings_updateAckSendStateOnRecvPacket. }
  rewrite Ha in Hl. pose proof (recvStep_unlatched _ _ _ _ _ Hl) as Hstep.
  rewrite countRetransmittable_cons in Hn, Hsum.
  destruct (pktHasRetransmittableData p).
  - destruct Hstep as (Hr & Hnr & Hlt).
    unfold incrementCounter in Hr, Hlt.
    rewrite Z.mod_small in Hr, Hlt by lia.
    apply IH; rewrite ?Hth, ?Ha, ?Hr, ?Hnr; lia.
  - destruct Hstep as (Hr & Hnr).
    pose proof (Z.mod_pos_bound (numNonRxPacketsRecvd (getAckState conn pnSpace) + 1)
                  ackCounterModulus Hm).
    unfold incrementCounter in Hnr.
    apply IH; rewrite ?Hth, ?Ha, ?Hr, ?Hnr; lia.
Qed.

(** C4, as amended.  On a retransmittable packet that carries crypto data, or
    is out of order while [ignoreReorder] is clear, or whose count brings the
    sum of the two counters to the selected threshold,
    [updateAckSendStateOnRecvPacket] sets [needsToSendAckImmediately] and
    clears [scheduleAckTimeout].  Hence, over any sequence of receives, the
    latch is set once the retransmittable receives number at least the
    selected threshold (the explicit tolerance when there is one), provided
    the threshold is below the modulus of the counters and the retransmittable
    counter starts below the modulus less one, so that it counts that far
    without wrapping.  Whenever the latch is set after a call, both counters
    are zero. *)
Theorem updateAckSendStateOnRecvPacket_latches
    (conn : QuicServerConnectionState) (pnSpace : PacketNumberSpace) :
  let a := getAckState conn pnSpace in
  (forall ooo crypto,
     crypto = true \/ (ooo = true /\ ignoreReorder a = false) \/
     incrementCounter (numRxPacketsRecvd a) + numNonRxPacketsRecvd a >= rxThreshold conn a ->
     let conn' := updateAckSendStateOnRecvPacket conn pnSpace ooo true crypto in
     needsToSendAckImmediately (getAckState conn' pnSpace) = true /\
     scheduleAckTimeout (pendingEvents conn') = false) /\
  (forall pkts,
     0 <= numRxPacketsRecvd a < ackCounterModulus - 1 ->
     0 <= numNonRxPacketsRecvd a ->
     rxThreshold conn a < ackCounterModulus ->
     (1 <= countRetransmittable pkts)%nat ->
     rxThreshold conn a <= Z.of_nat (countRetransmittable pkts) ->
     needsToSendAckImmediately (getAckState (receivePackets conn pnSpace pkts) pnSpace)
       = true) /\
  (forall t, tolerance a = Some t -> rxThreshold conn a = t) /\
  (forall ooo rx crypto,
     let conn' := updateAckSendStateOnRecvPacket conn pnSpace ooo rx crypto in
     needsToSendAckImmediately (getAckState conn' pnSpace) = true ->
     numRxPacketsRecvd (getAckState conn' pnSpace) = 0 /\
     numNonRxPacketsRecvd (getAckState conn' pnSpace) = 0).
Proof.
  intros a. repeat split.
  - rewrite getAckState_updateAckSendStateOnRecvPacket. fold a.
    unfold recvStep. cbn [orb].
    destruct H as [-> | [[-> Hi] | Hsum]].
    + reflexivity.
    + rewrite Hi, orb_true_r. reflexivity.
    + destruct (crypto || _); [reflexivity|]. cbn.
      rewrite bool_decide_eq_true_2 by exact Hsum. reflexivity.
  - rewrite updateAckSendStateOnRecvPacket_recvStep. cbv zeta.
    rewrite pendingEvents_setAckState. fold a.
    unfold recvStep. cbn [orb].
    destruct H as [-> | [[-> Hi] | Hsum]].
    + reflexivity.
    + rewrite Hi, orb_true_r. reflexivity.
    + destruct (crypto || _); [reflexivity|]. cbn.
      rewrite bool_decide_eq_true_2 by exact Hsum. reflexivity.
  - intros pkts Hrx Hnon Ht Hn Hsum.
    apply receivePackets_latches; fold a; lia.
  - intros t Ht. unfold rxThreshold. rewrite Ht. reflexivity.
  - rewrite getAckState_updateAckSendStateOnRecvPacket in *.
    apply recvStep_latch_zero. assumption.
  - rewrite getAckState_updateAckSendStateOnRecvPacket in *.
    apply recvStep_latch_zero. assumption.
Qed.

(** C10.  [updateAckStateOnAckTimeout] writes the AppData ack state and the
    [scheduleAckTimeout] flag and nothing else: it sets the AppData latch,
    zeroes the two AppData counters and clears [scheduleAckTimeout]; the
    Initial and Handshake ack states, the other fields of the AppData ack
    state, the other pending events and every other field of the connection
    keep their values. *)
Theorem updateAckStateOnAckTimeout_frame (conn : QuicServerConnectionState) :
  let conn' := updateAckStateOnAckTimeout conn in
  let app := appDataAckState (ackStates conn) in
  let app' := appDataAckState (ackStates conn') in
  needsToSendAckImmediately app' = true /\
  numRxPacketsRecvd app' = 0 /\
  numNonRxPacketsRecvd app' = 0 /\
  scheduleAckTimeout (pendingEvents conn') = false /\
  initialAckState (ackStates conn') = initialAckState (ackStates conn) /\
  handshakeAckState (ackStates conn') = handshakeAckState (ackStates conn) /\
  app' = set_needsToSendAckImmediately true
           (set_numRxPacketsRecvd 0 (set_numNonRxPacketsRecvd 0 app)) /\
  pendingEvents conn' = set_scheduleAckTimeout false (pendingEvents conn) /\
  conn' = set_pendingEvents (pendingEvents conn')
            (set_ackStates (set_appDataAckState app' (ackStates conn)) conn).
Proof.
  repeat split.
Qed.

End Acks.

(** C4 as stated fails: with counters 8 bits wide, as in the reference
    constants (the source prints them through [static_cast<int>], as one does
    a byte), the retransmittable counter wraps from 255 to 0 and never reaches
    an explicit tolerance of 300.  Neither 300 nor 1000 retransmittable
    in-order packets without crypto data set the latch. *)
Lemma updateAckSendStateOnRecvPacket_counter_wraps :
  let conn := Examples.connectionWithTolerance referenceConstants 300 in
  let received n :=
    receivePackets (K := referenceConstants) conn PNS_AppData
      (replicate n (mkReceived false true false)) in
  tolerance (getAckState conn PNS_AppData) = Some 300 /\
  needsToSendAckImmediately (getAckState conn PNS_AppData) = false /\
  countRetransmittable (replicate 300 (mkReceived false true false)) = 300%nat /\
  needsToSendAckImmediately (getAckState (received 300%nat) PNS_AppData) = false /\
  numRxPacketsRecvd (getAckState (received 300%nat) PNS_AppData) = 44 /\
  countRetransmittable (replicate 1000 (mkReceived false true false)) = 1000%nat /\
  needsToSendAckImmediately (getAckState (received 1000%nat) PNS_AppData) = false.
Proof. vm_compute. repeat split; reflexivity. Qed.

(** An ack state with an explicit tolerance of 2 latches on the second of two
    retransmittable packets. *)
Lemma updateAckSendStateOnRecvPacket_latches_witness :
  (0 <= 0 < 2 ^ 8 - 1) /\ 0 <= 0 /\ 2 < 2 ^ 8 /\ (1 <= 2)%nat /\ 2 <= Z.of_nat 2 /\
  needsToSendAckImmediately
    (getAckState
       (receivePackets (K := referenceConstants)
          (Examples.connectionWithTolerance referenceConstants 2) PNS_AppData
          [mkReceived false true false; mkReceived false true false])
       PNS_AppData) = true.
Proof.
  assert (H1 : 0 <= 0 < 2 ^ 8 - 1) by lia.
  assert (H2 : 0 <= 0) by lia.
  assert (H3 : 2 < 2 ^ 8) by lia.
  assert (H4 : (1 <= 2)%nat) by lia.
  assert (H5 : 2 <= Z.of_nat 2) by lia.
  repeat (split; [assumption|]).
  exact (proj1 (proj2 (updateAckSendStateOnRecvPacket_latches (K := referenceConstants)
                         (Examples.connectionWithTolerance referenceConstants 2)
                         PNS_AppData))
           [mkReceived false true false; mkReceived false true false] H1 H2 H3 H4 H5).
Defined.

Section Packets.
Context `{K : QuicConstants}.

Lemma getAckState_setAckState_other pnSpace other a conn :
  other <> pnSpace -> getAckState (setAckState pnSpace a conn) other = getAckState conn other.
Proof. destruct pnSpace, other; intros H; try reflexivity; contradiction. Qed.

Lemma increaseNextPacketNum_next conn pnSpace :
  getNextPacketNum (increaseNextPacketNum conn pnSpace) pnSpace =
  wrap64 (getNextPacketNum conn pnSpace + 1).
Proof.
  unfold increaseNextPacketNum, getNextPacketNum.
  rewrite getAckState_setAckState.
  case_bool_decide; destruct pnSpace; reflexivity.
Qed.

Lemma increaseNextPacketNum_other conn pnSpace other :
  other <> pnSpace ->
  getAckState (increaseNextPacketNum conn pnSpace) other = getAckState conn other.
Proof.
  intros H. unfold increaseNextPacketNum.
  case_bool_decide; destruct pnSpace, other; try reflexivity; contradiction.
Qed.

Lemma increaseNextPacketNum_closeTransport conn pnSpace :
  closeTransport (pendingEvents (increaseNextPacketNum conn pnSpace)) =
  closeTransport (pendingEvents conn) ||
  bool_decide (wrap64 (getNextPacketNum conn pnSpace + 1) = kMaxPacketNumber - 1).
Proof.
  unfold increaseNextPacketNum, getNextPacketNum.
  rewrite getAckState_setAckState. cbn [nextPacketNum].
  assert (nextPacketNum (set_nextPacketNum (wrap64 (nextPacketNum (getAckState conn pnSpace) + 1))
            (getAckState conn pnSpace)) = wrap64 (nextPacketNum (getAckState conn pnSpace) + 1)) as ->
    by reflexivity.
  case_bool_decide.
  - rewrite orb_true_r. reflexivity.
  - rewrite orb_false_r. destruct pnSpace; reflexivity.
Qed.

(** X1.  Packet numbers of a space are handed out in sequence: after [n]
    calls of [increaseNextPacketNum] for one space, with no wrap-around of
    the 64-bit counter, the next packet number of that space has grown by
    [n] and the ack states of the other spaces are as they were; and
    [closeTransport] is raised exactly when it was raised before or the
    counter passed through [kMaxPacketNumber - 1] on the way: once raised it
    stays raised. *)
Theorem sendPackets_numbers (conn : QuicServerConnectionState) (pnSpace : PacketNumberSpace)
    (n : nat) :
  let p := getNextPacketNum conn pnSpace in
  let conn' := sendPackets n pnSpace conn in
  0 <= p ->
  p + Z.of_nat n < 2 ^ 64 ->
  getNextPacketNum conn' pnSpace = p + Z.of_nat n /\
  (forall other, other <> pnSpace -> getAckState conn' other = getAckState conn other) /\
  (closeTransport (pendingEvents conn') = true <->
   closeTransport (pendingEvents conn) = true \/
   (p < kMaxPacketNumber - 1 <= p + Z.of_nat n)).
Proof.
  intros p conn' Hp Hn. subst conn'. unfold sendPackets.
  induction n as [|n IH].
  - cbn. split; [lia|]. split; [reflexivity|]. split; [tauto|]. intros [H|H]; [exact H|lia].
  - destruct IH as (IH1 & IH2 & IH3); [lia|].
    rewrite Nat.iter_succ. set (c := Nat.iter n _ conn) in *.
    rewrite increaseNextPacketNum_next, increaseNextPacketNum_closeTransport, IH1.
    unfold wrap64. rewrite Z.mod_small by lia.
    split; [rewrite Nat2Z.inj_succ; lia|]. split.
    + intros other Ho. rewrite increaseNextPacketNum_other by exact Ho. apply IH2, Ho.
    + rewrite orb_true_iff, bool_decide_eq_true, IH3. rewrite Nat2Z.inj_succ.
      intuition lia.
Qed.

Lemma recvStep_non_retransmittable conn a ooo crypto :
  recvStep conn a ooo false crypto = recvStep conn a false false false.
Proof. unfold recvStep. cbn [orb]. destruct (ignoreReorder a); reflexivity. Qed.

Lemma recvStep_non_retransmittable_timer conn a ooo crypto :
  (recvStep conn a ooo false crypto).2 <> Some true.
Proof.
  unfold recvStep. cbn [orb].
  repeat match goal with
         | |- context [if ?b then _ else _] => destruct b
         end; cbn; congruence.
Qed.

Lemma scheduleAckTimeout_setAckState pnSpace a conn :
  scheduleAckTimeout (pendingEvents (setAckState pnSpace a conn)) =
  scheduleAckTimeout (pendingEvents conn).
Proof. rewrite pendingEvents_setAckState. reflexivity. Qed.

(** X2.  A packet without retransmittable data is handled the same
    whether or not it arrived out of order or is said to carry crypto data,
    and it never arms the ack timer: over any sequence of such packets,
    [scheduleAckTimeout] is set afterwards only if it was set before. *)
Theorem non_retransmittable_packets_never_arm_ack_timer
    (conn : QuicServerConnectionState) (pnSpace : PacketNumberSpace) :
  (forall ooo crypto,
     updateAckSendStateOnRecvPacket conn pnSpace ooo false crypto =
     updateAckSendStateOnRecvPacket conn pnSpace false false false) /\
  (forall pkts,
     Forall (fun p => pktHasRetransmittableData p = false) pkts ->
     scheduleAckTimeout (pendingEvents (receivePackets conn pnSpace pkts)) = true ->
     scheduleAckTimeout (pendingEvents conn) = true).
Proof.
  split.
  - intros ooo crypto. rewrite !updateAckSendStateOnRecvPacket_recvStep. cbv zeta.
    rewrite recvStep_non_retransmittable. reflexivity.
  - intros pkts. revert conn. induction pkts as [|p pkts IH]; intros conn Hall Hs.
    + exact Hs.
    + inversion Hall as [|? ? Hp Hrest]; subst.
      rewrite receivePackets_cons in Hs. apply IH in Hs; [|exact Hrest].
      rewrite Hp in Hs. rewrite updateAckSendStateOnRecvPacket_recvStep in Hs.
      cbv zeta in Hs. rewrite scheduleAckTimeout_setAckState in Hs.
      pose proof (recvStep_non_retransmittable_timer conn (getAckState conn pnSpace)
                    (pktOutOfOrder p) (pktHasCryptoData p)) as Hn.
      destruct (recvStep _ _ _ _ _).2 as [[|]|]; [congruence | discriminate Hs | exact Hs].
Qed.

(** X3.  [updateAckSendStateOnSentPacketWithAcks] starts a new round of
    ack scheduling for its space: the latch and the timer flag are clear, both
    counters are zero, [largestAckScheduled] is the number given and the
    other spaces are untouched.  The next in-order retransmittable packet
    without crypto data then latches an immediate ack when the selected
    threshold is at most 1, and otherwise is counted and arms the ack timer. *)
Theorem sent_acks_then_receive (conn : QuicServerConnectionState)
    (pnSpace : PacketNumberSpace) (largest : Z) :
  let a := getAckState conn pnSpace in
  let conn1 := updateAckSendStateOnSentPacketWithAcks conn pnSpace largest in
  let a1 := getAckState conn1 pnSpace in
  let conn2 := updateAckSendStateOnRecvPacket conn1 pnSpace false true false in
  let a2 := getAckState conn2 pnSpace in
  1 < ackCounterModulus ->
  (needsToSendAckImmediately a1 = false /\
   numRxPacketsRecvd a1 = 0 /\ numNonRxPacketsRecvd a1 = 0 /\
   largestAckScheduled a1 = Some largest /\
   scheduleAckTimeout (pendingEvents conn1) = false /\
   forall other, other <> pnSpace -> getAckState conn1 other = getAckState conn other) /\
  (rxThreshold conn a <= 1 ->
   needsToSendAckImmediately a2 = true /\ numRxPacketsRecvd a2 = 0 /\
   scheduleAckTimeout (pendingEvents conn2) = false) /\
  (1 < rxThreshold conn a ->
   needsToSendAckImmediately a2 = false /\ numRxPacketsRecvd a2 = 1 /\
   scheduleAckTimeout (pendingEvents conn2) = true).
Proof.
  intros a conn1 a1 conn2 a2 Hm.
  assert (Ha1 : a1 = set_largestAckScheduled (Some largest)
                       (set_numNonRxPacketsRecvd 0
                          (set_numRxPacketsRecvd 0
                             (set_needsToSendAckImmediately false a)))).
  { unfold a1, conn1, updateAckSendStateOnSentPacketWithAcks.
    rewrite getAckState_setAckState. destruct pnSpace; reflexivity. }
  assert (Hth : rxThreshold conn1 a1 = rxThreshold conn a).
  { rewrite Ha1. unfold rxThreshold, conn1, updateAckSendStateOnSentPacketWithAcks.
    rewrite transportSettings_setAckState. reflexivity. }
  assert (Hinc : incrementCounter 0 = 1).
  { unfold incrementCounter. apply Z.mod_small. lia. }
  split.
  { rewrite Ha1. repeat split.
    - unfold conn1, updateAckSendStateOnSentPacketWithAcks.
      rewrite pendingEvents_setAckState. reflexivity.
    - intros other Ho. unfold conn1, updateAckSendStateOnSentPacketWithAcks.
      rewrite getAckState_setAckState_other by exact Ho. destruct other; reflexivity. }
  unfold a2, conn2.
  rewrite getAckState_updateAckSendStateOnRecvPacket.
  rewrite updateAckSendStateOnRecvPacket_recvStep. cbv zeta.
  rewrite pendingEvents_setAckState. fold a1.
  unfold recvStep. rewrite Hth. cbn [orb].
  assert (Hig : ignoreReorder a1 = ignoreReorder a) by (rewrite Ha1; reflexivity).
  assert (Hrx : numRxPacketsRecvd a1 = 0) by (rewrite Ha1; reflexivity).
  assert (Hnr : numNonRxPacketsRecvd a1 = 0) by (rewrite Ha1; reflexivity).
  assert (Hl : needsToSendAckImmediately a1 = false) by (rewrite Ha1; reflexivity).
  assert ((if ignoreReorder a1 then false else false) = false) as ->
    by (destruct (ignoreReorder a1); reflexivity).
  cbn [numRxPacketsRecvd numNonRxPacketsRecvd].
  assert (Hs : numRxPacketsRecvd
                 (set_numRxPacketsRecvd (incrementCounter (numRxPacketsRecvd a1)) a1) +
               numNonRxPacketsRecvd
                 (set_numRxPacketsRecvd (incrementCounter (numRxPacketsRecvd a1)) a1) = 1).
  { change (incrementCounter (numRxPacketsRecvd a1) + numNonRxPacketsRecvd a1 = 1).
    rewrite Hrx, Hnr, Hinc. reflexivity. }
  rewrite Hs, Hl. split; intros Ht.
  - rewrite bool_decide_eq_true_2 by lia. repeat split.
  - rewrite bool_decide_eq_false_2 by lia. cbn [fst snd]. repeat split.
    + exact Hl.
    + change (incrementCounter (numRxPacketsRecvd a1) = 1). rewrite Hrx. exact Hinc.
Qed.

(** The spaces [earliestTimeAndSpace] looks at, and the position of a space
    in the enumeration. *)
Definition considered (considerAppData : bool) (pns : PacketNumberSpace) : bool :=
  match pns with PNS_AppData => considerAppData | _ => true end.

Definition spaceIndex (pns : PacketNumberSpace) : Z :=
  match pns with PNS_Initial => 0 | PNS_Handshake => 1 | PNS_AppData => 2 end.

(** X4.  [earliestTimeAndSpace] gives no time exactly when no space it
    looks at has one (AppData is looked at only when [considerAppData]), and
    then names the Initial space; otherwise it gives the time of the space it
    names, which it looked at, and that time is the least of the times it
    looked at, the earlier space of the enumeration winning a tie. *)
Theorem earliestTimeAndSpace_earliest (times : PacketNumberSpace -> option Z)
    (considerAppData : bool) :
  let res := earliestTimeAndSpace times considerAppData in
  (res.1 = None <->
   forall pns, considered considerAppData pns = true -> times pns = None) /\
  (res.1 = None -> res.2 = PNS_Initial) /\
  (forall t, res.1 = Some t ->
     times res.2 = Some t /\ considered considerAppData res.2 = true /\
     forall pns t', considered considerAppData pns = true -> times pns = Some t' ->
       t < t' \/ (t = t' /\ spaceIndex res.2 <= spaceIndex pns)).
Proof.
  unfold earliestTimeAndSpace, packetNumberSpaces. cbn [fold_left].
  destruct (times PNS_Initial) as [ti|] eqn:Ei;
  destruct (times PNS_Handshake) as [th|] eqn:Eh;
  destruct (times PNS_AppData) as [ta|] eqn:Ea;
  destruct considerAppData; cbn [negb fst snd];
  repeat (case_bool_decide; cbn [fst snd]).
  all: split; [split|split].
  all: try (intros; discriminate).
  all: try (intros; reflexivity).
  all: try (intros _ pns Hc; destruct pns; first [assumption | discriminate Hc]).
  all: try (intros Hall;
            first [ specialize (Hall PNS_Initial eq_refl); congruence
                  | specialize (Hall PNS_Handshake eq_refl); congruence
                  | specialize (Hall PNS_AppData eq_refl); congruence ]).
  all: intros t Ht; try discriminate Ht; injection Ht as <-.
  all: split; [assumption|]; split; [reflexivity|].
  all: intros pns t' Hc Ht'; destruct pns; cbn in Hc; try discriminate Hc.
  all: rewrite ?Ei, ?Eh, ?Ea in Ht'; try discriminate Ht'; injection Ht' as <-.
  all: cbn; lia.
Qed.

End Packets.

(** Three packets sent in the AppData space of a fresh connection. *)
Lemma sendPackets_numbers_witness :
  0 <= 0 /\ 0 + Z.of_nat 3 < 2 ^ 64 /\
  getNextPacketNum
    (sendPackets (K := referenceConstants) 3 PNS_AppData
       (Examples.exampleConnection referenceConstants)) PNS_AppData = 0 + Z.of_nat 3.
Proof.
  assert (H1 : 0 <= 0) by lia.
  assert (H2 : 0 + Z.of_nat 3 < 2 ^ 64) by (cbn; lia).
  repeat (split; [assumption|]).
  exact (proj1 (sendPackets_numbers (K := referenceConstants)
                  (Examples.exampleConnection referenceConstants) PNS_AppData 3 H1 H2)).
Defined.

(** On the example connection the threshold is 10: after a packet with acks
    was sent, the next retransmittable packet arms the ack timer. *)
Lemma sent_acks_then_receive_witness :
  1 < 2 ^ 8 /\
  scheduleAckTimeout
    (pendingEvents
       (updateAckSendStateOnRecvPacket (K := referenceConstants)
          (updateAckSendStateOnSentPacketWithAcks
             (Examples.exampleConnection referenceConstants) PNS_AppData 5)
          PNS_AppData false true false)) = true.
Proof.
  assert (H1 : 1 < 2 ^ 8) by lia.
  split; [assumption|].
  refine (proj2 (proj2 (proj2 (proj2 (sent_acks_then_receive (K := referenceConstants)
            (Examples.exampleConnection referenceConstants) PNS_AppData 5 H1)) _))).
  vm_compute. reflexivity.
Defined.

End QuicStateFunctionsProofs.

(** ** Transport knobs *)

Module TransportKnobsProofs.

Import TransportKnobs.

(** The order of the output, as a relation on (id, value) pairs. *)
Definition knobLe (lhs rhs : TransportKnobParam) : Prop :=
  knobId lhs < knobId rhs \/ (knobId lhs = knobId rhs /\ knobVal lhs <= knobVal rhs).

Lemma knobOrder_knobLe lhs rhs : knobOrder lhs rhs <-> knobLe lhs rhs.
Proof.
  unfold knobOrder, knobLe, compareTransportKnobParam.
  repeat case_bool_decide; split; intros; try discriminate; try reflexivity; lia.
Qed.

#[local] Instance knobOrder_total : Total knobOrder.
Proof. intros x y. rewrite !knobOrder_knobLe. unfold knobLe. lia. Qed.

#[local] Instance knobOrder_trans : Transitive knobOrder.
Proof. intros x y z. rewrite !knobOrder_knobLe. unfold knobLe. lia. Qed.

Lemma StronglySorted_knobLe (l : list TransportKnobParam) :
  StronglySorted knobOrder l -> StronglySorted knobLe l.
Proof.
  induction 1 as [|x l Hl IH Hx]; constructor; [exact IH|].
  eapply Forall_impl; [exact Hx|]. intros y. apply knobOrder_knobLe.
Qed.

(** Strings: the position of the first separator and the two substrings. *)
Lemma find_append (c : ascii) (a b : string) :
  find c a = None ->
  find c (a +:+ String c b) = Some (String.length a).
Proof.
  induction a as [|c' a IH]; simpl; intros H.
  - rewrite bool_decide_eq_true_2 by reflexivity. reflexivity.
  - destruct (bool_decide (c' = c)); [discriminate|].
    destruct (find c a); [discriminate|]. rewrite IH by reflexivity. reflexivity.
Qed.

Lemma substring_all (m : nat) (b : string) :
  (String.length b <= m)%nat -> String.substring 0 m b = b.
Proof.
  revert m. induction b as [|c b IH]; intros [|m] H; simpl in *; try reflexivity; try lia.
  rewrite IH by lia. reflexivity.
Qed.

Lemma substring_prefix (a b : string) :
  String.substring 0 (String.length a) (a +:+ b) = a.
Proof.
  induction a as [|c a IH]; simpl.
  - destruct b; reflexivity.
  - rewrite IH. reflexivity.
Qed.

Lemma substring_suffix (c : ascii) (a b : string) (m : nat) :
  (String.length b <= m)%nat ->
  String.substring (S (String.length a)) m (a +:+ String c b) = b.
Proof.
  intros H. induction a as [|c' a IH]; simpl.
  - apply substring_all, H.
  - exact IH.
Qed.

Lemma length_append (a b : string) :
  String.length (a +:+ b) = (String.length a + String.length b)%nat.
Proof. induction a as [|c a IH]; simpl; [reflexivity | rewrite IH; reflexivity]. Qed.

(** [folly::split] into two fields at the only separator. *)
Lemma split2_fields (c : ascii) (a b : string) :
  find c a = None ->
  split2 c (a +:+ String c b) =
  match find c b with None => Some (a, b) | Some _ => None end.
Proof.
  intros Ha. unfold split2. rewrite (find_append _ _ _ Ha).
  rewrite substring_prefix.
  rewrite substring_suffix by (rewrite length_append; simpl; lia).
  reflexivity.
Qed.

Section Parser.
Context `{K : QuicConstants} `{F : KnobCollaborators}.

(** The RTT-factor branch on a string [numStr/denStr]. *)
Lemma parseRttFactor_fraction (numStr denStr : string) :
  find "/"%char numStr = None ->
  parseRttFactor (numStr +:+ String "/"%char denStr) =
  match tryToInt numStr, tryToInt denStr with
  | Some num, Some den =>
      if bool_decide (0 < num < 100 /\ 0 < den < 100) then Some (num * 100 + den) else None
  | _, _ => None
  end.
Proof.
  intros Hfind. unfold parseRttFactor. rewrite (find_append _ _ _ Hfind).
  rewrite substring_prefix.
  rewrite substring_suffix by (rewrite length_append; simpl; lia).
  unfold uint64_of_int, wrap64, kKnobFractionMax.
  destruct (tryToInt numStr) as [num|] eqn:En; cbn [default from_option]; unfold id.
  - pose proof (tryToInt_range _ _ En) as Rn.
    destruct (tryToInt denStr) as [den|] eqn:Ed; cbn [default from_option]; unfold id.
    + pose proof (tryToInt_range _ _ Ed) as Rd.
      destruct (decide (0 <= num)) as [Hn|Hn]; destruct (decide (0 <= den)) as [Hd|Hd].
      * rewrite (Z.mod_small num), (Z.mod_small den) by lia.
        repeat case_bool_decide; cbn; try reflexivity; try lia.
        rewrite Z.mod_small by lia. reflexivity.
      * rewrite (Z.mod_small num) by lia.
        assert (den mod 2 ^ 64 = den + 2 ^ 64) as ->.
        { symmetry. apply (Z.mod_unique_pos _ _ (-1)); lia. }
        repeat case_bool_decide; cbn; try reflexivity; lia.
      * assert (num mod 2 ^ 64 = num + 2 ^ 64) as ->.
        { symmetry. apply (Z.mod_unique_pos _ _ (-1)); lia. }
        repeat case_bool_decide; cbn; try reflexivity; lia.
      * assert (num mod 2 ^ 64 = num + 2 ^ 64) as ->.
        { symmetry. apply (Z.mod_unique_pos _ _ (-1)); lia. }
        repeat case_bool_decide; cbn; try reflexivity; lia.
    + rewrite (Z.mod_small 100) by lia.
      repeat case_bool_decide; cbn; try reflexivity; lia.
  - rewrite (Z.mod_small 100) by lia.
    repeat case_bool_decide; cbn; try reflexivity; lia.
Qed.

(** A failing iteration fails the loop. *)
Lemma parseKnobItems_fails (items : list (dynamic * dynamic)) (id val : dynamic) :
  (id, val) ∈ items ->
  parseKnobParam id val = None ->
  parseKnobItems items = None.
Proof.
  induction items as [|[i v] items IH]; intros Hin Hfail.
  - inversion Hin.
  - cbn. apply elem_of_cons in Hin as [Heq|Hin].
    + injection Heq as <- <-. rewrite Hfail. reflexivity.
    + rewrite (IH Hin Hfail). destruct (parseKnobParam i v); reflexivity.
Qed.

(** The loop is [mapM] of the iteration. *)
Lemma parseKnobItems_mapM (items : list (dynamic * dynamic)) :
  parseKnobItems items = mapM (fun kv => parseKnobParam kv.1 kv.2) items.
Proof.
  induction items as [|[i v] items IH]; [reflexivity|].
  cbn. rewrite IH. reflexivity.
Qed.

(** C9.  An RTT-factor knob (startup or default) whose string is
    [numStr/denStr], the two parts read by [tryTo<int>] as [num] and [den]
    with [0 < num < 100] and [0 < den < 100], yields the value
    [num * 100 + den]; a part that is no integer or lies outside that range
    fails the iteration, and so does a string value under any other key than
    the four string knobs; a failing iteration fails the whole parse; and a
    successful parse returns the parameters of the iterations, sorted by id
    and then by value. *)
Theorem parseTransportKnobs_spec :
  0 <= STARTUP_RTT_FACTOR_KNOB ->
  0 <= DEFAULT_RTT_FACTOR_KNOB ->
  CC_ALGORITHM_KNOB <> STARTUP_RTT_FACTOR_KNOB ->
  CC_ALGORITHM_KNOB <> DEFAULT_RTT_FACTOR_KNOB ->
  (forall id paramId numStr denStr num den,
     asInt id = Some paramId ->
     paramId = STARTUP_RTT_FACTOR_KNOB \/ paramId = DEFAULT_RTT_FACTOR_KNOB ->
     find "/"%char numStr = None ->
     tryToInt numStr = Some num ->
     tryToInt denStr = Some den ->
     0 < num < 100 ->
     0 < den < 100 ->
     parseKnobParam id (D_STRING (numStr +:+ String "/"%char denStr)) =
     Some (mkKnob paramId (num * 100 + den))) /\
  (forall id paramId numStr denStr,
     asInt id = Some paramId ->
     paramId = STARTUP_RTT_FACTOR_KNOB \/ paramId = DEFAULT_RTT_FACTOR_KNOB ->
     find "/"%char numStr = None ->
     (forall num den,
        tryToInt numStr = Some num -> tryToInt denStr = Some den ->
        ~ (0 < num < 100 /\ 0 < den < 100)) ->
     parseKnobParam id (D_STRING (numStr +:+ String "/"%char denStr)) = None) /\
  (forall id s,
     asInt id <> Some CC_ALGORITHM_KNOB ->
     asInt id <> Some STARTUP_RTT_FACTOR_KNOB ->
     asInt id <> Some DEFAULT_RTT_FACTOR_KNOB ->
     asInt id <> Some AUTO_BACKGROUND_MODE ->
     parseKnobParam id (D_STRING s) = None) /\
  (forall text items id val,
     parseJson text = Some (D_OBJECT items) ->
     (id, val) ∈ items ->
     parseKnobParam id val = None ->
     parseTransportKnobs text = None) /\
  (forall text out,
     parseTransportKnobs text = Some out ->
     StronglySorted knobLe out /\
     exists items params,
       parseJson text = Some (D_OBJECT items) /\
       mapM (fun kv => parseKnobParam kv.1 kv.2) items = Some params /\
       out ≡ₚ params).
Proof.
  intros Hs0 Hd0 Hcs Hcd. repeat apply conj.
  - intros id paramId numStr denStr num den Hid Hp Hfind Hn Hd Rn Rd.
    unfold parseKnobParam. rewrite Hid. cbn.
    unfold toUint64. rewrite bool_decide_eq_true_2 by (destruct Hp; lia). cbn.
    rewrite bool_decide_eq_false_2 by (destruct Hp; congruence).
    assert (bool_decide (paramId = STARTUP_RTT_FACTOR_KNOB) ||
            bool_decide (paramId = DEFAULT_RTT_FACTOR_KNOB) = true) as ->.
    { apply orb_true_iff. rewrite !bool_decide_eq_true. exact Hp. }
    rewrite (parseRttFactor_fraction _ _ Hfind), Hn, Hd.
    rewrite bool_decide_eq_true_2 by lia. reflexivity.
  - intros id paramId numStr denStr Hid Hp Hfind Hbad.
    unfold parseKnobParam. rewrite Hid. cbn.
    unfold toUint64. rewrite bool_decide_eq_true_2 by (destruct Hp; lia). cbn.
    rewrite bool_decide_eq_false_2 by (destruct Hp; congruence).
    assert (bool_decide (paramId = STARTUP_RTT_FACTOR_KNOB) ||
            bool_decide (paramId = DEFAULT_RTT_FACTOR_KNOB) = true) as ->.
    { apply orb_true_iff. rewrite !bool_decide_eq_true. exact Hp. }
    rewrite (parseRttFactor_fraction _ _ Hfind).
    destruct (tryToInt numStr) as [num|]; [|reflexivity].
    destruct (tryToInt denStr) as [den|]; [|reflexivity].
    rewrite bool_decide_eq_false_2 by (apply Hbad; reflexivity). reflexivity.
  - intros id s Hc Hs Hd Ha. unfold parseKnobParam.
    destruct (asInt id) as [n|]; [|reflexivity]. cbn.
    unfold toUint64. case_bool_decide; [|reflexivity]. cbn.
    rewrite !bool_decide_eq_false_2 by congruence. reflexivity.
  - intros text items id val Hjson Hin Hfail.
    unfold parseTransportKnobs. rewrite Hjson. cbn.
    rewrite (parseKnobItems_fails _ _ _ Hin Hfail). reflexivity.
  - intros text out Hout. unfold parseTransportKnobs in Hout.
    destruct (parseJson text) as [params|] eqn:Hjson; [|discriminate].
    cbn in Hout. destruct params; try discriminate. cbn in Hout.
    destruct (parseKnobItems items) as [params|] eqn:Hitems; [|discriminate].
    cbn in Hout. injection Hout as <-. split.
    + apply StronglySorted_knobLe, StronglySorted_merge_sort; apply _.
    + exists items, params. split; [reflexivity|]. split.
      * rewrite <- parseKnobItems_mapM. exact Hitems.
      * apply merge_sort_Permutation.
Qed.

(** The conversion of an [int] to [uint64_t]. *)
Lemma uint64_of_int_nonneg (n : Z) :
  - 2 ^ 31 <= n < 2 ^ 31 -> 0 <= n -> uint64_of_int n = n.
Proof. intros R H. unfold uint64_of_int, wrap64. apply Z.mod_small. lia. Qed.

Lemma uint64_of_int_neg (n : Z) :
  - 2 ^ 31 <= n < 2 ^ 31 -> n < 0 -> uint64_of_int n = n + 2 ^ 64.
Proof.
  intros R H. unfold uint64_of_int, wrap64. symmetry.
  apply (Z.mod_unique_pos _ _ (-1)); lia.
Qed.

(** The auto-background-mode branch on a string [prioStr,utilStr]. *)
Lemma parseAutoBackgroundMode_fields (prioStr utilStr : string) :
  0 <= kPriorityThresholdKnobMultiplier < 2 ^ 60 ->
  find ","%char prioStr = None ->
  parseAutoBackgroundMode (prioStr +:+ String ","%char utilStr) =
  match find ","%char utilStr, tryToInt prioStr, tryToInt utilStr with
  | None, Some prio, Some util =>
      if bool_decide (0 <= prio <= 7 /\ 25 <= util <= 100)
      then Some (prio * kPriorityThresholdKnobMultiplier + util)
      else None
  | _, _, _ => None
  end.
Proof.
  intros Hm Hfind. unfold parseAutoBackgroundMode.
  rewrite (split2_fields _ _ _ Hfind).
  destruct (find ","%char utilStr); [reflexivity|].
  unfold kDefaultMaxPriority.
  assert (Hminus : uint64_of_int (-1) = 2 ^ 64 - 1) by reflexivity.
  destruct (tryToInt prioStr) as [prio|] eqn:Ep; cbn [default from_option]; unfold id.
  - pose proof (tryToInt_range _ _ Ep) as Rp.
    destruct (tryToInt utilStr) as [util|] eqn:Eu; cbn [default from_option]; unfold id.
    + pose proof (tryToInt_range _ _ Eu) as Ru.
      destruct (decide (0 <= prio)) as [Hp|Hp]; destruct (decide (0 <= util)) as [Hu|Hu].
      * rewrite (uint64_of_int_nonneg prio), (uint64_of_int_nonneg util) by lia.
        repeat case_bool_decide; cbn; try reflexivity; try lia.
        assert (0 <= prio * kPriorityThresholdKnobMultiplier <= 7 * 2 ^ 60) by nia.
        unfold wrap64.
        rewrite (Z.mod_small (prio * kPriorityThresholdKnobMultiplier)) by lia.
        rewrite Z.mod_small by lia. reflexivity.
      * rewrite (uint64_of_int_nonneg prio) by lia.
        rewrite (uint64_of_int_neg util) by lia.
        repeat case_bool_decide; cbn; try reflexivity; lia.
      * rewrite (uint64_of_int_neg prio) by lia.
        repeat case_bool_decide; cbn; try reflexivity; lia.
      * rewrite (uint64_of_int_neg prio) by lia.
        repeat case_bool_decide; cbn; try reflexivity; lia.
    + rewrite Hminus.
      repeat case_bool_decide; cbn; try reflexivity; lia.
  - rewrite Hminus.
    repeat case_bool_decide; cbn; try reflexivity; lia.
Qed.

(** X5.  The auto-background-mode knob with the string [prioStr,utilStr]
    is taken exactly when the string has one comma and both fields are read
    by [tryTo<int>] as a priority threshold in [0, 7] and a utilization
    percentage in [25, 100]; its value is then
    [threshold * kPriorityThresholdKnobMultiplier + percentage].  A field
    that is no integer, a negative number (which the conversion to
    [uint64_t] turns into a large one) or a second comma fails the
    iteration. *)
Theorem parseKnobParam_auto_background_mode (id : dynamic) (prioStr utilStr : string) :
  0 <= kPriorityThresholdKnobMultiplier < 2 ^ 60 ->
  0 <= AUTO_BACKGROUND_MODE ->
  AUTO_BACKGROUND_MODE <> CC_ALGORITHM_KNOB ->
  AUTO_BACKGROUND_MODE <> STARTUP_RTT_FACTOR_KNOB ->
  AUTO_BACKGROUND_MODE <> DEFAULT_RTT_FACTOR_KNOB ->
  asInt id = Some AUTO_BACKGROUND_MODE ->
  find ","%char prioStr = None ->
  parseKnobParam id (D_STRING (prioStr +:+ String ","%char utilStr)) =
  match find ","%char utilStr, tryToInt prioStr, tryToInt utilStr with
  | None, Some prio, Some util =>
      if bool_decide (0 <= prio <= 7 /\ 25 <= util <= 100)
      then Some (mkKnob AUTO_BACKGROUND_MODE
                   (prio * kPriorityThresholdKnobMultiplier + util))
      else None
  | _, _, _ => None
  end.
Proof.
  intros Hm H0 Hc Hs Hd Hid Hfind.
  unfold parseKnobParam. rewrite Hid. cbn.
  unfold toUint64. rewrite bool_decide_eq_true_2 by lia. cbn.
  rewrite !bool_decide_eq_false_2 by congruence. cbn.
  rewrite bool_decide_eq_true_2 by reflexivity.
  rewrite (parseAutoBackgroundMode_fields _ _ Hm Hfind).
  destruct (find ","%char utilStr); [reflexivity|].
  destruct (tryToInt prioStr); [|reflexivity].
  destruct (tryToInt utilStr); [|reflexivity].
  case_bool_decide; reflexivity.
Qed.

(** A key or a value the loop does not take. *)
Definition rejectedItem (id val : dynamic) : Prop :=
  asInt id = None \/
  (exists n, asInt id = Some n /\ n < 0) \/
  (exists n, val = D_INT64 n /\ n < 0) \/
  val = D_NULLT \/
  (exists bits, val = D_DOUBLE bits) \/
  (exists elements, val = D_ARRAY elements) \/
  (exists items, val = D_OBJECT items) \/
  (exists s, val = D_STRING s /\ asInt id = Some CC_ALGORITHM_KNOB /\
             congestionControlStrToType s = None).

Lemma parseKnobParam_rejected (id val : dynamic) :
  rejectedItem id val -> parseKnobParam id val = None.
Proof.
  unfold rejectedItem, parseKnobParam.
  intros [H|[(n & H & Hn)|[(n & -> & Hn)|[->|[(b & ->)|[(e & ->)|[(i & ->)|(s & -> & H & Hs)]]]]]]].
  - rewrite H. reflexivity.
  - rewrite H. cbn. unfold toUint64. rewrite bool_decide_eq_false_2 by lia. reflexivity.
  - destruct (asInt id) as [k|]; [|reflexivity]. cbn.
    destruct (toUint64 k); [|reflexivity]. cbn.
    unfold toUint64. rewrite bool_decide_eq_false_2 by lia. reflexivity.
  - destruct (asInt id) as [k|]; [|reflexivity]. cbn. destruct (toUint64 k); reflexivity.
  - destruct (asInt id) as [k|]; [|reflexivity]. cbn. destruct (toUint64 k); reflexivity.
  - destruct (asInt id) as [k|]; [|reflexivity]. cbn. destruct (toUint64 k); reflexivity.
  - destruct (asInt id) as [k|]; [|reflexivity]. cbn. destruct (toUint64 k); reflexivity.
  - rewrite H. cbn. unfold toUint64. case_bool_decide; [|reflexivity]. cbn.
    rewrite bool_decide_eq_true_2 by reflexivity. rewrite Hs. reflexivity.
Qed.

(** X6.  [parseTransportKnobs] gives [folly::none] when the text is no
    JSON, when the JSON value is no object, and when the object holds a pair
    the loop does not take: a key that is no integer or is negative, a
    negative integer value, a value that is null, a double, an array or an
    object, or an unknown congestion controller name under the
    congestion-control knob.  The empty object gives the empty list. *)
Theorem parseTransportKnobs_rejects (text : string) :
  (parseJson text = None -> parseTransportKnobs text = None) /\
  (forall params,
     parseJson text = Some params ->
     (forall items, params <> D_OBJECT items) ->
     parseTransportKnobs text = None) /\
  (forall items id val,
     parseJson text = Some (D_OBJECT items) ->
     (id, val) ∈ items ->
     rejectedItem id val ->
     parseTransportKnobs text = None) /\
  (parseJson text = Some (D_OBJECT []) -> parseTransportKnobs text = Some []).
Proof.
  unfold parseTransportKnobs. repeat apply conj.
  - intros ->. reflexivity.
  - intros params -> Hno. cbn. destruct params; try reflexivity.
    exfalso. eapply Hno. reflexivity.
  - intros items id val -> Hin Hrej. cbn.
    rewrite (parseKnobItems_fails _ _ _ Hin (parseKnobParam_rejected _ _ Hrej)). reflexivity.
  - intros ->. reflexivity.
Qed.

End Parser.

(** The scenario: cubic, 1/2 and 4,50 under knobs 1, 2 and 3 give the values
    of the three knobs in the order of their ids. *)
Example parseKnobParams_scenario :
  parseKnobParams (K := scenarioConstants) (F := exampleKnobCollaborators (fun _ => None))
    scenarioKnobs =
  Some [mkKnob 1 0; mkKnob 2 102; mkKnob 3 4050].
Proof. vm_compute. reflexivity. Qed.

Lemma parseTransportKnobs_spec_witness :
  0 <= 2 /\ 0 <= 4 /\ 1 <> 2 /\ 1 <> 4 /\
  StronglySorted knobLe [mkKnob 1 0; mkKnob 2 102; mkKnob 3 4050].
Proof.
  assert (H1 : 0 <= 2) by lia.
  assert (H2 : 0 <= 4) by lia.
  assert (H3 : 1 <> 2) by lia.
  assert (H4 : 1 <> 4) by lia.
  repeat (split; [assumption|]).
  refine (proj1 (proj2 (proj2 (proj2 (proj2
    (parseTransportKnobs_spec (K := scenarioConstants)
       (F := exampleKnobCollaborators (fun _ => Some scenarioKnobs)) H1 H2 H3 H4))))
    "knobs" _ _)).
  vm_compute. reflexivity.
Defined.

(** On the scenario's constants the string [4,50] under knob 3 gives 4050. *)
Lemma parseKnobParam_auto_background_mode_witness :
  0 <= 1000 < 2 ^ 60 /\ 0 <= 3 /\ 3 <> 1 /\ 3 <> 2 /\ 3 <> 4 /\
  parseKnobParam (K := scenarioConstants) (F := exampleKnobCollaborators (fun _ => None))
    (D_STRING "3") (D_STRING "4,50") = Some (mkKnob 3 4050).
Proof.
  assert (H1 : 0 <= 1000 < 2 ^ 60) by lia.
  assert (H2 : 0 <= 3) by lia.
  assert (H3 : 3 <> 1) by lia.
  assert (H4 : 3 <> 2) by lia.
  assert (H5 : 3 <> 4) by lia.
  repeat (split; [assumption|]).
  exact (parseKnobParam_auto_background_mode (K := scenarioConstants)
           (F := exampleKnobCollaborators (fun _ => None))
           (D_STRING "3") "4" "50" H1 H2 H3 H4 H5 eq_refl eq_refl).
Defined.

End TransportKnobsProofs.

(** ** The stream manager *)

Module QuicStreamManagerProofs.

Import QuicStreamManagerModel Exec.

Lemma openStreamsFuel_pos (start streamId : Z) :
  start <= streamId ->
  Z.of_nat (openStreamsFuel start streamId) = (streamId - start) `div` 4 + 1.
Proof.
  intros H. unfold openStreamsFuel, kStreamIncrement.
  pose proof (Z.div_pos (streamId - start) 4). lia.
Qed.

(** The loop with [n] iterations ahead that stay at or below [streamId] and
    do not wrap opens [n] streams and leaves [start] past them. *)
Lemma openStreamsLoop_exact (n : nat) :
  forall (start streamId : Z) (openStreams : gset Z) (newStreams : list Z),
  0 <= start ->
  start + 4 * Z.of_nat n < 2 ^ 64 ->
  (n = 0%nat \/ start + 4 * (Z.of_nat n - 1) <= streamId) ->
  openStreamsLoop n start streamId openStreams newStreams =
  (list_to_set (map (fun i => start + 4 * Z.of_nat i) (seq 0 n)) ∪ openStreams,
   newStreams ++ map (fun i => start + 4 * Z.of_nat i) (seq 0 n),
   start + 4 * Z.of_nat n).
Proof.
  induction n as [|n IH]; intros start streamId openStreams newStreams H0 Hw Hle.
  - cbn. rewrite app_nil_r, Z.add_0_r. f_equal. f_equal. set_solver.
  - cbn [openStreamsLoop]. destruct Hle as [Hle|Hle]; [discriminate|].
    rewrite bool_decide_eq_true_2 by lia.
    unfold kStreamIncrement, wrap64. rewrite Z.mod_small by lia.
    rewrite IH by lia.
    cbn [seq map]. rewrite <- seq_shift, map_map.
    assert (Hmap : map (fun i => start + 4 + 4 * Z.of_nat i) (seq 0 n) =
                   map (fun x => start + 4 * Z.of_nat (S x)) (seq 0 n)).
    { apply map_ext. intros i. lia. }
    rewrite Hmap. rewrite Z.add_0_r.
    f_equal; [f_equal|lia].
    + rewrite list_to_set_cons. set_solver.
    + rewrite <- app_assoc. reflexivity.
Qed.

Lemma streamIdsUpTo_length (start streamId : Z) :
  start <= streamId ->
  Z.of_nat (length (streamIdsUpTo start streamId)) = (streamId - start) `div` 4 + 1.
Proof.
  intros H. unfold streamIdsUpTo. rewrite length_map, length_seq.
  apply openStreamsFuel_pos, H.
Qed.

Lemma elem_of_streamIdsUpTo (start streamId x : Z) :
  x ∈ streamIdsUpTo start streamId -> start <= x.
Proof.
  unfold streamIdsUpTo, kStreamIncrement. rewrite list_elem_of_fmap.
  intros (i & -> & _). lia.
Qed.

Lemma NoDup_streamIdsUpTo (start streamId : Z) : NoDup (streamIdsUpTo start streamId).
Proof.
  unfold streamIdsUpTo, kStreamIncrement. apply NoDup_fmap_2.
  - intros i j Hij. lia.
  - apply NoDup_seq.
Qed.

(** [openPeerStreamIfNotClosed] on an unopened stream below the limit. *)
Lemma openPeerStreamIfNotClosed_opens (streamId next maxStreamId : Z)
    (openStreams : gset Z) (newStreams : list Z) :
  0 <= next <= streamId ->
  streamId < maxStreamId ->
  streamId + 4 < 2 ^ 64 ->
  openPeerStreamIfNotClosed streamId openStreams next maxStreamId newStreams =
  (LOCAL_NO_ERROR,
   list_to_set (streamIdsUpTo next streamId) ∪ openStreams,
   streamId + 4,
   newStreams ++ streamIdsUpTo next streamId).
Proof.
  intros Hn Hmax Hw. unfold openPeerStreamIfNotClosed.
  rewrite bool_decide_eq_false_2 by lia.
  rewrite bool_decide_eq_false_2 by lia.
  pose proof (openStreamsFuel_pos next streamId ltac:(lia)) as Hfuel.
  pose proof (Z.mul_div_le (streamId - next) 4 ltac:(lia)) as Hdiv.
  rewrite openStreamsLoop_exact by lia.
  rewrite bool_decide_eq_true_2 by lia.
  unfold wrap64, kStreamIncrement. rewrite Z.mod_small by lia.
  reflexivity.
Qed.

Lemma isServerStream_negb (streamId : Z) :
  isServerStream streamId = negb (isClientStream streamId).
Proof.
  unfold isServerStream, isClientStream.
  destruct (decide (Z.land streamId 1 = 0)) as [H|H].
  - rewrite bool_decide_eq_false_2, bool_decide_eq_true_2 by tauto. reflexivity.
  - rewrite bool_decide_eq_true_2, bool_decide_eq_false_2 by tauto. reflexivity.
Qed.

Section Manager.
Local Arguments isRemoteStream : simpl never.
Local Arguments isClientStream : simpl never.
Local Arguments isServerStream : simpl never.
Local Arguments isUnidirectionalStream : simpl never.
Local Arguments openPeerStreamIfNotClosed : simpl never.
Local Arguments wrap64 : simpl never.
Local Arguments hasNonCtrlStreams : simpl never.
Local Arguments eraseFromIndices : simpl never.
Local Arguments Z.mul : simpl never.
Local Arguments Z.div : simpl never.
Local Arguments Z.sub : simpl never.
Local Arguments Z.add : simpl never.
Context `{K : QuicConstants}.

Lemma size_union_streamIds (start streamId : Z) (openStreams : gset Z) :
  (forall s, s ∈ openStreams -> s < start) ->
  size (list_to_set (streamIdsUpTo start streamId) ∪ openStreams) =
  (size openStreams + length (streamIdsUpTo start streamId))%nat.
Proof.
  intros Hlt. rewrite size_union.
  - rewrite size_list_to_set by apply NoDup_streamIdsUpTo. lia.
  - intros x Hx Ho. apply elem_of_list_to_set in Hx.
    apply elem_of_streamIdsUpTo in Hx. apply Hlt in Ho. lia.
Qed.

Lemma peer_parity (m : QuicStreamManager) (streamId : Z) :
  isRemoteStream (nodeType_ m) streamId = true ->
  bool_decide (nodeType_ m = Client) && isClientStream streamId = false /\
  bool_decide (nodeType_ m = Server) && isServerStream streamId = false /\
  negb (isClientStream streamId) && negb (isServerStream streamId) = false.
Proof.
  unfold isRemoteStream. rewrite !isServerStream_negb.
  destruct (nodeType_ m), (isClientStream streamId); cbn; auto; discriminate.
Qed.

(** C5, as amended.  For a peer stream ID of the right parity that is at or
    above the next acceptable peer stream ID of its direction, with no record
    yet and the open set below the cursor: when the ID is below the remote
    maximum, [getStream] opens the streams [next], [next + 4], ..., [id],
    which are [(id - next) / 4 + 1] streams, adds each to the open set and to
    [newPeerStreams_], creates the record of [id] and moves the cursor to
    [id + 4]; when the ID is at or above the remote maximum it throws
    STREAM_LIMIT_ERROR and opens nothing. *)
Theorem getStream_opens_peer_streams (conn : QuicServerConnectionState) (streamId : Z) :
  let m := streamManager conn in
  let uni := isUnidirectionalStream streamId in
  let next := peerNextAcceptable m uni in
  let ids := streamIdsUpTo next streamId in
  isRemoteStream (nodeType_ m) streamId = true ->
  0 <= next <= streamId ->
  streamId + 4 < 2 ^ 64 ->
  streams_ m !! streamId = None ->
  streamPriorityLevels_ m !! streamId = None ->
  (forall s, s ∈ peerOpenStreams m uni -> s < next) ->
  (streamId < peerMaxStreamId m uni ->
   exists conn',
     getStream streamId conn = Returned (Some (newStreamState streamId)) conn' /\
     let m' := streamManager conn' in
     peerOpenStreams m' uni = list_to_set ids ∪ peerOpenStreams m uni /\
     newPeerStreams_ m' = newPeerStreams_ m ++ ids /\
     Z.of_nat (length ids) = (streamId - next) `div` 4 + 1 /\
     size (peerOpenStreams m' uni) = (size (peerOpenStreams m uni) + length ids)%nat /\
     peerNextAcceptable m' uni = streamId + 4 /\
     streams_ m' = <[streamId := newStreamState streamId]> (streams_ m)) /\
  (peerMaxStreamId m uni <= streamId ->
   exists e conn',
     getStream streamId conn = Thrown e conn' /\
     errorCode e = STREAM_LIMIT_ERROR /\
     let m' := streamManager conn' in
     peerOpenStreams m' uni = peerOpenStreams m uni /\
     newPeerStreams_ m' = newPeerStreams_ m /\
     peerNextAcceptable m' uni = next /\
     streams_ m' = streams_ m).
Proof.
  intros m uni next ids Hremote Hnext Hw Hs Hprio Hopen.
  assert (Hnotin : streamId ∉ peerOpenStreams m uni).
  { intros Hin. apply Hopen in Hin. lia. }
  destruct (peer_parity m streamId Hremote) as (Hp1 & Hp2 & Hp3).
  pose proof (size_union_streamIds next streamId _ Hopen) as Hsize.
  pose proof (streamIdsUpTo_length next streamId ltac:(lia)) as Hlen.
  fold ids in Hsize, Hlen.
  split.
  - intros Hmax.
    pose proof (openPeerStreamIfNotClosed_opens streamId next (peerMaxStreamId m uni)
                  (peerOpenStreams m uni) (newPeerStreams_ m) Hnext Hmax Hw) as Hopened.
    fold ids in Hopened. clearbody ids.
    subst m next. unfold peerOpenStreams, peerNextAcceptable, peerMaxStreamId in *.
    unfold getStream, getOrCreatePeerStream, bind, manager, gets. cbn.
    rewrite Hremote. cbn. rewrite Hp1, Hp2, Hp3, Hs.
    subst uni. destruct (isUnidirectionalStream streamId) eqn:Huni.
    all: rewrite (bool_decide_eq_false_2 _ Hnotin), Hopened.
    all: unfold modifyManager, modify, emplaceStream, addToStreamPriorityMap,
           notifyStreamPriorityChanges, modifyManager, modify, bind, manager, gets; cbn.
    all: rewrite Hs; cbn; rewrite Hprio; cbn.
    all: unfold updateAppIdleState, modifyManager, modify, bind, manager, gets; cbn.
    all: repeat match goal with
                | |- context [if ?b then _ else _] => destruct b; cbn
                end.
    all: eexists; split; [reflexivity|].
    all: unfold QUIC_STATS, upd_streamManager; cbn.
    all: destruct (statsCallback conn); cbn.
    all: destruct (priorityChangesObserver_ (streamManager conn)); cbn.
    all: repeat split; assumption.
  - intros Hmax.
    subst m next. unfold peerOpenStreams, peerNextAcceptable, peerMaxStreamId in *.
    unfold getStream, getOrCreatePeerStream, bind, manager, gets. cbn.
    rewrite Hremote. cbn. rewrite Hp1, Hp2, Hp3, Hs.
    subst uni. destruct (isUnidirectionalStream streamId) eqn:Huni.
    all: rewrite (bool_decide_eq_false_2 _ Hnotin).
    all: unfold openPeerStreamIfNotClosed.
    all: rewrite bool_decide_eq_false_2 by lia.
    all: rewrite bool_decide_eq_true_2 by lia.
    all: unfold modifyManager, modify, throw, bind; cbn.
    all: eexists _, _; split; [reflexivity|]; cbn; repeat split.
Qed.


End Manager.

(** On the example connection, [getStream(8)] opens streams 0, 4 and 8. *)
Lemma getStream_opens_peer_streams_witness :
  exists conn',
    getStream (K := referenceConstants) 8 (Examples.exampleConnection referenceConstants) =
      Returned (Some (newStreamState (K := referenceConstants) 8)) conn' /\
    newPeerStreams_ (streamManager conn') = [0; 4; 8] /\
    nextAcceptablePeerBidirectionalStreamId_ (streamManager conn') = 12.
Proof.
  pose proof (getStream_opens_peer_streams (K := referenceConstants)
                (Examples.exampleConnection referenceConstants) 8) as H.
  cbv zeta in H.
  destruct H as [Hopen _].
  - reflexivity.
  - vm_compute. split; congruence.
  - reflexivity.
  - reflexivity.
  - reflexivity.
  - intros s Hs. vm_compute in Hs. set_solver.
  - destruct Hopen as (conn' & Hrun & _ & Hnew & _ & _ & Hnext & _).
    + reflexivity.
    + exists conn'. split; [exact Hrun|]. split; [exact Hnew | exact Hnext].
Defined.

(** C5 as stated fails: on a fresh server connection the next acceptable
    bidirectional peer stream ID is 0; [getStream(0)] opens one stream where
    the ceiling of [(0 - 0) / 4] is 0, and [getStream(8)] opens three where the
    ceiling of [(8 - 0) / 4] is 2. *)
Lemma getStream_opens_more_than_ceiling :
  let conn := Examples.exampleConnection referenceConstants in
  let opened (streamId : Z) :=
    length (newPeerStreams_
              (streamManager (Examples.stateAfter (getStream (K := referenceConstants) streamId) conn))) in
  let ceiling (streamId : Z) :=
    (streamId - nextAcceptablePeerBidirectionalStreamId_ (streamManager conn) + 3) `div` 4 in
  newPeerStreams_ (streamManager conn) = [] /\
  opened 0 = 1%nat /\ ceiling 0 = 0 /\
  opened 8 = 3%nat /\ ceiling 8 = 2 /\
  ~ (Z.of_nat (opened 0) = ceiling 0) /\
  ~ (Z.of_nat (opened 8) = ceiling 8).
Proof.
  vm_compute. repeat split; try reflexivity; discriminate.
Qed.


(** The other two runs of the stream manager test: 24 removals leave no
    update, 50 removals leave 150. *)
Example streamLimitWindowedUpdate_24 :
  Examples.returnedValue
    (Examples.streamLimitWindowedUpdate (K := referenceConstants) 100 24
       (Examples.exampleConnection referenceConstants)) = Some (None, None).
Proof. vm_compute. reflexivity. Qed.

Example streamLimitWindowedUpdate_50 :
  Examples.returnedValue
    (Examples.streamLimitWindowedUpdate (K := referenceConstants) 100 50
       (Examples.exampleConnection referenceConstants)) = Some (Some 150, None).
Proof. vm_compute. reflexivity. Qed.


Import Hoare.

(** *** Invariants of the stream manager *)

Section Invariants.
Context `{K : QuicConstants}.
Local Abbreviation Conn := QuicServerConnectionState.

(** A property of the connection that is a property of its stream manager. *)
Definition ofManager (inv : QuicStreamManager -> Prop) (conn : Conn) : Prop :=
  inv (streamManager conn).

Lemma ofManager_QUIC_STATS inv ev :
  preserves (ofManager inv) (modify (QUIC_STATS ev)).
Proof.
  apply preserves_modify. intros s Hs. unfold QUIC_STATS.
  destruct (statsCallback s); exact Hs.
Qed.

Lemma ofManager_modifyManager inv (f : QuicStreamManager -> QuicStreamManager) :
  (forall m, inv m -> inv (f m)) -> preserves (ofManager inv) (modifyManager f).
Proof. intros Hf. apply preserves_modify. intros s Hs. exact (Hf _ Hs). Qed.

Lemma triple_modifyManager (inv inv' : QuicStreamManager -> Prop) E
    (f : QuicStreamManager -> QuicStreamManager) :
  (forall m, inv m -> inv' (f m)) ->
  triple (ofManager inv) (modifyManager f) (fun _ => ofManager inv') E.
Proof. intros Hf. apply triple_modify. intros s Hs. exact (Hf _ Hs). Qed.

Lemma triple_manager (inv : QuicStreamManager -> Prop) E {A} (k : QuicStreamManager -> M Conn A)
    (Q : A -> Conn -> Prop) :
  (forall m, inv m -> triple (fun s => streamManager s = m) (k m) Q E) ->
  triple (ofManager inv) (bind manager k) Q E.
Proof. intros Hk s Hs. exact (Hk (streamManager s) Hs s eq_refl). Qed.

(** The level the priority map holds for a record. *)
Definition priorityLevel (st : QuicStreamState) : Z := level (priority st).

(** The priority map holds the level of every record and nothing else, and every record
    is stored under its own ID. *)
Definition prioritiesMirrorStreams (m : QuicStreamManager) : Prop :=
  streamPriorityLevels_ m = priorityLevel <$> streams_ m /\
  map_Forall (fun id st => stream_id st = id) (streams_ m).

(** Between [streams_.emplace] and [addToStreamPriorityMap]: the new record of
    [id] has no level yet. *)
Definition awaitsPriority (id : Z) (m : QuicStreamManager) : Prop :=
  exists streams0,
    streams0 !! id = None /\
    streams_ m = <[id := newStreamState id]> streams0 /\
    streamPriorityLevels_ m = priorityLevel <$> streams0 /\
    map_Forall (fun id st => stream_id st = id) streams0.

Definition emplaced (id : Z) (it : QuicStreamState * bool) (m : QuicStreamManager) : Prop :=
  if it.2 then it.1 = newStreamState id /\ awaitsPriority id m
  else prioritiesMirrorStreams m /\ streams_ m !! id = Some it.1.

Lemma emplaceStream_mirror (id : Z) :
  triple (ofManager prioritiesMirrorStreams) (emplaceStream id)
    (fun it => ofManager (emplaced id it)) (ofManager prioritiesMirrorStreams).
Proof.
  intros s [Hp Hk]. unfold emplaceStream, bind, manager, gets.
  destruct (streams_ (streamManager s) !! id) as [existing|] eqn:Hl.
  - cbn. split; [split; assumption | exact Hl].
  - cbn. split; [reflexivity|]. exists (streams_ (streamManager s)).
    repeat split; assumption.
Qed.

Lemma notifyStreamPriorityChanges_frame inv :
  (forall m v, inv m -> inv (set_priorityChangesObserver_ v m)) ->
  preserves (ofManager inv) notifyStreamPriorityChanges.
Proof.
  intros Hf. apply ofManager_modifyManager. intros m Hm.
  destruct (priorityChangesObserver_ m); [apply Hf, Hm | exact Hm].
Qed.

Lemma prioritiesMirrorStreams_observer m v :
  prioritiesMirrorStreams m -> prioritiesMirrorStreams (set_priorityChangesObserver_ v m).
Proof. intros H. exact H. Qed.

Lemma addToStreamPriorityMap_new (id : Z) :
  triple (ofManager (awaitsPriority id)) (addToStreamPriorityMap (newStreamState id))
    (fun _ => ofManager prioritiesMirrorStreams) (ofManager prioritiesMirrorStreams).
Proof.
  intros s (streams0 & Hnone & Hs & Hp & Hk).
  unfold addToStreamPriorityMap, bind, manager, gets.
  cbn [stream_id newStreamState].
  rewrite Hp, lookup_fmap, Hnone. cbn.
  unfold notifyStreamPriorityChanges, modifyManager, modify, upd_streamManager.
  assert (Hgoal : forall v, prioritiesMirrorStreams
            (set_streamPriorityLevels_ v (streamManager s)) <->
            v = priorityLevel <$> streams_ (streamManager s) /\
            map_Forall (fun id st => stream_id st = id) (streams_ (streamManager s))).
  { intros v. reflexivity. }
  assert (Hnew : prioritiesMirrorStreams
            (set_streamPriorityLevels_
               (<[id := level (priority (newStreamState id))]> (priorityLevel <$> streams0))
               (streamManager s))).
  { apply Hgoal. rewrite Hs, fmap_insert. split; [reflexivity|].
    apply map_Forall_insert_2; [reflexivity | exact Hk]. }
  rewrite <- Hp in Hnew.
  destruct (priorityChangesObserver_ (streamManager s)) eqn:Ho; cbn; rewrite ?Ho; exact Hnew.
Qed.

Lemma addToStreamPriorityMap_existing (id : Z) (st : QuicStreamState) :
  triple (ofManager (fun m => prioritiesMirrorStreams m /\ streams_ m !! id = Some st))
    (addToStreamPriorityMap st)
    (fun _ => ofManager prioritiesMirrorStreams) (ofManager prioritiesMirrorStreams).
Proof.
  intros s [[Hp Hk] Hl].
  unfold addToStreamPriorityMap, bind, manager, gets.
  rewrite Hp, lookup_fmap. rewrite (Hk _ _ Hl), Hl. cbn. split; assumption.
Qed.

Lemma addToStreamPriorityMap_emplaced (id : Z) (it : QuicStreamState * bool) :
  triple (ofManager (emplaced id it)) (addToStreamPriorityMap it.1)
    (fun _ => ofManager prioritiesMirrorStreams) (ofManager prioritiesMirrorStreams).
Proof.
  destruct it as [st [|]]; unfold emplaced; cbn [fst snd].
  - intros s [-> Hs]. exact (addToStreamPriorityMap_new id s Hs).
  - apply addToStreamPriorityMap_existing.
Qed.


Lemma updateAppIdleState_frame inv :
  (forall m v, inv m -> inv (set_isAppIdle_ v m)) ->
  preserves (ofManager inv) updateAppIdleState.
Proof.
  intros Hf. unfold updateAppIdleState, manager.
  apply preserves_bind; [apply preserves_gets|]. intros m.
  destruct (isAppIdle_ m && negb (hasNonCtrlStreams m)); [apply preserves_ret|].
  destruct (negb (isAppIdle_ m) && hasNonCtrlStreams m); [apply preserves_ret|].
  apply preserves_bind.
  - apply ofManager_modifyManager. intros m' Hm'. apply Hf, Hm'.
  - intros _. apply preserves_modify. intros s Hs.
    destruct (congestionController s); exact Hs.
Qed.

(** One step of a proof that a call keeps a property of the stream manager
    which the fields written on the way do not enter. *)
Ltac manager_step :=
  lazymatch goal with
  | |- preserves (ofManager _) (modifyManager _) =>
      apply ofManager_modifyManager;
      let m := fresh "m" in let Hm := fresh "Hm" in
      intros m Hm; repeat case_match; exact Hm
  | |- preserves (ofManager _) (modify (QUIC_STATS _)) => apply ofManager_QUIC_STATS
  | |- preserves _ manager => unfold manager; apply preserves_gets
  | |- preserves (ofManager _) updateAppIdleState =>
      apply updateAppIdleState_frame;
      let m := fresh "m" in let v := fresh "v" in let Hm := fresh "Hm" in
      intros m v Hm; exact Hm
  | |- preserves (ofManager _) notifyStreamPriorityChanges =>
      apply notifyStreamPriorityChanges_frame;
      let m := fresh "m" in let v := fresh "v" in let Hm := fresh "Hm" in
      intros m v Hm; exact Hm
  | |- preserves _ (bind _ _) => apply preserves_bind; [| intros ?]
  | |- preserves _ (ret _) => apply preserves_ret
  | |- preserves _ (gets _) => apply preserves_gets
  | |- preserves _ (throw _ _) => apply preserves_throw
  | |- preserves _ (abort _) => apply preserves_abort
  | |- preserves _ (when_ _ _) => apply preserves_when
  | |- preserves _ (if ?c then _ else _) => destruct c
  | |- preserves _ (match ?c with _ => _ end) => destruct c
  | |- preserves _ (let _ := _ in _) => cbv zeta
  end.

Ltac as_preserves :=
  cbv beta;
  lazymatch goal with
  | |- triple ?P ?m _ _ => change (preserves P m)
  end.

Lemma emplaced_QUIC_STATS (id : Z) (it : QuicStreamState * bool) ev :
  triple (ofManager (emplaced id it)) (modify (QUIC_STATS ev))
    (fun _ => ofManager (emplaced id it)) (ofManager prioritiesMirrorStreams).
Proof.
  apply triple_modify. intros s Hs. unfold QUIC_STATS.
  destruct (statsCallback s); exact Hs.
Qed.

(** [streams_.emplace] followed by [addToStreamPriorityMap]. *)
Lemma emplace_add_mirror {A} (id : Z) (k : QuicStreamState * bool -> M Conn A) :
  (forall it, preserves (ofManager prioritiesMirrorStreams) (k it)) ->
  preserves (ofManager prioritiesMirrorStreams)
    (let* it := emplaceStream id in
     run addToStreamPriorityMap it.1 in
     k it)%quic.
Proof.
  intros Hk.
  eapply triple_bind; [apply emplaceStream_mirror|]. intros it.
  eapply triple_bind; [apply addToStreamPriorityMap_emplaced|]. intros [].
  apply Hk.
Qed.

(** [streams_.emplace], the stats record, the check of the insertion and
    [addToStreamPriorityMap]. *)
Lemma emplace_check_add_mirror {A} (id : Z) ev msg code
    (k : QuicStreamState * bool -> M Conn A) :
  (forall it, preserves (ofManager prioritiesMirrorStreams) (k it)) ->
  preserves (ofManager prioritiesMirrorStreams)
    (let* it := emplaceStream id in
     run modify (QUIC_STATS ev) in
     if negb it.2 then throw msg code
     else
       run addToStreamPriorityMap it.1 in
       k it)%quic.
Proof.
  intros Hk.
  eapply triple_bind; [apply emplaceStream_mirror|]. intros it.
  eapply triple_bind; [apply emplaced_QUIC_STATS|]. intros [].
  destruct it as [st [|]]; cbn [negb fst snd].
  - eapply triple_bind; [apply (addToStreamPriorityMap_emplaced id (st, true))|].
    intros []. apply Hk.
  - apply triple_throw. intros s [Hs _]. exact Hs.
Qed.

Lemma getOrCreateOpenedLocalStream_mirror (streamId : Z) :
  preserves (ofManager prioritiesMirrorStreams) (getOrCreateOpenedLocalStream streamId).
Proof.
  unfold getOrCreateOpenedLocalStream.
  manager_step; [manager_step|]. manager_step; [|manager_step].
  apply emplace_check_add_mirror. intros it. manager_step.
Qed.

Lemma getOrCreatePeerStream_mirror (streamId : Z) :
  preserves (ofManager prioritiesMirrorStreams) (getOrCreatePeerStream streamId).
Proof.
  unfold getOrCreatePeerStream.
  manager_step; [manager_step|].
  do 3 (manager_step; [manager_step|]).
  manager_step; [manager_step|].
  manager_step.
  - apply emplace_add_mirror. intros it. repeat manager_step.
  - destruct (openPeerStreamIfNotClosed _ _ _ _ _) as [[[code open'] next'] new'].
    manager_step; [manager_step|].
    destruct code; [|manager_step|manager_step].
    apply emplace_add_mirror. intros it. repeat manager_step.
Qed.

Lemma getStream_mirror (streamId : Z) :
  preserves (ofManager prioritiesMirrorStreams) (getStream streamId).
Proof.
  unfold getStream.
  manager_step; [manager_step|]. manager_step.
  - manager_step; [apply getOrCreatePeerStream_mirror|]. repeat manager_step.
  - manager_step; [manager_step|].
    manager_step; [apply getOrCreateOpenedLocalStream_mirror|].
    repeat manager_step.
Qed.


Lemma createStream_mirror (streamId : Z) :
  preserves (ofManager prioritiesMirrorStreams) (createStream streamId).
Proof.
  unfold createStream.
  manager_step; [manager_step|].
  do 2 (manager_step; [manager_step|]).
  manager_step; [apply getOrCreateOpenedLocalStream_mirror|].
  manager_step; [manager_step|].
  manager_step; [manager_step|]. cbv zeta.
  destruct (openLocalStreamIfNotClosed _ _ _ _) as [[code open'] next'].
  manager_step; [manager_step|].
  destruct code; [|manager_step|manager_step].
  apply emplace_add_mirror. intros it. repeat manager_step.
Qed.

Lemma createNextBidirectionalStream_mirror :
  preserves (ofManager prioritiesMirrorStreams) createNextBidirectionalStream.
Proof.
  unfold createNextBidirectionalStream.
  manager_step; [manager_step|].
  manager_step; [apply createStream_mirror|].
  repeat manager_step.
Qed.

Lemma createNextUnidirectionalStream_mirror :
  preserves (ofManager prioritiesMirrorStreams) createNextUnidirectionalStream.
Proof.
  unfold createNextUnidirectionalStream.
  manager_step; [manager_step|].
  manager_step; [apply createStream_mirror|].
  repeat manager_step.
Qed.

Lemma setMaxRemoteBidirectionalStreamsInternal_frame inv maxStreams force :
  (forall m v, inv m -> inv (set_maxRemoteBidirectionalStreamId_ v m)) ->
  preserves (ofManager inv) (setMaxRemoteBidirectionalStreamsInternal maxStreams force).
Proof.
  intros Hf. unfold setMaxRemoteBidirectionalStreamsInternal.
  manager_step; [manager_step|]. manager_step; [manager_step|]. manager_step.
  apply ofManager_modifyManager. intros m Hm. apply Hf, Hm.
Qed.

Lemma setMaxRemoteUnidirectionalStreamsInternal_frame inv maxStreams force :
  (forall m v, inv m -> inv (set_maxRemoteUnidirectionalStreamId_ v m)) ->
  preserves (ofManager inv) (setMaxRemoteUnidirectionalStreamsInternal maxStreams force).
Proof.
  intros Hf. unfold setMaxRemoteUnidirectionalStreamsInternal.
  manager_step; [manager_step|]. manager_step; [manager_step|]. manager_step.
  apply ofManager_modifyManager. intros m Hm. apply Hf, Hm.
Qed.

(** Between the erasure from the priority map and the erasure of the record
    in [removeClosedStream]. *)
Definition awaitsErase (id : Z) (m : QuicStreamManager) : Prop :=
  streamPriorityLevels_ m = priorityLevel <$> delete id (streams_ m) /\
  map_Forall (fun id st => stream_id st = id) (streams_ m).

Lemma removeClosedStream_mirror (streamId : Z) :
  preserves (ofManager prioritiesMirrorStreams) (removeClosedStream streamId).
Proof.
  unfold removeClosedStream.
  manager_step; [manager_step|].
  manager_step; [|manager_step].
  manager_step; [manager_step|].
  manager_step; [manager_step|].
  manager_step; [|manager_step].
  eapply triple_bind.
  { apply (triple_modifyManager _ (awaitsErase streamId)).
    intros m [Hp Hk]. split; [|exact Hk].
    change (delete streamId (streamPriorityLevels_ m) =
            priorityLevel <$> delete streamId (streams_ m)).
    rewrite Hp, fmap_delete. reflexivity. }
  intros [].
  eapply (triple_bind _ _ _ _ (fun _ => ofManager (awaitsErase streamId))).
  { apply triple_when; [intros _|intros _ s Hs; exact Hs].
    apply (triple_modifyManager _ (awaitsErase streamId)). intros m Hm. exact Hm. }
  intros [].
  eapply triple_bind.
  { apply (triple_modifyManager _ prioritiesMirrorStreams).
    intros m [Hp Hk]. split; [exact Hp|].
    apply map_Forall_delete, Hk. }
  intros []. as_preserves.
  manager_step; [manager_step|].
  manager_step; [manager_step|].
  manager_step; [|repeat manager_step].
  manager_step.
  - manager_step; [manager_step|].
    manager_step; [manager_step|].
    manager_step; [manager_step|].
    manager_step; [manager_step|].
    cbv zeta. manager_step. manager_step.
    + manager_step; [|manager_step].
      apply setMaxRemoteUnidirectionalStreamsInternal_frame. intros m v Hm. exact Hm.
    + manager_step; [|manager_step].
      apply setMaxRemoteBidirectionalStreamsInternal_frame. intros m v Hm. exact Hm.
  - manager_step.
Qed.

Lemma setStreamPriority_mirror (id lvl : Z) (incr : bool) :
  preserves (ofManager prioritiesMirrorStreams) (setStreamPriority id lvl incr).
Proof.
  unfold setStreamPriority. apply triple_manager. intros m [Hp Hk].
  unfold findStream.
  destruct (streams_ m !! id) as [stream|] eqn:Hl;
    [|apply triple_ret; intros s Hs; unfold ofManager; rewrite Hs; split; assumption].
  case_bool_decide; [apply triple_ret; intros s Hs; unfold ofManager; rewrite Hs; split; assumption|].
  assert (Hprio : streamPriorityLevels_ m !! id = Some (priorityLevel stream)).
  { rewrite Hp, lookup_fmap, Hl. reflexivity. }
  rewrite Hprio.
  eapply triple_bind.
  { apply triple_modify.
    intros s Hs.
    instantiate (1 := fun _ s' =>
      streams_ (streamManager s') =
        <[id := set_priority (mkPriority lvl incr) stream]> (streams_ m) /\
      streamPriorityLevels_ (streamManager s') = priorityLevel <$> streams_ m).
    cbv beta. unfold upd_streamManager. rewrite Hs. split; [reflexivity | exact Hp]. }
  intros [].
  eapply triple_bind.
  { apply triple_modify. intros s [Hs Hps].
    instantiate (1 := fun _ => ofManager prioritiesMirrorStreams).
    cbv beta. unfold ofManager, prioritiesMirrorStreams.
    change (<[id := lvl]> (streamPriorityLevels_ (streamManager s)) =
              priorityLevel <$> streams_ (streamManager s) /\
            map_Forall (fun id st => stream_id st = id) (streams_ (streamManager s))).
    rewrite Hs, Hps, fmap_insert. split; [reflexivity|].
    apply map_Forall_insert_2; [|exact Hk]. exact (Hk _ _ Hl). }
  intros []. as_preserves. repeat manager_step.
Qed.

Lemma setStreamAsControl_mirror (streamId : Z) :
  preserves (ofManager prioritiesMirrorStreams) (setStreamAsControl streamId).
Proof.
  unfold setStreamAsControl. apply triple_manager. intros m [Hp Hk].
  assert (Hidle : preserves (ofManager prioritiesMirrorStreams) updateAppIdleState)
    by manager_step.
  destruct (streams_ m !! streamId) as [stream|] eqn:Hl.
  - eapply (triple_bind _ _ _ _ (fun _ => ofManager prioritiesMirrorStreams));
      [|intros []; exact Hidle].
    apply triple_when;
      [intros _|intros _ s Hs; unfold ofManager; rewrite Hs; split; assumption].
    apply triple_modify. intros s Hs.
    unfold ofManager, prioritiesMirrorStreams, upd_streamManager. rewrite Hs.
    change (streamPriorityLevels_ m =
              priorityLevel <$> <[streamId := set_isControl true stream]> (streams_ m) /\
            map_Forall (fun id st => stream_id st = id)
              (<[streamId := set_isControl true stream]> (streams_ m))).
    rewrite fmap_insert. split.
    + rewrite Hp. symmetry. apply insert_id. rewrite lookup_fmap, Hl. reflexivity.
    + apply map_Forall_insert_2; [|exact Hk]. exact (Hk _ _ Hl).
  - intros s Hs. apply Hidle. unfold ofManager. rewrite Hs. split; assumption.
Qed.

Lemma setMaxLocalBidirectionalStreams_mirror maxStreams force :
  preserves (ofManager prioritiesMirrorStreams)
    (setMaxLocalBidirectionalStreams maxStreams force).
Proof. unfold setMaxLocalBidirectionalStreams. repeat manager_step. Qed.

Lemma setMaxLocalUnidirectionalStreams_mirror maxStreams force :
  preserves (ofManager prioritiesMirrorStreams)
    (setMaxLocalUnidirectionalStreams maxStreams force).
Proof. unfold setMaxLocalUnidirectionalStreams. repeat manager_step. Qed.

Lemma refreshTransportSettings_mirror :
  preserves (ofManager prioritiesMirrorStreams) refreshTransportSettings.
Proof.
  unfold refreshTransportSettings.
  manager_step; [manager_step|]. manager_step.
  - apply setMaxRemoteBidirectionalStreamsInternal_frame. intros m v Hm. exact Hm.
  - apply setMaxRemoteUnidirectionalStreamsInternal_frame. intros m v Hm. exact Hm.
Qed.

(** X7.  The priority map mirrors the stream records.  If
    [streamPriorityLevels_] holds, for every stream record and for nothing
    else, the level of the record's priority (and every record is stored
    under its own ID), then it still does after [getStream], [createStream],
    [createNextBidirectionalStream], [createNextUnidirectionalStream],
    [removeClosedStream], [setStreamPriority], [setStreamAsControl],
    [setMaxLocalBidirectionalStreams], [setMaxLocalUnidirectionalStreams] and
    [refreshTransportSettings], whether the call returns or throws. *)
Theorem priority_map_mirrors_streams :
  (forall streamId, preserves (ofManager prioritiesMirrorStreams) (getStream streamId)) /\
  (forall streamId, preserves (ofManager prioritiesMirrorStreams) (createStream streamId)) /\
  preserves (ofManager prioritiesMirrorStreams) createNextBidirectionalStream /\
  preserves (ofManager prioritiesMirrorStreams) createNextUnidirectionalStream /\
  (forall streamId,
     preserves (ofManager prioritiesMirrorStreams) (removeClosedStream streamId)) /\
  (forall id lvl incr,
     preserves (ofManager prioritiesMirrorStreams) (setStreamPriority id lvl incr)) /\
  (forall streamId,
     preserves (ofManager prioritiesMirrorStreams) (setStreamAsControl streamId)) /\
  (forall maxStreams force,
     preserves (ofManager prioritiesMirrorStreams)
       (setMaxLocalBidirectionalStreams maxStreams force)) /\
  (forall maxStreams force,
     preserves (ofManager prioritiesMirrorStreams)
       (setMaxLocalUnidirectionalStreams maxStreams force)) /\
  preserves (ofManager prioritiesMirrorStreams) refreshTransportSettings.
Proof.
  repeat split;
    auto using getStream_mirror, createStream_mirror, createNextBidirectionalStream_mirror,
      createNextUnidirectionalStream_mirror, removeClosedStream_mirror,
      setStreamPriority_mirror, setStreamAsControl_mirror,
      setMaxLocalBidirectionalStreams_mirror, setMaxLocalUnidirectionalStreams_mirror,
      refreshTransportSettings_mirror.
Qed.

(** The records of control streams. *)
Definition controlStreams (streams : gmap Z QuicStreamState) : gmap Z QuicStreamState :=
  filter (fun kv => isControl kv.2 = true) streams.

Definition countsControlStreams (m : QuicStreamManager) : Prop :=
  numControlStreams_ m = wrap64 (Z.of_nat (size (controlStreams (streams_ m)))).

Lemma controlStreams_insert_plain (streams : gmap Z QuicStreamState) id st :
  streams !! id = None -> isControl st = false ->
  controlStreams (<[id := st]> streams) = controlStreams streams.
Proof.
  intros Hn Hc. unfold controlStreams.
  rewrite map_filter_insert_False by (cbn; congruence).
  rewrite delete_id by exact Hn. reflexivity.
Qed.

Lemma size_controlStreams_mark (streams : gmap Z QuicStreamState) id st :
  streams !! id = Some st -> isControl st = false ->
  size (controlStreams (<[id := set_isControl true st]> streams)) =
  S (size (controlStreams streams)).
Proof.
  intros Hl Hc. unfold controlStreams.
  rewrite map_filter_insert_True by reflexivity.
  rewrite map_size_insert_None; [reflexivity|].
  apply map_lookup_filter_None. right. intros x Hx. rewrite Hl in Hx.
  injection Hx as <-. cbn. congruence.
Qed.

Lemma size_controlStreams_delete (streams : gmap Z QuicStreamState) id st :
  streams !! id = Some st ->
  Z.of_nat (size (controlStreams (delete id streams))) =
  Z.of_nat (size (controlStreams streams)) - (if isControl st then 1 else 0).
Proof.
  intros Hl. unfold controlStreams. rewrite map_filter_delete.
  destruct (isControl st) eqn:Hc.
  - assert (Hin : filter (fun kv : Z * QuicStreamState => isControl kv.2 = true) streams !! id
                  = Some st).
    { apply map_lookup_filter_Some. split; [exact Hl | exact Hc]. }
    set (controls := filter _ streams) in *.
    assert (Hsize : size controls = S (size (delete id controls))).
    { rewrite <- (insert_id controls id st Hin) at 1.
      rewrite <- insert_delete_eq.
      apply map_size_insert_None, lookup_delete_eq. }
    lia.
  - rewrite delete_id; [lia|].
    apply map_lookup_filter_None. right. intros x Hx. rewrite Hl in Hx.
    injection Hx as <-. cbn. congruence.
Qed.

Lemma size_controlStreams_update (streams : gmap Z QuicStreamState) id st st' :
  streams !! id = Some st -> isControl st' = isControl st ->
  size (controlStreams (<[id := st']> streams)) = size (controlStreams streams).
Proof.
  intros Hl Hc. unfold controlStreams.
  destruct (isControl st) eqn:Hst.
  - rewrite map_filter_insert_True by exact Hc.
    apply map_size_insert_Some. exists st.
    apply map_lookup_filter_Some. split; [exact Hl | exact Hst].
  - rewrite map_filter_insert_False by (cbn; congruence).
    rewrite map_filter_delete. rewrite delete_id; [reflexivity|].
    apply map_lookup_filter_None. right. intros x Hx. rewrite Hl in Hx.
    injection Hx as <-. cbn. congruence.
Qed.

Lemma wrap64_succ (n : Z) : wrap64 (wrap64 n + 1) = wrap64 (n + 1).
Proof. unfold wrap64. apply Zplus_mod_idemp_l. Qed.

Lemma wrap64_pred (n : Z) : wrap64 (wrap64 n - 1) = wrap64 (n - 1).
Proof. unfold wrap64. apply Zminus_mod_idemp_l. Qed.

Lemma emplaceStream_control (id : Z) :
  preserves (ofManager countsControlStreams) (emplaceStream id).
Proof.
  intros s Hs. unfold emplaceStream, bind, manager, gets.
  destruct (streams_ (streamManager s) !! id) as [existing|] eqn:Hl; [exact Hs|].
  cbn. unfold ofManager, countsControlStreams in *.
  change (numControlStreams_ (streamManager s) =
          wrap64 (Z.of_nat (size (controlStreams
            (<[id := newStreamState id]> (streams_ (streamManager s))))))).
  rewrite controlStreams_insert_plain by (exact Hl || reflexivity). exact Hs.
Qed.

Lemma addToStreamPriorityMap_frame inv st :
  (forall m v, inv m -> inv (set_streamPriorityLevels_ v m)) ->
  (forall m v, inv m -> inv (set_priorityChangesObserver_ v m)) ->
  preserves (ofManager inv) (addToStreamPriorityMap st).
Proof.
  intros Hp Ho. unfold addToStreamPriorityMap.
  manager_step; [manager_step|]. manager_step; [manager_step|].
  manager_step.
  - apply ofManager_modifyManager. intros m Hm. apply Hp, Hm.
  - apply notifyStreamPriorityChanges_frame, Ho.
Qed.

Ltac control_step :=
  lazymatch goal with
  | |- preserves _ (emplaceStream _) => apply emplaceStream_control
  | |- preserves _ (addToStreamPriorityMap _) =>
      apply addToStreamPriorityMap_frame;
      let m := fresh "m" in let v := fresh "v" in let Hm := fresh "Hm" in
      intros m v Hm; exact Hm
  | |- preserves _ (setMaxRemoteUnidirectionalStreams _) =>
      apply setMaxRemoteUnidirectionalStreamsInternal_frame;
      let m := fresh "m" in let v := fresh "v" in let Hm := fresh "Hm" in
      intros m v Hm; exact Hm
  | |- preserves _ (setMaxRemoteBidirectionalStreams _) =>
      apply setMaxRemoteBidirectionalStreamsInternal_frame;
      let m := fresh "m" in let v := fresh "v" in let Hm := fresh "Hm" in
      intros m v Hm; exact Hm
  | |- _ => manager_step
  end.

Lemma getOrCreateOpenedLocalStream_control (streamId : Z) :
  preserves (ofManager countsControlStreams) (getOrCreateOpenedLocalStream streamId).
Proof. unfold getOrCreateOpenedLocalStream. repeat control_step. Qed.

Lemma getOrCreatePeerStream_control (streamId : Z) :
  preserves (ofManager countsControlStreams) (getOrCreatePeerStream streamId).
Proof.
  unfold getOrCreatePeerStream.
  control_step; [control_step|].
  do 3 (control_step; [control_step|]).
  control_step; [control_step|].
  control_step; [repeat control_step|].
  destruct (openPeerStreamIfNotClosed _ _ _ _ _) as [[[code open'] next'] new'].
  repeat control_step.
Qed.

Lemma getStream_control (streamId : Z) :
  preserves (ofManager countsControlStreams) (getStream streamId).
Proof.
  unfold getStream.
  control_step; [control_step|]. control_step.
  - control_step; [apply getOrCreatePeerStream_control|]. repeat control_step.
  - control_step; [control_step|].
    control_step; [apply getOrCreateOpenedLocalStream_control|].
    repeat control_step.
Qed.

Lemma createStream_control (streamId : Z) :
  preserves (ofManager countsControlStreams) (createStream streamId).
Proof.
  unfold createStream.
  control_step; [control_step|].
  do 2 (control_step; [control_step|]).
  control_step; [apply getOrCreateOpenedLocalStream_control|].
  control_step; [control_step|].
  control_step; [control_step|]. cbv zeta.
  destruct (openLocalStreamIfNotClosed _ _ _ _) as [[code open'] next'].
  repeat control_step.
Qed.

Lemma triple_weaken {S A} (P P' E : S -> Prop) (m : M S A) (Q : A -> S -> Prop) :
  triple P' m Q E -> (forall s, P s -> P' s) -> triple P m Q E.
Proof. intros Hm HP. eapply triple_conseq; eauto. Qed.

(** Between the decrement of [numControlStreams_] and the erasure of the
    record in [removeClosedStream]. *)
Definition countsWithout (id : Z) (m : QuicStreamManager) : Prop :=
  numControlStreams_ m = wrap64 (Z.of_nat (size (controlStreams (delete id (streams_ m))))).

Lemma removeClosedStream_control (streamId : Z) :
  preserves (ofManager countsControlStreams) (removeClosedStream streamId).
Proof.
  unfold removeClosedStream. apply triple_manager. intros m Hm.
  destruct (streams_ m !! streamId) as [it|] eqn:Hl;
    [|apply triple_ret; intros s Hs; unfold ofManager; rewrite Hs; exact Hm].
  set (known := fun m' : QuicStreamManager =>
         countsControlStreams m' /\ streams_ m' !! streamId = Some it).
  apply (triple_weaken _ (ofManager known)).
  2:{ intros s Hs. unfold ofManager, known. rewrite Hs. split; assumption. }
  eapply (triple_bind _ _ _ _ (fun _ => ofManager known)).
  { apply triple_modifyManager. intros m' Hm'. exact Hm'. }
  intros [].
  apply triple_manager. intros m2 Hm2.
  apply (triple_weaken _ (ofManager known)).
  2:{ intros s Hs. unfold ofManager. rewrite Hs. exact Hm2. }
  destruct (streamPriorityLevels_ m2 !! streamId);
    [|apply triple_throw; intros s [Hs _]; exact Hs].
  eapply (triple_bind _ _ _ _ (fun _ => ofManager known)).
  { apply triple_modifyManager. intros m' Hm'. exact Hm'. }
  intros [].
  eapply (triple_bind _ _ _ _ (fun _ => ofManager (countsWithout streamId))).
  { apply triple_when.
    - intros Hc. apply triple_modifyManager. intros m' [Hn Hl'].
      unfold countsWithout.
      change (wrap64 (numControlStreams_ m' - 1) =
              wrap64 (Z.of_nat (size (controlStreams (delete streamId (streams_ m')))))).
      rewrite (size_controlStreams_delete _ _ _ Hl'), Hc, Hn. apply wrap64_pred.
    - intros Hc s [Hn Hl']. unfold ofManager, countsWithout.
      rewrite (size_controlStreams_delete _ _ _ Hl'), Hc, Z.sub_0_r. exact Hn. }
  intros [].
  eapply (triple_bind _ _ _ _ (fun _ => ofManager countsControlStreams)).
  { apply triple_modifyManager. intros m' Hm'. exact Hm'. }
  intros []. as_preserves.
  control_step; [control_step|].
  control_step; [control_step|].
  control_step; [|repeat control_step].
  control_step; [|control_step].
  control_step; [control_step|].
  control_step; [control_step|].
  control_step; [control_step|].
  cbv zeta. repeat control_step.
Qed.

Lemma setStreamAsControl_control (streamId : Z) :
  preserves (ofManager countsControlStreams) (setStreamAsControl streamId).
Proof.
  unfold setStreamAsControl. apply triple_manager. intros m Hm.
  assert (Hidle : preserves (ofManager countsControlStreams) updateAppIdleState)
    by manager_step.
  destruct (streams_ m !! streamId) as [stream|] eqn:Hl.
  - eapply (triple_bind _ _ _ _ (fun _ => ofManager countsControlStreams));
      [|intros []; exact Hidle].
    apply triple_when;
      [intros Hc|intros _ s Hs; unfold ofManager; rewrite Hs; exact Hm].
    apply triple_modify. intros s Hs.
    unfold ofManager, countsControlStreams, upd_streamManager. rewrite Hs.
    change (wrap64 (numControlStreams_ m + 1) =
            wrap64 (Z.of_nat (size (controlStreams
              (<[streamId := set_isControl true stream]> (streams_ m)))))).
    rewrite (size_controlStreams_mark _ _ _ Hl) by (destruct (isControl stream); done).
    rewrite Hm, Nat2Z.inj_succ. apply wrap64_succ.
  - intros s Hs. apply Hidle. unfold ofManager. rewrite Hs. exact Hm.
Qed.

Lemma setStreamPriority_control (id lvl : Z) (incr : bool) :
  preserves (ofManager countsControlStreams) (setStreamPriority id lvl incr).
Proof.
  unfold setStreamPriority. apply triple_manager. intros m Hm.
  assert (Hstart : forall s, streamManager s = m -> ofManager countsControlStreams s).
  { intros s Hs. unfold ofManager. rewrite Hs. exact Hm. }
  unfold findStream.
  destruct (streams_ m !! id) as [stream|] eqn:Hl; [|apply triple_ret; exact Hstart].
  case_bool_decide; [apply triple_ret; exact Hstart|].
  eapply (triple_bind _ _ _ _ (fun _ => ofManager countsControlStreams)).
  { apply triple_modify. intros s Hs.
    unfold ofManager, countsControlStreams, upd_streamManager. rewrite Hs.
    change (numControlStreams_ m =
            wrap64 (Z.of_nat (size (controlStreams
              (<[id := set_priority (mkPriority lvl incr) stream]> (streams_ m)))))).
    rewrite (size_controlStreams_update _ _ _ _ Hl) by reflexivity. exact Hm. }
  intros []. as_preserves. repeat control_step.
Qed.

Lemma createNextBidirectionalStream_control :
  preserves (ofManager countsControlStreams) createNextBidirectionalStream.
Proof.
  unfold createNextBidirectionalStream.
  control_step; [control_step|].
  control_step; [apply createStream_control|].
  repeat control_step.
Qed.

Lemma createNextUnidirectionalStream_control :
  preserves (ofManager countsControlStreams) createNextUnidirectionalStream.
Proof.
  unfold createNextUnidirectionalStream.
  control_step; [control_step|].
  control_step; [apply createStream_control|].
  repeat control_step.
Qed.

(** X8.  [numControlStreams_] counts the control streams.  If the counter
    equals the number of stream records marked [isControl] (as a 64-bit
    value), then it still does after [getStream], [createStream],
    [createNextBidirectionalStream], [createNextUnidirectionalStream],
    [removeClosedStream], [setStreamPriority] and [setStreamAsControl],
    whether the call returns or throws. *)
Theorem numControlStreams_counts_control_streams :
  (forall streamId, preserves (ofManager countsControlStreams) (getStream streamId)) /\
  (forall streamId, preserves (ofManager countsControlStreams) (createStream streamId)) /\
  preserves (ofManager countsControlStreams) createNextBidirectionalStream /\
  preserves (ofManager countsControlStreams) createNextUnidirectionalStream /\
  (forall streamId,
     preserves (ofManager countsControlStreams) (removeClosedStream streamId)) /\
  (forall id lvl incr,
     preserves (ofManager countsControlStreams) (setStreamPriority id lvl incr)) /\
  (forall streamId,
     preserves (ofManager countsControlStreams) (setStreamAsControl streamId)).
Proof.
  repeat split;
    auto using getStream_control, createStream_control,
      createNextBidirectionalStream_control, createNextUnidirectionalStream_control,
      removeClosedStream_control, setStreamPriority_control, setStreamAsControl_control.
Qed.





End Invariants.

(** *** Streams through their life *)

Section ClosedStreams.
Local Arguments isRemoteStream : simpl never.
Local Arguments isClientStream : simpl never.
Local Arguments isServerStream : simpl never.
Local Arguments isUnidirectionalStream : simpl never.
Local Arguments openPeerStreamIfNotClosed : simpl never.
Local Arguments wrap64 : simpl never.
Local Arguments hasNonCtrlStreams : simpl never.
Local Arguments eraseFromIndices : simpl never.
Context `{K : QuicConstants}.

Lemma getStream_closed_peer (conn : QuicServerConnectionState) (streamId : Z) :
  let m := streamManager conn in
  let uni := isUnidirectionalStream streamId in
  isRemoteStream (nodeType_ m) streamId = true ->
  streams_ m !! streamId = None ->
  streamId ∉ peerOpenStreams m uni ->
  streamId < peerNextAcceptable m uni ->
  exists conn',
    getStream streamId conn = Returned None conn' /\
    let m' := streamManager conn' in
    nodeType_ m' = nodeType_ m /\
    streams_ m' = streams_ m /\
    streamPriorityLevels_ m' = streamPriorityLevels_ m /\
    peerOpenStreams m' uni = peerOpenStreams m uni /\
    peerNextAcceptable m' uni = peerNextAcceptable m uni /\
    newPeerStreams_ m' = newPeerStreams_ m.
Proof.
  intros m uni Hremote Hnone Hclosed Hnext.
  destruct (peer_parity m streamId Hremote) as (Hp1 & Hp2 & Hp3).
  subst m. unfold peerOpenStreams, peerNextAcceptable in *.
  destruct conn as []. destruct streamManager0 as [].
  proj_nf_all.
  match goal with
  | |- context [getStream ?a ?c] => exec_of (getStream a c)
  end.
  exec. rewrite Hremote. exec. rewrite Hp1. exec. rewrite Hp2. exec. rewrite Hp3. exec.
  rewrite Hnone. exec.
  subst uni. destruct (isUnidirectionalStream streamId) eqn:Huni.
  all: rewrite (bool_decide_eq_false_2 _ Hclosed); exec.
  all: unfold openPeerStreamIfNotClosed.
  all: rewrite (bool_decide_eq_true_2 _ Hnext); exec.
  all: destruct congestionController0, isAppIdle_0.
  all: match goal with
       | |- context [hasNonCtrlStreams ?m] => destruct (hasNonCtrlStreams m)
       end; exec.
  all: exec_done.
  all: eexists; split; [reflexivity|].
  all: proj_nf_all.
  all: repeat split.
Qed.


(** What [removeClosedStream] leaves of a peer stream that has a record. *)
Lemma removeClosedStream_peer_closed (conn : QuicServerConnectionState) (streamId : Z) :
  let m := streamManager conn in
  let uni := isUnidirectionalStream streamId in
  let openAfter := peerOpenStreams m uni ∖ {[streamId]} in
  let initialStreamLimit := advertisedInitialMaxStreams (transportSettings conn) uni in
  let openable := wrap64 (peerMaxStreamId m uni - peerNextAcceptable m uni) `div` 4 in
  let credit := wrap64 (wrap64 (initialStreamLimit - openable) - Z.of_nat (size openAfter)) in
  let maxStreams := wrap64 (peerMaxStreamId m uni - peerInitialStreamId m uni) `div` 4 in
  isRemoteStream (nodeType_ m) streamId = true ->
  is_Some (streams_ m !! streamId) ->
  is_Some (streamPriorityLevels_ m !! streamId) ->
  0 < streamLimitWindowingFraction_ m ->
  wrap64 (maxStreams + credit) <= kMaxMaxStreams ->
  exists conn',
    removeClosedStream streamId conn = Returned tt conn' /\
    let m' := streamManager conn' in
    nodeType_ m' = nodeType_ m /\
    streams_ m' = delete streamId (streams_ m) /\
    streamPriorityLevels_ m' = delete streamId (streamPriorityLevels_ m) /\
    peerOpenStreams m' uni = openAfter /\
    peerNextAcceptable m' uni = peerNextAcceptable m uni /\
    newPeerStreams_ m' = newPeerStreams_ m.
Proof.
  intros m uni openAfter initialStreamLimit openable credit maxStreams
    Hremote [it Hit] [lvl Hlvl] Hfrac Hmax.
  subst maxStreams credit openable initialStreamLimit openAfter m.
  unfold peerOpenStreams, peerNextAcceptable, peerMaxStreamId, peerInitialStreamId,
    peerLimitUpdate, advertisedInitialMaxStreams in *.
  destruct conn as [].
  destruct streamManager0 as [], transportSettings0 as [].
  proj_nf_all.
  match goal with
  | |- context [removeClosedStream ?a ?c] => exec_of (removeClosedStream a c)
  end.
  exec. rewrite Hit. exec. rewrite Hlvl. exec.
  subst uni.
  destruct statsCallback0, priorityChangesObserver_0, congestionController0, isAppIdle_0,
    (isUnidirectionalStream streamId) eqn:Huni, (isControl it).
  all: exec; rewrite Hremote; exec.
  all: rewrite (bool_decide_eq_false_2 (streamLimitWindowingFraction_0 = 0)) by lia; exec.
  all: unfold openableRemoteUnidirectionalStreams, openableRemoteBidirectionalStreams,
         streamCredit, kStreamIncrement in *; proj_nf_all.
  all: match goal with
       | |- context [bool_decide (?c >= ?w)] =>
           destruct (decide (c >= w)) as [Hc|Hc];
           [rewrite (bool_decide_eq_true_2 _ Hc) | rewrite (bool_decide_eq_false_2 _ Hc)]
       end; exec.
  all: unfold kStreamIncrement;
       try rewrite (bool_decide_eq_false_2 (_ > kMaxMaxStreams)) by lia; exec.
  all: try match goal with
           | |- context [bool_decide (?c > ?w)] =>
               destruct (decide (c > w)) as [Hn|Hn];
               [rewrite (bool_decide_eq_true_2 _ Hn) | rewrite (bool_decide_eq_false_2 _ Hn)]
           end; exec.
  all: match goal with
       | |- context [hasNonCtrlStreams ?m] => destruct (hasNonCtrlStreams m)
       end; exec.
  all: exec_done.
  all: eexists; split; [reflexivity|].
  all: proj_nf_all.
  all: repeat split.
Qed.

(** X9.  A peer stream that was closed and removed does not come back.
    For a peer stream with a record and a priority entry, below the next
    acceptable ID, [removeClosedStream] returns (the windowing fraction is
    positive and the raised limit is within [kMaxMaxStreams]); afterwards
    [getStream] of the same ID returns no stream, and the stream has no
    record, is not open, has no priority entry and is not announced as a new
    peer stream again. *)
Theorem closed_peer_stream_stays_closed (conn : QuicServerConnectionState) (streamId : Z) :
  let m := streamManager conn in
  let uni := isUnidirectionalStream streamId in
  let openAfter := peerOpenStreams m uni ∖ {[streamId]} in
  let initialStreamLimit := advertisedInitialMaxStreams (transportSettings conn) uni in
  let openable := wrap64 (peerMaxStreamId m uni - peerNextAcceptable m uni) `div` 4 in
  let credit := wrap64 (wrap64 (initialStreamLimit - openable) - Z.of_nat (size openAfter)) in
  let maxStreams := wrap64 (peerMaxStreamId m uni - peerInitialStreamId m uni) `div` 4 in
  isRemoteStream (nodeType_ m) streamId = true ->
  is_Some (streams_ m !! streamId) ->
  is_Some (streamPriorityLevels_ m !! streamId) ->
  streamId < peerNextAcceptable m uni ->
  0 < streamLimitWindowingFraction_ m ->
  wrap64 (maxStreams + credit) <= kMaxMaxStreams ->
  exists conn1 conn2,
    removeClosedStream streamId conn = Returned tt conn1 /\
    getStream streamId conn1 = Returned None conn2 /\
    streamExists (streamManager conn1) streamId = false /\
    findStream (streamManager conn2) streamId = None /\
    streamExists (streamManager conn2) streamId = false /\
    streamPriorityLevels_ (streamManager conn2) !! streamId = None /\
    newPeerStreams_ (streamManager conn2) = newPeerStreams_ m.
Proof.
  intros m uni openAfter initialStreamLimit openable credit maxStreams
    Hremote Hs Hp Hnext Hfrac Hmax.
  destruct (removeClosedStream_peer_closed conn streamId Hremote Hs Hp Hfrac Hmax)
    as (conn1 & Hrun1 & Hn1 & Hs1 & Hp1 & Ho1 & Hc1 & Hnew1).
  fold m uni in Hn1, Hs1, Hp1, Ho1, Hc1, Hnew1.
  assert (Hremote1 : isRemoteStream (nodeType_ (streamManager conn1)) streamId = true)
    by (rewrite Hn1; exact Hremote).
  assert (Hnone1 : streams_ (streamManager conn1) !! streamId = None)
    by (rewrite Hs1; apply lookup_delete_eq).
  assert (Hclosed1 : streamId ∉ peerOpenStreams (streamManager conn1) uni)
    by (rewrite Ho1; set_solver).
  assert (Hnext1 : streamId < peerNextAcceptable (streamManager conn1) uni)
    by (rewrite Hc1; exact Hnext).
  destruct (getStream_closed_peer conn1 streamId Hremote1 Hnone1 Hclosed1 Hnext1)
    as (conn2 & Hrun2 & Hn2 & Hs2 & Hp2 & Ho2 & Hc2 & Hnew2).
  fold uni in Ho2, Hc2.
  assert (Hlocal : forall m', nodeType_ m' = nodeType_ m -> isLocalStream (nodeType_ m') streamId = false).
  { intros m' ->. revert Hremote. unfold isRemoteStream, isLocalStream.
    rewrite !isServerStream_negb.
    destruct (nodeType_ m), (isClientStream streamId); cbn; congruence. }
  assert (Hexists : forall m', nodeType_ m' = nodeType_ m ->
            streamId ∉ peerOpenStreams m' uni -> streamExists m' streamId = false).
  { intros m' Hn Ho. unfold streamExists. rewrite (Hlocal m' Hn).
    unfold peerOpenStreams in Ho. fold uni. destruct uni;
      apply bool_decide_eq_false_2; exact Ho. }
  exists conn1, conn2. split; [exact Hrun1|]. split; [exact Hrun2|].
  split; [apply Hexists; assumption|].
  split; [unfold findStream; rewrite Hs2; exact Hnone1|].
  split; [apply Hexists; [congruence | rewrite Ho2; exact Hclosed1]|].
  split; [rewrite Hp2, Hp1; apply lookup_delete_eq|].
  rewrite Hnew2. exact Hnew1.
Qed.


End ClosedStreams.

Section Behaviour.
Local Arguments isRemoteStream : simpl never.
Local Arguments isClientStream : simpl never.
Local Arguments isServerStream : simpl never.
Local Arguments isUnidirectionalStream : simpl never.
Local Arguments openPeerStreamIfNotClosed : simpl never.
Local Arguments wrap64 : simpl never.
Local Arguments hasNonCtrlStreams : simpl never.
Local Arguments eraseFromIndices : simpl never.
Context `{K : QuicConstants}.

(** X10.  [getStream] of a peer stream that is open but has no record yet
    (it was opened implicitly by a higher stream ID) creates the record with
    the default state, gives it a priority entry and reports a new stream to
    the stats callback; the open set, the next acceptable ID and the list of
    new peer streams stay as they are. *)
Theorem getStream_materialises_open_peer_stream
    (conn : QuicServerConnectionState) (streamId : Z) :
  let m := streamManager conn in
  let uni := isUnidirectionalStream streamId in
  isRemoteStream (nodeType_ m) streamId = true ->
  streamId ∈ peerOpenStreams m uni ->
  streams_ m !! streamId = None ->
  streamPriorityLevels_ m !! streamId = None ->
  exists conn',
    getStream streamId conn = Returned (Some (newStreamState streamId)) conn' /\
    let m' := streamManager conn' in
    streams_ m' = <[streamId := newStreamState streamId]> (streams_ m) /\
    streamPriorityLevels_ m' =
      <[streamId := level (priority (newStreamState streamId))]> (streamPriorityLevels_ m) /\
    peerOpenStreams m' uni = peerOpenStreams m uni /\
    peerNextAcceptable m' uni = peerNextAcceptable m uni /\
    newPeerStreams_ m' = newPeerStreams_ m /\
    statsCallback conn' = (fun events => events ++ [onNewQuicStream]) <$> statsCallback conn.
Proof.
  intros m uni Hremote Hopen Hnone Hprio.
  destruct (peer_parity m streamId Hremote) as (Hp1 & Hp2 & Hp3).
  subst m. unfold peerOpenStreams, peerNextAcceptable in *.
  destruct conn as []. destruct streamManager0 as [].
  proj_nf_all.
  match goal with
  | |- context [getStream ?a ?c] => exec_of (getStream a c)
  end.
  exec. rewrite Hremote. exec. rewrite Hp1. exec. rewrite Hp2. exec. rewrite Hp3. exec.
  rewrite Hnone. exec.
  subst uni. destruct (isUnidirectionalStream streamId) eqn:Huni.
  all: rewrite (bool_decide_eq_true_2 _ Hopen); exec.
  all: rewrite Hnone; exec.
  all: change (stream_id (newStreamState streamId)) with streamId.
  all: rewrite Hprio; exec.
  all: destruct statsCallback0, priorityChangesObserver_0, congestionController0, isAppIdle_0.
  all: exec.
  all: match goal with
       | |- context [hasNonCtrlStreams ?m] => destruct (hasNonCtrlStreams m) eqn:Hnc
       end; exec.
  all: exec_done.
  all: eexists; split; [reflexivity|].
  all: proj_nf_all.
  all: repeat split.
Qed.


Lemma streamIdsUpTo_same (streamId : Z) : streamIdsUpTo streamId streamId = [streamId].
Proof.
  unfold streamIdsUpTo, openStreamsFuel, kStreamIncrement.
  rewrite Z.sub_diag. change (Z.to_nat (0 `div` 4 + 1)) with 1%nat.
  cbn. f_equal. lia.
Qed.

Lemma openLocalStreamIfNotClosed_next (streamId maxStreamId : Z) (openStreams : gset Z) :
  0 <= streamId -> streamId + 4 < 2 ^ 64 ->
  openLocalStreamIfNotClosed streamId openStreams streamId maxStreamId =
  if bool_decide (streamId >= maxStreamId)
  then (STREAM_LIMIT_EXCEEDED, openStreams, streamId)
  else (LOCAL_NO_ERROR, {[streamId]} ∪ openStreams, streamId + 4).
Proof.
  intros H0 Hw. unfold openLocalStreamIfNotClosed.
  case_bool_decide as Hmax.
  - unfold openPeerStreamIfNotClosed.
    rewrite bool_decide_eq_false_2 by lia. rewrite bool_decide_eq_true_2 by lia.
    reflexivity.
  - rewrite openPeerStreamIfNotClosed_opens by lia.
    rewrite streamIdsUpTo_same. cbn. f_equal. f_equal. set_solver.
Qed.

(** X11.  [createNextBidirectionalStream] hands out the local stream IDs in
    sequence.  With the next ID local, bidirectional, equal to the next
    acceptable one and unused: below the local limit the call returns the new
    stream of that ID, and both cursors advance by 4, the ID is open and has
    a record and a priority entry; at the limit it returns
    [STREAM_LIMIT_EXCEEDED] and changes nothing. *)
Theorem createNextBidirectionalStream_hands_out_ids (conn : QuicServerConnectionState) :
  let m := streamManager conn in
  let next := nextBidirectionalStreamId_ m in
  isLocalStream (nodeType_ m) next = true ->
  isUnidirectionalStream next = false ->
  nextAcceptableLocalBidirectionalStreamId_ m = next ->
  next ∉ openBidirectionalLocalStreams_ m ->
  streams_ m !! next = None ->
  streamPriorityLevels_ m !! next = None ->
  0 <= next -> next + 4 < 2 ^ 64 ->
  (next < maxLocalBidirectionalStreamId_ m ->
   exists conn',
     createNextBidirectionalStream conn = Returned (Value (newStreamState next)) conn' /\
     let m' := streamManager conn' in
     nextBidirectionalStreamId_ m' = next + 4 /\
     nextAcceptableLocalBidirectionalStreamId_ m' = next + 4 /\
     openBidirectionalLocalStreams_ m' = {[next]} ∪ openBidirectionalLocalStreams_ m /\
     streams_ m' = <[next := newStreamState next]> (streams_ m) /\
     streamPriorityLevels_ m' =
       <[next := level (priority (newStreamState next))]> (streamPriorityLevels_ m)) /\
  (maxLocalBidirectionalStreamId_ m <= next ->
   createNextBidirectionalStream conn = Returned (Unexpected STREAM_LIMIT_EXCEEDED) conn).
Proof.
  intros m next Hlocal Huni Hcursor Hopen Hnone Hprio H0 Hw.
  assert (Hp1 : bool_decide (nodeType_ m = Client) && negb (isClientStream next) = false).
  { revert Hlocal. unfold isLocalStream. destruct (nodeType_ m); cbn; [intros ->|]; reflexivity. }
  assert (Hp2 : bool_decide (nodeType_ m = Server) && negb (isServerStream next) = false).
  { revert Hlocal. unfold isLocalStream. destruct (nodeType_ m); cbn; [|intros ->]; reflexivity. }
  pose proof (openLocalStreamIfNotClosed_next next (maxLocalBidirectionalStreamId_ m)
                (openBidirectionalLocalStreams_ m) H0 Hw) as Hopened.
  subst m next.
  destruct conn as []. destruct streamManager0 as [].
  proj_nf_all. subst nextAcceptableLocalBidirectionalStreamId_0.
  split; intros Hmax.
  - rewrite bool_decide_eq_false_2 in Hopened by lia.
    match goal with
    | |- context [createNextBidirectionalStream ?c] => exec_of (createNextBidirectionalStream c)
    end.
    exec.
    repeat (first [ rewrite Hp1 | rewrite Hp2 | rewrite Huni | rewrite Hopened
                  | rewrite (bool_decide_eq_false_2 _ Hopen) | rewrite Hnone
                  | progress change (stream_id (newStreamState nextBidirectionalStreamId_0))
                      with nextBidirectionalStreamId_0
                  | rewrite Hprio ]; exec).
    destruct statsCallback0, priorityChangesObserver_0, congestionController0, isAppIdle_0.
    all: exec.
    all: match goal with
         | |- context [hasNonCtrlStreams ?m] => destruct (hasNonCtrlStreams m) eqn:Hnc
         end; exec.
    all: cbn [hasError negb]; exec.
    all: exec_done.
    all: eexists; split; [reflexivity|].
    all: proj_nf_all.
    all: repeat split.
    all: unfold wrap64, kStreamIncrement; rewrite Z.mod_small by lia; reflexivity.
  - rewrite bool_decide_eq_true_2 in Hopened by lia.
    match goal with
    | |- context [createNextBidirectionalStream ?c] => exec_of (createNextBidirectionalStream c)
    end.
    exec.
    repeat (first [ rewrite Hp1 | rewrite Hp2 | rewrite Huni | rewrite Hopened
                  | rewrite (bool_decide_eq_false_2 _ Hopen) ]; exec).
    exec_done. reflexivity.
Qed.


Definition localOpenStreams (m : QuicStreamManager) (uni : bool) : gset Z :=
  if uni then openUnidirectionalLocalStreams_ m else openBidirectionalLocalStreams_ m.

Definition localNextAcceptable (m : QuicStreamManager) (uni : bool) : Z :=
  if uni then nextAcceptableLocalUnidirectionalStreamId_ m
  else nextAcceptableLocalBidirectionalStreamId_ m.

(** X12.  [getStream] of a local stream never opens it.  A stream with a
    record is returned with no change of state; without a record and not
    open, an ID at or above the next acceptable local ID (never opened)
    throws [STREAM_STATE_ERROR] with the state unchanged, and an ID below it
    (closed) gives no stream. *)
Theorem getStream_local_stream (conn : QuicServerConnectionState) (streamId : Z) :
  let m := streamManager conn in
  let uni := isUnidirectionalStream streamId in
  isRemoteStream (nodeType_ m) streamId = false ->
  (forall st, streams_ m !! streamId = Some st ->
     getStream streamId conn = Returned (Some st) conn) /\
  (streams_ m !! streamId = None ->
   streamId ∉ localOpenStreams m uni ->
   localNextAcceptable m uni <= streamId ->
   exists e,
     getStream streamId conn = Thrown e conn /\ errorCode e = STREAM_STATE_ERROR) /\
  (streams_ m !! streamId = None ->
   streamId ∉ localOpenStreams m uni ->
   streamId < localNextAcceptable m uni ->
   exists conn',
     getStream streamId conn = Returned None conn' /\
     let m' := streamManager conn' in
     streams_ m' = streams_ m /\
     localOpenStreams m' uni = localOpenStreams m uni /\
     localNextAcceptable m' uni = localNextAcceptable m uni).
Proof.
  intros m uni Hlocal.
  subst m. unfold localOpenStreams, localNextAcceptable.
  destruct conn as []. destruct streamManager0 as [].
  proj_nf_all.
  repeat apply conj.
  - intros st Hst.
    match goal with
    | |- context [getStream ?a ?c] => exec_of (getStream a c)
    end.
    exec. rewrite Hlocal. exec. rewrite Hst. exec. exec_done. reflexivity.
  - intros Hnone Hopen Hnext.
    match goal with
    | |- context [getStream ?a ?c] => exec_of (getStream a c)
    end.
    exec. rewrite Hlocal. exec. rewrite Hnone. exec.
    subst uni. destruct (isUnidirectionalStream streamId) eqn:Huni.
    all: rewrite (bool_decide_eq_false_2 _ Hopen); exec.
    all: unfold isStreamUnopened.
    all: rewrite (bool_decide_eq_true_2 (None = None)) by reflexivity.
    all: rewrite (bool_decide_eq_true_2 (streamId >= _)) by lia; exec.
    all: exec_done.
    all: eexists; split; reflexivity.
  - intros Hnone Hopen Hnext.
    match goal with
    | |- context [getStream ?a ?c] => exec_of (getStream a c)
    end.
    exec. rewrite Hlocal. exec. rewrite Hnone. exec.
    subst uni. destruct (isUnidirectionalStream streamId) eqn:Huni.
    all: rewrite (bool_decide_eq_false_2 _ Hopen); exec.
    all: unfold isStreamUnopened.
    all: rewrite (bool_decide_eq_true_2 (None = None)) by reflexivity.
    all: rewrite (bool_decide_eq_false_2 (streamId >= _)) by lia; exec.
    all: destruct congestionController0, isAppIdle_0.
    all: match goal with
         | |- context [hasNonCtrlStreams ?m] => destruct (hasNonCtrlStreams m)
         end; exec.
    all: exec_done.
    all: eexists; split; [reflexivity|].
    all: proj_nf_all.
    all: repeat split.
Qed.

End Behaviour.

Lemma highestPriorityLoop_least (entries : list (Z * Z)) (min : Z) :
  0 <= min ->
  Forall (fun entry => 0 <= entry.2) entries ->
  let r := highestPriorityLoop entries min in
  0 <= r <= min /\
  Forall (fun entry => r <= entry.2) entries /\
  (r = min \/ exists entry, entry ∈ entries /\ entry.2 = r).
Proof.
  revert min. induction entries as [|entry rest IH]; intros min Hmin Hall.
  - cbn. split; [lia|]. split; [constructor | left; reflexivity].
  - inversion Hall as [|? ? He Hrest]; subst. cbn [highestPriorityLoop].
    set (min' := if bool_decide (entry.2 < min) then entry.2 else min).
    assert (Hmin' : 0 <= min' <= min /\ min' <= entry.2 /\ (min' = min \/ min' = entry.2)).
    { unfold min'. case_bool_decide; lia. }
    case_bool_decide as Hzero.
    + split; [lia|]. split.
      * constructor; [lia|]. eapply Forall_impl; [exact Hrest|]. cbn. intros; lia.
      * destruct Hmin' as (_ & _ & [Hm|Hm]); [left; exact Hm|].
        right. exists entry. split; [left | congruence].
    + destruct (IH min' ltac:(lia) Hrest) as (Hr & Hfor & Hfrom).
      split; [lia|]. split.
      * constructor; [lia | exact Hfor].
      * destruct Hfrom as [Hm|(e & Hin & He')].
        -- destruct Hmin' as (_ & _ & [Hm'|Hm']); [left; congruence|].
           right. exists entry. split; [left | congruence].
        -- right. exists e. split; [right; exact Hin | exact He'].
Qed.

Section Priority.
Context `{K : QuicConstants}.

(** X13.  [getHighestPriorityLevel] gives the least level in the priority
    map, capped by [kDefaultMaxPriority]: with levels that are not negative,
    the result is at most [kDefaultMaxPriority] and at most every level of
    the map, it is [kDefaultMaxPriority] or the level of some stream, and it
    is [kDefaultMaxPriority] for the empty map.  The early exit of the loop
    at level 0 does not change the result. *)
Theorem getHighestPriorityLevel_least (m : QuicStreamManager) :
  (forall id lvl, streamPriorityLevels_ m !! id = Some lvl -> 0 <= lvl) ->
  let r := getHighestPriorityLevel m in
  r <= kDefaultMaxPriority /\
  (forall id lvl, streamPriorityLevels_ m !! id = Some lvl -> r <= lvl) /\
  (r = kDefaultMaxPriority \/ exists id, streamPriorityLevels_ m !! id = Some r) /\
  (streamPriorityLevels_ m = ∅ -> r = kDefaultMaxPriority).
Proof.
  intros Hnonneg. unfold getHighestPriorityLevel.
  assert (Hall : Forall (fun entry : Z * Z => 0 <= entry.2)
                   (map_to_list (streamPriorityLevels_ m))).
  { apply Forall_forall. intros [id lvl] Hin. apply elem_of_map_to_list in Hin.
    exact (Hnonneg id lvl Hin). }
  destruct (highestPriorityLoop_least (map_to_list (streamPriorityLevels_ m))
              kDefaultMaxPriority ltac:(unfold kDefaultMaxPriority; lia) Hall)
    as (Hr & Hfor & Hfrom).
  cbv zeta. split; [lia|]. split; [|split].
  - intros id lvl Hl. rewrite Forall_forall in Hfor.
    exact (Hfor (id, lvl) (proj2 (elem_of_map_to_list _ _ _) Hl)).
  - destruct Hfrom as [Hm|([id lvl] & Hin & He)]; [left; exact Hm|].
    right. exists id. apply elem_of_map_to_list in Hin. cbn in He. congruence.
  - intros ->. rewrite map_to_list_empty. reflexivity.
Qed.

(** X14.  [setStreamPriority] on a manager whose priority map mirrors the
    records never throws.  It returns false with the state unchanged when
    the stream has no record or already has this priority; otherwise it
    returns true, the record has the new priority, the priority map has the
    new level, the priority observer is notified once, and the map still
    mirrors the records. *)
Theorem setStreamPriority_changes_level (conn : QuicServerConnectionState)
    (id lvl : Z) (incr : bool) :
  let m := streamManager conn in
  let newPriority := mkPriority lvl incr in
  prioritiesMirrorStreams m ->
  (streams_ m !! id = None ->
   setStreamPriority id lvl incr conn = Returned false conn) /\
  (forall st, streams_ m !! id = Some st -> priority st = newPriority ->
   setStreamPriority id lvl incr conn = Returned false conn) /\
  (forall st, streams_ m !! id = Some st -> priority st <> newPriority ->
   exists conn',
     setStreamPriority id lvl incr conn = Returned true conn' /\
     let m' := streamManager conn' in
     streams_ m' = <[id := set_priority newPriority st]> (streams_ m) /\
     streamPriorityLevels_ m' = <[id := lvl]> (streamPriorityLevels_ m) /\
     priorityChangesObserver_ m' =
       (fun calls => calls ++ [tt]) <$> priorityChangesObserver_ m /\
     prioritiesMirrorStreams m').
Proof.
  intros m newPriority Hmirror.
  pose proof (setStreamPriority_mirror id lvl incr conn Hmirror) as Hkeeps.
  destruct Hmirror as [Hp Hk].
  subst m newPriority.
  destruct conn as []. destruct streamManager0 as [].
  proj_nf_all.
  repeat apply conj.
  - intros Hnone.
    match goal with
    | |- context [setStreamPriority ?a ?b ?c ?s] => exec_of (setStreamPriority a b c s)
    end.
    exec. unfold findStream. proj_nf_all. rewrite Hnone. exec. exec_done. reflexivity.
  - intros st Hst Hsame.
    match goal with
    | |- context [setStreamPriority ?a ?b ?c ?s] => exec_of (setStreamPriority a b c s)
    end.
    exec. unfold findStream. proj_nf_all. rewrite Hst. exec.
    rewrite (bool_decide_eq_true_2 _ Hsame). exec. exec_done. reflexivity.
  - intros st Hst Hdiff.
    assert (Hlvl : streamPriorityLevels_0 !! id = Some (priorityLevel st)).
    { rewrite Hp, lookup_fmap, Hst. reflexivity. }
    revert Hkeeps.
    match goal with
    | |- context [setStreamPriority ?a ?b ?c ?s] =>
        generalize (eq_refl (setStreamPriority a b c s));
        generalize (setStreamPriority a b c s) at 2 3 4; intros o Ho
    end.
    revert Ho.
    match goal with
    | |- context [setStreamPriority ?a ?b ?c ?s] => exec_of (setStreamPriority a b c s)
    end.
    exec. unfold findStream. proj_nf_all. rewrite Hst. exec.
    rewrite (bool_decide_eq_false_2 _ Hdiff). exec. rewrite Hlvl. exec.
    destruct priorityChangesObserver_0; exec.
    all: exec_done.
    all: intros <- Hkeeps.
    all: eexists; split; [reflexivity|].
    all: proj_nf_all.
    all: repeat split; try exact (proj1 Hkeeps); try exact (proj2 Hkeeps).
Qed.

End Priority.

Section Limits.
Context `{K : QuicConstants}.

(** X15.  [setMaxLocalBidirectionalStreams] only raises the limit unless
    forced.  A count above [kMaxMaxStreams] throws [STREAM_LIMIT_ERROR] and
    leaves the state unchanged.  Otherwise a forced call sets the limit and
    the increased flag; an unforced call leaves the larger of the old and the
    new limit, changes nothing when the new limit is not larger, and
    [consumeMaxLocalBidirectionalStreamIdIncreased] then returns true exactly
    when the flag was set before or the limit was raised, keeps the limit,
    and returns false when called again. *)
Theorem setMaxLocalBidirectionalStreams_only_raises
    (conn : QuicServerConnectionState) (maxStreams : Z) :
  let m := streamManager conn in
  let maxStreamId :=
    wrap64 (maxStreams * kStreamIncrement + initialLocalBidirectionalStreamId_ m) in
  (maxStreams > kMaxMaxStreams ->
   forall force, exists e,
     setMaxLocalBidirectionalStreams maxStreams force conn = Thrown e conn /\
     errorCode e = STREAM_LIMIT_ERROR) /\
  (maxStreams <= kMaxMaxStreams ->
   (exists conn1,
     setMaxLocalBidirectionalStreams maxStreams true conn = Returned tt conn1 /\
     maxLocalBidirectionalStreamId_ (streamManager conn1) = maxStreamId /\
     maxLocalBidirectionalStreamIdIncreased_ (streamManager conn1) = true) /\
   (exists conn1,
     setMaxLocalBidirectionalStreams maxStreams false conn = Returned tt conn1 /\
     maxLocalBidirectionalStreamId_ (streamManager conn1) =
       Z.max (maxLocalBidirectionalStreamId_ m) maxStreamId /\
     (maxStreamId <= maxLocalBidirectionalStreamId_ m -> conn1 = conn) /\
     exists conn2,
       consumeMaxLocalBidirectionalStreamIdIncreased conn1 =
         Returned (maxLocalBidirectionalStreamIdIncreased_ m ||
                   bool_decide (maxStreamId > maxLocalBidirectionalStreamId_ m)) conn2 /\
       maxLocalBidirectionalStreamId_ (streamManager conn2) =
         maxLocalBidirectionalStreamId_ (streamManager conn1) /\
       exists conn3,
         consumeMaxLocalBidirectionalStreamIdIncreased conn2 = Returned false conn3 /\
         conn3 = conn2)).
Proof.
  intros m maxStreamId. subst m maxStreamId.
  destruct conn as []. destruct streamManager0 as [].
  proj_nf_all. split.
  - intros Hgt force. unfold setMaxLocalBidirectionalStreams.
    rewrite (bool_decide_eq_true_2 _ Hgt). eexists. split; reflexivity.
  - intros Hle. split.
    + unfold setMaxLocalBidirectionalStreams.
      rewrite (bool_decide_eq_false_2 (maxStreams > kMaxMaxStreams)) by lia.
      eexists. split; [reflexivity|]. split; reflexivity.
    + destruct (decide (wrap64 (maxStreams * kStreamIncrement
                                + initialLocalBidirectionalStreamId_0)
                        > maxLocalBidirectionalStreamId_0)) as [Hraise|Hraise].
      all: match goal with
           | |- context [setMaxLocalBidirectionalStreams ?a ?b ?c] =>
               exec_of (setMaxLocalBidirectionalStreams a b c)
           end.
      all: unfold setMaxLocalBidirectionalStreams.
      all: rewrite (bool_decide_eq_false_2 (maxStreams > kMaxMaxStreams)) by lia.
      all: exec.
      * rewrite (bool_decide_eq_true_2 _ Hraise). exec. exec_done.
        eexists. split; [reflexivity|]. proj_nf_all.
        split; [lia|]. split; [intros; lia|].
        unfold consumeMaxLocalBidirectionalStreamIdIncreased.
        eexists. split; [rewrite orb_true_r; reflexivity|].
        split; [reflexivity|]. eexists. split; reflexivity.
      * rewrite (bool_decide_eq_false_2 _ Hraise). exec. exec_done.
        eexists. split; [reflexivity|]. proj_nf_all.
        split; [lia|]. split; [reflexivity|].
        unfold consumeMaxLocalBidirectionalStreamIdIncreased.
        eexists. split; [rewrite orb_false_r; reflexivity|].
        split; [reflexivity|]. eexists. split; reflexivity.
Qed.

End Limits.

(** *** The idle flag *)

Section AppIdle.
Context `{K : QuicConstants}.

(** The idle flag says that every stream is a control stream. *)
Definition appIdleInSync (conn : QuicServerConnectionState) : Prop :=
  isAppIdle_ (streamManager conn) = negb (hasNonCtrlStreams (streamManager conn)).

Lemma updateAppIdleState_sync (P : QuicServerConnectionState -> Prop) :
  hoare P updateAppIdleState (fun _ => appIdleInSync).
Proof.
  intros conn _. unfold updateAppIdleState, manager, appIdleInSync.
  cbv [bind gets].
  destruct (isAppIdle_ (streamManager conn)) eqn:Hidle,
    (hasNonCtrlStreams (streamManager conn)) eqn:Hstreams; cbn [andb negb].
  2, 3: cbv [ret]; rewrite Hidle, Hstreams; reflexivity.
  all: cbv [modifyManager modify].
  all: destruct conn as []; destruct streamManager0 as [].
  all: unfold hasNonCtrlStreams in *.
  all: destruct congestionController0; cbn in *; rewrite Hstreams; reflexivity.
Qed.

Lemma notifyStreamPriorityChanges_sync :
  hoare appIdleInSync notifyStreamPriorityChanges (fun _ => appIdleInSync).
Proof.
  intros conn Hsync. unfold notifyStreamPriorityChanges, modifyManager, modify.
  unfold appIdleInSync in *.
  destruct conn as []; destruct streamManager0 as [].
  destruct priorityChangesObserver_0; exact Hsync.
Qed.

(** X16.  The idle flag follows the streams.  After [updateAppIdleState],
    and after [setStreamAsControl] returns, [isAppIdle_] holds exactly when
    the manager has no stream other than control streams (the number of
    stream records equals [numControlStreams_]); [getStream] and
    [removeClosedStream], when they return, keep this. *)
Theorem app_idle_follows_streams :
  hoare (fun _ => True) updateAppIdleState (fun _ => appIdleInSync) /\
  (forall streamId,
     hoare (fun _ => True) (setStreamAsControl streamId) (fun _ => appIdleInSync)) /\
  (forall streamId,
     hoare appIdleInSync (getStream streamId) (fun _ => appIdleInSync)) /\
  (forall streamId,
     hoare appIdleInSync (removeClosedStream streamId) (fun _ => appIdleInSync)).
Proof.
  repeat apply conj.
  - apply updateAppIdleState_sync.
  - intros streamId. unfold setStreamAsControl.
    apply hoare_bind_gets. intros m.
    destruct (streams_ m !! streamId).
    + eapply hoare_bind; [apply hoare_any | intros ?; apply updateAppIdleState_sync].
    + apply updateAppIdleState_sync.
  - intros streamId. unfold getStream.
    apply hoare_bind_gets. intros m.
    destruct (isRemoteStream (nodeType_ m) streamId).
    + eapply hoare_bind; [apply hoare_any | intros stream].
      eapply hoare_bind; [apply updateAppIdleState_sync | intros ?].
      apply hoare_ret. intros s Hs. exact Hs.
    + destruct (streams_ m !! streamId).
      * apply hoare_ret. intros s [Hs _]. exact Hs.
      * eapply hoare_bind; [apply hoare_any | intros stream].
        apply hoare_bind_gets. intros m'. cbv zeta.
        match goal with |- hoare _ (if ?c then _ else _) _ => destruct c end.
        -- apply hoare_throw.
        -- eapply hoare_bind; [apply updateAppIdleState_sync | intros ?].
           apply hoare_ret. intros s Hs. exact Hs.
  - intros streamId. unfold removeClosedStream.
    apply hoare_bind_gets. intros m.
    destruct (streams_ m !! streamId).
    2: { apply hoare_ret. intros s [Hs _]. exact Hs. }
    eapply hoare_bind; [apply hoare_any | intros ?].
    eapply hoare_bind; [apply hoare_any | intros m1].
    destruct (streamPriorityLevels_ m1 !! streamId); [|apply hoare_throw].
    do 5 (eapply hoare_bind; [apply hoare_any | intros ?]).
    eapply hoare_bind; [apply hoare_any | intros ?].
    eapply hoare_bind; [apply updateAppIdleState_sync | intros ?].
    apply notifyStreamPriorityChanges_sync.
Qed.

End AppIdle.

(** *** Error codes *)

Section Errors.
Context `{K : QuicConstants}.


End Errors.

(** On the example connection, once the peer's stream 0 is opened and then
    closed and removed, [getStream(0)] gives no stream. *)
Lemma closed_peer_stream_stays_closed_witness :
  exists conn1 conn2,
    removeClosedStream (K := referenceConstants) 0
      (Examples.stateAfter (Examples.openPeerStream (K := referenceConstants) 0)
         (Examples.exampleConnection referenceConstants)) = Returned tt conn1 /\
    getStream (K := referenceConstants) 0 conn1 = Returned None conn2.
Proof.
  pose proof (closed_peer_stream_stays_closed (K := referenceConstants)
                (Examples.stateAfter (Examples.openPeerStream (K := referenceConstants) 0)
                   (Examples.exampleConnection referenceConstants)) 0) as H.
  cbv zeta in H.
  destruct H as (conn1 & conn2 & Hrun1 & Hrun2 & _).
  - reflexivity.
  - vm_compute. eexists. reflexivity.
  - vm_compute. eexists. reflexivity.
  - vm_compute. reflexivity.
  - vm_compute. reflexivity.
  - vm_compute. congruence.
  - exists conn1, conn2. split; [exact Hrun1 | exact Hrun2].
Defined.

(** On the example connection, [getStream(8)] opens streams 0, 4 and 8 and
    creates the record of 8 only; [getStream(4)] then creates the record of
    4. *)
Lemma getStream_materialises_open_peer_stream_witness :
  exists conn',
    getStream (K := referenceConstants) 4
      (Examples.stateAfter (Examples.openPeerStream (K := referenceConstants) 8)
         (Examples.exampleConnection referenceConstants)) =
      Returned (Some (newStreamState (K := referenceConstants) 4)) conn' /\
    newPeerStreams_ (streamManager conn') = [0; 4; 8].
Proof.
  pose proof (getStream_materialises_open_peer_stream (K := referenceConstants)
                (Examples.stateAfter (Examples.openPeerStream (K := referenceConstants) 8)
                   (Examples.exampleConnection referenceConstants)) 4) as H.
  cbv zeta in H.
  destruct H as (conn' & Hrun & _ & _ & _ & _ & Hnew & _).
  - reflexivity.
  - vm_compute. set_solver.
  - vm_compute. reflexivity.
  - vm_compute. reflexivity.
  - exists conn'. split; [exact Hrun|]. rewrite Hnew. vm_compute. reflexivity.
Defined.

(** The example connection starts with no credit for local streams:
    [createNextBidirectionalStream] reports the exceeded limit. *)
Lemma createNextBidirectionalStream_hands_out_ids_witness :
  createNextBidirectionalStream (K := referenceConstants)
    (Examples.exampleConnection referenceConstants) =
  Returned (Unexpected STREAM_LIMIT_EXCEEDED) (Examples.exampleConnection referenceConstants).
Proof.
  pose proof (createNextBidirectionalStream_hands_out_ids (K := referenceConstants)
                (Examples.exampleConnection referenceConstants)) as H.
  cbv zeta in H.
  destruct H as [_ Hlimit].
  - reflexivity.
  - reflexivity.
  - reflexivity.
  - vm_compute. set_solver.
  - vm_compute. reflexivity.
  - vm_compute. reflexivity.
  - vm_compute. congruence.
  - vm_compute. reflexivity.
  - apply Hlimit. vm_compute. congruence.
Defined.

(** On the example connection the local stream 1 is not opened yet:
    [getStream(1)] throws. *)
Lemma getStream_local_stream_witness :
  exists e,
    getStream (K := referenceConstants) 1 (Examples.exampleConnection referenceConstants) =
      Thrown e (Examples.exampleConnection referenceConstants) /\
    errorCode e = STREAM_STATE_ERROR.
Proof.
  pose proof (getStream_local_stream (K := referenceConstants)
                (Examples.exampleConnection referenceConstants) 1) as H.
  cbv zeta in H.
  destruct H as (_ & Hthrows & _).
  - reflexivity.
  - apply Hthrows.
    + vm_compute. reflexivity.
    + vm_compute. set_solver.
    + vm_compute. congruence.
Defined.

(** With the one stream 8 at the default level 3, the highest priority level
    in use is 3. *)
Lemma getHighestPriorityLevel_least_witness :
  getHighestPriorityLevel
    (streamManager
       (Examples.stateAfter (Examples.openPeerStream (K := referenceConstants) 8)
          (Examples.exampleConnection referenceConstants))) <= 3.
Proof.
  pose proof (getHighestPriorityLevel_least
                (streamManager
                   (Examples.stateAfter (Examples.openPeerStream (K := referenceConstants) 8)
                      (Examples.exampleConnection referenceConstants)))) as H.
  cbv zeta in H.
  destruct H as (_ & Hleast & _).
  - intros id lvl.
    replace (streamPriorityLevels_ _) with ({[8 := 3]} : gmap Z Z)
      by (vm_compute; reflexivity).
    intros [_ <-]%lookup_singleton_Some. lia.
  - apply (Hleast 8). vm_compute. reflexivity.
Defined.

(** On the example connection with the stream 8 at the default priority,
    [setStreamPriority(8, 1, false)] returns true and records level 1. *)
Lemma setStreamPriority_changes_level_witness :
  exists conn',
    setStreamPriority 8 1 false
      (Examples.stateAfter (Examples.openPeerStream (K := referenceConstants) 8)
         (Examples.exampleConnection referenceConstants)) = Returned true conn' /\
    streamPriorityLevels_ (streamManager conn') !! 8 = Some 1.
Proof.
  pose proof (setStreamPriority_changes_level
                (Examples.stateAfter (Examples.openPeerStream (K := referenceConstants) 8)
                   (Examples.exampleConnection referenceConstants)) 8 1 false) as H.
  cbv zeta in H.
  destruct H as (_ & _ & Hchange).
  - split.
    + vm_compute. reflexivity.
    + replace (streams_ _) with ({[8 := newStreamState (K := referenceConstants) 8]}
                                  : gmap Z QuicStreamState)
        by (vm_compute; reflexivity).
      apply map_Forall_singleton. reflexivity.
  - destruct (Hchange (newStreamState (K := referenceConstants) 8)) as (conn' & Hrun & _ & Hp & _).
    + vm_compute. reflexivity.
    + vm_compute. congruence.
    + exists conn'. split; [exact Hrun|]. rewrite Hp. apply lookup_insert_eq.
Defined.

End QuicStreamManagerProofs.

(** ** The server state machine *)

Module ServerStateMachineProofs.

Import QuicStateFunctions QuicStreamManagerModel ServerStateMachine Exec Hoare.

Section Server.
Context `{K : QuicConstants} `{C : ServerCollaborators}.

Lemma encodeRetryLoop_spec (rejector : option (list Z -> bool))
    (params : ServerConnectionIdParams) (algo0 : ConnectionIdAlgo) (fuel j : nat) :
  (j <= 15)%nat -> (15 - j <= fuel)%nat ->
  exists n encodedTimes,
    (j + 1 <= n <= 16)%nat /\
    encodeRetryLoop fuel rejector params (afterEncodings algo0 (j + 1))
      (encoding algo0 params j) (Z.of_nat j) =
      Some (encoding algo0 params (n - 1), encodedTimes, afterEncodings algo0 n) /\
    (forall i, (j <= i < n - 1)%nat ->
       rejectedByRejector rejector (encoding algo0 params i) = true) /\
    (n = 16%nat \/ rejectedByRejector rejector (encoding algo0 params (n - 1)) = false).
Proof.
  revert j. induction fuel as [|fuel IH]; intros j Hj Hfuel.
  - assert (j = 15%nat) by lia. subst j. cbn [encodeRetryLoop].
    destruct (rejectedByRejector rejector (encoding algo0 params 15)) eqn:Hrej.
    + rewrite bool_decide_eq_false_2 by (unfold kConnIdEncodingRetryLimit; lia).
      exists 16%nat, (Z.of_nat 15 + 1). split; [lia|]. split; [reflexivity|]. split; [intros i Hi; lia | left; reflexivity].
    + exists 16%nat, (Z.of_nat 15). split; [lia|]. split; [reflexivity|]. split; [intros i Hi; lia | left; reflexivity].
  - cbn [encodeRetryLoop].
    destruct (rejectedByRejector rejector (encoding algo0 params j)) eqn:Hrej.
    + case_bool_decide as Hlim.
      * unfold kConnIdEncodingRetryLimit in Hlim.
        destruct (IH (S j)) as (n & t & Hn & Hrun & Hall & Hlast); [lia | lia |].
        exists n, t. split; [lia|]. split.
        { unfold encodeConnectionId. cbn [afterEncodings encodeOutputs encodeCalls].
          replace (Z.of_nat j + 1) with (Z.of_nat (S j)) by lia.
          unfold afterEncodings, encoding in Hrun.
          replace (encodeCalls algo0 + (j + 1))%nat with (encodeCalls algo0 + S j)%nat by lia.
          replace (S (encodeCalls algo0 + S j)) with (encodeCalls algo0 + (S j + 1))%nat by lia.
          exact Hrun. }
        split; [|exact Hlast].
        intros i Hi. destruct (decide (i = j)) as [->|Hne]; [exact Hrej|].
        apply Hall. lia.
      * unfold kConnIdEncodingRetryLimit in Hlim.
        assert (j = 15%nat) by lia. subst j.
        exists 16%nat, (Z.of_nat 15 + 1). split; [lia|]. split; [reflexivity|]. split; [intros i Hi; lia | left; reflexivity].
    + exists (j + 1)%nat, (Z.of_nat j). split; [lia|]. split.
      { replace (j + 1 - 1)%nat with j by lia. reflexivity. }
      split; [intros i Hi; lia|].
      right. replace (j + 1 - 1)%nat with j by lia. exact Hrej.
Qed.

Lemma encodeConnectionId_first (algo : ConnectionIdAlgo) (params : ServerConnectionIdParams) :
  encodeConnectionId algo params = (encoding algo params 0, afterEncodings algo (0 + 1)).
Proof.
  unfold encodeConnectionId, encoding, afterEncodings. f_equal; [f_equal; lia|].
  cbn [encodeOutputs encodeCalls]. f_equal. lia.
Qed.

Lemma createAndAddNewSelfConnId_spec (conn : QuicServerConnectionState)
    (algo : ConnectionIdAlgo) (params : ServerConnectionIdParams) (secret : Z) :
  connIdAlgo conn = Some algo ->
  serverConnIdParams conn = Some params ->
  statelessResetTokenSecret (transportSettings conn) = Some secret ->
  exists (n : nat) (result : option ConnectionIdData) (conn' : QuicServerConnectionState),
    createAndAddNewSelfConnId conn = Returned result conn' /\
    (1 <= n <= 16)%nat /\
    connIdAlgo conn' = Some (afterEncodings algo n) /\
    (forall i, (i < n - 1)%nat ->
       rejectedByRejector (connIdRejector conn) (encoding algo params i) = true) /\
    (n = 16%nat \/
     rejectedByRejector (connIdRejector conn) (encoding algo params (n - 1)) = false) /\
    match encoding algo params (n - 1) with
    | Unexpected _ =>
        result = None /\
        selfConnectionIds conn' = selfConnectionIds conn /\
        nextSelfConnectionIdSequence conn' = nextSelfConnectionIdSequence conn
    | Value cid =>
        let newConnIdData :=
          mkConnectionIdData cid (nextSelfConnectionIdSequence conn)
            (Some (generateToken secret (serverAddr conn) cid)) in
        result = Some newConnIdData /\
        selfConnectionIds conn' = selfConnectionIds conn ++ [newConnIdData] /\
        nextSelfConnectionIdSequence conn' = wrap64 (nextSelfConnectionIdSequence conn + 1)
    end.
Proof.
  intros Halgo Hparams Hsecret.
  destruct conn as []. destruct transportSettings0 as [].
  proj_nf_all. subst.
  destruct (encodeRetryLoop_spec connIdRejector0 params algo
              (Z.to_nat kConnIdEncodingRetryLimit) 0)
    as (n & t & Hn & Hloop & Hall & Hlast); [lia | unfold kConnIdEncodingRetryLimit; lia |].
  exists n.
  match goal with
  | |- context [createAndAddNewSelfConnId ?c] => exec_of (createAndAddNewSelfConnId c)
  end.
  exec.
  rewrite encodeConnectionId_first.
  exec.
  change (Z.of_nat 0) with 0 in Hloop. rewrite Hloop.
  exec.
  destruct (encoding algo params (n - 1)) as [cid|err] eqn:Hcid.
  - exec. exec_done. eexists _, _. split; [reflexivity|]. proj_nf_all.
    split; [lia|]. split; [reflexivity|]. split; [intros i Hi; apply Hall; lia|].
    split; [exact Hlast|]. repeat split.
  - exec. exec_done. eexists _, _. split; [reflexivity|]. proj_nf_all.
    split; [lia|]. split; [reflexivity|]. split; [intros i Hi; apply Hall; lia|].
    split; [exact Hlast|]. repeat split.
Qed.

Lemma onConnectionMigration_limit (conn : QuicServerConnectionState)
    (newPeerAddress : SocketAddress) (isIntentional : bool) :
  numMigrations (migrationState conn) >= kMaxNumMigrationsAllowed ->
  exists conn',
    onConnectionMigration newPeerAddress isIntentional conn =
      Thrown (mkException "Too many migrations" INVALID_MIGRATION) conn' /\
    peerAddress conn' = peerAddress conn /\
    migrationState conn' = migrationState conn.
Proof.
  intros Hlimit.
  destruct conn as []. destruct migrationState0 as [], qLogger0, statsCallback0.
  all: proj_nf_all.
  all: match goal with
       | |- context [onConnectionMigration ?a ?i ?c] => exec_of (onConnectionMigration a i c)
       end.
  all: exec; rewrite bool_decide_eq_true_2 by exact Hlimit; exec; exec_done.
  all: eexists; split; [reflexivity|]; split; reflexivity.
Qed.

Lemma checkUnprotectedFrames_permitted (packetSize : Z) (quicFrames : list QuicFrame)
    (conn : QuicServerConnectionState) :
  forallb permittedUnprotected quicFrames = true ->
  checkUnprotectedFrames packetSize quicFrames conn = Returned tt conn.
Proof.
  induction quicFrames as [|f rest IH]; intros Hall; [reflexivity|].
  cbn [forallb] in Hall. apply andb_prop in Hall as [Hf Hrest].
  cbn [checkUnprotectedFrames]. rewrite Hf. apply IH, Hrest.
Qed.

Lemma processParsedPacket_migration (conn : QuicServerConnectionState) (readData : ReadData)
    (regular : RegularQuicPacket) (packetSize : Z) :
  frames_of regular <> [] ->
  admissibleFrames regular = true ->
  is_Some (clientConnectionId conn) ->
  versionKnown conn regular = true ->
  peerAddress conn <> peer readData ->
  protectionTypeToEncryptionLevel (getProtectionType (header regular)) <> EL_AppData \/
  disableMigration (transportSettings conn) = true ->
  exists e conn',
    processParsedPacket readData (REGULAR_PACKET regular) packetSize conn = Thrown e conn' /\
    errorCode e = INVALID_MIGRATION /\
    peerAddress conn' = peerAddress conn /\
    migrationState conn' = migrationState conn.
Proof.
  intros Hframes Hadm [cid Hcid] Hver Hpeer Hmig.
  destruct regular as [hdr fs]. cbn [frames_of header] in *.
  destruct fs as [|f fs]; [contradiction|].
  unfold admissibleFrames, versionKnown in *. cbn [frames_of header] in *.
  destruct conn as []. destruct transportSettings0 as [], qLogger0, statsCallback0.
  all: proj_nf_all; subst.
  all: match goal with
       | |- context [processParsedPacket ?a ?b ?c ?d] => exec_of (processParsedPacket a b c d)
       end.
  all: exec.
  all: destruct (bool_decide (getProtectionType hdr = PT_ZeroRtt)
                 || bool_decide (getProtectionType hdr = PT_KeyPhaseZero)
                 || bool_decide (getProtectionType hdr = PT_KeyPhaseOne)) eqn:Hprot;
       cbn [orb] in Hadm; exec_step;
       [ | exec_call checkUnprotectedFrames_permitted; [exact Hadm|] ]; exec.
  all: rewrite (bool_decide_eq_true_2 (is_Some (Some cid))) by eauto; exec.
  all: destruct version0 as [v|]; [|destruct hdr; [|discriminate Hver]]; exec.
  all: try match goal with
           | |- context [bool_decide (?v = MVFST_EXPERIMENTAL)] =>
               destruct (bool_decide (v = MVFST_EXPERIMENTAL)); exec
           end.
  all: rewrite (bool_decide_eq_true_2 _ Hpeer); exec.
  all: destruct Hmig as [Hlevel | Hdisabled];
       [ rewrite (bool_decide_eq_true_2 _ Hlevel); exec
       | exec_destruct; exec; subst; exec ].
  all: exec_done; eexists _, _; (split; [reflexivity|]); repeat split.
Qed.

Lemma onConnectionMigration_counts (newPeerAddress : SocketAddress) (isIntentional : bool)
    (n : Z) :
  hoare (fun conn => numMigrations (migrationState conn) = n)
    (onConnectionMigration newPeerAddress isIntentional)
    (fun _ conn' => numMigrations (migrationState conn') = n + 1).
Proof.
  unfold onConnectionMigration.
  apply hoare_bind_gets. intros ms.
  destruct (bool_decide (numMigrations ms >= kMaxNumMigrationsAllowed)).
  - eapply hoare_bind; [apply hoare_any | intros ?].
    eapply hoare_bind; [apply hoare_any | intros ?].
    apply hoare_throw.
  - eapply hoare_bind with (R := fun _ conn => numMigrations (migrationState conn) = n + 1).
    + apply hoare_modify. intros s [Hs _].
      change (numMigrations (migrationState s) + 1 = n + 1). lia.
    + intros _. apply hoare_preserves. preserves_auto.
Qed.

Lemma forEach_migrate_counts (calls : list (SocketAddress * bool)) (n : Z) :
  hoare (fun conn => numMigrations (migrationState conn) = n)
    (forEach migrate calls)
    (fun _ conn' => numMigrations (migrationState conn') = n + Z.of_nat (length calls)).
Proof.
  revert n. induction calls as [|call calls IH]; intros n.
  - apply hoare_ret. intros s Hs. cbn [length]. lia.
  - cbn [forEach]. eapply hoare_bind.
    + apply onConnectionMigration_counts.
    + intros ?. eapply hoare_conseq; [apply (IH (n + 1)) | trivial |].
      intros ? s Hs. cbn beta in Hs. cbn [length]. lia.
Qed.

Lemma onServerReadDataFromOpen_migration (conn : QuicServerConnectionState)
    (readData : ReadData) (udpData rest : list Z) (codec : QuicReadCodec)
    (regular : RegularQuicPacket) :
  state conn = Open ->
  data (networkData readData) = Some udpData ->
  udpData <> [] ->
  kMaxNumCoalescedPackets <> O ->
  readCodec conn = Some codec ->
  parsePacket codec (ackStates conn) udpData = (REGULAR_PACKET regular, rest) ->
  frames_of regular <> [] ->
  admissibleFrames regular = true ->
  is_Some (clientConnectionId conn) ->
  versionKnown conn regular = true ->
  peerAddress conn <> peer readData ->
  protectionTypeToEncryptionLevel (getProtectionType (header regular)) <> EL_AppData \/
  disableMigration (transportSettings conn) = true ->
  exists e conn',
    onServerReadDataFromOpen readData conn = Thrown e conn' /\
    errorCode e = INVALID_MIGRATION /\
    peerAddress conn' = peerAddress conn /\
    migrationState conn' = migrationState conn.
Proof.
  intros Hopen Hdata Hne Hmax Hcodec Hparse Hframes Hadm Hcid Hver Hpeer Hmig.
  destruct (processParsedPacket_migration conn readData regular
              (Z.of_nat (length udpData) - Z.of_nat (length rest))
              Hframes Hadm Hcid Hver Hpeer Hmig) as (e & conn' & Hrun & He & Hp & Hm).
  exists e, conn'. split; [|split; [exact He | split; [exact Hp | exact Hm]]].
  unfold onServerReadDataFromOpen, bind, gets, CHECK, when_, ret.
  rewrite Hopen, Hdata.
  destruct udpData as [|b udpData]; [contradiction|].
  rewrite Hcodec.
  destruct kMaxNumCoalescedPackets as [|remaining]; [contradiction|].
  cbn [processPackets]. unfold bind, gets. rewrite Hcodec, Hparse, Hrun. reflexivity.
Qed.

Lemma firstPacketHandling_allocates (conn : QuicServerConnectionState) (readData : ReadData)
    (udpData : list Z) (parsed : ParsedLongHeaderInvariant) (algo : ConnectionIdAlgo)
    (params : ServerConnectionIdParams) (secret : Z) :
  parseLongHeaderInvariant udpData = Some parsed ->
  invariantVersion parsed <> VERSION_NEGOTIATION ->
  kDefaultConnectionIdSize <= Z.of_nat (length (dstConnId parsed)) ->
  connIdAlgo conn = Some algo ->
  serverConnectionId conn = None ->
  serverConnIdParams conn = Some params ->
  statelessResetTokenSecret (transportSettings conn) = Some secret ->
  exists n : nat,
    (1 <= n <= 16)%nat /\
    (forall i, (i < n - 1)%nat ->
       rejectedByRejector (connIdRejector conn) (encoding algo params i) = true) /\
    (n = 16%nat \/
     rejectedByRejector (connIdRejector conn) (encoding algo params (n - 1)) = false) /\
    match encoding algo params (n - 1) with
    | Unexpected _ =>
        firstPacketHandling readData udpData conn = Aborted "newServerConnIdData.has_value()"
    | Value cid =>
        exists conn',
          firstPacketHandling readData udpData conn = Returned true conn' /\
          serverConnectionId conn' = Some cid /\
          selfConnectionIds conn' =
            selfConnectionIds conn ++
              [mkConnectionIdData cid (nextSelfConnectionIdSequence conn)
                 (Some (generateToken secret (serverAddr conn) cid))] /\
          (readCodec conn' ≫= codec_serverConnectionId) = Some cid
    end.
Proof.
  intros Hparse Hversion Hsize Halgo Hnone Hparams Hsecret.
  destruct conn as []. destruct transportSettings0 as [], qLogger0, statsCallback0.
  all: proj_nf_all; subst.
  all: destruct (encodeRetryLoop_spec connIdRejector0 params algo
              (Z.to_nat kConnIdEncodingRetryLimit) 0)
    as (n & t & Hn & Hloop & Hall & Hlast); [lia | unfold kConnIdEncodingRetryLimit; lia |].
  all: exists n; split; [lia|]; split; [intros i Hi; apply Hall; lia|]; split; [exact Hlast|].
  all: change (Z.of_nat 0) with 0 in Hloop.
  all: destruct (encoding algo params (n - 1)) as [cid|err] eqn:Hcid.
  all: match goal with
       | |- context [firstPacketHandling ?a ?b ?c] => exec_of (firstPacketHandling a b c)
       end.
  all: exec; rewrite Hparse; exec.
  all: rewrite (bool_decide_eq_false_2 _ Hversion); exec.
  all: rewrite bool_decide_eq_false_2 by lia; exec.
  all: rewrite (bool_decide_eq_true_2 (is_Some (Some algo))) by eauto; exec.
  all: rewrite (bool_decide_eq_false_2 (is_Some None)) by (intros [? ?]; discriminate); exec.
  all: rewrite (bool_decide_eq_true_2 (is_Some (Some params))) by eauto; exec.
  all: rewrite encodeConnectionId_first; exec.
  all: rewrite Hloop; exec.
  all: exec_done.
  all: try reflexivity.
  all: eexists; split; [reflexivity|]; proj_nf_all; repeat split.
Qed.

Lemma updateHandshakeState_duplicate (conn : QuicServerConnectionState) (cipher installed : Cipher) :
  oneRttWriteCipher_ (serverHandshakeLayer conn) = Some cipher ->
  oneRttWriteCipher conn = Some installed ->
  exists conn',
    updateHandshakeState conn =
      Thrown (mkException "Duplicate 1-rtt write cipher" CRYPTO_ERROR) conn' /\
    oneRttWriteCipher conn' = Some installed.
Proof.
  intros Hyield Hinstalled.
  destruct conn as []. destruct serverHandshakeLayer0 as [], qLogger0, readCodec0.
  all: proj_nf_all; subst.
  all: match goal with
       | |- context [updateHandshakeState ?c] => exec_of (updateHandshakeState c)
       end.
  all: repeat (exec; try exec_destruct).
  all: exec_done; eexists; split; reflexivity.
Qed.

Lemma takeFromHandshake_hoare {A} (slot : ServerHandshake -> option A)
    (clear : ServerHandshake -> ServerHandshake) (P : QuicServerConnectionState -> Prop)
    (Q : option A -> QuicServerConnectionState -> Prop) :
  (forall s, P s ->
     Q (slot (serverHandshakeLayer s))
       (set_serverHandshakeLayer (clear (serverHandshakeLayer s)) s)) ->
  hoare P (takeFromHandshake slot clear) Q.
Proof. intros H s Hs. exact (H s Hs). Qed.

Lemma hoare_fact {S A} (phi : Prop) (m : M S A) (Q : A -> S -> Prop) :
  (phi -> hoare (fun _ => True) m Q) -> hoare (fun _ => phi) m Q.
Proof. intros H s Hs. exact (H Hs s Logic.I). Qed.

Ltac hoare_skip := eapply hoare_bind; [apply hoare_any | intros ?].

Lemma updateHandshakeState_installs (cipher : Cipher) :
  hoare (fun conn => oneRttWriteCipher_ (serverHandshakeLayer conn) = Some cipher)
    updateHandshakeState
    (fun _ conn' => oneRttWriteCipher conn' = Some cipher).
Proof.
  unfold updateHandshakeState.
  eapply hoare_bind;
    [ apply takeFromHandshake_hoare with
        (Q := fun _ conn => oneRttWriteCipher_ (serverHandshakeLayer conn) = Some cipher);
      intros s Hs; exact Hs
    | intros ? ].
  eapply hoare_bind;
    [ apply takeFromHandshake_hoare with
        (Q := fun _ conn => oneRttWriteCipher_ (serverHandshakeLayer conn) = Some cipher);
      intros s Hs; exact Hs
    | intros ? ].
  eapply hoare_bind;
    [ apply takeFromHandshake_hoare with (Q := fun w _ => w = Some cipher);
      intros s Hs; exact Hs
    | intros w; cbv beta ].
  apply hoare_fact. intros ->.
  do 7 hoare_skip.
  eapply hoare_bind with (R := fun _ conn => oneRttWriteCipher conn = Some cipher).
  - hoare_skip. apply hoare_bind_gets. intros installed.
    destruct installed; [apply hoare_throw|].
    eapply hoare_bind with (R := fun _ conn => oneRttWriteCipher conn = Some cipher).
    + apply hoare_modify. intros s _. reflexivity.
    + intros ?. apply hoare_preserves. preserves_auto.
  - intros ?. apply hoare_preserves. preserves_auto.
Qed.

(** C1.  [updateHandshakeState] installs the 1-RTT write cipher at most once.
    When the handshake driver holds a 1-RTT write cipher and
    [conn.oneRttWriteCipher] is already set, the call throws
    [QuicTransportException("Duplicate 1-rtt write cipher", CRYPTO_ERROR)] and
    the installed cipher stays.  When a call returns for which the driver
    held a 1-RTT write cipher, that cipher is installed; and whatever the
    driver holds afterwards, a next call for which it holds a 1-RTT write
    cipher again throws the same CRYPTO_ERROR. *)
Theorem updateHandshakeState_installs_write_cipher_once :
  (forall (conn : QuicServerConnectionState) (cipher installed : Cipher),
     oneRttWriteCipher_ (serverHandshakeLayer conn) = Some cipher ->
     oneRttWriteCipher conn = Some installed ->
     exists conn',
       updateHandshakeState conn =
         Thrown (mkException "Duplicate 1-rtt write cipher" CRYPTO_ERROR) conn' /\
       oneRttWriteCipher conn' = Some installed) /\
  (forall (conn conn1 : QuicServerConnectionState) (cipher : Cipher),
     oneRttWriteCipher_ (serverHandshakeLayer conn) = Some cipher ->
     updateHandshakeState conn = Returned tt conn1 ->
     oneRttWriteCipher conn1 = Some cipher /\
     forall (driver : ServerHandshake) (next : Cipher),
       oneRttWriteCipher_ driver = Some next ->
       exists conn2,
         updateHandshakeState (set_serverHandshakeLayer driver conn1) =
           Thrown (mkException "Duplicate 1-rtt write cipher" CRYPTO_ERROR) conn2 /\
         oneRttWriteCipher conn2 = Some cipher).
Proof.
  split.
  - exact updateHandshakeState_duplicate.
  - intros conn conn1 cipher Hyield Hrun.
    pose proof (updateHandshakeState_installs cipher conn Hyield) as Hinstalled.
    rewrite Hrun in Hinstalled. split; [exact Hinstalled|].
    intros driver next Hnext.
    apply (updateHandshakeState_duplicate (set_serverHandshakeLayer driver conn1) next cipher).
    + exact Hnext.
    + exact Hinstalled.
Qed.

(** C2.  A packet from another address than [conn.peerAddress], processed in
    the Open state.  For the first packet of a datagram and for the body of
    the packet loop on any packet: when the packet is a regular packet with
    frames that passes the checks made before the address check (permitted
    frames if it is unprotected, a client connection ID, a known version or
    a long header), and its encryption level is not AppData or migration is
    disabled, the call throws INVALID_MIGRATION, and the peer address and the
    migration state are as before.  [onConnectionMigration] throws
    INVALID_MIGRATION, with the peer address and the migration state as
    before, when [numMigrations] has reached [kMaxNumMigrationsAllowed]; so
    after [kMaxNumMigrationsAllowed] migrations that returned, counted from
    zero, the next one throws. *)
Theorem migration_checks_raise_INVALID_MIGRATION :
  (forall (conn : QuicServerConnectionState) (readData : ReadData) (udpData rest : list Z)
      (codec : QuicReadCodec) (regular : RegularQuicPacket),
     state conn = Open ->
     data (networkData readData) = Some udpData ->
     udpData <> [] ->
     kMaxNumCoalescedPackets <> O ->
     readCodec conn = Some codec ->
     parsePacket codec (ackStates conn) udpData = (REGULAR_PACKET regular, rest) ->
     frames_of regular <> [] ->
     admissibleFrames regular = true ->
     is_Some (clientConnectionId conn) ->
     versionKnown conn regular = true ->
     peerAddress conn <> peer readData ->
     protectionTypeToEncryptionLevel (getProtectionType (header regular)) <> EL_AppData \/
     disableMigration (transportSettings conn) = true ->
     exists e conn',
       onServerReadDataFromOpen readData conn = Thrown e conn' /\
       errorCode e = INVALID_MIGRATION /\
       peerAddress conn' = peerAddress conn /\
       migrationState conn' = migrationState conn) /\
  (forall (conn : QuicServerConnectionState) (readData : ReadData)
      (regular : RegularQuicPacket) (packetSize : Z),
     frames_of regular <> [] ->
     admissibleFrames regular = true ->
     is_Some (clientConnectionId conn) ->
     versionKnown conn regular = true ->
     peerAddress conn <> peer readData ->
     protectionTypeToEncryptionLevel (getProtectionType (header regular)) <> EL_AppData \/
     disableMigration (transportSettings conn) = true ->
     exists e conn',
       processParsedPacket readData (REGULAR_PACKET regular) packetSize conn =
         Thrown e conn' /\
       errorCode e = INVALID_MIGRATION /\
       peerAddress conn' = peerAddress conn /\
       migrationState conn' = migrationState conn) /\
  (forall (conn : QuicServerConnectionState) (newPeerAddress : SocketAddress)
      (isIntentional : bool),
     numMigrations (migrationState conn) >= kMaxNumMigrationsAllowed ->
     exists conn',
       onConnectionMigration newPeerAddress isIntentional conn =
         Thrown (mkException "Too many migrations" INVALID_MIGRATION) conn' /\
       peerAddress conn' = peerAddress conn /\
       migrationState conn' = migrationState conn) /\
  (forall (conn conn1 : QuicServerConnectionState) (calls : list (SocketAddress * bool))
      (newPeerAddress : SocketAddress) (isIntentional : bool),
     numMigrations (migrationState conn) = 0 ->
     Z.of_nat (length calls) = kMaxNumMigrationsAllowed ->
     forEach migrate calls conn = Returned tt conn1 ->
     exists conn',
       onConnectionMigration newPeerAddress isIntentional conn1 =
         Thrown (mkException "Too many migrations" INVALID_MIGRATION) conn' /\
       peerAddress conn' = peerAddress conn1).
Proof.
  split; [exact onServerReadDataFromOpen_migration|].
  split; [exact processParsedPacket_migration|].
  split; [exact onConnectionMigration_limit|].
  intros conn conn1 calls newPeerAddress isIntentional Hzero Hcalls Hrun.
  pose proof (forEach_migrate_counts calls 0 conn Hzero) as Hcount.
  rewrite Hrun in Hcount.
  destruct (onConnectionMigration_limit conn1 newPeerAddress isIntentional)
    as (conn' & Hthrow & Hpeer & _); [lia|].
  exists conn'. split; [exact Hthrow | exact Hpeer].
Qed.

(** C8, amended.  [createAndAddNewSelfConnId], once the algorithm, its
    parameters and the secret of the reset token are set, makes [n]
    encodings with [1 <= n <= 16]: every encoding before the last gave an ID
    that the installed rejector rejected, and the last one is the 16th or was
    not rejected.  If the last encoding is an error the call returns none and
    installs nothing.  Otherwise the last ID is installed and returned,
    rejected or not: it is appended to [selfConnectionIds] with the next
    sequence number and its reset token.  In first packet handling that ID
    becomes [conn.serverConnectionId] and the server connection ID of the new
    codec; when the last encoding is an error the CHECK on the result fails. *)
Theorem createAndAddNewSelfConnId_retries :
  (forall (conn : QuicServerConnectionState) (algo : ConnectionIdAlgo)
      (params : ServerConnectionIdParams) (secret : Z),
     connIdAlgo conn = Some algo ->
     serverConnIdParams conn = Some params ->
     statelessResetTokenSecret (transportSettings conn) = Some secret ->
     exists (n : nat) (result : option ConnectionIdData) (conn' : QuicServerConnectionState),
       createAndAddNewSelfConnId conn = Returned result conn' /\
       (1 <= n <= 16)%nat /\
       connIdAlgo conn' = Some (afterEncodings algo n) /\
       (forall i, (i < n - 1)%nat ->
          rejectedByRejector (connIdRejector conn) (encoding algo params i) = true) /\
       (n = 16%nat \/
        rejectedByRejector (connIdRejector conn) (encoding algo params (n - 1)) = false) /\
       match encoding algo params (n - 1) with
       | Unexpected _ =>
           result = None /\
           selfConnectionIds conn' = selfConnectionIds conn /\
           nextSelfConnectionIdSequence conn' = nextSelfConnectionIdSequence conn
       | Value cid =>
           let newConnIdData :=
             mkConnectionIdData cid (nextSelfConnectionIdSequence conn)
               (Some (generateToken secret (serverAddr conn) cid)) in
           result = Some newConnIdData /\
           selfConnectionIds conn' = selfConnectionIds conn ++ [newConnIdData] /\
           nextSelfConnectionIdSequence conn' =
             wrap64 (nextSelfConnectionIdSequence conn + 1)
       end) /\
  (forall (conn : QuicServerConnectionState) (readData : ReadData) (udpData : list Z)
      (parsed : ParsedLongHeaderInvariant) (algo : ConnectionIdAlgo)
      (params : ServerConnectionIdParams) (secret : Z),
     parseLongHeaderInvariant udpData = Some parsed ->
     invariantVersion parsed <> VERSION_NEGOTIATION ->
     kDefaultConnectionIdSize <= Z.of_nat (length (dstConnId parsed)) ->
     connIdAlgo conn = Some algo ->
     serverConnectionId conn = None ->
     serverConnIdParams conn = Some params ->
     statelessResetTokenSecret (transportSettings conn) = Some secret ->
     exists n : nat,
       (1 <= n <= 16)%nat /\
       (forall i, (i < n - 1)%nat ->
          rejectedByRejector (connIdRejector conn) (encoding algo params i) = true) /\
       (n = 16%nat \/
        rejectedByRejector (connIdRejector conn) (encoding algo params (n - 1)) = false) /\
       match encoding algo params (n - 1) with
       | Unexpected _ =>
           firstPacketHandling readData udpData conn =
             Aborted "newServerConnIdData.has_value()"
       | Value cid =>
           exists conn',
             firstPacketHandling readData udpData conn = Returned true conn' /\
             serverConnectionId conn' = Some cid /\
             selfConnectionIds conn' =
               selfConnectionIds conn ++
                 [mkConnectionIdData cid (nextSelfConnectionIdSequence conn)
                    (Some (generateToken secret (serverAddr conn) cid))] /\
             (readCodec conn' ≫= codec_serverConnectionId) = Some cid
       end).
Proof.
  split.
  - exact createAndAddNewSelfConnId_spec.
  - exact firstPacketHandling_allocates.
Qed.

End Server.

(** On the example connection with a 1-RTT write cipher installed and the
    driver holding another one, [updateHandshakeState] throws CRYPTO_ERROR. *)
Lemma updateHandshakeState_installs_write_cipher_once_witness :
  thrownCode
    (updateHandshakeState (K := referenceConstants) (C := ServerExamples.exampleCollaborators)
       ServerExamples.connectionWithWriteCipher) = Some CRYPTO_ERROR.
Proof.
  destruct (proj1 (updateHandshakeState_installs_write_cipher_once
                     (K := referenceConstants) (C := ServerExamples.exampleCollaborators))
              ServerExamples.connectionWithWriteCipher (mkCipher 11) (mkCipher 10)
              eq_refl eq_refl) as (conn' & Hrun & _).
  rewrite Hrun. reflexivity.
Defined.

(** A datagram with an Initial packet from another address, on the example
    connection in the handshake: INVALID_MIGRATION. *)
Lemma migration_checks_raise_INVALID_MIGRATION_witness :
  thrownCode
    (onServerReadDataFromOpen (K := referenceConstants)
       (C := ServerExamples.exampleCollaborators)
       ServerExamples.datagramFromOtherAddress ServerExamples.handshakingConnection) =
    Some INVALID_MIGRATION.
Proof.
  destruct (proj1 (migration_checks_raise_INVALID_MIGRATION
                     (K := referenceConstants) (C := ServerExamples.exampleCollaborators))
              ServerExamples.handshakingConnection ServerExamples.datagramFromOtherAddress
              [192; 0; 0; 0; 1] [] newReadCodec ServerExamples.examplePacket)
    as (e & conn' & Hrun & Hcode & _).
  - reflexivity.
  - reflexivity.
  - discriminate.
  - discriminate.
  - reflexivity.
  - reflexivity.
  - discriminate.
  - reflexivity.
  - eexists. reflexivity.
  - reflexivity.
  - discriminate.
  - left. discriminate.
  - rewrite Hrun. cbn [thrownCode]. rewrite Hcode. reflexivity.
Defined.

(** C8 as stated fails.  On the example connection whose rejector rejects
    every ID, the allocation makes 16 encodings and then installs and returns
    the 16th ID, which the rejector rejected: a self connection ID is
    installed and the allocation reports no failure. *)
Lemma createAndAddNewSelfConnId_installs_rejected_id :
  exists (newConnIdData : ConnectionIdData) (conn' : QuicServerConnectionState),
    createAndAddNewSelfConnId (C := ServerExamples.exampleCollaborators)
      ServerExamples.rejectingConnection = Returned (Some newConnIdData) conn' /\
    connId newConnIdData = [15] /\
    rejectedByRejector (connIdRejector ServerExamples.rejectingConnection)
      (Value (connId newConnIdData)) = true /\
    selfConnectionIds conn' = [newConnIdData] /\
    (connIdAlgo conn' ≫= fun algo => Some (encodeCalls algo)) = Some 16%nat.
Proof.
  eexists _, _. split; [vm_compute; reflexivity|]. repeat split.
Qed.

(** The allocation on that connection, by the theorem: some ID is installed. *)
Lemma createAndAddNewSelfConnId_retries_witness :
  exists (result : option ConnectionIdData) (conn' : QuicServerConnectionState),
    createAndAddNewSelfConnId (C := ServerExamples.exampleCollaborators)
      ServerExamples.rejectingConnection = Returned result conn'.
Proof.
  destruct (proj1 (createAndAddNewSelfConnId_retries
                     (C := ServerExamples.exampleCollaborators))
              ServerExamples.rejectingConnection ServerExamples.countingAlgo
              (mkConnIdParams 1 0 0 0) 7 eq_refl eq_refl eq_refl)
    as (n & result & conn' & Hrun & _).
  exists result, conn'. exact Hrun.
Defined.

(** Two invocations on the example connection, each with a 1-RTT write cipher
    ready: the first installs cipher 11, the second throws CRYPTO_ERROR and
    cipher 11 stays installed. *)
Example twoInvocations_second_throws :
  thrownCode (fst ServerExamples.twoInvocations) = Some CRYPTO_ERROR /\
  snd ServerExamples.twoInvocations = Some (mkCipher 11) /\
  (finalState (fst ServerExamples.twoInvocations) ≫= oneRttWriteCipher) = Some (mkCipher 11).
Proof. vm_compute. repeat split. Qed.

(** With [kMaxNumMigrationsAllowed = 6]: six migrations return, the seventh
    throws INVALID_MIGRATION. *)
Example seventh_migration_throws :
  forEach (migrate (K := referenceConstants) (C := ServerExamples.exampleCollaborators))
    ServerExamples.sixAddresses ServerExamples.handshakingConnection =
    Returned tt ServerExamples.afterSixMigrations /\
  numMigrations (migrationState ServerExamples.afterSixMigrations) = 6 /\
  thrownCode
    (onConnectionMigration (K := referenceConstants)
       (C := ServerExamples.exampleCollaborators) ServerExamples.otherAddress false
       ServerExamples.afterSixMigrations) = Some INVALID_MIGRATION.
Proof. vm_compute. repeat split. Qed.

(** *** Migration *)

Section Migration.
Context `{K : QuicConstants}.

Lemma maybeNATRebinding_sym (a b : SocketAddress) :
  maybeNATRebinding a b = maybeNATRebinding b a.
Proof.
  unfold maybeNATRebinding. cbv zeta.
  destruct (getIPAddress a) as [x|x], (getIPAddress b) as [y|y]; cbn.
  all: repeat case_bool_decide; try reflexivity; congruence.
Qed.

(** The congestion and RTT state [moveCurrentCongestionAndRttState] saves. *)
Definition savedState `{C : ServerCollaborators} (conn : QuicServerConnectionState)
    : CongestionAndRttState := {|
  saved_peerAddress := peerAddress conn;
  saved_recordTime := clockNow;
  saved_congestionController := congestionController conn;
  saved_srtt := srtt (lossState conn);
  saved_lrtt := lrtt (lossState conn);
  saved_rttvar := rttvar (lossState conn);
  saved_mrtt := mrtt (lossState conn)
|}.

Lemma onConnectionMigration_saves `{C : ServerCollaborators}
    (conn : QuicServerConnectionState) (newPeerAddress : SocketAddress)
    (isIntentional : bool) (makeCongestionController : _) :
  numMigrations (migrationState conn) < kMaxNumMigrationsAllowed ->
  pathChallenge (pendingEvents conn) = None ->
  outstandingPathValidation conn = None ->
  maybeNATRebinding newPeerAddress (peerAddress conn) = false ->
  congestionControllerFactory conn = Some makeCongestionController ->
  exists conn',
    onConnectionMigration newPeerAddress isIntentional conn = Returned tt conn' /\
    lastCongestionAndRtt (migrationState conn') = Some (savedState conn) /\
    peerAddress conn' = newPeerAddress /\
    numMigrations (migrationState conn') = numMigrations (migrationState conn) + 1 /\
    transportSettings conn' = transportSettings conn /\
    congestionControllerFactory conn' = congestionControllerFactory conn.
Proof.
  intros Hlimit Hchallenge Houtstanding Hnat Hfactory.
  unfold savedState.
  destruct conn as []. destruct migrationState0 as [], pendingEvents0 as [], lossState0 as [].
  proj_nf_all. subst.
  match goal with
  | |- context [onConnectionMigration ?a ?i ?c] => exec_of (onConnectionMigration a i c)
  end.
  exec. rewrite bool_decide_eq_false_2 by lia. exec.
  case_bool_decide; exec.
  all: rewrite Hnat; exec.
  all: rewrite ?(bool_decide_eq_false_2 (is_Some None)) by (intros [? ?]; discriminate).
  all: cbn [orb]; exec.
  all: destruct lastCongestionAndRtt0 as [[]|]; exec.
  all: repeat (case_bool_decide; cbn [andb]; exec).
  all: destruct qLogger0; exec.
  all: exec_done.
  all: eexists; split; [reflexivity|]; proj_nf_all; repeat split; reflexivity.
Qed.

Lemma onConnectionMigration_recovers `{C : ServerCollaborators}
    (conn : QuicServerConnectionState) (newPeerAddress : SocketAddress)
    (isIntentional : bool) (lastState : CongestionAndRttState) :
  numMigrations (migrationState conn) < kMaxNumMigrationsAllowed ->
  lastCongestionAndRtt (migrationState conn) = Some lastState ->
  saved_peerAddress lastState = newPeerAddress ->
  clockNow - saved_recordTime lastState <= kTimeToRetainLastCongestionAndRttState ->
  maybeNATRebinding newPeerAddress (peerAddress conn) = false ->
  exists conn',
    onConnectionMigration newPeerAddress isIntentional conn = Returned tt conn' /\
    congestionController conn' = saved_congestionController lastState /\
    srtt (lossState conn') = saved_srtt lastState /\
    lrtt (lossState conn') = saved_lrtt lastState /\
    rttvar (lossState conn') = saved_rttvar lastState /\
    mrtt (lossState conn') = saved_mrtt lastState /\
    peerAddress conn' = newPeerAddress /\
    numMigrations (migrationState conn') = numMigrations (migrationState conn) + 1.
Proof.
  intros Hlimit Hlast Hpeer Hfresh Hnat.
  destruct conn as []. destruct migrationState0 as [], pendingEvents0 as [], lossState0 as [].
  destruct lastState as [].
  proj_nf_all. subst.
  match goal with
  | |- context [onConnectionMigration ?a ?i ?c] => exec_of (onConnectionMigration a i c)
  end.
  exec. rewrite bool_decide_eq_false_2 by lia. exec.
  case_bool_decide; exec.
  all: rewrite Hnat; exec.
  all: destruct pathChallenge0, outstandingPathValidation0; exec.
  all: rewrite ?(bool_decide_eq_true_2 (is_Some (Some _))) by eauto.
  all: rewrite ?(bool_decide_eq_false_2 (is_Some None)) by (intros [? ?]; discriminate).
  all: cbn [orb]; exec.
  all: rewrite (bool_decide_eq_true_2 (_ = _)) by reflexivity.
  all: rewrite (bool_decide_eq_true_2 (_ <= _)) by lia.
  all: cbn [andb]; exec.
  all: destruct qLogger0; exec.
  all: exec_done.
  all: eexists; split; [reflexivity|]; proj_nf_all; repeat split; reflexivity.
Qed.

Lemma onConnectionMigration_stale `{C : ServerCollaborators}
    (conn : QuicServerConnectionState) (newPeerAddress : SocketAddress)
    (isIntentional : bool) (lastState : CongestionAndRttState)
    (makeCongestionController : _) :
  numMigrations (migrationState conn) < kMaxNumMigrationsAllowed ->
  lastCongestionAndRtt (migrationState conn) = Some lastState ->
  clockNow - saved_recordTime lastState > kTimeToRetainLastCongestionAndRttState ->
  maybeNATRebinding newPeerAddress (peerAddress conn) = false ->
  congestionControllerFactory conn = Some makeCongestionController ->
  exists conn',
    onConnectionMigration newPeerAddress isIntentional conn = Returned tt conn' /\
    congestionController conn' =
      Some (makeCongestionController
              (defaultCongestionController (transportSettings conn))) /\
    srtt (lossState conn') = 0 /\
    lrtt (lossState conn') = 0 /\
    rttvar (lossState conn') = 0 /\
    mrtt (lossState conn') = kDefaultMinRtt /\
    peerAddress conn' = newPeerAddress.
Proof.
  intros Hlimit Hlast Hstale Hnat Hfactory.
  destruct conn as []. destruct migrationState0 as [], pendingEvents0 as [], lossState0 as [].
  destruct lastState as [].
  proj_nf_all. subst.
  match goal with
  | |- context [onConnectionMigration ?a ?i ?c] => exec_of (onConnectionMigration a i c)
  end.
  exec. rewrite bool_decide_eq_false_2 by lia. exec.
  case_bool_decide; exec.
  all: rewrite Hnat; exec.
  all: destruct pathChallenge0, outstandingPathValidation0; exec.
  all: rewrite ?(bool_decide_eq_true_2 (is_Some (Some _))) by eauto.
  all: rewrite ?(bool_decide_eq_false_2 (is_Some None)) by (intros [? ?]; discriminate).
  all: cbn [orb]; exec.
  all: rewrite (bool_decide_eq_false_2 (_ <= _)) by lia.
  all: rewrite andb_false_r; exec.
  all: destruct qLogger0; exec.
  all: exec_done.
  all: eexists; split; [reflexivity|]; proj_nf_all; repeat split; reflexivity.
Qed.

(** X18.  Migrating away and back recovers the congestion and RTT state.
    From a connection with no path validation under way and a congestion
    controller factory, a migration to an address that is no NAT rebinding
    (handled at the time of the collaborators [C1]) followed by the migration
    back to the first address (at the time of [C2]) both return; when the
    second comes within [kTimeToRetainLastCongestionAndRttState] of the
    first, the connection has the congestion controller and the four RTT
    values it started with, and when it comes later, it has a fresh
    controller of the default type and the RTT values of a new connection. *)
Theorem migrating_back_recovers_congestion_state (C1 C2 : ServerCollaborators)
    (conn : QuicServerConnectionState) (newPeerAddress : SocketAddress)
    (intentional1 intentional2 : bool)
    (makeCongestionController : CongestionControlType -> CongestionController) :
  numMigrations (migrationState conn) + 1 < kMaxNumMigrationsAllowed ->
  pathChallenge (pendingEvents conn) = None ->
  outstandingPathValidation conn = None ->
  maybeNATRebinding newPeerAddress (peerAddress conn) = false ->
  congestionControllerFactory conn = Some makeCongestionController ->
  exists conn1 conn2,
    onConnectionMigration (C := C1) newPeerAddress intentional1 conn = Returned tt conn1 /\
    peerAddress conn1 = newPeerAddress /\
    onConnectionMigration (C := C2) (peerAddress conn) intentional2 conn1 =
      Returned tt conn2 /\
    peerAddress conn2 = peerAddress conn /\
    (clockNow (ServerCollaborators := C2) - clockNow (ServerCollaborators := C1) <=
       kTimeToRetainLastCongestionAndRttState ->
     congestionController conn2 = congestionController conn /\
     srtt (lossState conn2) = srtt (lossState conn) /\
     lrtt (lossState conn2) = lrtt (lossState conn) /\
     rttvar (lossState conn2) = rttvar (lossState conn) /\
     mrtt (lossState conn2) = mrtt (lossState conn)) /\
    (clockNow (ServerCollaborators := C2) - clockNow (ServerCollaborators := C1) >
       kTimeToRetainLastCongestionAndRttState ->
     congestionController conn2 =
       Some (makeCongestionController
               (defaultCongestionController (transportSettings conn))) /\
     srtt (lossState conn2) = 0 /\
     lrtt (lossState conn2) = 0 /\
     rttvar (lossState conn2) = 0 /\
     mrtt (lossState conn2) = kDefaultMinRtt).
Proof.
  intros Hlimit Hchallenge Houtstanding Hnat Hfactory.
  destruct (onConnectionMigration_saves (C := C1) conn newPeerAddress intentional1
              makeCongestionController ltac:(lia) Hchallenge Houtstanding Hnat Hfactory)
    as (conn1 & Hrun1 & Hlast1 & Hpeer1 & Hnum1 & Hsettings1 & Hfactory1).
  assert (Hnat1 : maybeNATRebinding (peerAddress conn) (peerAddress conn1) = false).
  { rewrite Hpeer1, maybeNATRebinding_sym. exact Hnat. }
  destruct (decide (clockNow (ServerCollaborators := C2) -
                    clockNow (ServerCollaborators := C1) <=
                    kTimeToRetainLastCongestionAndRttState)) as [Hfresh|Hstale].
  - destruct (onConnectionMigration_recovers (C := C2) conn1 (peerAddress conn) intentional2
                (savedState (C := C1) conn) ltac:(lia) Hlast1 eq_refl Hfresh Hnat1)
      as (conn2 & Hrun2 & Hcc & Hsrtt & Hlrtt & Hrttvar & Hmrtt & Hpeer2 & _).
    exists conn1, conn2. repeat split; try assumption; lia.
  - destruct (onConnectionMigration_stale (C := C2) conn1 (peerAddress conn) intentional2
                (savedState (C := C1) conn) makeCongestionController ltac:(lia) Hlast1
                ltac:(cbn; lia) Hnat1 ltac:(congruence))
      as (conn2 & Hrun2 & Hcc & Hsrtt & Hlrtt & Hrttvar & Hmrtt & Hpeer2).
    exists conn1, conn2. rewrite Hsettings1 in Hcc.
    repeat split; try assumption; lia.
Qed.

End Migration.

Section Rebinding.
Context `{K : QuicConstants} `{C : ServerCollaborators}.

(** X19.  A NAT rebinding keeps the congestion state.  When the new peer
    address has the IP address of the current one (the port changed), or both
    are IPv4 addresses of the same /24 subnet, [onConnectionMigration] below
    the migration limit returns with the new peer address, the congestion
    controller, the loss state and the saved congestion state as they were,
    and one more migration counted. *)
Theorem nat_rebinding_keeps_congestion_state (conn : QuicServerConnectionState)
    (newPeerAddress : SocketAddress) (isIntentional : bool) :
  numMigrations (migrationState conn) < kMaxNumMigrationsAllowed ->
  getIPAddress newPeerAddress = getIPAddress (peerAddress conn) \/
  (exists new old,
     getIPAddress newPeerAddress = IPv4 new /\
     getIPAddress (peerAddress conn) = IPv4 old /\
     Z.shiftr new 8 = Z.shiftr old 8) ->
  exists conn',
    onConnectionMigration newPeerAddress isIntentional conn = Returned tt conn' /\
    peerAddress conn' = newPeerAddress /\
    congestionController conn' = congestionController conn /\
    lossState conn' = lossState conn /\
    lastCongestionAndRtt (migrationState conn') =
      lastCongestionAndRtt (migrationState conn) /\
    numMigrations (migrationState conn') = numMigrations (migrationState conn) + 1.
Proof.
  intros Hlimit Hsame.
  assert (Hnat : maybeNATRebinding newPeerAddress (peerAddress conn) = true).
  { unfold maybeNATRebinding. cbv zeta.
    destruct Hsame as [->|(new & old & -> & -> & Hbits)].
    - rewrite bool_decide_eq_true_2 by reflexivity. reflexivity.
    - case_bool_decide; [reflexivity|]. cbn.
      apply bool_decide_eq_true_2. exact Hbits. }
  clear Hsame.
  destruct conn as []. destruct migrationState0 as [], pendingEvents0 as [].
  proj_nf_all.
  match goal with
  | |- context [onConnectionMigration ?a ?i ?c] => exec_of (onConnectionMigration a i c)
  end.
  exec. rewrite bool_decide_eq_false_2 by lia. exec.
  case_bool_decide; exec.
  all: rewrite Hnat; exec.
  all: destruct pathChallenge0, outstandingPathValidation0; exec.
  all: rewrite ?(bool_decide_eq_true_2 (is_Some (Some _))) by eauto.
  all: rewrite ?(bool_decide_eq_false_2 (is_Some None)) by (intros [? ?]; discriminate).
  all: cbn [orb negb]; exec.
  all: destruct qLogger0; exec.
  all: exec_done.
  all: eexists; split; [reflexivity|]; proj_nf_all; repeat split; reflexivity.
Qed.

(** Comparisons of two given protection types are evaluated. *)
Ltac decide_protection :=
  repeat match goal with
         | |- context [@bool_decide ?P ?d] =>
             lazymatch P with
             | @eq ProtectionType _ _ => idtac
             | not (@eq ProtectionType _ _) => idtac
             end;
             let b := eval vm_compute in (@bool_decide P d) in
             change (@bool_decide P d) with b
         end.

(** The number of packets waiting for a cipher. *)
Definition bufferSize (queue : option (list ReadData)) : Z :=
  match queue with Some l => Z.of_nat (length l) | None => 0 end.

Definition bufferedPackets (conn : QuicServerConnectionState) : Z :=
  bufferSize (pendingZeroRttData conn) + bufferSize (pendingOneRttData conn).

(** X20.  [handleCipherUnavailable] always returns and changes the qlog
    and the two queues of pending packets at most.  The packet is appended
    to the 0-RTT queue (protection type ZeroRtt) or to the 1-RTT queue
    (KeyPhaseZero) exactly when it has data, fewer than [maxPacketsToBuffer]
    packets are buffered and that queue exists; so the number of buffered
    packets never decreases and never rises above the larger of its old
    value and [maxPacketsToBuffer]. *)
Theorem handleCipherUnavailable_bounds_buffers (conn : QuicServerConnectionState)
    (packet : option (list Z)) (protectionType : ProtectionType) (packetSize : Z)
    (readData : ReadData) :
  let pendingReadData :=
    mkReadData (peer readData)
      (mkNetworkData packet (receiveTimePoint (networkData readData))) in
  let room :=
    bool_decide (bufferedPackets conn < maxPacketsToBuffer (transportSettings conn)) in
  let hasData :=
    match packet with Some (_ :: _) => true | _ => false end in
  exists conn',
    handleCipherUnavailable packet protectionType packetSize readData conn =
      Returned tt conn' /\
    conn' = set_qLogger (qLogger conn')
              (set_pendingZeroRttData (pendingZeroRttData conn')
                 (set_pendingOneRttData (pendingOneRttData conn') conn)) /\
    pendingZeroRttData conn' =
      (if hasData && room && bool_decide (protectionType = PT_ZeroRtt)
       then (fun queue => queue ++ [pendingReadData]) <$> pendingZeroRttData conn
       else pendingZeroRttData conn) /\
    pendingOneRttData conn' =
      (if hasData && room && bool_decide (protectionType = PT_KeyPhaseZero)
       then (fun queue => queue ++ [pendingReadData]) <$> pendingOneRttData conn
       else pendingOneRttData conn) /\
    bufferedPackets conn <= bufferedPackets conn' <=
      Z.max (bufferedPackets conn) (maxPacketsToBuffer (transportSettings conn)).
Proof.
  intros pendingReadData room hasData. subst pendingReadData room hasData.
  unfold bufferedPackets, bufferSize.
  destruct conn as []. proj_nf_all.
  unfold bufferSize.
  match goal with
  | |- context [handleCipherUnavailable ?a ?b ?c ?d ?s] =>
      exec_of (handleCipherUnavailable a b c d s)
  end.
  unfold handleCipherUnavailable.
  destruct packet as [[|byte rest]|].
  1, 3: rewrite ?bool_decide_eq_true_2 by reflexivity; exec;
        destruct qLogger0; exec; exec_done;
        (eexists; split; [reflexivity|]; proj_nf_all; cbn [andb];
         repeat split; try reflexivity; lia).
  rewrite (bool_decide_eq_false_2 (_ = [])) by discriminate.
  cbn [andb].
  destruct protectionType.
  all: decide_protection.
  all: cbn [andb]; exec.
  all: destruct pendingZeroRttData0 as [zeroRtt|], pendingOneRttData0 as [oneRtt|].
  all: match goal with
       | |- context [bool_decide (?n >= ?m)] =>
           destruct (decide (n >= m)) as [Hfull|Hroom];
           [ rewrite (bool_decide_eq_true_2 (n >= m) Hfull),
               (bool_decide_eq_false_2 (n < m)) by lia
           | rewrite (bool_decide_eq_false_2 (n >= m) Hroom),
               (bool_decide_eq_true_2 (n < m)) by lia ]
       | |- context [bool_decide (?n < ?m)] =>
           destruct (bool_decide (n < m))
       end.
  all: exec.
  all: decide_protection.
  all: exec.
  all: destruct qLogger0; exec.
  all: exec_done.
  all: eexists; split; [reflexivity|]; proj_nf_all; decide_protection;
       cbn [andb fmap option_fmap option_map].
  all: repeat split; try reflexivity.
  all: rewrite ?length_app; cbn [length]; lia.
Qed.

End Rebinding.

(** *** The closed state *)

Section ClosedState.
Context `{K : QuicConstants} `{C : ServerCollaborators}.

(** The peer's error after the close frames of a packet: the last close
    frame wins. *)
Definition peerClose (quicFrames : list QuicFrame) (previous : option (Z * string))
    : option (Z * string) :=
  fold_left
    (fun error quicFrame =>
       match quicFrame with
       | ConnectionCloseFrame closeErrorCode reasonPhrase =>
           Some (closeErrorCode, String.append "Server closed by peer reason=" reasonPhrase)
       | _ => error
       end)
    quicFrames previous.

(** [conn'] differs from [conn] in the qlog, the stats, the peer's error and
    the ack states at most. *)
Definition onlyRecordsClose (conn conn' : QuicServerConnectionState) : Prop :=
  conn' =
    set_qLogger (qLogger conn')
      (set_statsCallback (statsCallback conn')
         (set_peerConnectionError (peerConnectionError conn')
            (set_ackStates (ackStates conn') conn))).

Lemma processCloseFrame_close (closeErrorCode : Z) (reasonPhrase : string)
    (conn : QuicServerConnectionState) :
  exists events,
    processCloseFrame (ConnectionCloseFrame closeErrorCode reasonPhrase) conn =
      Returned tt
        (set_qLogger events
           (set_peerConnectionError
              (Some (closeErrorCode,
                     String.append "Server closed by peer reason=" reasonPhrase)) conn)).
Proof. destruct conn as []. destruct qLogger0; eexists; reflexivity. Qed.

Lemma recorded_twice (conn : QuicServerConnectionState) events events1 error error1 :
  set_qLogger events
    (set_peerConnectionError error
       (set_qLogger events1 (set_peerConnectionError error1 conn))) =
  set_qLogger events (set_peerConnectionError error conn) /\
  peerConnectionError (set_qLogger events1 (set_peerConnectionError error1 conn)) = error1.
Proof. destruct conn as []. split; reflexivity. Qed.

Lemma forEach_processCloseFrame (quicFrames : list QuicFrame) :
  forall conn : QuicServerConnectionState,
  exists events,
    forEach processCloseFrame quicFrames conn =
      Returned tt
        (set_qLogger events
           (set_peerConnectionError (peerClose quicFrames (peerConnectionError conn)) conn)).
Proof.
  induction quicFrames as [|quicFrame rest IH]; intros conn.
  - exists (qLogger conn). destruct conn as []. reflexivity.
  - cbn [forEach]. unfold bind at 1.
    destruct quicFrame.
    all: try (destruct (IH conn) as [events Hrun]; exists events; cbn; exact Hrun).
    destruct (processCloseFrame_close closeErrorCode reasonPhrase conn) as [events1 ->].
    destruct (IH (set_qLogger events1
                    (set_peerConnectionError
                       (Some (closeErrorCode,
                              String.append "Server closed by peer reason=" reasonPhrase))
                       conn))) as [events ->].
    exists events.
    match goal with
    | |- context [set_qLogger events1 (set_peerConnectionError ?e1 conn)] =>
        destruct (recorded_twice conn events events1
                    (peerClose rest (peerConnectionError
                                       (set_qLogger events1 (set_peerConnectionError e1 conn))))
                    e1) as [-> ->]
    end.
    reflexivity.
Qed.

Lemma onlyRecordsClose_intro (conn : QuicServerConnectionState) events stats error acks :
  onlyRecordsClose conn
    (set_qLogger events
       (set_statsCallback stats
          (set_peerConnectionError error (set_ackStates acks conn)))).
Proof. unfold onlyRecordsClose. destruct conn as []. reflexivity. Qed.

Lemma onServerReadDataFromClosed_outcome (conn : QuicServerConnectionState)
    (readData : ReadData) :
  state conn = Closed ->
  match onServerReadDataFromClosed readData conn with
  | Returned _ conn' =>
      onlyRecordsClose conn conn' /\
      (is_Some (peerConnectionError conn) \/ readCodec conn = None ->
       peerConnectionError conn' = peerConnectionError conn /\
       ackStates conn' = ackStates conn)
  | Thrown e conn' =>
      errorCode e = PROTOCOL_VIOLATION /\
      onlyRecordsClose conn conn' /\
      peerConnectionError conn' = None /\
      ackStates conn' = ackStates conn
  | Aborted _ => False
  end.
Proof.
  intros Hclosed.
  assert (Hnone : forall A B (x : B), is_Some (@None A) \/ Some x = None -> False).
  { intros A B x [[? ?]|?]; discriminate. }
  destruct conn as []. proj_nf_all. subst.
  match goal with
  | |- context [onServerReadDataFromClosed ?a ?s] => exec_of (onServerReadDataFromClosed a s)
  end.
  exec.
  destruct readCodec0 as [codec|]; exec.
  2: { destruct qLogger0, statsCallback0; exec; exec_done.
       all: split; [reflexivity|]; intros _; split; reflexivity. }
  destruct peerConnectionError0 as [error|]; exec.
  { destruct qLogger0, statsCallback0; exec; exec_done.
    all: split; [reflexivity|]; intros _; split; reflexivity. }
  match goal with
  | |- context [parsePacket ?c ?a ?d] => destruct (parsePacket c a d) as [parsedPacket rest]
  end.
  cbn [fst].
  destruct parsedPacket as [| | | |regular]; exec.
  1-4: destruct qLogger0, statsCallback0; exec; exec_done.
  1-16: split; [reflexivity|]; intros H; destruct (Hnone _ _ _ H).
  cbn [regularPacket]. exec.
  destruct regular as [hdr [|quicFrame quicFrames]]; exec.
  { destruct qLogger0, statsCallback0; exec; exec_done.
    all: repeat split; reflexivity. }
  destruct qLogger0, quicFrame; exec.
  all: match goal with
       | |- outcome (bind ?m ?k ?s) ?Q =>
           destruct (forEach_processCloseFrame quicFrames s) as [events Hrun];
           change (outcome (bind (forEach processCloseFrame quicFrames) k s) Q);
           unfold bind at 1; rewrite Hrun
       end.
  all: exec; exec_done.
  all: split; [|intros H; destruct (Hnone _ _ _ H)].
  all: destruct (getPacketNumberSpace hdr); reflexivity.
Qed.

(** X21.  A closed connection only records the peer's close.  In state
    [Closed], [onServerReadDataFromClosed] never aborts; it returns, or
    throws [PROTOCOL_VIOLATION] (a packet without frames) with the peer's
    error and the ack states untouched.  In both cases the connection
    differs from the one before in the qlog, the stats, the peer's error and
    the ack states at most; and when a peer error was recorded before, or no
    codec exists, the peer's error and the ack states stay as they are. *)
Theorem closed_connection_only_records_close (conn : QuicServerConnectionState)
    (readData : ReadData) :
  state conn = Closed ->
  match onServerReadDataFromClosed readData conn with
  | Returned _ conn' =>
      onlyRecordsClose conn conn' /\
      (is_Some (peerConnectionError conn) \/ readCodec conn = None ->
       peerConnectionError conn' = peerConnectionError conn /\
       ackStates conn' = ackStates conn)
  | Thrown e conn' =>
      errorCode e = PROTOCOL_VIOLATION /\
      onlyRecordsClose conn conn' /\
      peerConnectionError conn' = None /\
      ackStates conn' = ackStates conn
  | Aborted _ => False
  end.
Proof. exact (onServerReadDataFromClosed_outcome conn readData). Qed.

Lemma onlyRecordsClose_state (conn conn' : QuicServerConnectionState) :
  onlyRecordsClose conn conn' -> state conn' = state conn.
Proof. unfold onlyRecordsClose. intros H. rewrite H. destruct conn as []. reflexivity. Qed.

(** X22.  Closing is final.  [onServerClose] always returns and changes the
    state to [Closed] only; a second [onServerClose] changes nothing.  On the
    closed connection [onServerReadData] never aborts: it returns, or throws
    [PROTOCOL_VIOLATION], with the state still [Closed] and nothing changed
    but the qlog, the stats, the peer's error and the ack states. *)
Theorem close_is_final (conn : QuicServerConnectionState) :
  exists conn',
    onServerClose conn = Returned tt conn' /\
    conn' = set_state Closed conn /\
    onServerClose conn' = Returned tt conn' /\
    forall readData,
      match onServerReadData readData conn' with
      | Returned _ conn'' => state conn'' = Closed /\ onlyRecordsClose conn' conn''
      | Thrown e conn'' =>
          errorCode e = PROTOCOL_VIOLATION /\ state conn'' = Closed /\
          onlyRecordsClose conn' conn''
      | Aborted _ => False
      end.
Proof.
  exists (set_state Closed conn).
  assert (Hclosed : state (set_state Closed conn) = Closed) by (destruct conn as []; reflexivity).
  repeat apply conj.
  - unfold onServerClose, onServerCloseOpenState. cbv [bind gets modify ret].
    destruct conn as []. destruct state0; reflexivity.
  - reflexivity.
  - unfold onServerClose. cbv [bind gets]. rewrite Hclosed. reflexivity.
  - intros readData.
    pose proof (onServerReadDataFromClosed_outcome (set_state Closed conn) readData Hclosed)
      as Hread.
    unfold onServerReadData. cbv [bind gets]. rewrite Hclosed.
    destruct (onServerReadDataFromClosed readData (set_state Closed conn))
      as [[] conn''|e conn''|msg].
    + destruct Hread as [Honly _]. split; [|exact Honly].
      rewrite (onlyRecordsClose_state _ _ Honly). exact Hclosed.
    + destruct Hread as (Hcode & Honly & _). split; [exact Hcode|]. split; [|exact Honly].
      rewrite (onlyRecordsClose_state _ _ Honly). exact Hclosed.
    + exact Hread.
Qed.

(** X23.  After the close was sent
    ([updateLargestReceivedPacketsAtLastCloseSent]), no new packet has been
    received ([hasNotReceivedNewPacketsSinceLastCloseSent]).  A regular
    packet with frames that then arrives on the closed connection is
    handled without an exception: the largest received packet number of its
    space is the larger of the old one and the packet's number, the marks of
    the close sent are kept, the peer's error is the one of the last close
    frame of the packet, and
    [hasNotReceivedNewPacketsSinceLastCloseSent] stays true exactly when the
    space had received a packet with a number at least as large before. *)
Theorem new_packet_after_close_is_noticed (conn : QuicServerConnectionState)
    (readData : ReadData) (codec : QuicReadCodec) (regular : RegularQuicPacket)
    (rest : list Z) :
  let closed := updateLargestReceivedPacketsAtLastCloseSent conn in
  let packetNum := getPacketSequenceNum (header regular) in
  let pnSpace := getPacketNumberSpace (header regular) in
  let largest := largestReceivedPacketNum (getAckState conn pnSpace) in
  state conn = Closed ->
  readCodec conn = Some codec ->
  peerConnectionError conn = None ->
  parsePacket codec (ackStates closed) (default [] (data (networkData readData))) =
    (REGULAR_PACKET regular, rest) ->
  frames_of regular <> [] ->
  hasNotReceivedNewPacketsSinceLastCloseSent closed = true /\
  exists conn',
    onServerReadDataFromClosed readData closed = Returned tt conn' /\
    largestReceivedPacketNum (getAckState conn' pnSpace) =
      Some (Z.max (default packetNum largest) packetNum) /\
    (forall space,
       largestReceivedAtLastCloseSent (getAckState conn' space) =
       largestReceivedPacketNum (getAckState conn space)) /\
    peerConnectionError conn' = peerClose (frames_of regular) None /\
    hasNotReceivedNewPacketsSinceLastCloseSent conn' =
      match largest with
      | Some received => bool_decide (packetNum <= received)
      | None => false
      end.
Proof.
  intros closed packetNum pnSpace largest Hclosed Hcodec Herror Hparse Hframes.
  subst closed packetNum pnSpace largest.
  split.
  { unfold hasNotReceivedNewPacketsSinceLastCloseSent,
      updateLargestReceivedPacketsAtLastCloseSent.
    destruct conn as []. destruct ackStates0 as [[] [] []]. cbn.
    rewrite !bool_decide_eq_true_2 by reflexivity. reflexivity. }
  destruct conn as []. destruct ackStates0 as [[] [] []].
  destruct regular as [hdr quicFrames].
  destruct hdr as [? ? space packetNum|? ? space packetNum]; destruct space.
  all: match goal with
       | |- context [updateLargestReceivedPacketsAtLastCloseSent ?c] =>
           let c1 := eval cbv beta iota zeta delta
                       [updateLargestReceivedPacketsAtLastCloseSent getAckState setAckState]
                     in (updateLargestReceivedPacketsAtLastCloseSent c) in
           let c2 := state_nf c1 in
           change (updateLargestReceivedPacketsAtLastCloseSent c) with c2 in *
       end.
  all: proj_nf_all; subst.
  all: match goal with
       | |- context [onServerReadDataFromClosed ?a ?s] =>
           exec_of (onServerReadDataFromClosed a s)
       end.
  all: exec; rewrite Hparse; cbn [fst regularPacket]; exec.
  all: destruct quicFrames as [|quicFrame rest'] eqn:Hlist; [contradiction|].
  all: cbv beta iota; rewrite <- Hlist.
  all: destruct qLogger0; exec.
  all: match goal with
       | |- outcome (bind ?m ?k ?s) ?Q =>
           destruct (forEach_processCloseFrame quicFrames s) as [events Hrun];
           change (outcome (bind (forEach processCloseFrame quicFrames) k s) Q);
           unfold bind at 1; rewrite Hrun
       end.
  all: exec; exec_done.
  all: match goal with
       | |- context [@Returned _ _ tt ?s] =>
           let s1 := eval cbv beta iota zeta delta [getAckState setAckState] in s in
           let s2 := state_nf s1 in
           change s with s2
       end.
  all: eexists; split; [reflexivity|].
  all: unfold hasNotReceivedNewPacketsSinceLastCloseSent.
  all: cbn [getAckState setAckState]; proj_nf_all.
  all: repeat apply conj; try reflexivity.
  all: try (intros []; reflexivity).
  all: match goal with
       | |- context [default _ ?o] => destruct o as [received|]
       end.
  all: cbn [default from_option id].
  all: repeat case_bool_decide; try reflexivity; try congruence.
  all: exfalso.
  all: repeat match goal with
              | H : Some _ = Some _ |- _ => injection H as H
              | H : None = Some _ |- _ => discriminate H
              | H : Some _ = None |- _ => discriminate H
              end.
  all: try lia.
  all: match goal with
       | H : Some _ <> Some _ |- _ => apply H; f_equal; lia
       | H : None <> None |- _ => apply H; reflexivity
       end.
Qed.

End ClosedState.

(** *** The open state *)

Section OpenState.
Context `{K : QuicConstants} `{C : ServerCollaborators}.

(** The connection after a packet was dropped as a protocol violation. *)
Definition droppedAsViolation (packetSize : Z) (conn : QuicServerConnectionState)
    : QuicServerConnectionState :=
  qlog (QLogPacketDropReason packetSize DROP_PROTOCOL_VIOLATION)
    (QUIC_STATS (onPacketDropped DROP_PROTOCOL_VIOLATION) conn).

Lemma checkUnprotectedFrames_forbidden (packetSize : Z) (quicFrames : list QuicFrame)
    (conn : QuicServerConnectionState) :
  forallb permittedUnprotected quicFrames = false ->
  checkUnprotectedFrames packetSize quicFrames conn =
    Thrown (mkException "Invalid frame" PROTOCOL_VIOLATION)
      (droppedAsViolation packetSize conn).
Proof.
  induction quicFrames as [|quicFrame rest IH]; intros Hsome; [discriminate|].
  cbn [forallb] in Hsome. cbn [checkUnprotectedFrames].
  destruct (permittedUnprotected quicFrame); [apply IH, Hsome|].
  reflexivity.
Qed.

(** X24.  An Initial or Handshake packet that carries a frame other than
    PADDING, ACK, CONNECTION_CLOSE, CRYPTO and PING is rejected before any
    frame is processed: the packet loop throws [PROTOCOL_VIOLATION]
    ("Invalid frame"), and the connection is the one before with the drop
    recorded at the stats callback and the qlog. *)
Theorem unprotected_packet_with_other_frames_is_rejected
    (conn : QuicServerConnectionState) (readData : ReadData)
    (regular : RegularQuicPacket) (packetSize : Z) :
  getProtectionType (header regular) = PT_Initial \/
  getProtectionType (header regular) = PT_Handshake ->
  forallb permittedUnprotected (frames_of regular) = false ->
  processParsedPacket readData (REGULAR_PACKET regular) packetSize conn =
    Thrown (mkException "Invalid frame" PROTOCOL_VIOLATION)
      (droppedAsViolation packetSize conn).
Proof.
  intros Hprotection Hforbidden.
  destruct regular as [hdr quicFrames]. cbn [header frames_of] in *.
  assert (Hprot : bool_decide (getProtectionType hdr = PT_ZeroRtt)
                  || bool_decide (getProtectionType hdr = PT_KeyPhaseZero)
                  || bool_decide (getProtectionType hdr = PT_KeyPhaseOne) = false).
  { destruct Hprotection as [-> | ->]; reflexivity. }
  unfold processParsedPacket. cbn [regularPacket header frames_of].
  destruct quicFrames as [|quicFrame rest] eqn:Hlist; [discriminate|].
  rewrite <- Hlist in *. cbv zeta. rewrite Hprot. cbn [negb when_].
  unfold bind at 1. unfold ret at 1.
  unfold bind at 1.
  rewrite (checkUnprotectedFrames_forbidden packetSize quicFrames conn Hforbidden).
  reflexivity.
Qed.

(** The reason for which the first packet of a connection is dropped before
    anything is allocated, if it is. *)
Definition firstPacketDropReason (udpData : list Z) : option PacketDropReason :=
  match parseLongHeaderInvariant udpData with
  | None => Some PARSE_ERROR
  | Some parsedLongHeader =>
      if bool_decide (invariantVersion parsedLongHeader = VERSION_NEGOTIATION)
      then Some INVALID_PACKET
      else if bool_decide (Z.of_nat (length (dstConnId parsedLongHeader)) <
                           kDefaultConnectionIdSize)
      then Some INITIAL_CONNID_SMALL
      else None
  end.

(** X25.  In state [Open], a datagram without data leaves the connection
    as it is.  The first datagram of a connection (no codec yet) whose long
    header invariant does not parse, is a version negotiation, or has a
    destination connection ID shorter than [kDefaultConnectionIdSize], is
    dropped: [onServerReadDataFromOpen] returns, and the connection is the
    one before with a drop of size 0 and of that reason recorded at the qlog
    and the stats callback; no codec and no connection ID is created. *)
Theorem dropped_first_packet_allocates_nothing (conn : QuicServerConnectionState)
    (readData : ReadData) :
  state conn = Open ->
  (data (networkData readData) = None \/ data (networkData readData) = Some [] ->
   onServerReadDataFromOpen readData conn = Returned tt conn) /\
  (forall udpData reason,
     data (networkData readData) = Some udpData ->
     udpData <> [] ->
     readCodec conn = None ->
     firstPacketDropReason udpData = Some reason ->
     onServerReadDataFromOpen readData conn =
       Returned tt
         (QUIC_STATS (onPacketDropped reason) (qlog (QLogPacketDropReason 0 reason) conn))).
Proof.
  intros Hopen. split.
  - intros Hempty. unfold onServerReadDataFromOpen.
    cbv [bind gets CHECK]. rewrite Hopen.
    destruct Hempty as [-> | ->]; reflexivity.
  - intros udpData reason Hdata Hsome Hcodec Hreason.
    unfold onServerReadDataFromOpen.
    cbv [bind gets CHECK]. rewrite Hopen, Hdata.
    destruct udpData as [|byte rest]; [contradiction|].
    cbv beta iota. rewrite Hcodec.
    set (udpData := byte :: rest) in *. clearbody udpData.
    unfold firstPacketDropReason in Hreason. unfold firstPacketHandling.
    destruct (parseLongHeaderInvariant udpData) as [parsedLongHeader|].
    + cbv zeta.
      destruct (bool_decide (invariantVersion parsedLongHeader = VERSION_NEGOTIATION)).
      * injection Hreason as <-. reflexivity.
      * destruct (bool_decide (Z.of_nat (length (dstConnId parsedLongHeader)) <
                               kDefaultConnectionIdSize)); [|discriminate].
        injection Hreason as <-. reflexivity.
    + injection Hreason as <-. reflexivity.
Qed.

(** Frames whose handling touches the flags of the packet only. *)
Definition flagsOnly (quicFrame : QuicFrame) : bool :=
  match quicFrame with
  | PaddingFrame | PingFrame | StreamsBlockedFrame _ | OtherFrame _ => true
  | _ => false
  end.

Lemma processFrame_flagsOnly (readData : ReadData) (packetNum : Z)
    (packetNumberSpace : PacketNumberSpace) (encryptionLevel : EncryptionLevel)
    (quicFrame : QuicFrame) (flags : PacketFlags) (conn : QuicServerConnectionState) :
  flagsOnly quicFrame = true ->
  exists flags',
    processFrame readData packetNum packetNumberSpace encryptionLevel quicFrame flags conn =
      Returned flags' conn.
Proof. destruct quicFrame; try discriminate; intros _; eexists; reflexivity. Qed.

(** X26.  In the frame loop of the open state, after frames that touch the
    flags of the packet only (PADDING, PING, STREAMS_BLOCKED, unknown): a
    CONNECTION_CLOSE frame records the peer's error and throws [NO_ERROR]
    ("Peer closed"), and a MAX_STREAM_DATA frame for a receiving stream
    throws [STREAM_STATE_ERROR] with the connection unchanged; in both cases
    whatever frames follow in the packet are not processed.  The frames
    before them leave the connection as it was. *)
Theorem peer_close_ends_frame_processing (readData : ReadData) (packetNum : Z)
    (packetNumberSpace : PacketNumberSpace) (encryptionLevel : EncryptionLevel)
    (before after : list QuicFrame) (flags : PacketFlags)
    (conn : QuicServerConnectionState) :
  forallb flagsOnly before = true ->
  (forall closeErrorCode reasonPhrase,
     let errMsg := String.append "Server closed by peer reason=" reasonPhrase in
     processFrames readData packetNum packetNumberSpace encryptionLevel
       (before ++ ConnectionCloseFrame closeErrorCode reasonPhrase :: after) flags conn =
     Thrown (mkException "Peer closed" NO_ERROR)
       (set_peerConnectionError (Some (closeErrorCode, errMsg))
          (qlog (QLogTransportStateUpdate (getPeerClose errMsg)) conn))) /\
  (forall streamId maximumData,
     isReceivingStream Server streamId = true ->
     processFrames readData packetNum packetNumberSpace encryptionLevel
       (before ++ MaxStreamDataFrame streamId maximumData :: after) flags conn =
     Thrown (mkException "Received MaxStreamDataFrame for receiving stream."
               STREAM_STATE_ERROR) conn) /\
  (exists flags',
     processFrames readData packetNum packetNumberSpace encryptionLevel before flags conn =
     Returned flags' conn).
Proof.
  revert flags. induction before as [|quicFrame rest IH]; intros flags Hbefore.
  - repeat split.
    + intros streamId maximumData Hreceiving.
      cbn [app processFrames]. unfold bind, processFrame. rewrite Hreceiving. reflexivity.
    + eexists. reflexivity.
  - cbn [forallb] in Hbefore. apply andb_prop in Hbefore as [Hframe Hrest].
    destruct (processFrame_flagsOnly readData packetNum packetNumberSpace encryptionLevel
                quicFrame flags conn Hframe) as [flags1 Hstep].
    destruct (IH flags1 Hrest) as (Hclose & Hmax & flags' & Hall).
    assert (Hturn : forall frames,
              processFrames readData packetNum packetNumberSpace encryptionLevel
                (quicFrame :: frames) flags conn =
              processFrames readData packetNum packetNumberSpace encryptionLevel
                frames flags1 conn).
    { intros frames. cbn [processFrames]. unfold bind at 1. rewrite Hstep. reflexivity. }
    repeat split.
    + intros closeErrorCode reasonPhrase. cbn [app]. rewrite Hturn. apply Hclose.
    + intros streamId maximumData Hreceiving. cbn [app]. rewrite Hturn.
      apply Hmax, Hreceiving.
    + exists flags'. rewrite Hturn. exact Hall.
Qed.

End OpenState.

(** *** The client's transport parameters *)

Section ClientParams.
Context `{K : QuicConstants} `{C : ServerCollaborators}.

(** A parameter only a server may send is present with a value other than
    0. *)
Definition sentByServerOnly (ps : list (TransportParameterId * TransportParameterValue))
    : Prop :=
  exists id n,
    id ∈ [preferred_address; original_destination_connection_id; stateless_reset_token;
          retry_source_connection_id] /\
    getIntegerParameter id ps = Some n /\ n <> 0.

(** The client's initial source connection ID is checked and is missing or
    is not the one of the codec. *)
Definition sourceConnIdMismatch (conn : QuicServerConnectionState)
    (ps : list (TransportParameterId * TransportParameterValue)) : Prop :=
  (version conn = Some QUIC_DRAFT \/ version conn = Some QUIC_V1) /\
  (getConnIdParameter initial_source_connection_id ps = None \/
   getConnIdParameter initial_source_connection_id ps <>
     (readCodec conn ≫= codec_clientConnectionId)).

Definition outOfRange (ps : list (TransportParameterId * TransportParameterValue)) : Prop :=
  (exists d, getIntegerParameter max_ack_delay ps = Some d /\ d >= kMaxAckDelay) \/
  (exists n, getIntegerParameter max_packet_size ps = Some n /\ n < kMinMaxUDPPayload).

(** X27.  [processClientInitialParams] rejects the client's parameters
    with [TRANSPORT_PARAMETER_ERROR] and leaves the connection unchanged
    when the initial source connection ID is checked (QUIC draft or v1) and
    is missing or different from the codec's, when a parameter only a server
    may send (preferred address, original destination connection ID,
    stateless reset token, retry source connection ID) is present and not 0,
    when [max_ack_delay] is at least [kMaxAckDelay], or when
    [max_packet_size] is below [kMinMaxUDPPayload]. *)
Theorem processClientInitialParams_rejects_unchanged (conn : QuicServerConnectionState)
    (clientParams : ClientTransportParameters) :
  let ps := parameters clientParams in
  sourceConnIdMismatch conn ps \/ sentByServerOnly ps \/ outOfRange ps ->
  exists e,
    processClientInitialParams clientParams conn = Thrown e conn /\
    errorCode e = TRANSPORT_PARAMETER_ERROR.
Proof.
  intros ps Hbad. subst ps.
  unfold processClientInitialParams. cbv zeta. cbv [bind gets].
  repeat match goal with
         | |- context [if ?c then throw _ TRANSPORT_PARAMETER_ERROR else _] =>
             destruct c eqn:?; [eexists; split; reflexivity|]
         end.
  exfalso.
  repeat match goal with
         | H : _ && _ = false |- _ => apply andb_false_iff in H
         | H : _ || _ = false |- _ => apply orb_false_iff in H as [? ?]
         | H : bool_decide _ = false |- _ => apply bool_decide_eq_false in H
         end.
  match goal with
  | H : _ \/ match getConnIdParameter _ _ with _ => _ end = false |- _ => rename H into Hsource
  end.
  destruct Hbad as [[Hversion Hcid] | [(id & n & Hid & Hn & Hnz) | [(d & Hd & Hbig) | (n & Hn & Hsmall)]]].
  - destruct Hsource as [Hsource | Hsource].
    + apply orb_false_iff in Hsource as [H1 H2].
      apply bool_decide_eq_false in H1, H2. tauto.
    + destruct (getConnIdParameter initial_source_connection_id (parameters clientParams))
        as [cid|]; [|discriminate].
      apply bool_decide_eq_false in Hsource.
      destruct Hcid as [Hcid | Hcid]; [discriminate|].
      contradiction.
  - repeat match goal with
           | H : _ ∈ _ :: _ |- _ => apply elem_of_cons in H as [-> | H]
           | H : _ ∈ [] |- _ => inversion H
           end.
    all: repeat match goal with
                | H : context [getIntegerParameter _ _] |- _ =>
                    progress rewrite Hn in H
                end.
    all: repeat match goal with
                | H : bool_decide _ = false |- _ => apply bool_decide_eq_false in H
                end.
    all: tauto.
  - rewrite Hd in *.
    repeat match goal with
           | H : bool_decide _ = false |- _ => apply bool_decide_eq_false in H
           end.
    lia.
  - rewrite Hn in *.
    repeat match goal with
           | H : bool_decide _ = false |- _ => apply bool_decide_eq_false in H
           end.
    lia.
Qed.


End ClientParams.

(** *** The source address token *)

Section SourceToken.
Context `{T : SourceTokenConstants}.

(** The addresses of the token other than the peer's, in their order, and
    the number of times the peer's address occurs. *)
Definition otherAddresses (peerIP : IPAddress) (l : list IPAddress) : list IPAddress :=
  filter (fun a => a <> peerIP) l.

Definition occurrences (peerIP : IPAddress) (l : list IPAddress) : nat :=
  length (filter (fun a => a = peerIP) l).

Lemma matchSourceAddresses_spec (peerIP : IPAddress) (ii : nat) :
  forall (l : list IPAddress) (foundMatch : bool),
  (ii <= length l)%nat ->
  matchSourceAddresses ii peerIP l foundMatch =
    (otherAddresses peerIP (take ii l) ++ drop ii l ++
       replicate (occurrences peerIP (take ii l)) peerIP,
     foundMatch || bool_decide (peerIP ∈ take ii l)).
Proof.
  unfold otherAddresses, occurrences.
  induction ii as [|ii IH]; intros l foundMatch Hlen.
  - cbn. rewrite drop_0, app_nil_r, orb_false_r. reflexivity.
  - destruct (lookup_lt_is_Some_2 l ii ltac:(lia)) as [x Hx].
    rewrite (take_S_r _ _ _ Hx), !filter_app.
    cbn [matchSourceAddresses]. case_bool_decide as Heq.
    + assert (x = peerIP) as -> by congruence.
      assert (Hshape : delete ii l ++ [peerIP] = take ii l ++ (drop (S ii) l ++ [peerIP])).
      { rewrite delete_take_drop, <- app_assoc. reflexivity. }
      assert (Hii : length (take ii l) = ii) by (rewrite length_take; lia).
      rewrite IH by (rewrite Hshape, length_app, Hii; lia).
      assert (Htake : take ii (delete ii l ++ [peerIP]) = take ii l).
      { rewrite Hshape. apply take_app_length'. symmetry; exact Hii. }
      assert (Hdrop : drop ii (delete ii l ++ [peerIP]) = drop (S ii) l ++ [peerIP]).
      { rewrite Hshape. apply drop_app_length'. symmetry; exact Hii. }
      rewrite Htake, Hdrop.
      rewrite !filter_cons, !filter_nil.
      destruct (decide (peerIP <> peerIP)) as [Hne|_]; [congruence|].
      destruct (decide (peerIP = peerIP)) as [_|Hne]; [|congruence].
      rewrite app_nil_r, length_app. cbn [length].
      rewrite Nat.add_1_r. f_equal.
      * rewrite <- !app_assoc. reflexivity.
      * rewrite orb_true_l. symmetry. rewrite orb_true_iff. right.
        apply bool_decide_eq_true_2. set_solver.
    + assert (Hne : x <> peerIP) by congruence.
      rewrite IH by lia.
      rewrite (drop_S _ _ _ Hx).
      rewrite !filter_cons, !filter_nil.
      destruct (decide (x <> peerIP)) as [_|Hn]; [|contradiction].
      destruct (decide (x = peerIP)) as [He|_]; [contradiction|].
      rewrite app_nil_r. f_equal.
      * rewrite <- !app_assoc. reflexivity.
      * f_equal. apply bool_decide_ext. set_solver.
Qed.

Lemma length_otherAddresses (peerIP : IPAddress) (l : list IPAddress) :
  (length (otherAddresses peerIP l) + occurrences peerIP l = length l)%nat.
Proof.
  unfold otherAddresses, occurrences.
  induction l as [|x l IH]; [reflexivity|].
  rewrite !filter_cons.
  destruct (decide (x <> peerIP)), (decide (x = peerIP)); cbn [length]; try lia; tauto.
Qed.

Lemma otherAddresses_absent (peerIP : IPAddress) (l : list IPAddress) :
  peerIP ∉ l -> otherAddresses peerIP l = l /\ occurrences peerIP l = 0%nat.
Proof.
  unfold otherAddresses, occurrences.
  induction l as [|x l IH]; [split; reflexivity|].
  intros Hin. rewrite !filter_cons.
  destruct IH as [IH1 IH2]; [set_solver|].
  destruct (decide (x <> peerIP)), (decide (x = peerIP)); try tauto.
  - rewrite IH1, IH2. split; reflexivity.
  - set_solver.
Qed.

(** X29.  [validateAndUpdateSourceToken] returns; [sourceTokenMatching]
    tells whether the peer's IP address is among the addresses of the token,
    and the saved token ends with the peer's address.  0-RTT is accepted
    never under [ALWAYS_REJECT], exactly on a match under
    [REJECT_IF_NO_EXACT_MATCH], and always under [LIMIT_IF_NO_EXACT_MATCH].
    On a match the connection is unchanged and the token holds the other
    addresses in their order followed by the peer's address as often as it
    occurred; without a match the peer's address is appended (after the
    oldest address is dropped from a full token) and only the limiting
    policy sets the writable bytes limit.  A token within
    [kMaxNumTokenSourceAddresses] stays within it. *)
Theorem validateAndUpdateSourceToken_policy (s : TokenConnectionState)
    (sourceAddresses : list IPAddress) :
  let conn := connection s in
  let peerIP := getIPAddress (peerAddress conn) in
  let policy := zeroRttSourceTokenMatchingPolicy s in
  let foundMatch := bool_decide (peerIP ∈ sourceAddresses) in
  exists acceptZeroRtt s',
    validateAndUpdateSourceToken sourceAddresses s = Returned acceptZeroRtt s' /\
    sourceTokenMatching s' = foundMatch /\
    zeroRttSourceTokenMatchingPolicy s' = policy /\
    last (tokenSourceAddresses s') = Some peerIP /\
    acceptZeroRtt =
      match policy with
      | ALWAYS_REJECT => false
      | REJECT_IF_NO_EXACT_MATCH => foundMatch
      | LIMIT_IF_NO_EXACT_MATCH => true
      end /\
    (foundMatch = true ->
     connection s' = conn /\
     tokenSourceAddresses s' =
       otherAddresses peerIP sourceAddresses ++
       replicate (occurrences peerIP sourceAddresses) peerIP /\
     length (tokenSourceAddresses s') = length sourceAddresses) /\
    (foundMatch = false ->
     tokenSourceAddresses s' =
       (if bool_decide (Z.of_nat (length sourceAddresses) >= kMaxNumTokenSourceAddresses)
        then drop 1 sourceAddresses else sourceAddresses) ++ [peerIP] /\
     connection s' =
       match policy with
       | LIMIT_IF_NO_EXACT_MATCH =>
           set_writableBytesLimit
             (Some (wrap64 (limitedCwndInMss (transportSettings conn) *
                            udpSendPacketLen conn))) conn
       | _ => conn
       end) /\
    (0 < kMaxNumTokenSourceAddresses ->
     Z.of_nat (length sourceAddresses) <= kMaxNumTokenSourceAddresses ->
     Z.of_nat (length (tokenSourceAddresses s')) <= kMaxNumTokenSourceAddresses).
Proof.
  intros conn peerIP policy foundMatch. subst conn peerIP policy foundMatch.
  destruct s as [conn policy matching tokens].
  cbn [connection zeroRttSourceTokenMatchingPolicy].
  set (peerIP := getIPAddress (peerAddress conn)).
  unfold validateAndUpdateSourceToken.
  cbv [bind get]. cbn [connection zeroRttSourceTokenMatchingPolicy].
  fold peerIP.
  rewrite (matchSourceAddresses_spec peerIP _ sourceAddresses false (le_n _)).
  rewrite firstn_all, drop_all, orb_false_l. cbn [app].
  pose proof (length_otherAddresses peerIP sourceAddresses) as Hlen.
  case_bool_decide as Hin.
  - assert (Hocc : (0 < occurrences peerIP sourceAddresses)%nat).
    { unfold occurrences.
      assert (Hf : peerIP ∈ filter (fun a => a = peerIP) sourceAddresses)
        by (apply list_elem_of_filter; split; [reflexivity | exact Hin]).
      destruct (filter (fun a => a = peerIP) sourceAddresses);
        [inversion Hf | cbn; lia]. }
    destruct policy; cbn.
    all: do 2 eexists; split; [reflexivity|].
    all: cbn [sourceTokenMatching zeroRttSourceTokenMatchingPolicy tokenSourceAddresses
              connection].
    all: repeat apply conj; try reflexivity; try discriminate.
    all: try (destruct (occurrences peerIP sourceAddresses) as [|n]; [lia|];
              rewrite replicate_S_end, app_assoc, last_snoc; reflexivity).
    all: try (intros _; repeat apply conj; try reflexivity;
              rewrite length_app, length_replicate; exact Hlen).
    all: intros _ Hmax; rewrite length_app, length_replicate; lia.
  - destruct (otherAddresses_absent peerIP sourceAddresses Hin) as [-> ->].
    cbn [replicate]. rewrite app_nil_r.
    destruct policy; cbn.
    all: do 2 eexists; split; [reflexivity|].
    all: cbn [sourceTokenMatching zeroRttSourceTokenMatchingPolicy tokenSourceAddresses
              connection].
    all: repeat apply conj; try reflexivity; try discriminate.
    all: try (rewrite last_snoc; reflexivity).
    all: try (intros _; split; reflexivity).
    all: intros Hpos Hmax; rewrite length_app; cbn [length].
    all: case_bool_decide; [rewrite length_drop|]; lia.
Qed.

End SourceToken.

(** The example connection migrates to an address of another subnet at time
    0 and back at time 1000: the congestion controller is the one it had. *)
Lemma migrating_back_recovers_congestion_state_witness :
  exists conn1 conn2,
    onConnectionMigration (K := referenceConstants)
      (C := ServerExamples.collaboratorsAt 0) ServerExamples.farAddress false
      ServerExamples.handshakingConnection = Returned tt conn1 /\
    onConnectionMigration (K := referenceConstants)
      (C := ServerExamples.collaboratorsAt 1000) Examples.exampleAddress false conn1 =
      Returned tt conn2 /\
    congestionController conn2 = Some (mkController 0).
Proof.
  pose proof (migrating_back_recovers_congestion_state (K := referenceConstants)
                (ServerExamples.collaboratorsAt 0) (ServerExamples.collaboratorsAt 1000)
                ServerExamples.handshakingConnection ServerExamples.farAddress false false
                (fun _ => mkController 1)) as H.
  destruct H as (conn1 & conn2 & Hrun1 & _ & Hrun2 & _ & Hfresh & _).
  - vm_compute. reflexivity.
  - reflexivity.
  - reflexivity.
  - vm_compute. reflexivity.
  - reflexivity.
  - exists conn1, conn2. split; [exact Hrun1|]. split; [exact Hrun2|].
    destruct Hfresh as [Hcc _]; [vm_compute; congruence | exact Hcc].
Defined.

(** The example connection sees its peer at another address of the same /24
    subnet: the congestion controller stays. *)
Lemma nat_rebinding_keeps_congestion_state_witness :
  exists conn',
    onConnectionMigration (K := referenceConstants) (C := ServerExamples.exampleCollaborators)
      ServerExamples.otherAddress false ServerExamples.handshakingConnection =
      Returned tt conn' /\
    congestionController conn' = Some (mkController 0).
Proof.
  destruct (nat_rebinding_keeps_congestion_state (K := referenceConstants)
              (C := ServerExamples.exampleCollaborators)
              ServerExamples.handshakingConnection ServerExamples.otherAddress false)
    as (conn' & Hrun & _ & Hcc & _).
  - vm_compute. reflexivity.
  - right. exists 0x0a000063, 0x0a000001. repeat split.
  - exists conn'. split; [exact Hrun | exact Hcc].
Defined.

(** The closed example connection reads a datagram: nothing aborts. *)
Lemma closed_connection_only_records_close_witness :
  match onServerReadDataFromClosed (C := ServerExamples.exampleCollaborators)
          ServerExamples.datagramFromOtherAddress ServerExamples.closedConnection with
  | Returned _ conn' => state conn' = Closed
  | _ => False
  end.
Proof.
  pose proof (closed_connection_only_records_close (C := ServerExamples.exampleCollaborators)
                ServerExamples.closedConnection ServerExamples.datagramFromOtherAddress
                eq_refl) as H.
  destruct (onServerReadDataFromClosed ServerExamples.datagramFromOtherAddress
              ServerExamples.closedConnection) as [[] conn'|e conn'|msg] eqn:Hrun.
  - destruct H as [-> _]. reflexivity.
  - vm_compute in Hrun. discriminate Hrun.
  - exact H.
Defined.

(** The closed example connection, that had received no packet when it sent
    its close, reads packet 0: a new packet has been received. *)
Lemma new_packet_after_close_is_noticed_witness :
  exists conn',
    onServerReadDataFromClosed (C := ServerExamples.exampleCollaborators)
      ServerExamples.datagramFromOtherAddress
      (updateLargestReceivedPacketsAtLastCloseSent ServerExamples.closedConnection) =
      Returned tt conn' /\
    hasNotReceivedNewPacketsSinceLastCloseSent conn' = false.
Proof.
  destruct (new_packet_after_close_is_noticed (C := ServerExamples.exampleCollaborators)
              ServerExamples.closedConnection ServerExamples.datagramFromOtherAddress
              newReadCodec ServerExamples.examplePacket [])
    as (_ & conn' & Hrun & _ & _ & _ & Hnew).
  - reflexivity.
  - reflexivity.
  - reflexivity.
  - reflexivity.
  - discriminate.
  - exists conn'. split; [exact Hrun | exact Hnew].
Defined.

(** An Initial packet with a stream frame is rejected. *)
Lemma unprotected_packet_with_other_frames_is_rejected_witness :
  thrownCode
    (processParsedPacket (K := referenceConstants) (C := ServerExamples.exampleCollaborators)
       ServerExamples.datagramFromOtherAddress
       (REGULAR_PACKET ServerExamples.streamInInitialPacket) 5
       ServerExamples.handshakingConnection) = Some PROTOCOL_VIOLATION.
Proof.
  rewrite (unprotected_packet_with_other_frames_is_rejected (K := referenceConstants)
             (C := ServerExamples.exampleCollaborators)
             ServerExamples.handshakingConnection ServerExamples.datagramFromOtherAddress
             ServerExamples.streamInInitialPacket 5).
  - reflexivity.
  - left. reflexivity.
  - reflexivity.
Defined.

(** The example connection has no codec; with the connection ID of 4 octets
    of this datagram the first packet is dropped and no codec is created. *)
Lemma dropped_first_packet_allocates_nothing_witness :
  exists conn',
    onServerReadDataFromOpen (K := referenceConstants)
      (C := ServerExamples.exampleCollaborators)
      (mkReadData Examples.exampleAddress (mkNetworkData (Some [192; 0; 0; 1]) 0))
      (Examples.exampleConnection referenceConstants) = Returned tt conn' /\
    readCodec conn' = None.
Proof.
  destruct (dropped_first_packet_allocates_nothing (K := referenceConstants)
              (C := ServerExamples.exampleCollaborators)
              (Examples.exampleConnection referenceConstants)
              (mkReadData Examples.exampleAddress (mkNetworkData (Some [192; 0; 0; 1]) 0))
              eq_refl) as [_ Hdrop].
  eexists. split.
  - apply (Hdrop [192; 0; 0; 1] INITIAL_CONNID_SMALL).
    + reflexivity.
    + discriminate.
    + reflexivity.
    + vm_compute. reflexivity.
  - reflexivity.
Defined.

(** A close frame after a PING ends the loop; the stream frame behind it is
    not processed. *)
Lemma peer_close_ends_frame_processing_witness :
  thrownCode
    (processFrames (K := referenceConstants) (C := ServerExamples.exampleCollaborators)
       ServerExamples.datagramFromOtherAddress 0 PNS_AppData EL_AppData
       ([PingFrame] ++ ConnectionCloseFrame 0 "bye" :: [ReadStreamFrame 0 0 [] false])
       (mkFlags false false false false) ServerExamples.handshakingConnection) =
  Some NO_ERROR.
Proof.
  destruct (peer_close_ends_frame_processing (K := referenceConstants)
              (C := ServerExamples.exampleCollaborators)
              ServerExamples.datagramFromOtherAddress 0 PNS_AppData EL_AppData
              [PingFrame] [ReadStreamFrame 0 0 [] false]
              (mkFlags false false false false) ServerExamples.handshakingConnection
              eq_refl) as [Hclose _].
  rewrite (Hclose 0 "bye"). reflexivity.
Defined.

(** A client that sends a stateless reset token is rejected. *)
Lemma processClientInitialParams_rejects_unchanged_witness :
  exists e,
    processClientInitialParams (K := referenceConstants)
      (C := ServerExamples.exampleCollaborators)
      (mkClientParams [(stateless_reset_token, IntegerParameter 7)])
      ServerExamples.handshakingConnection =
      Thrown e ServerExamples.handshakingConnection /\
    errorCode e = TRANSPORT_PARAMETER_ERROR.
Proof.
  apply (processClientInitialParams_rejects_unchanged (K := referenceConstants)
           (C := ServerExamples.exampleCollaborators)).
  right. left. exists stateless_reset_token, 7.
  split; [set_solver|]. split; [reflexivity | discriminate].
Defined.

End ServerStateMachineProofs.
